(* ===== verification/_CoqProject ===== *)
-Q . S2P
Prelude.v
BatchRun.v
ChunkBatch.v
TtlCache.v
NodeCache.v
CacheManager.v
WorkerPool.v
WorkerScript.v
YouTube.v
Regex.v
Text.v
Http.v
JsNum.v
ApiConfig.v
Documents.v
Uploads.v
Transcription.v
SystemStatus.v
Correction.v
ChannelProcessor.v
ChannelRoutes.v
VectorStorage.v
ChatClient.v
Library.v
DocumentList.v
DocumentTypes.v
SetupComplete.v
SetupWizard.v
Monitoring.v
HomePage.v
