(* ===== verification/Prelude.v ===== *)
(** * A verification library for chat-with-youtube

    chat-with-youtube is a Next.js application that fetches YouTube
    transcripts and web pages, cleans and chunks them, stores their
    embeddings in a Pinecone index, and answers questions over it.  It
    has three kinds of code: a task substrate with state of its own
    (batch processors, caches, a worker pool, two video processors), the
    API routes of [src/src/pages/api] and [src/unnamed], which read a
    request, call remote services and read or write the index, and the
    text functions that clean and classify what is stored.

    ** Files, in dependency order (_CoqProject)

    - [Prelude.v] (this file): JavaScript's number defaults ([||],
      [??]), [Array.prototype.slice] and the slicing loop
      [for (i = 0; i < n; i += k)], association lists as JavaScript
      [Map]s, and the monad [js] (state, exception, divergence) in which
      asynchronous handlers are written, with its frame lemmas: [js_rel]
      for relations preserved, [js_adds] for counters incremented,
      [js_appends] for logs appended, [js_returns] for the values
      returned, [js_total] for settling.
    - [BatchRun.v], Module [BatchRun]: [BatchProcessor] of
      [src/src/lib/youtube/batchProcessor.ts]; the metrics [Map] of each
      run (a [gmap]), [createBatches], [maxConcurrent] batches at a time,
      [processWithRetry].  The processor is an oracle [attempt x n]: does
      the [n]-th call for item [x] fulfil.
    - [ChunkBatch.v], Module [ChunkBatch]: the [BatchProcessor] of
      [src/unnamed/part_001] (splitter, [processChunkWithRetry] with
      exponential back-off, [pLimit] batches with progress, and
      [processLargeDocument]); the completion order of [pLimit] tasks is
      an argument [sched].
    - [TtlCache.v], Module [TtlCache]: [Cache] of [src/unnamed/part_005],
      an insertion-ordered association list with a TTL, as a state machine
      ([exec_op], [reachable]), refining a [gmap].
    - [NodeCache.v], Module [NodeCache]: the [node-cache] library (not in
      the repository, modelled from its documentation, version 5).
    - [CacheManager.v], Module [CacheManager]: [CacheManager] of
      [src/src/utils/smartCorrection.ts] (lines 240-426) over [NodeCache];
      [get] is split at its [await] so that calls interleave.
    - [WorkerPool.v], Module [WorkerPool]: [WorkerPool] of
      [src/src/utils/workerPool.ts] (lines 1-235) as a state machine
      ([step] on [event], [reachable]) with ghost fields for threads,
      messages, timers and promise settlements.
    - [WorkerScript.v], Module [WorkerScript]: the worker thread
      [workerWrapper] of [smartCorrection.ts] (lines 427-451), its reply
      to a posted task raised as the [message] event of [WorkerPool].
    - [YouTube.v], Module [YouTube]: the [YouTubeProcessor] of
      [workerPool.ts] (lines 236-549): the pipeline of [processVideo]
      deduplicated by [processingQueue], [processVideoBatch] over
      [ChunkBatch], and the channel monitors, as a state machine.
    - [Regex.v], Module [Regex]: the fragment of JavaScript regular
      expressions the code uses, as the backtracking matcher of the
      ECMAScript specification, with [replace] (flag [g]), [split] and
      [trim].
    - [Text.v], Module [Text]: [cleanText], [cleanTranscript],
      [cleanYouTubeTranscript], [processText], [calculateComplexity] of
      [src/src/workers/textProcessing.ts], [detectContentType] of
      [src/unnamed/part_002], and the clean-up of [transcribeWebPage].
    - [Http.v], Module [Http]: JSON values with [undefined], requests and
      responses, [process.env], and the Pinecone index as namespaces of
      records ([upsert], [deleteOne], and the matches a [query] may
      return, [query_matches]).
    - [JsNum.v], Module [JsNum]: JavaScript numbers ([NaN], signed
      infinities, finite values as exact rationals) with [*], [/] and
      [Math.max(...)] under their IEEE rules, and the setoid [num_eq]
      the operations respect.
    - [ApiConfig.v], Module [ApiConfig]: [/api/config-status],
      [/api/setup] with [validatePineconeCredentials], [/api/health],
      [/api/pinecone-stats] and the key tests.
    - [Documents.v], Module [Documents]: the routes that read the index
      ([documents/index.ts], [[id].ts], [list.ts], [categories.ts]).
    - [Uploads.v], Module [Uploads]: the routes that write it
      ([langchain.ts], [pinecone.ts], [upload/text.ts], [upload/url.ts]).
    - [Transcription.v], Module [Transcription]: [transcribeVideo],
      [transcribeYouTube] and [transcribeWebPage] of [workerPool.ts]
      (lines 549-668) in the monad [js] over the disk and the open
      browsers; the [whisper] command, [ytdl] and puppeteer are oracles.
    - [SystemStatus.v], Module [SystemStatus]: [/api/system/status], with
      [parseFloat], [parseMemoryToBytes], [formatUptime], and the
      declared response type as a checkable type [ty].
    - [Correction.v], Module [Correction]: [analyzeContent],
      [correctText] and its helpers of [smartCorrection.ts] (lines
      1-239) over a [NodeCache] of corrections, and
      [formatContentForVectorDB] of [textProcessing.ts].  The JSON
      dictionaries are Section variables; [word in d] also sees
      [Object.prototype]; the OpenAI answer is an oracle.
    - [ChannelProcessor.v], Module [ChannelProcessor]: the
      [YouTubeProcessor] of [src/src/lib/youtube/youtubeProcessor.ts].  Its
      record [YP] holds a [TtlCache] cache, a [BatchRun] processor and its
      state, the status of each run, the monitors and the running
      timers.  [processChannel] runs [BatchRun.process] and the callback
      of each video; [checkForNewVideos] runs [BatchRun.process] with
      [processVideo] as its processor.  [step] and [reachable] give the
      processor as a state machine.
    - [ChannelRoutes.v], Module [ChannelRoutes]: the channel route of
      [src/unnamed/part_006] and [/api/youtube/status], each on its own
      module-level processor.
    - [VectorStorage.v], Module [VectorStorage]: [EnhancedVectorStorage]
      of [src/src/utils/vectorStorage.ts] ([addDocument] with the
      categories of [Correction.analyzeContent], [semanticSearch],
      [getContentStats], [getSimilarContent]) over the [Store] of
      [Http], and [DevelopmentContextManager] of
      [developmentContext.ts] on top of it.
    - [ChatClient.v], Module [ChatClient]: the two chat components of
      the pages concatenated in [config-status.ts] (the home page's
      [Chat], lines 215-282, and the chat page, lines 1126-1236), each
      submission composed with [Uploads.langchainQA] through
      [axios.post] and JSON serialization; the chat page as a state
      machine ([page_step], [page_reachable]).
    - [Library.v], Module [Library]: the library page of
      [config-status.ts] (lines 376-520: [fetchDocuments], the filter
      effect, [handleUpload], [handleDelete]) with the [UploadModal]
      dialog of [src/src/components/UploadModal.tsx], composed with the
      document routes of [Documents] over the [Store]; the toasts of
      both go to one log.
    - [DocumentList.v], Module [DocumentList]: the cards of
      [src/src/components/DocumentList.tsx] and the list part of the
      library page that renders them.
    - [DocumentTypes.v], Module [DocumentTypes]: the interface
      [DocumentMetadata] of [textProcessing.ts] (lines 71-91) as a
      checkable type of [SystemStatus.ty].
    - [SetupComplete.v], Module [SetupComplete]:
      [src/src/pages/setup/complete.tsx], its [checkConfig] composed with
      [ApiConfig.configStatus], and what it shows.
    - [SetupWizard.v], Module [SetupWizard]: the four-step [Setup] page
      of [config-status.ts] (lines 1238-1640), its effects in the order
      of the first render, its handlers, and [axios] on non-2xx
      answers, composed with the test routes and [/api/setup] of
      [ApiConfig] through [serve].
    - [HomePage.v], Module [HomePage]: the configuration checks of the
      home page and of its chat, composed with [/api/config-status].
    - [Monitoring.v], Module [Monitoring]: [src/src/pages/monitoring.tsx],
      its polling effect as a step relation ([mon_step]) and its render
      as a [view] that may throw, composed with
      [SystemStatus.systemStatus].

    A route is a function of the request, the environment, the state it
    reads (the index, a processor) and the outcomes of its awaited
    remote calls, which are oracles (Section variables or arguments):
    the OpenAI, Pinecone and YouTube clients, the LangChain splitter and
    embeddings, [fetch], [new URL], [Date], [uuid] and
    [Number.prototype.toString].

    ** What the theorems show (PROJECT.json lists each claim)

    - BatchRun: the metrics of [process] when every item succeeds, the
      abort when one item exhausts its retries, the constant back-off and
      termination of [processWithRetry], [createBatches] as a chunking,
      the endless loop on [batchSize: 0].
    - ChunkBatch: the metrics of [processBatch] for every completion
      order, the exponential back-off and termination of
      [processChunkWithRetry], the global chunk indices of
      [processLargeDocument].
    - TtlCache: the [set]/[get] round trip within the TTL, the
      well-formedness invariant on reachable caches, the refinement of a
      [gmap] outside eviction.
    - WorkerPool and YouTube: the task-accounting and queue invariants on
      reachable states, head-of-line blocking, lost replies and workers,
      [maxWorkers] ignored, pipelines that never refresh.
    - WorkerScript: a posted task settles with what its script returns
      or throws, an [Error] with an empty message resolving it.
    - Transcription: on a disk without [temp] every YouTube
      transcription fails, after any sequence of calls; the audio file
      is left behind when [whisper] fails, a [ytdl] stream error never
      settles, a page that fails to load leaves its browser open.
    - CacheManager: the node-cache bookkeeping invariant, the round trip
      of [get], and that [cleanCache] never evicts a value.
    - Text: the [TypeError] of [detectContentType] on inherited keys;
      the content of [cleanWebPageContent] is a single line.
    - Correction: [correctText] memoises (a second run within [stdTTL]
      needs no OpenAI answer), the platform confidence lies in [0, 1],
      a text with no content-type word gets confidence [-Infinity], and
      [constructor] is corrected to the text of a built-in function.
    - VectorStorage: [storeContext] then [queryContext] finds the stored
      id but never its metadata; the upserted metadata has a nested
      object Pinecone refuses; [getSimilarContent] is bounded by
      [topK || 5]; the default namespace is never written.
    - ChatClient: the chat page never sends its conversation (the
      chain always gets an empty history) while its messages are
      complete exchanges in every reachable state; the home page sends
      every earlier pair, formatted by the route.
    - ApiConfig, Documents, Uploads, SystemStatus: the functional result
      of each route on every branch that matters, the round trip from the
      add-text route to the list route, the bounds of
      [validateTextUpload], the type of the status payload, and the
      routes that never succeed.
    - ChannelProcessor and ChannelRoutes: [processChannel] fails every
      video (the placeholder [getVideoTranscript]); nothing is ever
      cached or stored; the running timers are the monitors' timers;
      the monitor never advances; the status route never finds a run of
      the channel route; [@handle] URLs are refused.
    - Library: delete then fetch is a round trip (the id is gone from
      the store, the page and any later fetch); the filter effect equals
      a one-pass reference filter on well-typed documents; a numeric
      title crashes every search; the dialog announces success after
      every (failing) upload.
    - Monitoring: a poll always renders the dashboard with a Pinecone
      badge that is never Healthy; one failed poll shows the error box
      in every later reachable state.
    - DocumentList: every fetched document is a card with Delete and
      without Chat (the route writes no [status]).
    - DocumentTypes: a fetched document has the declared type only when
      its record's [source] is "youtube" or "document", which no upload
      route writes.
    - SetupComplete: the page shows exactly the verdict and the message
      of [/api/config-status].
    - SetupWizard: the step stays in 1..4 in every reachable state;
      saved progress is never restored; a refused YouTube key is shown
      as axios's generic text; the last step with passing checks writes
      [.env] and redirects to [/chat].

    ** Fuel, bounds and numbers

    Loops whose termination depends on the data take a [fuel] argument
    and return [None] when it runs out: [slices_loop] in both batch
    processors, the eviction loop of [Cache.set], the retry recursions,
    the cleanup loop of [WorkerPool], the [split] and [replace] loops of
    [Regex] ([length + 1], which bounds them since each step consumes
    input).  A theorem for each says that the stated fuel gives the
    result: [length items + 1] tests for slicing, [maxRetries + 1] calls
    for the retries, [size + 1] tests for eviction, [idle + 1] for
    cleanup.  Where the JavaScript loop can run forever (a step of 0 or
    less, [maxSize <= 0]), a theorem says the model diverges for every
    fuel.  Counters are [Z]; the code does no bit arithmetic and its
    counters stay far below 2^53, so no overflow is modelled.  The
    floating-point thresholds of [cleanCache] are exact comparisons
    ([Math.floor(n * 0.3)] is [3n/10] below 2 * 10^6); scores and
    memory percentages are exact rationals, where the source rounds to
    doubles.  Strings are lists of [ascii] bytes, so the text theorems
    cover Latin-1 strings.

    ** Simplifications

    The constructor of [WorkerPool] creates its [minWorkers] workers at
    once.  Durations from [performance.now()] and [Date.now()] are
    integers given as arguments, read once per operation in
    [ChannelProcessor].  In [processChannel] the batch processor's
    bookkeeping and the video callbacks touch disjoint state and the
    callback never rejects, so the model runs the bookkeeping, then the
    callbacks in video order.  The deletion of expired cache entries by
    the reads of [checkForNewVideos] is not written back (the cache is
    empty in every reachable state anyway, [reachable_nothing_stored]).

    ** Not modelled

    - the React markup and styling of the pages (the chat, library,
      upload, document-list, monitoring, setup-complete and setup-wizard
      logic apart), the API guide of [config-status.ts],
      the scripts and the Dockerfile (UI and deployment); the README
      ([src/unnamed/part_000]) is documentation; where it describes the
      setup, [SetupWizard] shows what the code does instead;
    - the interleaving of concurrent transcriptions at their [await]s
      (they share [temp/audio.mp3] and [temp/transcript.txt]): the
      calls of [Transcription] run one after the other;
    - [initialize] of [vectorStorage.ts] and [developmentContext.ts]:
      the configuration of the Pinecone client;
    - the HTML parsing of [cleanWebPageContent] by cheerio: the text it
      extracts is an oracle of [Text.cleanWebPageContent], and
      [formatContentForVectorDB] takes the whole function as one. *)

From stdpp Require Export base list strings gmap pretty.
From Stdlib Require Export ZArith Lia.
From Stdlib Require Import QArith.

Declare Scope js_scope.
Delimit Scope js_scope with js.

Create HintDb jsmodel discriminated.
Create Rewrite HintDb jsrw.

Local Open Scope Z_scope.

(** ** JavaScript number defaults *)

(** [o || d] on an optional numeric option: [undefined] and [0] are
    falsy and give the default (the integers we model have no [NaN]). *)
Definition js_or (o : option Z) (d : Z) : Z :=
  match o with
  | Some x => if Z.eqb x 0 then d else x
  | None => d
  end.

(** [o ?? d]: only [undefined] gives the default. *)
Definition js_nullish (o : option Z) (d : Z) : Z :=
  match o with
  | Some x => x
  | None => d
  end.

(** [a / b] on integers as a rational: [None] when JavaScript gives
    [NaN] or [Infinity] (a zero divisor). *)
Definition js_div (a b : Z) : option Q :=
  if b =? 0 then None else Some (inject_Z a / inject_Z b)%Q.

(** ** Strings and objects *)

(** The truthiness of a string: every string but the empty one. *)
Definition truthy (s : string) : bool := negb (String.eqb s "").

(** [s.includes(t)]. *)
Fixpoint prefix_of (t s : list Ascii.ascii) : bool :=
  match t, s with
  | [], _ => true
  | c :: t', d :: s' => Ascii.eqb c d && prefix_of t' s'
  | _ :: _, [] => false
  end.

Fixpoint includes_chars (s t : list Ascii.ascii) : bool :=
  prefix_of t s || match s with [] => false | _ :: s' => includes_chars s' t end.

Definition includes (s t : string) : bool :=
  includes_chars (String.list_ascii_of_string s) (String.list_ascii_of_string t).

(** [s.startsWith(t)]. *)
Definition starts_with (s t : string) : bool :=
  prefix_of (String.list_ascii_of_string t) (String.list_ascii_of_string s).

(** The property names of [Object.prototype] in Node: [key in obj] holds
    for them, and [obj[key]] gives an inherited function (or, for
    [__proto__], an object), on every object literal. *)
Definition js_object_prototype_keys : list string :=
  ["constructor"; "__defineGetter__"; "__defineSetter__"; "hasOwnProperty"; "__lookupGetter__";
   "__lookupSetter__"; "isPrototypeOf"; "propertyIsEnumerable"; "toString"; "valueOf"; "__proto__";
   "toLocaleString"].

(** ** [Array.prototype.slice] on integer indices *)

(** A negative index counts from the end; indices are clamped to
    [0, length]. *)
Definition js_index (len i : Z) : Z :=
  if i <? 0 then Z.max 0 (len + i) else Z.min i len.

Definition js_slice {A} (l : list A) (s e : Z) : list A :=
  let len := Z.of_nat (length l) in
  let s' := js_index len s in
  let e' := js_index len e in
  take (Z.to_nat (e' - s')) (drop (Z.to_nat s') l).

(** ** The slicing loop
    [for (let i = 0; i < xs.length; i += k) out.push(xs.slice(i, i + k))],
    with [fuel] bounding the number of loop tests: [None] means the
    loop has not left within [fuel] tests. *)
Fixpoint slices_loop {A} (fuel : nat) (k : Z) (xs : list A) (i : Z)
  : option (list (list A)) :=
  match fuel with
  | O => None
  | S f =>
      if i <? Z.of_nat (length xs)
      then cons (js_slice xs i (i + k)) <$> slices_loop f k xs (i + k)
      else Some []
  end.

(** The reference chunking, by structural recursion on a length bound. *)
Fixpoint chunks_aux {A} (n : nat) (k : nat) (xs : list A) : list (list A) :=
  match n with
  | O => []
  | S n' =>
      match xs with
      | [] => []
      | _ :: _ => take k xs :: chunks_aux n' k (drop k xs)
      end
  end.

Definition chunks {A} (k : nat) (xs : list A) : list (list A) :=
  chunks_aux (length xs) k xs.

(** ** Insertion-ordered association lists
    A JavaScript [Map], or the own string keys of a plain object, as a
    list of bindings in insertion order: setting an existing key keeps
    its position, deleting removes it. *)
Fixpoint assoc_get {V} (k : string) (l : list (string * V)) : option V :=
  match l with
  | [] => None
  | (k', v) :: l' => if decide (k = k') then Some v else assoc_get k l'
  end.

Fixpoint assoc_set {V} (k : string) (v : V) (l : list (string * V)) : list (string * V) :=
  match l with
  | [] => [(k, v)]
  | (k', v') :: l' => if decide (k = k') then (k, v) :: l' else (k', v') :: assoc_set k v l'
  end.

Definition assoc_delete {V} (k : string) (l : list (string * V)) : list (string * V) :=
  filter (fun p => p.1 <> k) l.

(** [new Map(kvs)]: the first occurrence of a key fixes its place, the
    last one its value. *)
Definition js_map_of {V} (kvs : list (string * V)) : list (string * V) :=
  fold_left (fun m kv => assoc_set kv.1 kv.2 m) kvs [].

(** ** A state, exception and divergence monad
    [js S A] is an asynchronous computation over the shared state [S]:
    [None] is a computation that does not settle within its fuel,
    [inl e] a rejected promise with message [e], [inr a] a fulfilled one. *)
Definition js (S A : Type) : Type := S -> option ((string + A) * S).

Definition js_ret {S A} (a : A) : js S A := fun s => Some (inr a, s).

Definition js_bind {S A B} (m : js S A) (k : A -> js S B) : js S B :=
  fun s =>
    match m s with
    | None => None
    | Some (inl e, s') => Some (inl e, s')
    | Some (inr a, s') => k a s'
    end.

Definition js_throw {S A} (e : string) : js S A := fun s => Some (inl e, s).

Definition js_diverge {S A} : js S A := fun _ => None.

Definition js_modify {S} (f : S -> S) : js S unit := fun s => Some (inr tt, f s).

Definition js_get {S} : js S S := fun s => Some (inr s, s).

(** [try { m } catch (e) { h(e) }]. *)
Definition js_catch {S A} (m : js S A) (h : string -> js S A) : js S A :=
  fun s =>
    match m s with
    | Some (inl e, s') => h e s'
    | r => r
    end.

(** A computation on one part [get s] of the state, put back by [put]. *)
Definition js_focus {S T A} (get : S -> T) (put : T -> S -> S) (m : js T A) : js S A :=
  fun s => match m (get s) with Some (r, t) => Some (r, put t s) | None => None end.

(** [await] of a value that is already settled. *)
Definition js_of_sum {S A} (r : string + A) : js S A := fun s => Some (r, s).

(** [try { m } finally { f }]: [f] runs whatever [m] settles to; an
    exception of [f] replaces [m]'s result. *)
Definition js_finally {S A} (m : js S A) (f : js S unit) : js S A :=
  fun s =>
    match m s with
    | None => None
    | Some (r, s') =>
        match f s' with
        | None => None
        | Some (inl e, s'') => Some (inl e, s'')
        | Some (inr _, s'') => Some (r, s'')
        end
    end.

(** [await Promise.all(ms)] on promises that were all started: every
    computation runs to its end (a rejection does not cancel the
    others), and the combined promise rejects with the first rejection. *)
Fixpoint js_all {S} (ms : list (js S unit)) : js S unit :=
  match ms with
  | [] => js_ret tt
  | m :: ms' =>
      fun s =>
        match m s with
        | None => None
        | Some (r, s') =>
            match js_all ms' s' with
            | None => None
            | Some (r', s'') =>
                Some (match r with inl e => inl e | inr _ => r' end, s'')
            end
        end
  end.

Notation "'let!' x := m 'in' k" := (js_bind m (fun x => k))
  (at level 10, x name, m at level 200, k at level 200) : js_scope.
Notation "m ;! k" := (js_bind m (fun _ => k))
  (at level 100, right associativity) : js_scope.

Local Open Scope js_scope.

(** The same slicing loop with an awaited body:
    [for (i = 0; i < xs.length; i += k) await body(xs.slice(i, i + k))]. *)
Fixpoint js_for_slices {S A} (fuel : nat) (k : Z) (xs : list A) (i : Z)
  (body : list A -> js S unit) : js S unit :=
  match fuel with
  | O => js_diverge
  | S f =>
      if i <? Z.of_nat (length xs)
      then body (js_slice xs i (i + k)) ;! js_for_slices f k xs (i + k) body
      else js_ret tt
  end.

(** Running a list of awaited bodies one after the other. *)
Fixpoint js_seq {S} (ms : list (js S unit)) : js S unit :=
  match ms with
  | [] => js_ret tt
  | m :: ms' => m ;! js_seq ms'
  end.

(** [js_rel R m]: every run of [m] that settles relates its initial and
    final states by [R].  Used for frame properties. *)
Definition js_rel {S A} (R : S -> S -> Prop) (m : js S A) : Prop :=
  forall s r s', m s = Some (r, s') -> R s s'.

(** [js_adds mu plus m d]: from any state with a measure [c], [m] fulfils
    and leaves the measure [plus c d].  Used for counters that
    completions increment, whatever the order of the completions. *)
Definition js_adds {S T} (mu : S -> option T) (plus : T -> T -> T)
  (m : js S unit) (d : T) : Prop :=
  forall s c, mu s = Some c ->
  exists s', m s = Some (inr tt, s') /\ mu s' = Some (plus c d).

(** [js_appends obs m d]: [m] settles from every state, whatever its
    result, and appends [d] to the log [obs]. *)
Definition js_appends {S X} (obs : S -> list X) (m : js S unit) (d : list X) : Prop :=
  forall s, exists r s', m s = Some (r, s') /\ obs s' = obs s ++ d.

(** [js_returns P m]: every value [m] fulfils with satisfies [P]. *)
Definition js_returns {S A} (P : A -> Prop) (m : js S A) : Prop :=
  forall s a s', m s = Some (inr a, s') -> P a.

(** [js_total m]: [m] settles from every state. *)
Definition js_total {S A} (m : js S A) : Prop := forall s, exists r s', m s = Some (r, s').

(** ** Generic lemmas *)

Lemma js_index_in_range len i :
  0 <= i <= len -> js_index len i = i.
Proof. intros. unfold js_index. destruct (Z.ltb_spec i 0); lia. Qed.

Lemma js_slice_take_drop {A} (xs : list A) (i k : Z) :
  0 <= i -> 0 <= k ->
  js_slice xs i (i + k) = take (Z.to_nat k) (drop (Z.to_nat i) xs).
Proof.
  intros Hi Hk. unfold js_slice, js_index.
  set (len := Z.of_nat (length xs)).
  destruct (Z.ltb_spec i 0); [lia|]. destruct (Z.ltb_spec (i + k) 0); [lia|].
  destruct (Z.le_gt_cases i len).
  - rewrite (Z.min_l i len) by lia.
    destruct (Z.le_gt_cases (i + k) len).
    + rewrite Z.min_l by lia. f_equal. lia.
    + rewrite Z.min_r by lia. rewrite !take_ge; [done| |];
        rewrite length_drop; subst len; lia.
  - rewrite Z.min_r by lia. rewrite Z.min_r by lia.
    rewrite !drop_ge; [by rewrite !take_nil| |]; subst len; lia.
Qed.

Lemma chunks_aux_enough {A} (n m k : nat) (xs : list A) :
  (0 < k)%nat -> (length xs <= n)%nat -> (length xs <= m)%nat ->
  chunks_aux n k xs = chunks_aux m k xs.
Proof.
  revert m xs. induction n as [|n IH]; intros m xs Hk Hn Hm.
  - destruct xs; [|simpl in Hn; lia]. by destruct m.
  - destruct m as [|m]; [destruct xs; [done|simpl in Hm; lia]|].
    destruct xs as [|x xs]; [done|]. simpl. f_equal.
    apply IH; [done| |]; rewrite length_drop; simpl in *; lia.
Qed.

Lemma chunks_cons {A} (k : nat) (x : A) (xs : list A) :
  (0 < k)%nat -> chunks k (x :: xs) = take k (x :: xs) :: chunks k (drop k (x :: xs)).
Proof.
  intros Hk. unfold chunks at 1. simpl. f_equal.
  apply chunks_aux_enough; [done| |done]. rewrite length_drop. simpl. lia.
Qed.

(** The slicing loop computes the reference chunking: from index [i],
    it chunks the suffix [drop i xs], given one loop test per element
    left and one for the exit. *)
Lemma slices_loop_chunks {A} (k : Z) (xs : list A) :
  0 < k -> forall fuel i, 0 <= i ->
  Z.max 0 (Z.of_nat (length xs) - i) < Z.of_nat fuel ->
  slices_loop fuel k xs i = Some (chunks (Z.to_nat k) (drop (Z.to_nat i) xs)).
Proof.
  intros Hk fuel. induction fuel as [|f IH]; intros i Hi Hf; [lia|]. simpl.
  destruct (Z.ltb_spec i (Z.of_nat (length xs))) as [Hlt|Hge].
  - rewrite IH by lia. simpl.
    destruct (drop (Z.to_nat i) xs) as [|y ys] eqn:Hd.
    { apply (f_equal length) in Hd. rewrite length_drop in Hd. simpl in Hd. lia. }
    rewrite chunks_cons by lia. rewrite <- Hd.
    rewrite js_slice_take_drop by lia. rewrite drop_drop.
    repeat f_equal. lia.
  - rewrite drop_ge by lia. done.
Qed.

(** With a non-positive step the loop never leaves on a non-empty
    array: the index never reaches the length. *)
Lemma slices_loop_diverges {A} (k : Z) (xs : list A) :
  k <= 0 -> xs <> [] -> forall fuel i, i <= 0 -> slices_loop fuel k xs i = None.
Proof.
  intros Hk Hne fuel. induction fuel as [|f IH]; intros i Hi; [done|]. simpl.
  destruct xs as [|x xs']; [done|].
  destruct (Z.ltb_spec i (Z.of_nat (length (x :: xs')))).
  - rewrite IH by lia. done.
  - simpl in *. lia.
Qed.

Lemma concat_chunks_aux {A} (n k : nat) (xs : list A) :
  (0 < k)%nat -> (length xs <= n)%nat -> concat (chunks_aux n k xs) = xs.
Proof.
  revert xs. induction n as [|n IH]; intros xs Hk Hn.
  - destruct xs; [done|simpl in Hn; lia].
  - destruct xs as [|x xs]; [done|]. simpl.
    rewrite IH; [apply take_drop|done|]. rewrite length_drop. simpl in *. lia.
Qed.

Lemma concat_chunks {A} (k : nat) (xs : list A) :
  (0 < k)%nat -> concat (chunks k xs) = xs.
Proof. intros. by apply concat_chunks_aux. Qed.

(** Every chunk is non-empty and holds at most [k] elements. *)
Lemma chunks_aux_bounded {A} (n k : nat) (xs : list A) :
  (0 < k)%nat -> Forall (fun c => 0 < length c <= k)%nat (chunks_aux n k xs).
Proof.
  revert xs. induction n as [|n IH]; intros xs Hk; [constructor|].
  destruct xs as [|x xs]; [constructor|]. simpl. constructor; [|by apply IH].
  rewrite length_take. simpl. lia.
Qed.

Lemma length_chunks_aux {A} (n k : nat) (xs : list A) :
  (0 < k)%nat -> (length (chunks_aux n k xs) <= length xs)%nat.
Proof.
  revert xs. induction n as [|n IH]; intros xs Hk; simpl; [lia|].
  destruct xs as [|x xs]; simpl; [lia|].
  specialize (IH (drop k (x :: xs)) Hk). rewrite length_drop in IH. simpl in IH. lia.
Qed.

Lemma length_chunks {A} (k : nat) (xs : list A) :
  (0 < k)%nat -> (length (chunks k xs) <= length xs)%nat.
Proof. apply length_chunks_aux. Qed.

Lemma Forall2_map_same {X Y Z} (P : Y -> Z -> Prop) (f : X -> Y) (g : X -> Z) (l : list X) :
  (forall x, x ∈ l -> P (f x) (g x)) -> Forall2 P (map f l) (map g l).
Proof.
  induction l as [|x l IH]; intros H; constructor.
  - apply H. by left.
  - apply IH. intros y Hy. apply H. by right.
Qed.

Lemma Forall2_imap_same {X Y Z} (P : Y -> Z -> Prop) (f : nat -> X -> Y) (g : nat -> X -> Z)
  (l : list X) :
  (forall i x, l !! i = Some x -> P (f i x) (g i x)) -> Forall2 P (imap f l) (imap g l).
Proof.
  revert f g. induction l as [|x l IH]; intros f g H; constructor; [by apply H|].
  apply IH. intros i y Hy. by apply H.
Qed.

(** Chunk [bi] of [chunks k xs] holds the elements of [xs] from [bi * k]. *)
Lemma lookup_chunks_aux {A} (n k : nat) (xs : list A) bi b ci c :
  chunks_aux n k xs !! bi = Some b -> b !! ci = Some c -> xs !! (bi * k + ci)%nat = Some c.
Proof.
  revert xs bi. induction n as [|n IH]; intros xs bi Hb Hc; [done|]. simpl in Hb.
  destruct xs as [|x xs']; [done|]. destruct bi as [|bi]; simpl in Hb.
  - injection Hb as <-. by apply lookup_take_Some in Hc as [Hc _].
  - apply (IH _ _ Hb) in Hc. rewrite lookup_drop in Hc.
    replace (S bi * k + ci)%nat with (k + (bi * k + ci))%nat by lia. done.
Qed.

Lemma sublist_map {X Y} (f : X -> Y) (l1 l2 : list X) :
  sublist l1 l2 -> sublist (map f l1) (map f l2).
Proof. induction 1; simpl; by constructor. Qed.

(** Keys stay distinct in any sublist of an association list. *)
Lemma NoDup_keys_sublist {K X} (l1 l2 : list (K * X)) :
  NoDup (map fst l2) -> sublist l1 l2 -> NoDup (map fst l1).
Proof. intros Hnd Hs. eapply sublist_NoDup; [exact Hnd|]. by apply sublist_map. Qed.

Lemma filter_all_keep {X} (P : X -> Prop) `{!forall x, Decision (P x)} (l : list X) :
  (forall x, x ∈ l -> P x) -> filter P l = l.
Proof.
  induction l as [|x l IH]; intros Hall; [done|]. rewrite filter_cons_True.
  - f_equal. apply IH. intros y Hy. apply Hall. by right.
  - apply Hall. by left.
Qed.

#[export] Hint Resolve concat_chunks chunks_aux_bounded : jsmodel.
#[export] Hint Rewrite @js_slice_take_drop using lia : jsrw.

(** ** Reasoning about [js] computations *)

Lemma Forall_filter_weaken {X} (P : X -> Prop) (Q : X -> Prop) `{!forall x, Decision (Q x)} (l : list X) :
  Forall P l -> Forall P (filter Q l).
Proof. rewrite !Forall_forall. intros Hl x Hx. apply list_elem_of_filter in Hx as [_ Hx]. by apply Hl. Qed.

(** ** Association lists *)

Section Assoc.
Context {V : Type}.
Implicit Types (l : list (string * V)) (v : V).

Lemma assoc_get_set_eq k v l : assoc_get k (assoc_set k v l) = Some v.
Proof. induction l as [|[k' v'] l IH]; simpl; [by rewrite decide_True|]. case_decide; simpl; [by rewrite decide_True|by rewrite decide_False]. Qed.

Lemma assoc_set_get k v l : assoc_get k l = Some v -> assoc_set k v l = l.
Proof.
  induction l as [|[k' v'] l IH]; simpl; [done|].
  case_decide; [intros [= ->]; by subst|intros Hg; by rewrite IH].
Qed.

Lemma assoc_set_twice k v v' l : assoc_set k v (assoc_set k v' l) = assoc_set k v l.
Proof. induction l as [|[k' v''] l IH]; simpl; [by rewrite decide_True|]. case_decide; simpl; [by rewrite decide_True|by rewrite decide_False, IH]. Qed.

Lemma assoc_get_set_ne k k' v l : k <> k' -> assoc_get k (assoc_set k' v l) = assoc_get k l.
Proof.
  intros Hne. induction l as [|[k'' v''] l IH]; simpl; [by rewrite decide_False|].
  destruct (decide (k' = k'')) as [->|]; simpl.
  - by rewrite !decide_False.
  - by case_decide.
Qed.

Lemma assoc_get_delete_eq k l : assoc_get k (assoc_delete k l) = None.
Proof.
  induction l as [|[k' v'] l IH]; [done|]. unfold assoc_delete in *. rewrite filter_cons.
  simpl. case_decide; simpl; [by rewrite decide_False|done].
Qed.

Lemma assoc_get_delete_ne k k' l : k <> k' -> assoc_get k (assoc_delete k' l) = assoc_get k l.
Proof.
  intros Hne. induction l as [|[k'' v''] l IH]; [done|]. unfold assoc_delete in *.
  rewrite filter_cons. simpl. case_decide as Hk; simpl.
  - by case_decide.
  - assert (k'' = k') as -> by (destruct (decide (k'' = k')); [done|tauto]). by rewrite decide_False.
Qed.

Lemma assoc_get_elem k l : is_Some (assoc_get k l) <-> k ∈ map fst l.
Proof.
  induction l as [|[k' v'] l IH]; simpl; [split; [by intros []|intros ?%not_elem_of_nil; done]|].
  rewrite elem_of_cons, <- IH. case_decide; [subst; split; auto|naive_solver].
Qed.

Lemma keys_assoc_set k v l :
  map fst (assoc_set k v l) = if decide (k ∈ map fst l) then map fst l else map fst l ++ [k].
Proof.
  induction l as [|[k' v'] l IH]; cbn [assoc_set map fst].
  { case_decide as H; [by apply not_elem_of_nil in H|done]. }
  destruct (decide (k = k')) as [->|Hne]; cbn [map fst].
  - by rewrite decide_True by apply list_elem_of_here.
  - rewrite IH. destruct (decide (k ∈ map fst l)) as [Hin|Hin].
    + by rewrite decide_True by (by right).
    + rewrite decide_False; [done|]. rewrite elem_of_cons. tauto.
Qed.

Lemma NoDup_keys_assoc_set k v l : NoDup (map fst l) -> NoDup (map fst (assoc_set k v l)).
Proof.
  intros Hnd. rewrite keys_assoc_set. case_decide; [done|].
  apply NoDup_app. repeat split; [done| |apply NoDup_singleton].
  intros x Hx ->%list_elem_of_singleton. done.
Qed.

Lemma length_assoc_set k v l :
  length (assoc_set k v l) = if decide (k ∈ map fst l) then length l else S (length l).
Proof.
  rewrite <- (length_map fst (assoc_set k v l)), keys_assoc_set.
  case_decide; rewrite ?length_app, length_map; simpl; lia.
Qed.

Lemma NoDup_keys_assoc_delete k l : NoDup (map fst l) -> NoDup (map fst (assoc_delete k l)).
Proof.
  intros Hnd. apply (NoDup_keys_sublist _ l Hnd), sublist_filter.
Qed.

Lemma length_assoc_delete k l :
  NoDup (map fst l) -> length (assoc_delete k l) = if decide (k ∈ map fst l) then pred (length l) else length l.
Proof.
  induction l as [|[k' v'] l IH]; intros Hnd; [done|]. cbn [map fst] in *.
  apply NoDup_cons in Hnd as [Hk' Hnd]. unfold assoc_delete in *. rewrite filter_cons. cbn [fst].
  destruct (decide (k' = k)) as [->|Hne].
  - rewrite decide_False by tauto. rewrite decide_True by apply list_elem_of_here. simpl.
    rewrite filter_all_keep; [done|]. intros [k'' v''] Hin Heq. simpl in Heq.
    apply Hk'. rewrite <- Heq. apply list_elem_of_In, (in_map fst _ (k'', v'')), list_elem_of_In, Hin.
  - rewrite decide_True by done. cbn [length]. rewrite IH by done.
    destruct (decide (k ∈ map fst l)) as [Hin|Hin].
    + rewrite decide_True by (by right). destruct l; [by apply not_elem_of_nil in Hin|done].
    + rewrite decide_False; [done|]. rewrite elem_of_cons. intros [->|]; auto.
Qed.

Lemma assoc_set_fresh k v l : k ∉ map fst l -> assoc_set k v l = l ++ [(k, v)].
Proof.
  induction l as [|[k' v'] l IH]; intros Hk; [done|]. cbn [map fst] in Hk.
  simpl. rewrite decide_False by (intros ->; apply Hk; left). rewrite IH; [done|].
  intros ?; apply Hk; by right.
Qed.

(** Setting fresh, distinct keys in order appends them. *)
Lemma fold_assoc_set_fresh (kvs : list (string * V)) l :
  NoDup (map fst kvs) -> (forall k, k ∈ map fst kvs -> k ∉ map fst l) ->
  fold_left (fun m kv => assoc_set kv.1 kv.2 m) kvs l = l ++ kvs.
Proof.
  revert l; induction kvs as [|[k v] kvs IH]; intros l Hnd Hfr; simpl; [by rewrite app_nil_r|].
  cbn [map fst] in Hnd. apply NoDup_cons in Hnd as [Hk Hnd].
  rewrite assoc_set_fresh by (apply Hfr; left). rewrite IH, <- app_assoc; [done|done|].
  intros k' Hk'. rewrite map_app, elem_of_app. intros [?|Heq%list_elem_of_singleton].
  - by apply (Hfr k'); [right|].
  - subst. by apply Hk.
Qed.

Lemma js_map_of_NoDup (kvs : list (string * V)) : NoDup (map fst kvs) -> js_map_of kvs = kvs.
Proof. intros Hnd. unfold js_map_of. rewrite fold_assoc_set_fresh; [done|done|]. intros ? _ Hin; inversion Hin. Qed.

Lemma assoc_get_app k l1 l2 :
  assoc_get k (l1 ++ l2) = match assoc_get k l1 with Some v => Some v | None => assoc_get k l2 end.
Proof. induction l1 as [|[k' v'] l1 IH]; simpl; [done|]. by case_decide. Qed.

(** A filter on values keeps the first binding of a key it accepts. *)
Lemma assoc_get_filter_None (P : string * V -> Prop) `{!forall kv, Decision (P kv)} k l :
  assoc_get k l = None -> assoc_get k (filter P l) = None.
Proof.
  induction l as [|[k' v'] l IH]; simpl; [done|]. rewrite filter_cons.
  case_decide as Hk; [done|]. intros Hg. case_decide; simpl; [rewrite decide_False by done|]; auto.
Qed.

Lemma assoc_get_filter_val (P : V -> bool) k v l :
  assoc_get k l = Some v -> P v = true -> assoc_get k (filter (fun kv => P kv.2 = true) l) = Some v.
Proof.
  induction l as [|[k' v'] l IH]; simpl; [done|]. intros Hget HP. rewrite filter_cons. cbn [snd].
  case_decide as Hk; simplify_eq.
  - rewrite decide_True by done. simpl. by rewrite decide_True.
  - case_decide; simpl; [rewrite decide_False by done|]; auto.
Qed.

Lemma assoc_get_None_elem k l : assoc_get k l = None <-> k ∉ map fst l.
Proof.
  rewrite <- assoc_get_elem. split; [intros -> []; done|].
  destruct (assoc_get k l); [intros H; destruct H; by eexists|done].
Qed.

Lemma assoc_delete_absent k l : assoc_get k l = None -> assoc_delete k l = l.
Proof.
  intros H. apply assoc_get_None_elem in H. unfold assoc_delete.
  apply filter_all_keep. intros [k1 w] Hin Heq. apply H. simpl in Heq. rewrite <- Heq.
  apply list_elem_of_In, (in_map fst _ (k1, w)), list_elem_of_In, Hin.
Qed.

Lemma assoc_get_Some_elem k v l : assoc_get k l = Some v -> (k, v) ∈ l.
Proof.
  induction l as [|[k' v'] l IH]; simpl; [done|].
  case_decide; intros Hg; simplify_eq; [left|right; auto].
Qed.

(** With distinct keys, the entry of a key is the one the list holds. *)
Lemma assoc_get_elem_NoDup k v l : NoDup (map fst l) -> (k, v) ∈ l -> assoc_get k l = Some v.
Proof.
  induction l as [|[k' v'] l IH]; simpl; [by intros _ ?%not_elem_of_nil|].
  intros [Hk Hnd]%NoDup_cons Hin. apply elem_of_cons in Hin as [[= -> ->]|Hin].
  - by rewrite decide_True.
  - rewrite decide_False; [by apply IH|]. intros ->. apply Hk.
    apply list_elem_of_fmap. by exists (k', v).
Qed.

Lemma assoc_keys_set_in k v l : k ∈ map fst l -> map fst (assoc_set k v l) = map fst l.
Proof.
  induction l as [|[k' v'] l IH]; simpl; [by intros ?%not_elem_of_nil|].
  intros Hk. case_decide; simpl; [by subst|]. f_equal. apply IH.
  apply elem_of_cons in Hk as [->|]; [done|done].
Qed.

Lemma assoc_set_map_snd {T} (f : V -> T) k v v' l :
  assoc_get k l = Some v -> f v' = f v -> map (fun kv => f kv.2) (assoc_set k v' l) = map (fun kv => f kv.2) l.
Proof.
  induction l as [|[k' w] l IH]; simpl; [done|].
  case_decide; simpl; [intros [= ->] ->; done|intros Hg Hf; by rewrite IH].
Qed.

(** Deleting a key removes its image, when keys and images are unique. *)
Lemma assoc_delete_map_snd {T} `{!EqDecision T} (f : V -> T) k v l :
  NoDup (map fst l) -> NoDup (map (fun kv => f kv.2) l) -> assoc_get k l = Some v ->
  map (fun kv => f kv.2) (assoc_delete k l) = filter (fun t => t <> f v) (map (fun kv => f kv.2) l).
Proof.
  unfold assoc_delete. induction l as [|[k' w] l IH]; simpl; [done|].
  intros Hk Hf Hg. apply NoDup_cons in Hk as [Hk Hk']. apply NoDup_cons in Hf as [Hf Hf'].
  rewrite !filter_cons. case_decide as Hkk; simpl in *.
  - injection Hg as ->. subst k'. rewrite decide_False by congruence. rewrite decide_False by tauto.
    rewrite (filter_all_keep (fun p : string * V => p.1 <> k));
      [|intros [k'' w'] Hin; simpl; intros ->; apply Hk; by apply (list_elem_of_fmap_2 fst) in Hin].
    rewrite filter_all_keep; [done|intros t Ht ->; by apply Hf].
  - rewrite decide_True by done. rewrite decide_True.
    + simpl. f_equal. by apply IH.
    + intros Heq. apply Hf. rewrite Heq. apply assoc_get_Some_elem in Hg.
      by apply (list_elem_of_fmap_2 (fun kv => f kv.2)) in Hg.
Qed.

End Assoc.

Ltac js_unfold :=
  unfold js_bind, js_modify, js_ret, js_throw, js_diverge, js_finally, js_get, js_catch, js_focus, js_of_sum in *.

(** The awaited loop runs the bodies of the slices the pure loop visits. *)
Lemma js_for_slices_seq {S A} (fuel : nat) (k : Z) (xs : list A) (i : Z)
  (body : list A -> js S unit) (bs : list (list A)) :
  slices_loop fuel k xs i = Some bs ->
  forall s, js_for_slices fuel k xs i body s = js_seq (map body bs) s.
Proof.
  revert i bs. induction fuel as [|f IH]; intros i bs Hl s; [done|].
  simpl in *. destruct (i <? Z.of_nat (length xs)).
  - destruct (slices_loop f k xs (i + k)) as [bs'|] eqn:E; [|done].
    simpl in Hl. injection Hl as <-. simpl. js_unfold.
    destruct (body _ s) as [[[e|[]] s']|]; [done| |done]. by apply IH.
  - by injection Hl as <-.
Qed.

Lemma js_bind_inr {S A B} (m : js S A) (k : A -> js S B) s a s' :
  m s = Some (inr a, s') -> js_bind m k s = k a s'.
Proof. unfold js_bind. by intros ->. Qed.

Section Relational.
Context {S : Type} (R : S -> S -> Prop).
Context `{!Reflexive R} `{!Transitive R}.

Lemma js_rel_ret {A} (a : A) : js_rel R (js_ret a).
Proof. intros s r s' H. injection H as _ <-. reflexivity. Qed.

Lemma js_rel_throw {A} e : js_rel R (@js_throw S A e).
Proof. intros s r s' H. injection H as _ <-. reflexivity. Qed.

Lemma js_rel_diverge {A} : js_rel R (@js_diverge S A).
Proof. by intros s r s' H. Qed.

Lemma js_rel_modify f : (forall s, R s (f s)) -> js_rel R (js_modify f).
Proof. intros Hf s r s' H. injection H as _ <-. apply Hf. Qed.

Lemma js_rel_bind {A B} (m : js S A) (k : A -> js S B) :
  js_rel R m -> (forall a, js_rel R (k a)) -> js_rel R (js_bind m k).
Proof.
  unfold js_rel in *. intros Hm Hk s r s' H. unfold js_bind in H.
  destruct (m s) as [[[e|a] s1]|] eqn:E; [| |done].
  - injection H as _ <-. eauto.
  - transitivity s1; eauto.
Qed.

Lemma js_rel_finally {A} (m : js S A) (f : js S unit) :
  js_rel R m -> js_rel R f -> js_rel R (js_finally m f).
Proof.
  unfold js_rel in *. intros Hm Hf s r s' H. unfold js_finally in H.
  destruct (m s) as [[r1 s1]|] eqn:E; [|done].
  destruct (f s1) as [[[e|[]] s2]|] eqn:F; [| |done];
    injection H as _ <-; transitivity s1; eauto.
Qed.

Lemma js_rel_all (ms : list (js S unit)) :
  Forall (js_rel R) ms -> js_rel R (js_all ms).
Proof.
  induction 1 as [|m ms Hm _ IH]; [apply js_rel_ret|]. unfold js_rel in *.
  intros s r s' H. simpl in H.
  destruct (m s) as [[r1 s1]|] eqn:E; [|done].
  destruct (js_all ms s1) as [[r2 s2]|] eqn:F; [|done].
  injection H as _ <-. transitivity s1; eauto.
Qed.

Lemma js_rel_seq (ms : list (js S unit)) :
  Forall (js_rel R) ms -> js_rel R (js_seq ms).
Proof.
  induction 1; simpl; [apply js_rel_ret|]. by apply js_rel_bind.
Qed.

Lemma js_rel_for_slices {A} fuel k (xs : list A) i body :
  (forall b, js_rel R (body b)) -> js_rel R (js_for_slices fuel k xs i body).
Proof.
  intros Hb. revert i. induction fuel as [|f IH]; intros i; simpl.
  - apply js_rel_diverge.
  - destruct (i <? _); [by apply js_rel_bind|apply js_rel_ret].
Qed.

Lemma js_rel_get : js_rel R (@js_get S).
Proof. intros s r s' H. injection H as _ <-. reflexivity. Qed.

Lemma js_rel_of_sum {A} (x : string + A) : js_rel R (js_of_sum x).
Proof. intros s r s' H. injection H as _ <-. reflexivity. Qed.

Lemma js_rel_throw_bind {A B} e (k : A -> js S B) : js_rel R (js_bind (js_throw e) k).
Proof. intros s r s' H. injection H as _ <-. reflexivity. Qed.

Lemma js_rel_catch {A} (m : js S A) (h : string -> js S A) :
  js_rel R m -> (forall e, js_rel R (h e)) -> js_rel R (js_catch m h).
Proof.
  unfold js_rel, js_catch. intros Hm Hh s r s' H.
  destruct (m s) as [[[e|a] s1]|] eqn:E; [transitivity s1; eauto|by simplify_eq; eauto|done].
Qed.

(** A computation on a part of the state relates the states when every
    write-back does. *)
Lemma js_rel_focus {T A} (get : S -> T) (put : T -> S -> S) (m : js T A) :
  (forall t s, R s (put t s)) -> js_rel R (js_focus get put m).
Proof. unfold js_rel, js_focus. intros Hp s r s' H. destruct (m (get s)) as [[??]|]; simplify_eq. apply Hp. Qed.

End Relational.

Section Additive.
Context {S T : Type} (mu : S -> option T) (plus : T -> T -> T) (zero : T).
Context (plus_assoc : forall a b c, plus a (plus b c) = plus (plus a b) c).
Context (plus_zero : forall a, plus a zero = a).
Context (zero_plus : forall a, plus zero a = a).

Lemma js_adds_all (ms : list (js S unit)) (ds : list T) :
  Forall2 (js_adds mu plus) ms ds -> js_adds mu plus (js_all ms) (foldr plus zero ds).
Proof.
  induction 1 as [|m d ms ds Hm _ IH]; intros s c Hs.
  - exists s. by rewrite plus_zero.
  - destruct (Hm s c Hs) as (s1 & E1 & M1).
    destruct (IH s1 _ M1) as (s2 & E2 & M2).
    exists s2. simpl. rewrite E1, E2. split; [done|]. by rewrite M2, plus_assoc.
Qed.

Lemma js_adds_seq (ms : list (js S unit)) (ds : list T) :
  Forall2 (js_adds mu plus) ms ds -> js_adds mu plus (js_seq ms) (foldr plus zero ds).
Proof.
  induction 1 as [|m d ms ds Hm _ IH]; intros s c Hs.
  - exists s. by rewrite plus_zero.
  - destruct (Hm s c Hs) as (s1 & E1 & M1).
    destruct (IH s1 _ M1) as (s2 & E2 & M2).
    exists s2. simpl. js_unfold. rewrite E1, E2. split; [done|].
    by rewrite M2, plus_assoc.
Qed.

Lemma js_adds_ret : js_adds mu plus (js_ret tt) zero.
Proof. intros s c Hs. exists s. by rewrite plus_zero. Qed.

Lemma js_adds_modify (f : S -> S) (d : T) :
  (forall s c, mu s = Some c -> mu (f s) = Some (plus c d)) -> js_adds mu plus (js_modify f) d.
Proof. intros Hf s c Hs. exists (f s). split; [done|]. by apply Hf. Qed.

Lemma js_adds_bind (m1 m2 : js S unit) (d1 d2 : T) :
  js_adds mu plus m1 d1 -> js_adds mu plus m2 d2 -> js_adds mu plus (m1 ;! m2) (plus d1 d2).
Proof.
  intros H1 H2 s c Hs. destruct (H1 s c Hs) as (s1 & E1 & M1).
  destruct (H2 s1 _ M1) as (s2 & E2 & M2). exists s2. js_unfold. rewrite E1, E2.
  split; [done|]. by rewrite M2, plus_assoc.
Qed.

Lemma foldr_plus_app (l1 l2 : list T) :
  foldr plus zero (l1 ++ l2) = plus (foldr plus zero l1) (foldr plus zero l2).
Proof.
  induction l1 as [|a l1 IH]; simpl; [by rewrite zero_plus|].
  by rewrite IH, plus_assoc.
Qed.

Lemma foldr_plus_concat (ls : list (list T)) :
  foldr plus zero (concat ls) = foldr plus zero (map (foldr plus zero) ls).
Proof.
  induction ls as [|l ls IH]; simpl; [done|]. by rewrite foldr_plus_app, IH.
Qed.

Lemma foldr_plus_map_concat {X} (f : X -> T) (ls : list (list X)) :
  foldr plus zero (map (fun l => foldr plus zero (map f l)) ls) =
  foldr plus zero (map f (concat ls)).
Proof.
  induction ls as [|l ls IH]; simpl; [done|].
  by rewrite map_app, foldr_plus_app, IH.
Qed.

End Additive.

Lemma js_appends_all {S X} (obs : S -> list X) (ms : list (js S unit)) (ds : list (list X)) :
  Forall2 (js_appends obs) ms ds -> js_appends obs (js_all ms) (concat ds).
Proof.
  induction 1 as [|m d ms ds Hm _ IH]; intros s; [exists (inr tt), s; by rewrite app_nil_r|].
  destruct (Hm s) as (r1 & s1 & E1 & O1). destruct (IH s1) as (r2 & s2 & E2 & O2).
  eexists _, s2. simpl. rewrite E1, E2. split; [done|]. by rewrite O2, O1, app_assoc.
Qed.

(** A string that starts with a non-empty string is truthy. *)
Lemma starts_with_truthy s t : starts_with s t = true -> truthy t = true -> truthy s = true.
Proof. destruct s, t; done. Qed.

Lemma js_total_ret {S A} (a : A) : js_total (S:=S) (js_ret a).
Proof. intros s. by eexists _, _. Qed.

Lemma js_total_throw {S A} e : js_total (S:=S) (A:=A) (js_throw e).
Proof. intros s. by eexists _, _. Qed.

Lemma js_total_modify {S} (f : S -> S) : js_total (js_modify f).
Proof. intros s. by eexists _, _. Qed.

Lemma js_total_get {S} : js_total (S:=S) js_get.
Proof. intros s. by eexists _, _. Qed.

Lemma js_total_bind {S A B} (m : js S A) (k : A -> js S B) :
  js_total m -> (forall a, js_total (k a)) -> js_total (js_bind m k).
Proof.
  intros Hm Hk s. destruct (Hm s) as ([e|a] & s1 & E); unfold js_bind; rewrite E; [by eexists _, _|].
  apply Hk.
Qed.

Lemma js_total_all {S} (ms : list (js S unit)) : Forall js_total ms -> js_total (js_all ms).
Proof.
  induction 1 as [|m ms Hm _ IH]; [apply js_total_ret|]. intros s. simpl.
  destruct (Hm s) as (r & s1 & ->). destruct (IH s1) as (r' & s2 & ->). by eexists _, _.
Qed.

(** [Promise.all] rejects with the rejection of its first promise when
    the others settle. *)
Lemma js_all_head_reject {S} (m : js S unit) (ms : list (js S unit)) s e s1 :
  m s = Some (inl e, s1) -> js_total (js_all ms) -> exists s2, js_all (m :: ms) s = Some (inl e, s2).
Proof. intros Hm Hms. destruct (Hms s1) as (r & s2 & E). exists s2. simpl. by rewrite Hm, E. Qed.

Lemma js_returns_bind {S A B} (P : B -> Prop) (m : js S A) (k : A -> js S B) :
  (forall a, js_returns P (k a)) -> js_returns P (js_bind m k).
Proof.
  intros Hk s b s' E. unfold js_bind in E.
  destruct (m s) as [[[e|a] s1]|]; [done|exact (Hk a s1 b s' E)|done].
Qed.

Lemma js_returns_ret {S A} (P : A -> Prop) (a : A) : P a -> js_returns (S:=S) P (js_ret a).
Proof. intros Ha s b s' E. by injection E as -> _. Qed.

Lemma js_total_seq {S} (ms : list (js S unit)) : Forall js_total ms -> js_total (js_seq ms).
Proof. induction 1; simpl; [apply js_total_ret|]. by apply js_total_bind. Qed.

Lemma js_appends_total {S X} (obs : S -> list X) m d : js_appends obs m d -> js_total m.
Proof. intros H s. destruct (H s) as (r & s' & E & _). by eexists _, _. Qed.

Lemma Forall_imap_intro {X Y} (P : Y -> Prop) (f : nat -> X -> Y) (l : list X) :
  (forall i x, P (f i x)) -> Forall P (imap f l).
Proof.
  revert f. induction l as [|x l IH]; intros f H; constructor; [apply H|]. apply IH. intros. apply H.
Qed.

Lemma Forall_imap_impl {X Y} (P : X -> Prop) (Q : Y -> Prop) (f : nat -> X -> Y) (l : list X) :
  Forall P l -> (forall i x, P x -> Q (f i x)) -> Forall Q (imap f l).
Proof.
  intros Hl. revert f. induction Hl as [|x l Hx _ IH]; intros f H; constructor; [by apply H|].
  apply IH. intros. by apply H.
Qed.

(** The indices of a list, mapped. *)
Lemma imap_seq_map {X Y} (g : nat -> Y) (l : list X) :
  imap (fun i _ => g i) l = map g (seq 0 (length l)).
Proof.
  revert g. induction l as [|x l IH]; intros g; [done|]. rewrite imap_cons. simpl. f_equal.
  rewrite <- seq_shift, map_map. apply (IH (fun i => g (S i))).
Qed.

Lemma filter_none {X} (P : X -> Prop) `{!forall x, Decision (P x)} (l : list X) :
  (forall x, x ∈ l -> ~ P x) -> filter P l = [].
Proof.
  induction l as [|x l IH]; intros Hn; [done|]. rewrite filter_cons_False.
  - apply IH. intros y Hy. apply Hn. by right.
  - apply Hn. by left.
Qed.

#[export] Hint Resolve js_total_ret js_total_throw js_total_modify js_total_get
  js_total_all js_total_seq js_total_bind : jsmodel.

Lemma foldr_app_imap_singletons {X Y} (f : nat -> X -> Y) (l : list X) :
  concat (imap (fun i x => [f i x]) l) = imap f l.
Proof.
  revert f. induction l as [|x l IH]; intros f; [done|]. rewrite !imap_cons.
  change (imap ((fun i x => [f i x]) ∘ S) l) with (imap (fun i x => [(f ∘ S) i x]) l).
  simpl. by rewrite IH.
Qed.

(** Split an equation between options of tuples into its components
    and close the arithmetic ones. *)
Ltac tuple_eq :=
  repeat (match goal with
          | |- Some _ = Some _ => f_equal
          | |- pair _ _ = pair _ _ => f_equal
          end); try lia.

(** One step of a frame proof: split a [js_rel] goal along the
    combinators, resolving the relation's instances. *)
Ltac js_rel_split :=
  first [ apply js_rel_bind | apply js_rel_finally | apply js_rel_all | apply js_rel_catch
        | apply js_rel_get | apply js_rel_of_sum
        | apply js_rel_seq | apply js_rel_for_slices | apply js_rel_ret
        | apply js_rel_throw | apply js_rel_diverge ];
  try typeclasses eauto.
