(* ===== verification/BatchRun.v ===== *)
(** * BatchRun: the per-run batch processor of [src/lib/youtube/batchProcessor.ts]

    [BatchProcessor.process(items, processor, batchId)] records a metrics
    object under [batchId], splits [items] into batches of [batchSize],
    runs [maxConcurrent] batches at a time (each batch runs its items
    concurrently), and retries a rejected item [maxRetries] times after a
    constant [retryDelay].  The processor is an oracle [attempt x n]: does
    the [n]-th call of [processor(x)] fulfil?  Item completions are atomic
    increments of the run's counters, so the model runs the concurrent
    items of a [Promise.all] one after the other and describes the state
    reached once every started item has settled. *)

From S2P Require Import Prelude.

Local Open Scope Z_scope.
Local Open Scope js_scope.

Module BatchRun.

(** [BatchProcessorOptions] (lines 1-6) and the constructor (lines 24-30),
    which defaults with [??]: an explicit [0] is kept. *)
Record BatchProcessorOptions := {
  opt_batchSize : option Z;
  opt_maxRetries : option Z;
  opt_retryDelay : option Z;
  opt_maxConcurrent : option Z;
}.

Record BatchProcessor := {
  batchSize : Z;
  maxRetries : Z;
  retryDelay : Z;
  maxConcurrent : Z;
}.

Definition new_BatchProcessor (o : BatchProcessorOptions) : BatchProcessor := {|
  batchSize := js_nullish (opt_batchSize o) 10;
  maxRetries := js_nullish (opt_maxRetries o) 3;
  retryDelay := js_nullish (opt_retryDelay o) 1000;
  maxConcurrent := js_nullish (opt_maxConcurrent o) 5;
|}.

(** [ProcessingMetrics] (lines 8-15). *)
Record ProcessingMetrics := {
  totalItems : Z;
  processedItems : Z;
  failedItems : Z;
  retries : Z;
  startTime : Z;
  endTime : option Z;
}.

(** The processor's state: [this.metrics], a [Map] from run ids, and a
    log of the [setTimeout] delays the retries wait for. *)
Record St := {
  metrics : gmap string ProcessingMetrics;
  sleeps : list Z;
}.

Definition set_metrics (m : gmap string ProcessingMetrics) (s : St) : St :=
  {| metrics := m; sleeps := sleeps s |}.

Definition sleep (d : Z) (s : St) : St :=
  {| metrics := metrics s; sleeps := sleeps s ++ [d] |}.

(** [const metrics = this.metrics.get(batchId); if (metrics) f(metrics)]. *)
Definition bump (batchId : string) (f : ProcessingMetrics -> ProcessingMetrics)
  (s : St) : St :=
  match metrics s !! batchId with
  | Some r => set_metrics (<[batchId := f r]> (metrics s)) s
  | None => s
  end.

Definition inc_processed (r : ProcessingMetrics) : ProcessingMetrics :=
  {| totalItems := totalItems r; processedItems := processedItems r + 1;
     failedItems := failedItems r; retries := retries r;
     startTime := startTime r; endTime := endTime r |}.

Definition inc_failed (r : ProcessingMetrics) : ProcessingMetrics :=
  {| totalItems := totalItems r; processedItems := processedItems r;
     failedItems := failedItems r + 1; retries := retries r;
     startTime := startTime r; endTime := endTime r |}.

Definition inc_retries (r : ProcessingMetrics) : ProcessingMetrics :=
  {| totalItems := totalItems r; processedItems := processedItems r;
     failedItems := failedItems r; retries := retries r + 1;
     startTime := startTime r; endTime := endTime r |}.

Definition set_endTime (t : Z) (r : ProcessingMetrics) : ProcessingMetrics :=
  {| totalItems := totalItems r; processedItems := processedItems r;
     failedItems := failedItems r; retries := retries r;
     startTime := startTime r; endTime := Some t |}.

Definition initial_metrics (n : nat) (now : Z) : ProcessingMetrics :=
  {| totalItems := Z.of_nat n; processedItems := 0; failedItems := 0;
     retries := 0; startTime := now; endTime := None |}.

(** The error a rejected [processor(item)] is rethrown with. *)
Definition processor_error : string := "processor rejected".

Section WithProcessor.

Context {A : Type}.
Context (bp : BatchProcessor).
(** [attempt x n]: the promise of the [n]-th call [processor(x)] fulfils. *)
Context (attempt : A -> nat -> bool).

(** [createBatches] (lines 64-70). *)
Definition createBatches (fuel : nat) (items : list A) : option (list (list A)) :=
  slices_loop fuel (batchSize bp) items 0.

(** [processWithRetry] (lines 82-110): the recursion is bounded by
    [maxRetries], and [fuel] counts the calls. *)
Fixpoint processWithRetry (fuel : nat) (item : A) (batchId : string)
  (retryCount : Z) : js St unit :=
  match fuel with
  | O => js_diverge
  | S f =>
      if attempt item (Z.to_nat retryCount)
      then js_modify (bump batchId inc_processed)
      else if retryCount <? maxRetries bp
      then js_modify (bump batchId inc_retries) ;!
           js_modify (sleep (retryDelay bp)) ;!
           processWithRetry f item batchId (retryCount + 1)
      else js_modify (bump batchId inc_failed) ;! js_throw processor_error
  end.

(** One call more than the retries the loop may make. *)
Definition retry_fuel : nat := S (Z.to_nat (maxRetries bp)).

(** [processBatch] (lines 72-80). *)
Definition processBatch (batch : list A) (batchId : string) : js St unit :=
  js_all (map (fun item => processWithRetry retry_fuel item batchId 0) batch).

(** [process] (lines 32-62).  [now0] and [now1] are the two readings of
    [Date.now()] (at the start, and in the [finally] block); [batchId]
    defaults to the decimal string of [now0]. *)
Definition process (fuel : nat) (items : list A) (batchId : option string)
  (now0 now1 : Z) : js St unit :=
  let bid := default (pretty now0) batchId in
  js_modify (fun s => set_metrics (<[bid := initial_metrics (length items) now0]> (metrics s)) s) ;!
  let! batches := match createBatches fuel items with
                  | Some b => js_ret b
                  | None => js_diverge
                  end in
  js_finally
    (js_for_slices fuel (maxConcurrent bp) batches 0
       (fun currentBatches => js_all (map (fun b => processBatch b bid) currentBatches)))
    (js_modify (bump bid (set_endTime now1))).

(** [getMetrics] and [clearMetrics] (lines 112-118). *)
Definition getMetrics (batchId : string) (s : St) : option ProcessingMetrics :=
  metrics s !! batchId.

Definition clearMetrics (batchId : string) (s : St) : St :=
  set_metrics (delete batchId (metrics s)) s.

End WithProcessor.

(** ** The run's counters, as a measure for [js_adds] *)

Definition tally : Type := (Z * Z * Z * Z)%type.

Definition tally_of (batchId : string) (s : St) : option tally :=
  (fun r => (totalItems r, processedItems r, failedItems r, retries r))
    <$> metrics s !! batchId.

Definition tadd (a b : tally) : tally :=
  let '(a1, a2, a3, a4) := a in
  let '(b1, b2, b3, b4) := b in (a1 + b1, a2 + b2, a3 + b3, a4 + b4).

Definition tzero : tally := (0, 0, 0, 0).

(** The relation "the metrics of run [bid'] are unchanged". *)
Definition same_at (bid' : string) (s s' : St) : Prop :=
  metrics s' !! bid' = metrics s !! bid'.

#[export] Instance same_at_refl bid' : Reflexive (same_at bid').
Proof. by intros s. Qed.

#[export] Instance same_at_trans bid' : Transitive (same_at bid').
Proof. intros s1 s2 s3 H1 H2. unfold same_at in *. congruence. Qed.

Lemma tadd_assoc a b c : tadd a (tadd b c) = tadd (tadd a b) c.
Proof. destruct a as [[[??]?]?], b as [[[??]?]?], c as [[[??]?]?]. simpl. tuple_eq. Qed.

Lemma tadd_zero a : tadd a tzero = a.
Proof. destruct a as [[[??]?]?]. simpl. tuple_eq. Qed.

Lemma tzero_add a : tadd tzero a = a.
Proof. destruct a as [[[??]?]?]. simpl. tuple_eq. Qed.

Lemma tally_bump bid f s c :
  tally_of bid s = Some c ->
  tally_of bid (bump bid f s) =
    (fun r => (totalItems r, processedItems r, failedItems r, retries r)) <$>
      (f <$> metrics s !! bid).
Proof.
  unfold tally_of, bump. intros H.
  destruct (metrics s !! bid) eqn:E; [|done]. simpl. by rewrite lookup_insert_eq.
Qed.

Lemma sleeps_bump bid f s : sleeps (bump bid f s) = sleeps s.
Proof. unfold bump. by destruct (metrics s !! bid). Qed.

Lemma tally_sleep bid d s : tally_of bid (sleep d s) = tally_of bid s.
Proof. done. Qed.

(** A bump under one run id leaves every other run's metrics alone. *)
Lemma bump_other bid bid' f s :
  bid <> bid' -> metrics (bump bid f s) !! bid' = metrics s !! bid'.
Proof.
  intros Hne. unfold bump. destruct (metrics s !! bid); [|done].
  simpl. by rewrite lookup_insert_ne.
Qed.

#[local] Hint Resolve tadd_assoc tadd_zero tzero_add : jsmodel.

Section Props.

Context {A : Type} (bp : BatchProcessor) (attempt : A -> nat -> bool).

Local Abbreviation pwr := (processWithRetry bp attempt).

Local Ltac step_bump :=
  match goal with
  | H : tally_of ?b ?s = Some ?c |- _ =>
      let r := fresh "r" in
      unfold tally_of in H; destruct (metrics s !! b) as [r|] eqn:?; [|done];
      injection H as <-
  end.

(** The retry loop from attempt [rc] when the first fulfilling call is
    the [k]-th after it. *)
Lemma pwr_success_from item bid k :
  forall rc fuel s c,
  (forall j, rc <= j < rc + k -> attempt item j = false)%nat ->
  attempt item (rc + k)%nat = true ->
  Z.of_nat (rc + k) <= maxRetries bp -> (k < fuel)%nat ->
  tally_of bid s = Some c ->
  exists s', pwr fuel item bid (Z.of_nat rc) s = Some (inr tt, s') /\
    tally_of bid s' = Some (tadd c (0, 1, 0, Z.of_nat k)) /\
    sleeps s' = sleeps s ++ replicate k (retryDelay bp).
Proof.
  induction k as [|k IH]; intros rc [|f] s c Hfail Hok Hmax Hf Hs; try lia.
  - simpl. rewrite Nat2Z.id, <- (Nat.add_0_r rc), Hok. js_unfold.
    eexists. split; [done|]. step_bump. unfold bump, tally_of. rewrite Heqo.
    simpl. rewrite lookup_insert_eq. simpl. rewrite app_nil_r.
    split; [tuple_eq|done].
  - simpl. rewrite Nat2Z.id, Hfail by lia.
    destruct (Z.ltb_spec (Z.of_nat rc) (maxRetries bp)); [|lia]. js_unfold.
    assert (Hs1 : tally_of bid (sleep (retryDelay bp) (bump bid inc_retries s))
                  = Some (tadd c (0, 0, 0, 1))).
    { rewrite tally_sleep. erewrite tally_bump by done.
      step_bump. simpl. tuple_eq. }
    replace (Z.of_nat rc + 1) with (Z.of_nat (S rc)) by lia.
    assert (Hok' : attempt item (S rc + k)%nat = true)
      by (by rewrite Nat.add_succ_r in Hok).
    destruct (IH (S rc) f _ _ (fun j Hj => Hfail j ltac:(lia)) Hok'
                 ltac:(lia) ltac:(lia) Hs1) as (s' & E & T & L).
    exists s'. split; [done|]. split.
    + rewrite T, <- tadd_assoc. do 2 f_equal. simpl. tuple_eq.
    + rewrite L. simpl. by rewrite sleeps_bump, <- app_assoc.
Qed.

(** The retry loop from attempt [rc] when no call up to the last
    allowed one, [maxRetries], fulfils. *)
Lemma pwr_exhausted_from item bid k :
  forall rc fuel s c,
  (forall j, rc <= j <= rc + k -> attempt item j = false)%nat ->
  Z.of_nat (rc + k) = maxRetries bp -> (k < fuel)%nat ->
  tally_of bid s = Some c ->
  exists s', pwr fuel item bid (Z.of_nat rc) s = Some (inl processor_error, s') /\
    tally_of bid s' = Some (tadd c (0, 0, 1, Z.of_nat k)) /\
    sleeps s' = sleeps s ++ replicate k (retryDelay bp).
Proof.
  induction k as [|k IH]; intros rc [|f] s c Hfail Hmax Hf Hs; try lia.
  - simpl. rewrite Nat2Z.id, Hfail by lia.
    destruct (Z.ltb_spec (Z.of_nat rc) (maxRetries bp)); [lia|]. js_unfold.
    eexists. split; [done|]. step_bump. unfold bump, tally_of. rewrite Heqo.
    simpl. rewrite lookup_insert_eq. simpl. rewrite app_nil_r.
    split; [tuple_eq|done].
  - simpl. rewrite Nat2Z.id, Hfail by lia.
    destruct (Z.ltb_spec (Z.of_nat rc) (maxRetries bp)); [|lia]. js_unfold.
    assert (Hs1 : tally_of bid (sleep (retryDelay bp) (bump bid inc_retries s))
                  = Some (tadd c (0, 0, 0, 1))).
    { rewrite tally_sleep. erewrite tally_bump by done.
      step_bump. simpl. tuple_eq. }
    replace (Z.of_nat rc + 1) with (Z.of_nat (S rc)) by lia.
    destruct (IH (S rc) f _ _ (fun j Hj => Hfail j ltac:(lia))
                 ltac:(lia) ltac:(lia) Hs1) as (s' & E & T & L).
    exists s'. split; [done|]. split.
    + rewrite T, <- tadd_assoc. do 2 f_equal. simpl. tuple_eq.
    + rewrite L. simpl. by rewrite sleeps_bump, <- app_assoc.
Qed.

Lemma pwr_settles item bid :
  forall fuel rc s, 0 <= rc -> Z.max 0 (maxRetries bp - rc) < Z.of_nat fuel ->
  is_Some (pwr fuel item bid rc s).
Proof.
  induction fuel as [|f IH]; intros rc s Hrc Hf; [lia|]. simpl.
  destruct (attempt item (Z.to_nat rc)); [by eexists|].
  destruct (Z.ltb_spec rc (maxRetries bp)); js_unfold; [|by eexists].
  apply IH; lia.
Qed.

Lemma pwr_frame item bid bid' fuel rc :
  bid <> bid' -> js_rel (same_at bid') (pwr fuel item bid rc).
Proof.
  intros Hne. revert rc. induction fuel as [|f IH]; intros rc; simpl; [js_rel_split|].
  assert (Hb : forall g, js_rel (same_at bid') (js_modify (bump bid g))).
  { intros g. apply js_rel_modify. intros s. by apply bump_other. }
  destruct (attempt item _); [exact (Hb _)|].
  destruct (_ <? _); js_rel_split; try exact (Hb _); intros _; [|js_rel_split].
  js_rel_split; [apply js_rel_modify; by intros s|intros _; apply IH].
Qed.

(** [processBatch] adds one processed item and [k x] retries per item [x]
    whose first fulfilling call is the [k x]-th. *)
Lemma processBatch_adds (k : A -> nat) batch bid :
  (forall x, x ∈ batch ->
     (forall j, (j < k x)%nat -> attempt x j = false) /\ attempt x (k x) = true /\
     Z.of_nat (k x) <= maxRetries bp) ->
  js_adds (tally_of bid) tadd (processBatch bp attempt batch bid)
    (foldr tadd tzero (map (fun x => (0, 1, 0, Z.of_nat (k x))) batch)).
Proof.
  intros Hk. apply js_adds_all; auto using tadd_assoc, tadd_zero.
  apply Forall2_map_same. intros x Hx s c Hs.
  destruct (Hk x Hx) as (Hf & Ho & Hm).
  destruct (pwr_success_from x bid (k x) 0 (retry_fuel bp) s c
              (fun j Hj => Hf j ltac:(lia)) Ho ltac:(lia)
              ltac:(unfold retry_fuel; lia) Hs) as (s' & E & T & _).
  exists s'. by split.
Qed.

Lemma groups_adds (k : A -> nat) (groups : list (list (list A))) bid :
  (forall x, x ∈ concat (concat groups) ->
     (forall j, (j < k x)%nat -> attempt x j = false) /\ attempt x (k x) = true /\
     Z.of_nat (k x) <= maxRetries bp) ->
  js_adds (tally_of bid) tadd
    (js_seq (map (fun g => js_all (map (fun b => processBatch bp attempt b bid) g)) groups))
    (foldr tadd tzero (map (fun x => (0, 1, 0, Z.of_nat (k x))) (concat (concat groups)))).
Proof.
  intros Hk.
  rewrite <- !(foldr_plus_map_concat tadd tzero tadd_assoc tzero_add).
  apply js_adds_seq; auto using tadd_assoc, tadd_zero.
  apply Forall2_map_same. intros g Hg.
  apply js_adds_all; auto using tadd_assoc, tadd_zero.
  apply Forall2_map_same. intros b Hb. apply processBatch_adds.
  intros x Hx. apply Hk. apply list_elem_of_In, in_concat. exists b.
  split; [apply in_concat; exists g; split|]; by apply list_elem_of_In.
Qed.

Lemma foldr_success_tally (k : A -> nat) (xs : list A) :
  foldr tadd tzero (map (fun x => (0, 1, 0, Z.of_nat (k x))) xs) =
  (0, Z.of_nat (length xs), 0, Z.of_nat (sum_list_with k xs)).
Proof.
  induction xs as [|x xs IH]; [done|]. simpl. rewrite IH. simpl. tuple_eq.
Qed.

(** With positive sizes, [process] records the run, runs the groups of
    [maxConcurrent] batches of [batchSize] items one group after the
    other, and sets [endTime] in its [finally]. *)
Lemma process_unfold fuel items batchId now0 now1 s :
  0 < batchSize bp -> 0 < maxConcurrent bp -> (length items < fuel)%nat ->
  process bp attempt fuel items batchId now0 now1 s =
  js_finally
    (js_seq (map (fun g => js_all (map (fun b => processBatch bp attempt b (default (pretty now0) batchId)) g))
                 (chunks (Z.to_nat (maxConcurrent bp)) (chunks (Z.to_nat (batchSize bp)) items))))
    (js_modify (bump (default (pretty now0) batchId) (set_endTime now1)))
    (set_metrics (<[default (pretty now0) batchId := initial_metrics (length items) now0]> (metrics s)) s).
Proof.
  intros Hbs Hmc Hf.
  assert (HB : createBatches bp fuel items = Some (chunks (Z.to_nat (batchSize bp)) items)).
  { unfold createBatches. rewrite (slices_loop_chunks _ _ Hbs fuel 0); [by rewrite drop_0|lia|lia]. }
  assert (HG : slices_loop fuel (maxConcurrent bp) (chunks (Z.to_nat (batchSize bp)) items) 0 =
               Some (chunks (Z.to_nat (maxConcurrent bp)) (chunks (Z.to_nat (batchSize bp)) items))).
  { pose proof (length_chunks (Z.to_nat (batchSize bp)) items ltac:(lia)).
    rewrite (slices_loop_chunks _ _ Hmc fuel 0); [by rewrite drop_0|lia|lia]. }
  unfold process. unfold js_bind at 1, js_modify at 1. unfold js_bind. rewrite HB.
  unfold js_ret, js_finally. by rewrite (js_for_slices_seq _ _ _ _ _ _ HG).
Qed.

(** C5: when every item fulfils within [maxRetries] calls, [process]
    resolves and the run's metrics account for every item: [processedItems]
    equals [totalItems], no item failed, the retries are the sum of the
    rejected calls, and [endTime] is set. *)
Theorem process_all_succeed (k : A -> nat) fuel items batchId now0 now1 s :
  0 < batchSize bp -> 0 < maxConcurrent bp -> (length items < fuel)%nat ->
  (forall x, x ∈ items ->
     (forall j, (j < k x)%nat -> attempt x j = false) /\ attempt x (k x) = true /\
     Z.of_nat (k x) <= maxRetries bp) ->
  exists s' r,
    process bp attempt fuel items batchId now0 now1 s = Some (inr tt, s') /\
    getMetrics (default (pretty now0) batchId) s' = Some r /\
    totalItems r = Z.of_nat (length items) /\
    processedItems r = Z.of_nat (length items) /\ failedItems r = 0 /\
    retries r = Z.of_nat (sum_list_with k items) /\ endTime r = Some now1.
Proof.
  intros Hbs Hmc Hf Hk.
  set (bid := default (pretty now0) batchId).
  set (s1 := set_metrics (<[bid := initial_metrics (length items) now0]> (metrics s)) s).
  set (G := chunks (Z.to_nat (maxConcurrent bp)) (chunks (Z.to_nat (batchSize bp)) items)).
  assert (Hcat : concat (concat G) = items).
  { subst G. rewrite !concat_chunks; [done|lia..]. }
  assert (Hs1 : tally_of bid s1 = Some (Z.of_nat (length items), 0, 0, 0)).
  { unfold tally_of, s1. simpl. by rewrite lookup_insert_eq. }
  destruct (groups_adds k G bid ltac:(by rewrite Hcat) s1 _ Hs1) as (s2 & E2 & T2).
  rewrite Hcat, foldr_success_tally in T2.
  unfold tally_of in T2. destruct (metrics s2 !! bid) as [r2|] eqn:R2; [|done].
  simpl in T2. injection T2 as Ht Hp Hfl Hr.
  exists (bump bid (set_endTime now1) s2), (set_endTime now1 r2).
  split; [|split].
  - rewrite process_unfold by done. fold bid s1 G. unfold js_finally. by rewrite E2.
  - unfold getMetrics, bump. rewrite R2. simpl. by rewrite lookup_insert_eq.
  - simpl. repeat split; lia.
Qed.

(** [processWithRetry] always settles: the recursion makes at most
    [maxRetries + 1] calls of the processor, whatever they return. *)
Theorem processWithRetry_settles item bid s :
  is_Some (processWithRetry bp attempt (retry_fuel bp) item bid 0 s).
Proof. apply pwr_settles; unfold retry_fuel; lia. Qed.

(** an item whose first [k] calls reject and whose [k]-th call
    fulfils ([k <= maxRetries]) is counted once as processed after [k]
    counted retries, and waits [k] times for the same constant
    [retryDelay]: the back-off is not exponential. *)
Theorem processWithRetry_backoff item bid k s c :
  (forall j, (j < k)%nat -> attempt item j = false) ->
  attempt item k = true -> Z.of_nat k <= maxRetries bp ->
  tally_of bid s = Some c ->
  exists s', processWithRetry bp attempt (retry_fuel bp) item bid 0 s = Some (inr tt, s') /\
    tally_of bid s' = Some (tadd c (0, 1, 0, Z.of_nat k)) /\
    sleeps s' = sleeps s ++ replicate k (retryDelay bp).
Proof.
  intros Hf Ho Hm Hs.
  exact (pwr_success_from item bid k 0 (retry_fuel bp) s c
           (fun j Hj => Hf j ltac:(lia)) Ho Hm ltac:(unfold retry_fuel; lia) Hs).
Qed.

(** an item none of whose [maxRetries + 1] calls fulfils is counted
    once as failed after [maxRetries] retries, and [processWithRetry]
    rethrows: the item's rejection reaches [Promise.all]. *)
Theorem processWithRetry_exhausted item bid s c :
  0 <= maxRetries bp ->
  (forall j, (j <= Z.to_nat (maxRetries bp))%nat -> attempt item j = false) ->
  tally_of bid s = Some c ->
  exists s', processWithRetry bp attempt (retry_fuel bp) item bid 0 s =
               Some (inl processor_error, s') /\
    tally_of bid s' = Some (tadd c (0, 0, 1, maxRetries bp)) /\
    sleeps s' = sleeps s ++ replicate (Z.to_nat (maxRetries bp)) (retryDelay bp).
Proof.
  intros Hm Hf Hs.
  destruct (pwr_exhausted_from item bid (Z.to_nat (maxRetries bp)) 0 (retry_fuel bp) s c
              (fun j Hj => Hf j ltac:(lia)) ltac:(lia) ltac:(unfold retry_fuel; lia) Hs)
    as (s' & E & T & L).
  exists s'. rewrite Z2Nat.id in T by lia. done.
Qed.

(** C40: [createBatches] with a positive [batchSize] computes the
    reference chunking: consecutive slices of [batchSize] items, the last
    one shorter, whose concatenation is the input in order. *)
Theorem createBatches_chunks fuel (items : list A) :
  0 < batchSize bp -> (length items < fuel)%nat ->
  exists batches,
    createBatches bp fuel items = Some batches /\
    batches = chunks (Z.to_nat (batchSize bp)) items /\
    concat batches = items /\
    Forall (fun b => 0 < length b <= Z.to_nat (batchSize bp))%nat batches.
Proof.
  intros Hbs Hf. eexists. split; [|split; [done|split]].
  - unfold createBatches. rewrite (slices_loop_chunks _ _ Hbs fuel 0); [by rewrite drop_0|lia|lia].
  - apply concat_chunks. lia.
  - apply chunks_aux_bounded. lia.
Qed.

(** runs with different ids do not interfere: whatever [process]
    settles to, the metrics recorded under any other id are unchanged
    (every completion increments only its own run's counters). *)
Theorem process_isolated fuel items batchId now0 now1 bid' s r s' :
  default (pretty now0) batchId <> bid' ->
  process bp attempt fuel items batchId now0 now1 s = Some (r, s') ->
  metrics s' !! bid' = metrics s !! bid'.
Proof.
  intros Hne E. apply (fun H => H s r s' E : same_at bid' s s').
  unfold process. js_rel_split.
  - apply js_rel_modify. intros s0. unfold same_at. simpl. by rewrite lookup_insert_ne.
  - intros _. js_rel_split; [destruct (createBatches bp fuel items); js_rel_split|].
    intros batches. js_rel_split.
    + apply js_rel_for_slices; [typeclasses eauto..|]. intros g.
      apply js_rel_all; [typeclasses eauto..|]. apply List.Forall_forall. intros m Hm.
      apply in_map_iff in Hm as (b & <- & _).
      apply js_rel_all; [typeclasses eauto..|]. apply List.Forall_forall. intros m Hm.
      apply in_map_iff in Hm as (x & <- & _). by apply pwr_frame.
    + apply js_rel_modify. intros s0. by apply bump_other.
Qed.

(** A processor call that always rejects exhausts the retries and
    rethrows. *)
Lemma pwr_all_reject item bid :
  (forall j, attempt item j = false) ->
  forall fuel rc s, 0 <= rc -> Z.max 0 (maxRetries bp - rc) < Z.of_nat fuel ->
  exists s', pwr fuel item bid rc s = Some (inl processor_error, s').
Proof.
  intros Ha. induction fuel as [|f IH]; intros rc s Hrc Hf; [lia|]. simpl. rewrite Ha.
  destruct (Z.ltb_spec rc (maxRetries bp)); js_unfold; [|by eexists].
  apply IH; lia.
Qed.

Lemma processBatch_total batch bid : js_total (processBatch bp attempt batch bid).
Proof.
  apply js_total_all, Forall_forall. intros m Hm. apply list_elem_of_In, in_map_iff in Hm as (x & <- & _).
  intros s. destruct (pwr_settles x bid (retry_fuel bp) 0 s) as [[r s'] E]; [lia|unfold retry_fuel; lia|].
  by exists r, s'.
Qed.

(** A run whose first item always rejects rejects, once every started
    item has settled. *)
Lemma process_head_rejects fuel x items batchId now0 now1 s :
  0 < batchSize bp -> 0 < maxConcurrent bp -> 0 <= maxRetries bp -> (length (x :: items) < fuel)%nat ->
  (forall j, attempt x j = false) ->
  exists s', process bp attempt fuel (x :: items) batchId now0 now1 s = Some (inl processor_error, s').
Proof.
  intros Hbs Hmc Hmr Hf Ha. rewrite process_unfold by done.
  rewrite chunks_cons by lia. rewrite chunks_cons by lia.
  set (bid := default (pretty now0) batchId).
  destruct (Z.to_nat (batchSize bp)) as [|nb] eqn:Enb; [lia|].
  destruct (Z.to_nat (maxConcurrent bp)) as [|nm] eqn:Enm; [lia|].
  set (s1 := set_metrics _ s).
  destruct (pwr_all_reject x bid Ha (retry_fuel bp) 0 s1) as [s2 E2]; [lia|unfold retry_fuel; lia|].
  assert (Htot : forall l, js_total (js_all (map (fun item => pwr (retry_fuel bp) item bid 0) l))).
  { intros l s0. apply (processBatch_total l bid s0). }
  destruct (js_all_head_reject _ _ _ _ _ E2 (Htot (take nb items))) as [s3 E3].
  assert (Htot' : forall l, js_total (js_all (map (fun b => processBatch bp attempt b bid) l))).
  { intros l. apply js_total_all, Forall_forall. intros m Hm. apply list_elem_of_In, in_map_iff in Hm as (b & <- & _).
    apply processBatch_total. }
  destruct (js_all_head_reject _ _ _ _ _ E3 (Htot' (take nm (chunks (S nb) (drop (S nb) (x :: items))))))
    as [s4 E4].
  eexists. simpl. js_unfold. unfold processBatch at 1. simpl in E4 |- *. rewrite E4. done.
Qed.

End Props.

(** C39: [??] keeps an explicit [batchSize: 0], and [process] then never
    settles on a non-empty input: [createBatches] loops with [i += 0]. *)
Theorem process_batchSize_zero_hangs {A} (o : BatchProcessorOptions)
  (attempt : A -> nat -> bool) fuel items batchId now0 now1 s :
  opt_batchSize o = Some 0 -> items <> [] ->
  process (new_BatchProcessor o) attempt fuel items batchId now0 now1 s = None.
Proof.
  intros Ho Hne.
  assert (Hbs : batchSize (new_BatchProcessor o) <= 0) by (simpl; rewrite Ho; simpl; lia).
  unfold process, createBatches, js_bind, js_modify.
  by rewrite (slices_loop_diverges _ _ Hbs Hne fuel 0 ltac:(lia)).
Qed.

(** an item that exhausts its retries aborts the run: with batches
    of one item, five batches at a time and item 0 always rejecting,
    [process] rejects after the first five batches and the other six
    items are never processed, so [processedItems + failedItems] stays
    below [totalItems]. *)
Example process_abort_counts :
  exists s' r,
    process (new_BatchProcessor {| opt_batchSize := Some 1; opt_maxRetries := None;
                                   opt_retryDelay := None; opt_maxConcurrent := None |})
      (fun (x : nat) (_ : nat) => negb (Nat.eqb x 0)) 20 (seq 0 11) (Some "run") 0 1
      {| metrics := ∅; sleeps := [] |} = Some (inl processor_error, s') /\
    getMetrics "run" s' = Some r /\
    totalItems r = 11 /\ processedItems r = 4 /\ failedItems r = 1 /\
    processedItems r + failedItems r < totalItems r.
Proof. eexists _, _. split; [reflexivity|]. split; [reflexivity|]. simpl. lia. Qed.

(** ** Witnesses *)

Lemma processWithRetry_backoff_witness :
  exists s',
    processWithRetry (new_BatchProcessor {| opt_batchSize := None; opt_maxRetries := None;
                                            opt_retryDelay := None; opt_maxConcurrent := None |})
      (fun (_ : unit) n => Nat.leb 2 n)
      (retry_fuel (new_BatchProcessor {| opt_batchSize := None; opt_maxRetries := None;
                                         opt_retryDelay := None; opt_maxConcurrent := None |}))
      tt "run" 0 {| metrics := {[ "run" := initial_metrics 1 0 ]}; sleeps := [] |}
    = Some (inr tt, s') /\
    tally_of "run" s' = Some (tadd (1, 0, 0, 0) (0, 1, 0, 2)) /\
    sleeps s' = [] ++ replicate 2 1000.
Proof.
  match goal with
  | |- context [processWithRetry ?bp ?att _ ?it ?b 0 ?s0] =>
      apply (processWithRetry_backoff bp att it b 2 s0 (1, 0, 0, 0))
  end.
  - intros j Hj. destruct j as [|[|j]]; [done|done|lia].
  - done.
  - simpl. lia.
  - done.
Defined.

Lemma processWithRetry_exhausted_witness :
  exists s',
    processWithRetry (new_BatchProcessor {| opt_batchSize := None; opt_maxRetries := Some 2;
                                            opt_retryDelay := Some 50; opt_maxConcurrent := None |})
      (fun (_ : unit) _ => false)
      (retry_fuel (new_BatchProcessor {| opt_batchSize := None; opt_maxRetries := Some 2;
                                         opt_retryDelay := Some 50; opt_maxConcurrent := None |}))
      tt "run" 0 {| metrics := {[ "run" := initial_metrics 1 0 ]}; sleeps := [] |}
    = Some (inl processor_error, s') /\
    tally_of "run" s' = Some (tadd (1, 0, 0, 0) (0, 0, 1, 2)) /\
    sleeps s' = [] ++ replicate 2 50.
Proof.
  match goal with
  | |- context [processWithRetry ?bp ?att _ ?it ?b 0 ?s0] =>
      apply (processWithRetry_exhausted bp att it b s0 (1, 0, 0, 0))
  end; [simpl; lia|done|done].
Defined.

Lemma createBatches_chunks_witness :
  exists batches,
    createBatches (new_BatchProcessor {| opt_batchSize := None; opt_maxRetries := None;
                                         opt_retryDelay := None; opt_maxConcurrent := None |})
      24 (seq 0 23) = Some batches /\
    batches = chunks 10 (seq 0 23) /\ concat batches = seq 0 23 /\
    Forall (fun b => 0 < length b <= 10)%nat batches.
Proof.
  match goal with
  | |- context [createBatches ?bp ?fuel ?xs] => apply (createBatches_chunks bp fuel xs)
  end; simpl; lia.
Defined.

Lemma process_all_succeed_witness :
  exists s' r,
    process (new_BatchProcessor {| opt_batchSize := Some 2; opt_maxRetries := None;
                                   opt_retryDelay := None; opt_maxConcurrent := Some 2 |})
      (fun (x : nat) n => Nat.leb x n) 5 (seq 0 4) (Some "run") 0 1
      {| metrics := ∅; sleeps := [] |} = Some (inr tt, s') /\
    getMetrics (default (pretty 0) (Some "run")) s' = Some r /\
    totalItems r = Z.of_nat (length (seq 0 4)) /\
    processedItems r = Z.of_nat (length (seq 0 4)) /\ failedItems r = 0 /\
    retries r = Z.of_nat (sum_list_with (fun x => x) (seq 0 4)) /\
    endTime r = Some 1.
Proof.
  match goal with
  | |- context [process ?bp ?att ?fuel ?xs ?bid ?t0 ?t1 ?s0] =>
      apply (process_all_succeed bp att (fun x => x) fuel xs bid t0 t1 s0)
  end; [simpl; lia|simpl; lia|simpl; lia|].
  intros x Hx. apply list_elem_of_In, in_seq in Hx.
  split; [|split]; [intros j Hj; apply Nat.leb_gt; lia|apply Nat.leb_refl|simpl; lia].
Defined.

Lemma process_batchSize_zero_hangs_witness :
  process (new_BatchProcessor {| opt_batchSize := Some 0; opt_maxRetries := None;
                                 opt_retryDelay := None; opt_maxConcurrent := None |})
    (fun (_ : nat) _ => true) 100 [7%nat] None 0 1 {| metrics := ∅; sleeps := [] |} = None.
Proof. apply process_batchSize_zero_hangs; [done|discriminate]. Defined.

Lemma process_isolated_witness :
  exists r s',
    process (new_BatchProcessor {| opt_batchSize := None; opt_maxRetries := None;
                                   opt_retryDelay := None; opt_maxConcurrent := None |})
      (fun (_ : nat) _ => true) 5 (seq 0 3) (Some "run") 0 1
      {| metrics := {[ "other" := initial_metrics 2 0 ]}; sleeps := [] |} = Some (r, s') /\
    metrics s' !! "other" =
      metrics {| metrics := {[ "other" := initial_metrics 2 0 ]}; sleeps := [] |} !! "other".
Proof.
  eexists _, _. split; [reflexivity|].
  match goal with
  | |- metrics ?s' !! ?o = metrics ?s0 !! _ =>
      apply (process_isolated
               (new_BatchProcessor {| opt_batchSize := None; opt_maxRetries := None;
                                      opt_retryDelay := None; opt_maxConcurrent := None |})
               (fun (_ : nat) _ => true) 5 (seq 0 3) (Some "run") 0 1 o s0 (inr tt) s')
  end; [discriminate|reflexivity].
Defined.

End BatchRun.
