(* ===== verification/ChunkBatch.v ===== *)
(** * ChunkBatch: the chunking batch processor of [src/unnamed/part_001]

    This [BatchProcessor] splits documents into chunks with a text
    splitter, stores every chunk in the vector store with
    [processChunkWithRetry] (exponential back-off), runs the batches of
    [processBatch] through [pLimit], and reports progress through an
    optional callback.  [processLargeDocument] hands the chunks of one
    text to a caller-supplied [chunkProcessor], batch after batch.
    A single metrics object lives as long as the processor and is shared
    by all calls.

    The external libraries are oracles: [split] is
    [textSplitter.splitText], [attempt] says whether the [n]-th
    [vectorStorage.addDocument] call for a chunk fulfils and [elapsed]
    its duration, [chunkProcessor] whether the caller's processor
    fulfils.  [pLimit] lets batches finish in any order; [processBatch]
    takes the order in which batches complete as an argument [sched].
    Counter updates are atomic, so the final metrics do not depend on the
    interleaving of the chunks within it. *)

From S2P Require Import Prelude.
From Stdlib Require Import QArith.

Local Open Scope Z_scope.
Local Open Scope js_scope.

Module ChunkBatch.

(** [BatchProcessingOptions] (lines 8-15) and the constructor's
    defaults (lines 41-48), taken with [||]. *)
Record BatchProcessingOptions := {
  opt_chunkSize : option Z;
  opt_overlapSize : option Z;
  opt_batchSize : option Z;
  opt_concurrentBatches : option Z;
  opt_maxRetries : option Z;
  opt_retryDelay : option Z;
}.

Record Options := {
  chunkSize : Z;
  overlapSize : Z;
  batchSize : Z;
  concurrentBatches : Z;
  maxRetries : Z;
  retryDelay : Z;
}.

Definition options_of (o : BatchProcessingOptions) : Options := {|
  chunkSize := js_or (opt_chunkSize o) 1000;
  overlapSize := js_or (opt_overlapSize o) 200;
  batchSize := js_or (opt_batchSize o) 10;
  concurrentBatches := js_or (opt_concurrentBatches o) 3;
  maxRetries := js_or (opt_maxRetries o) 3;
  retryDelay := js_or (opt_retryDelay o) 1000;
|}.

(** [ProcessingMetrics] (lines 17-24); [averageChunkTime] is a [js_div]
    quotient. *)
Record ProcessingMetrics := {
  totalChunks : Z;
  processedChunks : Z;
  failedChunks : Z;
  processingTime : Z;
  averageChunkTime : option Q;
  retryCount : Z;
}.

(** The metrics of the constructor, [initialize] and [resetMetrics]
    (lines 50-57, 68-75, 198-207). *)
Definition zero_metrics : ProcessingMetrics := {|
  totalChunks := 0; processedChunks := 0; failedChunks := 0;
  processingTime := 0; averageChunkTime := Some 0%Q; retryCount := 0 |}.

Definition with_total (n : Z) (m : ProcessingMetrics) : ProcessingMetrics :=
  {| totalChunks := n; processedChunks := processedChunks m; failedChunks := failedChunks m;
     processingTime := processingTime m; averageChunkTime := averageChunkTime m;
     retryCount := retryCount m |}.

(** [processedChunks++], [processingTime += t] and the new average
    (lines 88-90). *)
Definition chunk_done (t : Z) (m : ProcessingMetrics) : ProcessingMetrics :=
  let pc := processedChunks m + 1 in
  let pt := processingTime m + t in
  {| totalChunks := totalChunks m; processedChunks := pc; failedChunks := failedChunks m;
     processingTime := pt; averageChunkTime := js_div pt pc; retryCount := retryCount m |}.

(** [processedChunks++] alone (line 174). *)
Definition inc_processed (m : ProcessingMetrics) : ProcessingMetrics :=
  {| totalChunks := totalChunks m; processedChunks := processedChunks m + 1;
     failedChunks := failedChunks m; processingTime := processingTime m;
     averageChunkTime := averageChunkTime m; retryCount := retryCount m |}.

(** [failedChunks++] (line 101), and with [retryCount++] (lines 177-178). *)
Definition inc_failed (r : Z) (m : ProcessingMetrics) : ProcessingMetrics :=
  {| totalChunks := totalChunks m; processedChunks := processedChunks m;
     failedChunks := failedChunks m + 1; processingTime := processingTime m;
     averageChunkTime := averageChunkTime m; retryCount := retryCount m + r |}.

(** The closing assignments of [processBatch] (line 148) and of
    [processLargeDocument] (lines 187-189). *)
Definition with_time (t : Z) (m : ProcessingMetrics) : ProcessingMetrics :=
  {| totalChunks := totalChunks m; processedChunks := processedChunks m;
     failedChunks := failedChunks m; processingTime := t;
     averageChunkTime := averageChunkTime m; retryCount := retryCount m |}.

Definition with_average (m : ProcessingMetrics) : ProcessingMetrics :=
  {| totalChunks := totalChunks m; processedChunks := processedChunks m;
     failedChunks := failedChunks m; processingTime := processingTime m;
     averageChunkTime := js_div (processingTime m) (processedChunks m);
     retryCount := retryCount m |}.

(** [lodash.chunk(array, size)]: [size] is clamped to [0] and an array
    is cut into no chunk at all when [size < 1]. *)
Definition lodash_chunk {A} (size : Z) (l : list A) : list (list A) :=
  if size <? 1 then [] else chunks (Z.to_nat size) l.

(** [pLimit(n)] rejects a concurrency that is not a positive integer. *)
Definition plimit_error : string := "Expected `concurrency` to be a number from 1 and up".

(** [(batchIndex + 1) / batches.length * 100] (line 141). *)
Definition progress_of (i n : nat) : Q :=
  (inject_Z (Z.of_nat i + 1) / inject_Z (Z.of_nat n) * 100)%Q.

(** The constructor's default argument [options = {}] (line 38), and
    options with one field set, used by the examples. *)
Definition no_options : BatchProcessingOptions := {|
  opt_chunkSize := None; opt_overlapSize := None; opt_batchSize := None;
  opt_concurrentBatches := None; opt_maxRetries := None; opt_retryDelay := None |}.

Definition with_batchSize (b : Z) : BatchProcessingOptions := {|
  opt_chunkSize := None; opt_overlapSize := None; opt_batchSize := Some b;
  opt_concurrentBatches := None; opt_maxRetries := None; opt_retryDelay := None |}.

Definition with_maxRetries (r : Z) : BatchProcessingOptions := {|
  opt_chunkSize := None; opt_overlapSize := None; opt_batchSize := None;
  opt_concurrentBatches := None; opt_maxRetries := Some r; opt_retryDelay := None |}.

(** Oracles used by the examples: a splitter that keeps a text as one
    chunk, one that cuts it in three, a store that rejects the chunk
    ["b"], and a processor that rejects the chunk ["p"]. *)
Definition ex_split1 (t : string) : list string := [t].

Definition ex_split3 (t : string) : list string := ["p"; "q"; "r"].

Definition ex_attempt {X} (c : string) (_ : X) (_ : nat) : bool := negb (String.eqb c "b").

Definition ex_processor (c : string) (_ : Z) : bool := negb (String.eqb c "p").

Section WithOracles.

Context {M : Type}.

(** The metadata of a stored chunk: [{ ...doc.metadata, chunkIndex }]. *)
Record ChunkMeta := { base : M; chunkIndex : Z }.

(** The processor's state: its metrics, the [setTimeout] delays awaited,
    the chunks the vector store accepted, the progress reports and the
    calls of the [chunkProcessor]. *)
Record St := {
  metrics : ProcessingMetrics;
  sleeps : list Z;
  stored : list (string * ChunkMeta);
  progress : list (Q * ProcessingMetrics);
  calls : list (string * Z);
}.

Definition set_metrics (f : ProcessingMetrics -> ProcessingMetrics) (s : St) : St :=
  {| metrics := f (metrics s); sleeps := sleeps s; stored := stored s;
     progress := progress s; calls := calls s |}.

Definition sleep (d : Z) (s : St) : St :=
  {| metrics := metrics s; sleeps := sleeps s ++ [d]; stored := stored s;
     progress := progress s; calls := calls s |}.

Definition store (c : string * ChunkMeta) (s : St) : St :=
  {| metrics := metrics s; sleeps := sleeps s; stored := stored s ++ [c];
     progress := progress s; calls := calls s |}.

Definition report (q : Q) (s : St) : St :=
  {| metrics := metrics s; sleeps := sleeps s; stored := stored s;
     progress := progress s ++ [(q, metrics s)]; calls := calls s |}.

Definition call (c : string * Z) (s : St) : St :=
  {| metrics := metrics s; sleeps := sleeps s; stored := stored s;
     progress := progress s; calls := calls s ++ [c] |}.

(** The state of a new processor. *)
Definition st0 : St := {| metrics := zero_metrics; sleeps := []; stored := []; progress := []; calls := [] |}.

Context (o : Options).
Context (split : string -> list string).
Context (attempt : string -> ChunkMeta -> nat -> bool).
Context (elapsed : string -> ChunkMeta -> Z).
Context (chunkProcessor : string -> Z -> bool).

(** [this.options.maxRetries || 3] and [this.options.retryDelay || 1000]
    (lines 94 and 96): the defaults are applied a second time. *)
Definition retries_limit : Z := js_or (Some (maxRetries o)) 3.
Definition delay_base : Z := js_or (Some (retryDelay o)) 1000.

(** [processChunkWithRetry] (lines 78-105); [fuel] counts the calls of
    [addDocument].  It never rejects: a chunk whose calls all reject is
    counted as failed and gives [false]. *)
Fixpoint processChunkWithRetry (fuel : nat) (chunk : string) (metadata : ChunkMeta)
  (retry : Z) : js St bool :=
  match fuel with
  | O => js_diverge
  | S f =>
      if attempt chunk metadata (Z.to_nat retry) then
        js_modify (store (chunk, metadata)) ;!
        js_modify (set_metrics (chunk_done (elapsed chunk metadata))) ;!
        js_ret true
      else if retry <? retries_limit then
        js_modify (sleep (delay_base * 2 ^ retry)) ;!
        processChunkWithRetry f chunk metadata (retry + 1)
      else js_modify (set_metrics (inc_failed 0)) ;! js_ret false
  end.

(** One call more than the retries the recursion may make. *)
Definition retry_fuel : nat := S (Z.to_nat retries_limit).

(** The splitting loop of [processBatch] (lines 111-120): every chunk of
    a document gets [chunkIndex: allChunks.length], read before the
    document's chunks are pushed. *)
Fixpoint collect (docs : list (string * M)) (acc : list (string * ChunkMeta))
  : list (string * ChunkMeta) :=
  match docs with
  | [] => acc
  | (t, m) :: ds =>
      collect ds (acc ++ map (fun c => (c, {| base := m; chunkIndex := Z.of_nat (length acc) |}))
                             (split t))
  end.

(** The task of batch [i] out of [n] given to [limit] (lines 133-143). *)
Definition run_batch (cb : bool) (n i : nat) (batch : list (string * ChunkMeta)) : js St unit :=
  js_all (map (fun c => let! _ := processChunkWithRetry retry_fuel c.1 c.2 0 in js_ret tt) batch) ;!
  if cb then js_modify (report (progress_of i n)) else js_ret tt.

(** [processBatch] (lines 107-150).  [cb] says whether a
    [progressCallback] was given; the callback's calls are the log
    [progress].  [sched] is the order in which the [limit]ed batch tasks
    complete; [now0] and [now1] are the readings of [performance.now()]. *)
Definition processBatch (docs : list (string * M)) (cb : bool) (sched : list nat)
  (now0 now1 : Z) : js St ProcessingMetrics :=
  let allChunks := collect docs [] in
  js_modify (set_metrics (with_total (Z.of_nat (length allChunks)))) ;!
  let batches := lodash_chunk (js_or (Some (batchSize o)) 10) allChunks in
  if js_or (Some (concurrentBatches o)) 3 <? 1 then js_throw plimit_error else
  js_all (map (fun i => match batches !! i with
                        | Some b => run_batch cb (length batches) i b
                        | None => js_ret tt
                        end) sched) ;!
  js_modify (set_metrics (with_time (now1 - now0))) ;!
  let! s := js_get in js_ret (metrics s).

(** The task of chunk [ci] of batch [bi] in [processLargeDocument]
    (lines 170-183). *)
Definition large_chunk (bs bi ci : Z) (c : string) : js St unit :=
  let gi := bi * bs + ci in
  js_modify (call (c, gi)) ;!
  if chunkProcessor c gi then js_modify (set_metrics inc_processed)
  else js_modify (set_metrics (inc_failed 1)) ;!
       let! s := js_get in
       if retries_limit <? retryCount (metrics s)
       then js_throw "Too many failed chunks" else js_ret tt.

(** [processLargeDocument] (lines 152-192); [fuel] bounds the tests of
    the slicing loop (lines 162-164).  The [metadata] argument is unused
    by the source. *)
Definition processLargeDocument (fuel : nat) (text : string) (now0 now1 : Z)
  : js St ProcessingMetrics :=
  let cs := split text in
  js_modify (set_metrics (with_total (Z.of_nat (length cs)))) ;!
  let bs := js_or (Some (batchSize o)) 10 in
  let! batches := match slices_loop fuel bs cs 0 with
                  | Some b => js_ret b
                  | None => js_diverge
                  end in
  js_seq (imap (fun bi b => js_all (imap (fun ci c => large_chunk bs (Z.of_nat bi) (Z.of_nat ci) c) b))
               batches) ;!
  js_modify (set_metrics (fun m => with_average (with_time (now1 - now0) m))) ;!
  let! s := js_get in js_ret (metrics s).

(** [getMetrics] and [resetMetrics] (lines 194-207); [initialize] (lines
    60-76) builds the splitter and resets the metrics. *)
Definition getMetrics : js St ProcessingMetrics := let! s := js_get in js_ret (metrics s).

Definition resetMetrics : js St unit := js_modify (set_metrics (fun _ => zero_metrics)).

Definition initialize : js St unit := resetMetrics.

(** ** Proof support *)

(** Some call among the [retry_fuel] calls of [addDocument] for the chunk
    fulfils. *)
Definition succeeds (c : string) (m : ChunkMeta) : bool :=
  existsb (fun j => attempt c m j) (seq 0 retry_fuel).

(** The four counters [totalChunks], [processedChunks], [failedChunks]
    and [retryCount]. *)
Definition counts (s : St) : option (Z * Z * Z * Z) :=
  Some (totalChunks (metrics s), processedChunks (metrics s), failedChunks (metrics s),
        retryCount (metrics s)).

Definition cplus (a b : Z * Z * Z * Z) : Z * Z * Z * Z :=
  (a.1.1.1 + b.1.1.1, a.1.1.2 + b.1.1.2, a.1.2 + b.1.2, a.2 + b.2).

Definition czero : Z * Z * Z * Z := (0, 0, 0, 0).

Definition chunk_count (cm : string * ChunkMeta) : Z * Z * Z * Z :=
  if succeeds cm.1 cm.2 then (0, 1, 0, 0) else (0, 0, 1, 0).

(** The progress values reported so far. *)
Definition reports (s : St) : option (list Q) := Some (map fst (progress s)).

(** The calls of the [chunkProcessor] together with the four counters. *)
Definition ld_obs (s : St) : option (list (string * Z) * (Z * Z * Z * Z)) :=
  Some (calls s, (totalChunks (metrics s), processedChunks (metrics s),
                  failedChunks (metrics s), retryCount (metrics s))).

Definition oplus (a b : list (string * Z) * (Z * Z * Z * Z)) : list (string * Z) * (Z * Z * Z * Z) :=
  (a.1 ++ b.1, cplus a.2 b.2).

Definition ozero : list (string * Z) * (Z * Z * Z * Z) := ([], czero).

(** The chunks of the documents with the [chunkIndex] the splitting loop
    gives them, from the offset [n]. *)
Fixpoint doc_chunks (n : nat) (docs : list (string * M)) : list (string * ChunkMeta) :=
  match docs with
  | [] => []
  | (t, m) :: ds =>
      map (fun c => (c, {| base := m; chunkIndex := Z.of_nat n |})) (split t) ++
      doc_chunks (n + length (split t)) ds
  end.

(** ** The retry recursion *)

Section Chunk.
Context (c : string) (m : ChunkMeta).

Definition delays (r n : nat) : list Z := map (fun j => delay_base * 2 ^ Z.of_nat j) (seq r n).

Lemma delays_S r n : delays r (S n) = delay_base * 2 ^ Z.of_nat r :: delays (S r) n.
Proof. done. Qed.

Lemma pcwr_step fuel r s :
  attempt c m r = false -> Z.of_nat r < retries_limit ->
  processChunkWithRetry (S fuel) c m (Z.of_nat r) s =
  processChunkWithRetry fuel c m (Z.of_nat (S r)) (sleep (delay_base * 2 ^ Z.of_nat r) s).
Proof.
  intros Ha Hr. simpl. rewrite Nat2Z.id, Ha. destruct (Z.ltb_spec (Z.of_nat r) retries_limit); [|lia].
  js_unfold. by rewrite Nat2Z.inj_succ, <- Z.add_1_r.
Qed.

Lemma pcwr_success_from (k r fuel : nat) s :
  (forall j, (r <= j < r + k)%nat -> attempt c m j = false) -> attempt c m (r + k) = true ->
  Z.of_nat (r + k) <= retries_limit -> (k < fuel)%nat ->
  processChunkWithRetry fuel c m (Z.of_nat r) s =
  Some (inr true, {| metrics := chunk_done (elapsed c m) (metrics s);
                     sleeps := sleeps s ++ delays r k; stored := stored s ++ [(c, m)];
                     progress := progress s; calls := calls s |}).
Proof.
  revert r fuel s. induction k as [|k IH]; intros r fuel s Hf Ht Hl Hk;
    destruct fuel as [|fuel]; try lia.
  - simpl. rewrite Nat2Z.id, <- (Nat.add_0_r r), Ht. js_unfold. by rewrite !app_nil_r.
  - rewrite pcwr_step by (apply Hf || idtac; lia).
    rewrite (IH (S r)); [|intros j ?; apply Hf; lia|by replace (S r + k)%nat with (r + S k)%nat by lia|lia|lia].
    simpl. by rewrite <- app_assoc.
Qed.

Lemma pcwr_exhausted_from (n r fuel : nat) s :
  (r + n = Z.to_nat retries_limit)%nat ->
  (forall j, (r <= j <= r + n)%nat -> attempt c m j = false) -> (n < fuel)%nat ->
  processChunkWithRetry fuel c m (Z.of_nat r) s =
  Some (inr false, {| metrics := inc_failed 0 (metrics s);
                      sleeps := sleeps s ++ delays r n; stored := stored s;
                      progress := progress s; calls := calls s |}).
Proof.
  revert r fuel s. induction n as [|n IH]; intros r fuel s Hn Hf Hk;
    destruct fuel as [|fuel]; try lia.
  - simpl. rewrite Nat2Z.id, Hf by lia.
    destruct (Z.ltb_spec (Z.of_nat r) retries_limit); [lia|]. js_unfold. by rewrite app_nil_r.
  - rewrite pcwr_step by (apply Hf || idtac; lia).
    rewrite (IH (S r)); [|lia|intros j ?; apply Hf; lia|lia].
    simpl. by rewrite <- app_assoc.
Qed.

(** Whatever the calls give, the recursion settles with [true] exactly
    when one of the remaining calls fulfils. *)
Lemma pcwr_outcome (n r fuel : nat) s :
  (r + n = Z.to_nat retries_limit)%nat -> (n < fuel)%nat ->
  exists s', processChunkWithRetry fuel c m (Z.of_nat r) s =
    Some (inr (existsb (fun j => attempt c m j) (seq r (S n))), s') /\
    metrics s' = (if existsb (fun j => attempt c m j) (seq r (S n))
                  then chunk_done (elapsed c m) else inc_failed 0) (metrics s) /\
    progress s' = progress s /\ calls s' = calls s.
Proof.
  revert r fuel s. induction n as [|n IH]; intros r fuel s Hn Hk;
    destruct fuel as [|fuel]; try lia; simpl; rewrite Nat2Z.id.
  - destruct (attempt c m r); simpl; js_unfold; [by eexists|].
    destruct (Z.ltb_spec (Z.of_nat r) retries_limit); [lia|]. by eexists.
  - destruct (attempt c m r) eqn:Ha; simpl; js_unfold; [by eexists|].
    destruct (Z.ltb_spec (Z.of_nat r) retries_limit); [|lia].
    replace (Z.of_nat r + 1) with (Z.of_nat (S r)) by lia.
    destruct (IH (S r) fuel (sleep (delay_base * 2 ^ Z.of_nat r) s)) as (s' & E & Hm & Hp & Hc);
      [lia|lia|].
    exists s'. split; [exact E|]. split; [exact Hm|]. by split.
Qed.

End Chunk.

(** ** Counting the chunks of [processBatch] *)

Lemma cplus_assoc a b c : cplus a (cplus b c) = cplus (cplus a b) c.
Proof. destruct a as [[[??]?]?], b as [[[??]?]?], c as [[[??]?]?]. unfold cplus; simpl. tuple_eq. Qed.

Lemma cplus_czero a : cplus a czero = a.
Proof. destruct a as [[[??]?]?]. unfold cplus; simpl. tuple_eq. Qed.

Lemma czero_cplus a : cplus czero a = a.
Proof. destruct a as [[[??]?]?]. unfold cplus; simpl. tuple_eq. Qed.

#[local] Instance cplus_assoc_inst : Assoc eq cplus.
Proof. intros ???. apply cplus_assoc. Qed.

#[local] Instance cplus_comm_inst : Comm eq cplus.
Proof. intros [[[??]?]?] [[[??]?]?]. unfold cplus; simpl. tuple_eq. Qed.

Lemma job_counts cm :
  js_adds counts cplus (let! _ := processChunkWithRetry retry_fuel cm.1 cm.2 0 in js_ret tt)
    (chunk_count cm).
Proof.
  intros s cnt Hs.
  destruct (pcwr_outcome cm.1 cm.2 (Z.to_nat retries_limit) 0 retry_fuel s) as (s' & E & Hm & _);
    [done|unfold retry_fuel; lia|].
  exists s'. js_unfold. change 0 with (Z.of_nat 0). rewrite E. split; [done|].
  unfold counts in *. rewrite Hm. unfold chunk_count, succeeds, retry_fuel.
  injection Hs as <-. destruct (existsb _ _); unfold cplus; simpl; tuple_eq.
Qed.

Lemma foldr_chunk_count l :
  foldr cplus czero (map chunk_count l) =
  (0, Z.of_nat (length (filter (fun cm => succeeds cm.1 cm.2 = true) l)),
   Z.of_nat (length (filter (fun cm => succeeds cm.1 cm.2 = false) l)), 0).
Proof.
  induction l as [|cm l IH]; [done|]. simpl. rewrite IH, !filter_cons.
  unfold chunk_count, cplus. destruct (succeeds cm.1 cm.2); simpl; tuple_eq.
Qed.

Lemma run_batch_counts cb n i b :
  js_adds counts cplus (run_batch cb n i b) (foldr cplus czero (map chunk_count b)).
Proof.
  unfold run_batch. rewrite <- (cplus_czero (foldr _ _ _)).
  apply (js_adds_bind _ _ cplus_assoc).
  - apply (js_adds_all _ _ czero cplus_assoc cplus_czero).
    apply Forall2_map_same. intros cm _. apply job_counts.
  - destruct cb; [|apply (js_adds_ret _ _ czero cplus_czero)].
    apply js_adds_modify. intros s cnt Hs. by rewrite cplus_czero.
Qed.

(** [map (fun i => f (l !! i)) (seq 0 (length l))] visits [l] in order. *)
Lemma map_seq_lookup {X Y} (g : X -> Y) (z : Y) (l pre : list X) :
  map (fun i => match (pre ++ l) !! i with Some b => g b | None => z end)
      (seq (length pre) (length l)) = map g l.
Proof.
  revert pre. induction l as [|x l IH]; intros pre; [done|]. simpl.
  rewrite lookup_app_r, Nat.sub_diag by lia. simpl. f_equal.
  specialize (IH (pre ++ [x])). rewrite <- app_assoc, length_app in IH. simpl in IH.
  by rewrite Nat.add_1_r in IH.
Qed.

Lemma schedule_counts cb batches sched :
  sched ≡ₚ seq 0 (length batches) ->
  js_adds counts cplus
    (js_all (map (fun i => match batches !! i with
                           | Some b => run_batch cb (length batches) i b
                           | None => js_ret tt
                           end) sched))
    (foldr cplus czero (map chunk_count (concat batches))).
Proof.
  intros Hp.
  set (g := fun i : nat => match batches !! i with
                           | Some b => foldr cplus czero (map chunk_count b)
                           | None => czero end).
  assert (E : foldr cplus czero (map g sched) = foldr cplus czero (map chunk_count (concat batches))).
  { rewrite (foldr_permutation_proper' eq cplus czero _ _ (Permutation_map g Hp)). subst g.
    pose proof (map_seq_lookup (fun b => foldr cplus czero (map chunk_count b)) czero batches []) as L.
    simpl in L. rewrite L.
    apply (foldr_plus_map_concat cplus czero cplus_assoc czero_cplus). }
  rewrite <- E. apply (js_adds_all _ _ czero cplus_assoc cplus_czero).
  apply Forall2_map_same. intros i _. subst g. simpl.
  destruct (batches !! i); [apply run_batch_counts|apply (js_adds_ret _ _ czero cplus_czero)].
Qed.

(** ** Progress reports of [processBatch] *)

Lemma foldr_app_nil {X Y} (l : list X) : foldr app [] (map (fun _ => @nil Y) l) = [].
Proof. by induction l. Qed.

Lemma foldr_app_singletons {X Y} (f : X -> Y) (l : list X) :
  foldr app [] (map (fun x => [f x]) l) = map f l.
Proof. induction l as [|x l IH]; simpl; [done|]. by rewrite IH. Qed.

Lemma job_reports cm :
  js_adds reports app (let! _ := processChunkWithRetry retry_fuel cm.1 cm.2 0 in js_ret tt) [].
Proof.
  intros s r Hs.
  destruct (pcwr_outcome cm.1 cm.2 (Z.to_nat retries_limit) 0 retry_fuel s) as (s' & E & _ & Hp & _);
    [done|unfold retry_fuel; lia|].
  exists s'. js_unfold. change 0 with (Z.of_nat 0). rewrite E. split; [done|].
  unfold reports in *. rewrite Hp, app_nil_r. done.
Qed.

Lemma run_batch_reports cb n i b :
  js_adds reports app (run_batch cb n i b) (if cb then [progress_of i n] else []).
Proof.
  unfold run_batch. rewrite <- (app_nil_l (if cb then _ else _)).
  apply (js_adds_bind _ _ (@app_assoc Q)).
  - rewrite <- (foldr_app_nil b). apply (js_adds_all _ _ [] (@app_assoc Q) (@app_nil_r Q)).
    apply Forall2_map_same. intros cm _. apply job_reports.
  - destruct cb; [|apply (js_adds_ret _ _ [] (@app_nil_r Q))].
    apply js_adds_modify. intros s r [= <-]. unfold reports. simpl. by rewrite map_app.
Qed.

Lemma schedule_reports batches sched :
  Forall (fun i => (i < length batches)%nat) sched ->
  js_adds reports app
    (js_all (map (fun i => match batches !! i with
                           | Some b => run_batch true (length batches) i b
                           | None => js_ret tt
                           end) sched))
    (map (fun i => progress_of i (length batches)) sched).
Proof.
  intros Hs. rewrite <- (foldr_app_singletons (fun i => progress_of i (length batches)) sched). apply (js_adds_all _ _ [] (@app_assoc Q) (@app_nil_r Q)).
  apply Forall2_map_same. intros i Hi. rewrite List.Forall_forall in Hs.
  apply list_elem_of_In, Hs, lookup_lt_is_Some in Hi as [b ->]. apply run_batch_reports.
Qed.

(** The batches of [processBatch] cut the chunks into pieces. *)
Lemma concat_lodash_chunk {X} (k : Z) (l : list X) : 1 <= k -> concat (lodash_chunk k l) = l.
Proof. intros Hk. unfold lodash_chunk. rewrite (proj2 (Z.ltb_ge _ _)) by lia. apply concat_chunks. lia. Qed.

(** [processBatch] once its batch tasks have all completed. *)
Lemma processBatch_run docs cb sched now0 now1 s s2 :
  let all := collect docs [] in
  let batches := lodash_chunk (js_or (Some (batchSize o)) 10) all in
  1 <= js_or (Some (concurrentBatches o)) 3 ->
  js_all (map (fun i => match batches !! i with
                        | Some b => run_batch cb (length batches) i b
                        | None => js_ret tt
                        end) sched)
    (set_metrics (with_total (Z.of_nat (length all))) s) = Some (inr tt, s2) ->
  processBatch docs cb sched now0 now1 s =
    Some (inr (metrics (set_metrics (with_time (now1 - now0)) s2)),
          set_metrics (with_time (now1 - now0)) s2).
Proof.
  intros all batches Hc E. unfold processBatch. js_unfold. fold all batches.
  rewrite (proj2 (Z.ltb_ge _ _)) by lia. by rewrite E.
Qed.

(** C10: [processBatch] with a positive batch size and concurrency, for
    every order in which the batches complete, resolves with the final
    metrics: [totalChunks] is the number of chunks of this call, the
    chunks some call of which fulfils are added to [processedChunks], the
    others to [failedChunks], [retryCount] is unchanged whatever the
    retries, and [processingTime] is the elapsed wall-clock time. *)
Theorem processBatch_counts docs cb sched now0 now1 s :
  1 <= js_or (Some (batchSize o)) 10 -> 1 <= js_or (Some (concurrentBatches o)) 3 ->
  sched ≡ₚ seq 0 (length (lodash_chunk (js_or (Some (batchSize o)) 10) (collect docs []))) ->
  exists s', processBatch docs cb sched now0 now1 s = Some (inr (metrics s'), s') /\
    totalChunks (metrics s') = Z.of_nat (length (collect docs [])) /\
    processedChunks (metrics s') = processedChunks (metrics s) +
      Z.of_nat (length (filter (fun cm => succeeds cm.1 cm.2 = true) (collect docs []))) /\
    failedChunks (metrics s') = failedChunks (metrics s) +
      Z.of_nat (length (filter (fun cm => succeeds cm.1 cm.2 = false) (collect docs []))) /\
    retryCount (metrics s') = retryCount (metrics s) /\
    processingTime (metrics s') = now1 - now0.
Proof.
  intros Hb Hc Hp.
  destruct (schedule_counts cb _ sched Hp (set_metrics (with_total (Z.of_nat (length (collect docs [])))) s)
              _ eq_refl) as (s2 & E2 & M2).
  rewrite concat_lodash_chunk, foldr_chunk_count in M2 by done.
  eexists. split; [by apply processBatch_run|].
  unfold counts, cplus in M2. simpl in M2. injection M2 as H1 H2 H3 H4. simpl. lia.
Qed.

(** With a [progressCallback], [processBatch] reports one progress
    value per batch, [(i + 1) / batches.length * 100] for batch [i], in
    the order the batches complete: the reports are not monotone when a
    later batch completes first. *)
Theorem processBatch_progress docs sched now0 now1 s :
  1 <= js_or (Some (batchSize o)) 10 -> 1 <= js_or (Some (concurrentBatches o)) 3 ->
  sched ≡ₚ seq 0 (length (lodash_chunk (js_or (Some (batchSize o)) 10) (collect docs []))) ->
  exists s', processBatch docs true sched now0 now1 s = Some (inr (metrics s'), s') /\
    map fst (progress s') = map fst (progress s) ++
      map (fun i => progress_of i (length (lodash_chunk (js_or (Some (batchSize o)) 10) (collect docs []))))
          sched.
Proof.
  intros Hb Hc Hp.
  assert (Hr : Forall (fun i => (i < length (lodash_chunk (js_or (Some (batchSize o)) 10) (collect docs [])))%nat) sched).
  { apply List.Forall_forall. intros i Hi%list_elem_of_In. rewrite Hp, elem_of_seq in Hi. lia. }
  destruct (schedule_reports _ sched Hr (set_metrics (with_total (Z.of_nat (length (collect docs [])))) s)
              _ eq_refl) as (s2 & E2 & M2).
  eexists. split; [by apply processBatch_run|]. unfold reports in M2. simpl in M2. by injection M2.
Qed.

(** ** The retry recursion from the first call *)

(** C11: A chunk whose first [k] calls of [addDocument] reject and whose
    next call fulfils, with [k] within the retry limit, is stored after
    waiting [retryDelay * 2^j] for [j = 0 .. k-1] (exponential
    back-off), counted once as processed, and gives [true]. *)
Theorem processChunkWithRetry_backoff c m (k : nat) s :
  (forall j, (j < k)%nat -> attempt c m j = false) -> attempt c m k = true ->
  Z.of_nat k <= retries_limit ->
  processChunkWithRetry retry_fuel c m 0 s =
  Some (inr true, {| metrics := chunk_done (elapsed c m) (metrics s);
                     sleeps := sleeps s ++ map (fun j => delay_base * 2 ^ Z.of_nat j) (seq 0 k);
                     stored := stored s ++ [(c, m)];
                     progress := progress s; calls := calls s |}).
Proof.
  intros Hf Ht Hl. apply (pcwr_success_from c m k 0); [intros j ?; apply Hf; lia|done|done|].
  unfold retry_fuel. lia.
Qed.

(** A chunk all of whose calls reject is retried [retries_limit]
    times with doubling delays, then counted as failed; the promise
    fulfils with [false] (it never rejects) and nothing is stored. *)
Theorem processChunkWithRetry_exhausted c m s :
  0 <= retries_limit ->
  (forall j, (j <= Z.to_nat retries_limit)%nat -> attempt c m j = false) ->
  processChunkWithRetry retry_fuel c m 0 s =
  Some (inr false, {| metrics := inc_failed 0 (metrics s);
                      sleeps := sleeps s ++ map (fun j => delay_base * 2 ^ Z.of_nat j)
                                                (seq 0 (Z.to_nat retries_limit));
                      stored := stored s; progress := progress s; calls := calls s |}).
Proof.
  intros _ Hf. apply (pcwr_exhausted_from c m (Z.to_nat retries_limit) 0); [done| |].
  - intros j ?. apply Hf. lia.
  - unfold retry_fuel. lia.
Qed.

(** C38: [processChunkWithRetry] always settles within [retry_fuel] calls,
    fulfilling (never rejecting) with [true] exactly when one of the
    calls fulfils. *)
Theorem processChunkWithRetry_settles c m s :
  exists s', processChunkWithRetry retry_fuel c m 0 s = Some (inr (succeeds c m), s').
Proof.
  destruct (pcwr_outcome c m (Z.to_nat retries_limit) 0 retry_fuel s) as (s' & E & _);
    [done|unfold retry_fuel; lia|].
  exists s'. exact E.
Qed.

(** ** The [chunkIndex] of stored chunks *)

Lemma collect_doc_chunks docs acc : collect docs acc = acc ++ doc_chunks (length acc) docs.
Proof.
  revert acc. induction docs as [|[t m] docs IH]; intros acc; simpl; [by rewrite app_nil_r|].
  rewrite IH, <- app_assoc, length_app, length_map. done.
Qed.

Lemma doc_chunks_elem n docs i t m c :
  docs !! i = Some (t, m) -> c ∈ split t ->
  (c, {| base := m; chunkIndex := Z.of_nat (n + length (concat (map (fun d => split d.1) (take i docs)))) |})
    ∈ doc_chunks n docs.
Proof.
  revert n i. induction docs as [|[t' m'] docs IH]; intros n i Hi Hc; [done|].
  destruct i as [|i]; simpl in *.
  - injection Hi as -> ->. apply elem_of_app. left. rewrite Nat.add_0_r.
    apply list_elem_of_In, in_map_iff. exists c. split; [done|by apply list_elem_of_In].
  - apply elem_of_app. right. rewrite length_app, Nat.add_assoc. by apply IH.
Qed.

(** Every chunk of the [i]-th document gets, as [chunkIndex], the
    number of chunks of the documents before it: [allChunks.length] is
    read once per document, so all chunks of a document share it. *)
Theorem collect_chunkIndex docs i t m c :
  docs !! i = Some (t, m) -> c ∈ split t ->
  (c, {| base := m; chunkIndex := Z.of_nat (length (concat (map (fun d => split d.1) (take i docs)))) |})
    ∈ collect docs [].
Proof. intros Hi Hc. rewrite collect_doc_chunks. simpl. by apply (doc_chunks_elem 0 docs i t m c). Qed.

(** ** [processLargeDocument] *)

Lemma oplus_assoc a b c : oplus a (oplus b c) = oplus (oplus a b) c.
Proof. unfold oplus. simpl. by rewrite app_assoc, cplus_assoc. Qed.

Lemma oplus_ozero a : oplus a ozero = a.
Proof. destruct a. unfold oplus. simpl. by rewrite app_nil_r, cplus_czero. Qed.

(** The global index [batchIndex * batchSize + chunkIndex] is the
    position of the chunk in the document. *)
Lemma concat_imap_chunks_aux {X Y} (f : nat -> X -> Y) (n k : nat) (xs : list X) :
  (0 < k)%nat -> (length xs <= n)%nat ->
  concat (imap (fun bi b => imap (fun ci c => f (bi * k + ci)%nat c) b) (chunks_aux n k xs)) =
  imap f xs.
Proof.
  revert f xs. induction n as [|n IH]; intros f xs Hk Hn.
  { destruct xs; [done|simpl in Hn; lia]. }
  destruct xs as [|y ys]; [done|]. cbn [chunks_aux]. rewrite imap_cons. simpl concat.
  rewrite <- (take_drop k (y :: ys)) at 3. rewrite imap_app.
  f_equal.
  destruct (decide (k <= length (y :: ys))%nat) as [Hle|Hgt].
  - rewrite length_take, Nat.min_l by done.
    rewrite <- (IH (fun j c => f (k + j)%nat c)); [|done|rewrite length_drop; simpl in *; lia].
    f_equal. apply imap_ext. intros bi b _. apply imap_ext. intros ci c _. simpl. f_equal. lia.
  - rewrite drop_ge by lia. by destruct n.
Qed.

Lemma foldr_oplus_chunk {X} (f : nat -> X -> string * Z) (l : list X) :
  foldr oplus ozero (imap (fun i x => ([f i x], (0, 1, 0, 0))) l) =
  (imap f l, (0, Z.of_nat (length l), 0, 0)).
Proof.
  revert f. induction l as [|x l IH]; intros f; [done|]. rewrite !imap_cons.
  change (imap ((fun i x => ([f i x], (0, 1, 0, 0))) ∘ S) l)
    with (imap (fun i x => ([(f ∘ S) i x], (0, 1, 0, 0))) l).
  cbn [foldr]. rewrite (IH (f ∘ S)). unfold oplus, cplus. simpl. tuple_eq.
Qed.

Lemma foldr_oplus_batches {X} (g : nat -> nat -> X -> string * Z) (bs : list (list X)) :
  foldr oplus ozero (imap (fun bi b => (imap (g bi) b, (0, Z.of_nat (length b), 0, 0))) bs) =
  (concat (imap (fun bi b => imap (g bi) b) bs), (0, Z.of_nat (length (concat bs)), 0, 0)).
Proof.
  revert g. induction bs as [|b bs IH]; intros g; [done|]. rewrite !imap_cons.
  change (imap ((fun bi b => (imap (g bi) b, (0, Z.of_nat (length b), 0, 0))) ∘ S) bs)
    with (imap (fun bi b => (imap ((g ∘ S) bi) b, (0, Z.of_nat (length b), 0, 0))) bs).
  change (imap ((fun bi b => imap (g bi) b) ∘ S) bs) with (imap (fun bi b => imap ((g ∘ S) bi) b) bs).
  cbn [foldr concat]. rewrite (IH (g ∘ S)). unfold oplus, cplus. simpl. rewrite length_app. tuple_eq.
Qed.

Lemma large_chunk_ok bs bi ci c :
  chunkProcessor c (bi * bs + ci) = true ->
  js_adds ld_obs oplus (large_chunk bs bi ci c) ([(c, bi * bs + ci)], (0, 1, 0, 0)).
Proof.
  intros Hc s r [= <-]. unfold large_chunk. js_unfold. simpl. rewrite Hc.
  eexists. split; [done|]. unfold ld_obs, oplus, cplus. simpl. tuple_eq.
Qed.

(** When every call of the [chunkProcessor] fulfils, the batch loop calls
    it on every chunk with its position and counts every chunk as
    processed. *)
Lemma large_batches_ok (k : nat) (cs : list string) :
  (0 < k)%nat ->
  (forall i c, cs !! i = Some c -> chunkProcessor c (Z.of_nat i) = true) ->
  js_adds ld_obs oplus
    (js_seq (imap (fun bi b => js_all (imap (fun ci c => large_chunk (Z.of_nat k) (Z.of_nat bi) (Z.of_nat ci) c) b))
                  (chunks k cs)))
    (imap (fun i c => (c, Z.of_nat i)) cs, (0, Z.of_nat (length cs), 0, 0)).
Proof.
  intros Hk Hok.
  set (g := fun (bi ci : nat) (c : string) => (c, Z.of_nat bi * Z.of_nat k + Z.of_nat ci)).
  assert (E : foldr oplus ozero
                (imap (fun bi b => foldr oplus ozero (imap (fun ci c => ([g bi ci c], (0, 1, 0, 0))) b))
                      (chunks k cs)) =
              (imap (fun i c => (c, Z.of_nat i)) cs, (0, Z.of_nat (length cs), 0, 0))).
  { rewrite (imap_ext _ (fun bi b => (imap (g bi) b, (0, Z.of_nat (length b), 0, 0))))
      by (intros; apply foldr_oplus_chunk).
    rewrite foldr_oplus_batches, concat_chunks by done. f_equal.
    rewrite <- (concat_imap_chunks_aux (fun i c => (c, Z.of_nat i)) (length cs) k cs) by done.
    f_equal. apply imap_ext. intros bi b _. apply imap_ext. intros ci c _. subst g. simpl.
    f_equal. lia. }
  rewrite <- E. apply (js_adds_seq _ _ ozero oplus_assoc oplus_ozero), Forall2_imap_same.
  intros bi b Hb. apply (js_adds_all _ _ ozero oplus_assoc oplus_ozero), Forall2_imap_same.
  intros ci c Hc. apply large_chunk_ok.
  replace (Z.of_nat bi * Z.of_nat k + Z.of_nat ci) with (Z.of_nat (bi * k + ci)) by lia.
  apply Hok. by apply (lookup_chunks_aux (length cs) k cs bi b ci c).
Qed.

(** C12: When every call of the [chunkProcessor] fulfils (and
    [batchSize] is positive), [processLargeDocument] calls it once on
    every chunk with the chunk's position in the document as global
    index, counts every chunk as processed, and resolves with
    [processingTime] the elapsed time and [averageChunkTime] its quotient
    by the processed chunks of the processor's whole life. *)
Theorem processLargeDocument_all_succeed fuel text now0 now1 s :
  1 <= js_or (Some (batchSize o)) 10 -> (length (split text) < fuel)%nat ->
  (forall i c, split text !! i = Some c -> chunkProcessor c (Z.of_nat i) = true) ->
  exists s', processLargeDocument fuel text now0 now1 s = Some (inr (metrics s'), s') /\
    calls s' = calls s ++ imap (fun i c => (c, Z.of_nat i)) (split text) /\
    totalChunks (metrics s') = Z.of_nat (length (split text)) /\
    processedChunks (metrics s') = processedChunks (metrics s) + Z.of_nat (length (split text)) /\
    failedChunks (metrics s') = failedChunks (metrics s) /\
    processingTime (metrics s') = now1 - now0 /\
    averageChunkTime (metrics s') =
      js_div (now1 - now0) (processedChunks (metrics s) + Z.of_nat (length (split text))).
Proof.
  intros Hb Hf Hok.
  set (bs := js_or (Some (batchSize o)) 10) in *.
  assert (Hbs : bs = Z.of_nat (Z.to_nat bs)) by lia.
  destruct (large_batches_ok (Z.to_nat bs) (split text) ltac:(lia) Hok
              (set_metrics (with_total (Z.of_nat (length (split text)))) s) _ eq_refl)
    as (s2 & E2 & M2).
  unfold processLargeDocument. js_unfold. fold bs.
  rewrite (slices_loop_chunks bs (split text) ltac:(lia) fuel 0) by lia. rewrite drop_0.
  rewrite <- Hbs in E2. rewrite E2.
  eexists. split; [reflexivity|].
  unfold ld_obs, oplus, cplus in M2. simpl in M2. injection M2 as Hc H1 H2 H3 H4.
  simpl. rewrite Hc, H2. repeat split; lia.
Qed.

Lemma large_chunk_appends bs bi ci c :
  js_appends calls (large_chunk bs bi ci c) [(c, bi * bs + ci)].
Proof.
  intros s. unfold large_chunk. js_unfold. simpl.
  destruct (chunkProcessor c _); simpl; [by eexists _, _|].
  destruct (_ <? _); by eexists _, _.
Qed.

(** When every chunk's processor resolves, [processLargeDocument]
    resolves, and the processor is called on each chunk with its index. *)
Lemma processLargeDocument_ok_calls fuel text now0 now1 s :
  1 <= js_or (Some (batchSize o)) 10 -> (length (split text) < fuel)%nat ->
  (forall i c, split text !! i = Some c -> chunkProcessor c (Z.of_nat i) = true) ->
  exists s', processLargeDocument fuel text now0 now1 s = Some (inr (metrics s'), s') /\
    calls s' = calls s ++ imap (fun i c => (c, Z.of_nat i)) (split text).
Proof.
  intros Hb Hf Hok.
  set (bs := js_or (Some (batchSize o)) 10) in *.
  assert (Hbs : bs = Z.of_nat (Z.to_nat bs)) by lia.
  destruct (large_batches_ok (Z.to_nat bs) (split text) ltac:(lia) Hok
              (set_metrics (with_total (Z.of_nat (length (split text)))) s) _ eq_refl)
    as (s2 & E2 & M2).
  unfold processLargeDocument. js_unfold. fold bs.
  rewrite (slices_loop_chunks bs (split text) ltac:(lia) fuel 0) by lia. rewrite drop_0.
  rewrite <- Hbs in E2. rewrite E2.
  eexists. split; [reflexivity|].
  unfold ld_obs, oplus in M2. simpl in M2. injection M2 as Hc. exact Hc.
Qed.

(** With a batch size of at least 1 and enough fuel for the slicing loop,
    [processLargeDocument] settles, whatever the processor's outcomes. *)
Lemma processLargeDocument_total fuel text now0 now1 :
  1 <= js_or (Some (batchSize o)) 10 -> (length (split text) < fuel)%nat ->
  js_total (processLargeDocument fuel text now0 now1).
Proof.
  intros Hb Hf s. unfold processLargeDocument. js_unfold.
  rewrite (slices_loop_chunks (js_or (Some (batchSize o)) 10) (split text) ltac:(lia) fuel 0)
    by lia. rewrite drop_0.
  assert (Ht : js_total (js_seq (imap (fun bi b => js_all (imap (fun ci c =>
                 large_chunk (js_or (Some (batchSize o)) 10) (Z.of_nat bi) (Z.of_nat ci) c) b))
                 (chunks (Z.to_nat (js_or (Some (batchSize o)) 10)) (split text))))).
  { apply js_total_seq, Forall_imap_intro. intros. apply js_total_all, Forall_imap_intro.
    intros. eapply js_appends_total, large_chunk_appends. }
  destruct (Ht (set_metrics (with_total (Z.of_nat (length (split text)))) s)) as ([e|[]] & s1 & ->);
    by eexists _, _.
Qed.

(** [retryCount] counts the failed chunks of the processor's whole
    life.  Once earlier calls have failed [maxRetries] chunks, the first
    failing chunk of a new document makes [processLargeDocument] reject
    with "Too many failed chunks": the first batch still runs to its end,
    later batches are never started, and the final metrics are not
    written. *)
Theorem processLargeDocument_rejects_after_earlier_failures fuel text now0 now1 s c0 rest :
  1 <= js_or (Some (batchSize o)) 10 -> (length (split text) < fuel)%nat ->
  split text = c0 :: rest -> chunkProcessor c0 0 = false ->
  retries_limit <= retryCount (metrics s) ->
  exists s', processLargeDocument fuel text now0 now1 s = Some (inl "Too many failed chunks", s') /\
    calls s' = calls s ++ imap (fun i c => (c, Z.of_nat i))
                               (take (Z.to_nat (js_or (Some (batchSize o)) 10)) (split text)).
Proof.
  intros Hb Hf Hs Hc Hr.
  set (bs := js_or (Some (batchSize o)) 10) in *.
  destruct (Z.to_nat bs) as [|k] eqn:Hk; [lia|].
  set (s1 := set_metrics (with_total (Z.of_nat (length (split text)))) s).
  set (rest_jobs := imap ((fun ci c => large_chunk bs (Z.of_nat 0) (Z.of_nat ci) c) ∘ S) (take k rest)).
  destruct (js_appends_all calls rest_jobs (imap (fun ci c => [(c, Z.of_nat 0 * bs + Z.of_nat (S ci))]) (take k rest))
              ltac:(apply Forall2_imap_same; intros; apply large_chunk_appends)
              (call (c0, 0) (set_metrics (inc_failed 1) s1)))
    as (r2 & s2 & E2 & O2).
  exists s2. split.
  - unfold processLargeDocument. js_unfold. fold bs s1.
    rewrite (slices_loop_chunks bs (split text) ltac:(lia) fuel 0) by lia. rewrite drop_0.
    rewrite Hk, Hs, chunks_cons by lia. rewrite imap_cons. simpl js_seq. js_unfold.
    assert (Ef : large_chunk bs (Z.of_nat 0) (Z.of_nat 0) c0 s1 =
                 Some (inl "Too many failed chunks", call (c0, 0) (set_metrics (inc_failed 1) s1))).
    { unfold large_chunk. js_unfold. replace (Z.of_nat 0 * bs + Z.of_nat 0) with 0 by lia.
      rewrite Hc. simpl. by rewrite (proj2 (Z.ltb_lt _ _)) by lia. }
    rewrite Ef. fold rest_jobs. by rewrite E2.
  - rewrite O2, foldr_app_imap_singletons, Hs. simpl. rewrite <- app_assoc. simpl.
    do 2 f_equal.
Qed.

(** [options.batchSize || 10] keeps a negative batch size, and the
    slicing loop of [processLargeDocument] ([i += batchSize]) then never
    ends on a non-empty document: no fuel is enough. *)
Theorem processLargeDocument_negative_batchSize_hangs fuel text now0 now1 s :
  js_or (Some (batchSize o)) 10 <= 0 -> split text <> [] ->
  processLargeDocument fuel text now0 now1 s = None.
Proof.
  intros Hb Hne. unfold processLargeDocument. js_unfold.
  by rewrite (slices_loop_diverges _ (split text) Hb Hne fuel 0) by lia.
Qed.

(** With a batch size below 1, [lodash.chunk] gives no batch, so
    [processBatch] resolves without storing any chunk: [totalChunks]
    counts the chunks, but none is processed or failed. *)
Theorem processBatch_nonpositive_batchSize_drops docs cb sched now0 now1 s :
  js_or (Some (batchSize o)) 10 < 1 -> 1 <= js_or (Some (concurrentBatches o)) 3 ->
  exists s', processBatch docs cb sched now0 now1 s = Some (inr (metrics s'), s') /\
    totalChunks (metrics s') = Z.of_nat (length (collect docs [])) /\
    processedChunks (metrics s') = processedChunks (metrics s) /\
    failedChunks (metrics s') = failedChunks (metrics s) /\
    stored s' = stored s.
Proof.
  intros Hb Hc. eexists. split.
  - apply processBatch_run; [done|].
    unfold lodash_chunk. rewrite (proj2 (Z.ltb_lt _ _) Hb). simpl.
    induction sched as [|i sched IH]; [done|]. simpl. rewrite IH. by destruct i.
  - done.
Qed.

End WithOracles.

(** [processBatch] does not reset the metrics: after two calls on
    the same processor with the same two documents, [processedChunks]
    counts four chunks while [totalChunks] says two. *)
Example processBatch_metrics_accumulate :
  let o := options_of no_options in
  let docs := [("a", tt); ("c", tt)] in
  match processBatch o ex_split1 ex_attempt (fun _ _ => 5) docs false [0%nat] 0 10 (@st0 unit) with
  | Some (inr _, s1) =>
      match processBatch o ex_split1 ex_attempt (fun _ _ => 5) docs false [0%nat] 10 20 s1 with
      | Some (inr m, _) => processedChunks m = 4 /\ totalChunks m = 2
      | _ => False
      end
  | _ => False
  end.
Proof. vm_compute. split; reflexivity. Qed.

(** ** Witnesses *)

Lemma processChunkWithRetry_backoff_witness :
  processChunkWithRetry (options_of no_options) (fun _ _ n => Nat.leb 2 n) (fun _ _ => 7)
    (retry_fuel (options_of no_options)) "c" {| base := tt; chunkIndex := 0 |} 0 (@st0 unit) =
  Some (inr true, {| metrics := chunk_done 7 (metrics (@st0 unit));
                     sleeps := sleeps (@st0 unit) ++ map (fun j => delay_base (options_of no_options) * 2 ^ Z.of_nat j) (seq 0 2);
                     stored := stored (@st0 unit) ++ [("c", {| base := tt; chunkIndex := 0 |})];
                     progress := progress (@st0 unit); calls := calls (@st0 unit) |}).
Proof.
  apply (processChunkWithRetry_backoff (options_of no_options) (fun _ _ n => Nat.leb 2 n) (fun _ _ => 7)
           "c" {| base := tt; chunkIndex := 0 |} 2 st0);
    [intros j Hj; apply Nat.leb_gt; lia|reflexivity|vm_compute; congruence].
Defined.

Lemma processChunkWithRetry_exhausted_witness :
  processChunkWithRetry (options_of (with_maxRetries 0)) (fun _ _ _ => false) (fun _ _ => 7)
    (retry_fuel (options_of (with_maxRetries 0))) "c" {| base := tt; chunkIndex := 0 |} 0 (@st0 unit) =
  Some (inr false, {| metrics := inc_failed 0 (metrics (@st0 unit));
                      sleeps := sleeps (@st0 unit) ++ map (fun j => delay_base (options_of (with_maxRetries 0)) * 2 ^ Z.of_nat j)
                                                  (seq 0 (Z.to_nat (retries_limit (options_of (with_maxRetries 0)))));
                      stored := stored (@st0 unit); progress := progress (@st0 unit); calls := calls (@st0 unit) |}).
Proof.
  apply (processChunkWithRetry_exhausted (options_of (with_maxRetries 0)) (fun _ _ _ => false) (fun _ _ => 7)
           "c" {| base := tt; chunkIndex := 0 |} st0); [vm_compute; congruence|done].
Defined.

Lemma collect_chunkIndex_witness :
  ("cd", {| base := tt; chunkIndex := Z.of_nat (length (concat (map (fun d => [d.1; d.1])
                                           (take 1 [("ab", tt); ("cd", tt)])))) |})
    ∈ collect (fun t => [t; t]) [("ab", tt); ("cd", tt)] [].
Proof. apply (collect_chunkIndex (fun t => [t; t]) _ 1 "cd" tt "cd"); [done|left]. Defined.

Lemma processBatch_counts_witness :
  let o := options_of (with_batchSize 1) in
  let docs := [("a", tt); ("b", tt)] in
  exists s', processBatch o ex_split1 ex_attempt (fun _ _ => 5) docs true [1%nat; 0%nat] 0 40 st0 =
               Some (inr (metrics s'), s') /\
    totalChunks (metrics s') = Z.of_nat (length (collect ex_split1 docs [])) /\
    processedChunks (metrics s') = processedChunks (metrics (@st0 unit)) +
      Z.of_nat (length (filter (fun cm => succeeds o ex_attempt cm.1 cm.2 = true) (collect ex_split1 docs []))) /\
    failedChunks (metrics s') = failedChunks (metrics (@st0 unit)) +
      Z.of_nat (length (filter (fun cm => succeeds o ex_attempt cm.1 cm.2 = false) (collect ex_split1 docs []))) /\
    retryCount (metrics s') = retryCount (metrics (@st0 unit)) /\
    processingTime (metrics s') = 40 - 0.
Proof.
  apply (processBatch_counts (options_of (with_batchSize 1)) ex_split1 ex_attempt (fun _ _ => 5));
    [vm_compute; congruence|vm_compute; congruence|vm_compute; apply perm_swap].
Defined.

Lemma processBatch_progress_witness :
  let o := options_of (with_batchSize 1) in
  let docs := [("a", tt); ("b", tt)] in
  exists s', processBatch o ex_split1 ex_attempt (fun _ _ => 5) docs true [1%nat; 0%nat] 0 40 st0 =
               Some (inr (metrics s'), s') /\
    map fst (progress s') = map fst (progress (@st0 unit)) ++
      map (fun i => progress_of i (length (lodash_chunk (js_or (Some (batchSize o)) 10) (collect ex_split1 docs []))))
          [1%nat; 0%nat].
Proof.
  apply (processBatch_progress (options_of (with_batchSize 1)) ex_split1 ex_attempt (fun _ _ => 5));
    [vm_compute; congruence|vm_compute; congruence|vm_compute; apply perm_swap].
Defined.

Lemma processLargeDocument_all_succeed_witness :
  let o := options_of (with_batchSize 2) in
  exists s', processLargeDocument o ex_split3 (fun _ _ => true) 10 "doc" 0 90 (@st0 unit) =
               Some (inr (metrics s'), s') /\
    calls s' = calls (@st0 unit) ++ imap (fun i c => (c, Z.of_nat i)) (ex_split3 "doc") /\
    totalChunks (metrics s') = Z.of_nat (length (ex_split3 "doc")) /\
    processedChunks (metrics s') = processedChunks (metrics (@st0 unit)) + Z.of_nat (length (ex_split3 "doc")) /\
    failedChunks (metrics s') = failedChunks (metrics (@st0 unit)) /\
    processingTime (metrics s') = 90 - 0 /\
    averageChunkTime (metrics s') =
      js_div (90 - 0) (processedChunks (metrics (@st0 unit)) + Z.of_nat (length (ex_split3 "doc"))).
Proof.
  apply (processLargeDocument_all_succeed (options_of (with_batchSize 2)) ex_split3 (fun _ _ => true));
    [vm_compute; congruence|vm_compute; lia|done].
Defined.

Lemma processLargeDocument_rejects_after_earlier_failures_witness :
  let o := options_of no_options in
  let s := {| metrics := inc_failed 1 (inc_failed 1 (inc_failed 1 zero_metrics));
              sleeps := []; stored := []; progress := []; calls := [] |} : @St unit in
  exists s', processLargeDocument o ex_split3 ex_processor 10 "doc" 0 90 s =
               Some (inl "Too many failed chunks", s') /\
    calls s' = calls s ++ imap (fun i c => (c, Z.of_nat i))
                               (take (Z.to_nat (js_or (Some (batchSize o)) 10)) (ex_split3 "doc")).
Proof.
  apply (processLargeDocument_rejects_after_earlier_failures (options_of no_options) ex_split3 ex_processor
           10 "doc" 0 90 _ "p" ["q"; "r"]); [vm_compute; congruence|vm_compute; lia|done|done|vm_compute; congruence].
Defined.

Lemma processLargeDocument_negative_batchSize_hangs_witness :
  processLargeDocument (options_of (with_batchSize (-1))) ex_split3 (fun _ _ => true) 1000 "doc" 0 90 (@st0 unit) =
  None.
Proof.
  apply processLargeDocument_negative_batchSize_hangs; [vm_compute; congruence|done].
Defined.

Lemma processBatch_nonpositive_batchSize_drops_witness :
  exists s', processBatch (options_of (with_batchSize (-1))) ex_split1 ex_attempt (fun _ _ => 5)
               [("a", tt); ("b", tt)] false [0%nat] 0 40 st0 = Some (inr (metrics s'), s') /\
    totalChunks (metrics s') = Z.of_nat (length (collect ex_split1 [("a", tt); ("b", tt)] [])) /\
    processedChunks (metrics s') = processedChunks (metrics (@st0 unit)) /\
    failedChunks (metrics s') = failedChunks (metrics (@st0 unit)) /\
    stored s' = stored (@st0 unit).
Proof.
  apply processBatch_nonpositive_batchSize_drops; vm_compute; congruence.
Defined.

End ChunkBatch.
