(* ===== verification/TtlCache.v ===== *)
(** * TtlCache: the in-memory [Cache] class of [src/unnamed/part_005]

    [Cache] keeps a JavaScript [Map] from string keys to entries
    [{value, timestamp}].  A [Map] remembers insertion order: [set] on an
    existing key keeps the key's position, and eviction in [set] deletes
    [this.cache.keys().next().value], the oldest inserted key, until the
    size drops below [maxSize].  The model keeps the [Map] as an
    association list in insertion order; [Date.now()] is an argument
    [now] of each operation, and the [setInterval] sweep is the operation
    [cleanup].  A [gmap] is the abstract map the list refines. *)

From S2P Require Import Prelude.

Local Open Scope Z_scope.

Module TtlCache.

(** [CacheOptions] (lines 1-5). *)
Record CacheOptions := {
  opt_enabled : option bool;
  opt_maxSize : option Z;
  opt_ttl : option Z;
}.

(** [CacheEntry<T>] (lines 7-10). *)
Record CacheEntry (V : Type) := mkEntry {
  value : V;
  timestamp : Z;
}.
Arguments mkEntry {V} _ _.
Arguments value {V} _.
Arguments timestamp {V} _.

(** The private fields of [Cache] (lines 12-16). *)
Record Cache (V : Type) := mkCache {
  cache : list (string * CacheEntry V);
  enabled : bool;
  maxSize : Z;
  ttl : Z;
}.
Arguments mkCache {V} _ _ _ _.
Arguments cache {V} _.
Arguments enabled {V} _.
Arguments maxSize {V} _.
Arguments ttl {V} _.

Section WithValue.

Context {V : Type}.

Abbreviation entries := (list (string * CacheEntry V)).

(** ** [Map] operations on the insertion-ordered list *)

(** [Map.prototype.get]. *)
Fixpoint map_get (k : string) (l : entries) : option (CacheEntry V) :=
  match l with
  | [] => None
  | (k', e) :: l' => if decide (k = k') then Some e else map_get k l'
  end.

(** [Map.prototype.set]: an existing key keeps its position. *)
Fixpoint map_set (k : string) (e : CacheEntry V) (l : entries) : entries :=
  match l with
  | [] => [(k, e)]
  | (k', e') :: l' => if decide (k = k') then (k, e) :: l' else (k', e') :: map_set k e l'
  end.

(** [Map.prototype.delete]. *)
Definition map_delete (k : string) (l : entries) : entries :=
  filter (fun p => p.1 <> k) l.

(** [this.cache.delete(this.cache.keys().next().value)]: on an empty
    [Map] the key is [undefined] and nothing is deleted. *)
Definition delete_first_key (l : entries) : entries :=
  match l with
  | [] => []
  | (k, _) :: _ => map_delete k l
  end.

(** The eviction loop of [set] (lines 47-50), [fuel] bounding its tests. *)
Fixpoint evict_oldest (fuel : nat) (max : Z) (l : entries) : option entries :=
  match fuel with
  | O => None
  | S f => if max <=? Z.of_nat (length l) then evict_oldest f max (delete_first_key l) else Some l
  end.

(** ** The [Cache] methods *)

(** The constructor (lines 18-26); the hourly [cleanup] timer is the
    operation [cleanup]. *)
Definition new_Cache (o : CacheOptions) : Cache V :=
  mkCache [] (default true (opt_enabled o)) (js_nullish (opt_maxSize o) 1000)
    (js_nullish (opt_ttl o) (24 * 60 * 60 * 1000)).

Definition with_entries (l : entries) (c : Cache V) : Cache V :=
  mkCache l (enabled c) (maxSize c) (ttl c).

(** [get] (lines 28-41): a miss, an expired entry (deleted), or a hit. *)
Definition get (key : string) (now : Z) (c : Cache V) : option V * Cache V :=
  if negb (enabled c) then (None, c) else
  match map_get key (cache c) with
  | None => (None, c)
  | Some e =>
      if ttl c <? now - timestamp e
      then (None, with_entries (map_delete key (cache c)) c)
      else (Some (value e), c)
  end.

(** [set] (lines 43-56); [None] when the eviction loop does not leave
    within [fuel] tests. *)
Definition set (fuel : nat) (key : string) (v : V) (now : Z) (c : Cache V)
  : option (Cache V) :=
  if negb (enabled c) then Some c else
  match evict_oldest fuel (maxSize c) (cache c) with
  | None => None
  | Some l => Some (with_entries (map_set key (mkEntry v now) l) c)
  end.

(** [delete] and [clear] (lines 58-64). *)
Definition delete (key : string) (c : Cache V) : Cache V :=
  with_entries (map_delete key (cache c)) c.

Definition clear (c : Cache V) : Cache V := with_entries [] c.

(** [cleanup] (lines 66-73): deleting during iteration of a [Map]
    visits every remaining entry once, so the loop is a filter. *)
Definition cleanup (now : Z) (c : Cache V) : Cache V :=
  with_entries (filter (fun p => now - timestamp p.2 <= ttl c) (cache c)) c.

(** [getStats] (lines 75-87). *)
Definition getStats (c : Cache V) : Z * Z * bool * Z :=
  (Z.of_nat (length (cache c)), maxSize c, enabled c, ttl c).

(** The fuel [set] needs: one test per entry and one for the exit. *)
Definition set_fuel (c : Cache V) : nat := S (length (cache c)).

(** ** Operations and reachable caches *)

Inductive op :=
  | OpGet (key : string) (now : Z)
  | OpSet (key : string) (v : V) (now : Z)
  | OpDelete (key : string)
  | OpClear
  | OpCleanup (now : Z).

Definition exec_op (o : op) (c : Cache V) : option (Cache V) :=
  match o with
  | OpGet k now => Some (get k now c).2
  | OpSet k v now => set (set_fuel c) k v now c
  | OpDelete k => Some (delete k c)
  | OpClear => Some (clear c)
  | OpCleanup now => Some (cleanup now c)
  end.

Inductive reachable (o0 : CacheOptions) : Cache V -> Prop :=
  | reach_new : reachable o0 (new_Cache o0)
  | reach_op c o c' : reachable o0 c -> exec_op o c = Some c' -> reachable o0 c'.

(** The well-formedness of a reachable cache: keys are distinct and the
    size never exceeds [maxSize]. *)
Definition cache_wf (c : Cache V) : Prop :=
  NoDup (map fst (cache c)) /\ Z.of_nat (length (cache c)) <= Z.max 0 (maxSize c).

(** The abstract map a cache denotes. *)
Definition abs (l : entries) : gmap string (CacheEntry V) := list_to_map l.

End WithValue.

Section Props.

Context {V : Type}.

Abbreviation entries := (list (string * CacheEntry V)).

Lemma map_get_set_eq k e (l : entries) : map_get k (map_set k e l) = Some e.
Proof.
  induction l as [|[k' e'] l IH]; simpl; [by rewrite decide_True|].
  case_decide; simpl; [by rewrite decide_True|]. by rewrite decide_False.
Qed.

Lemma map_get_set_ne k k' e (l : entries) :
  k <> k' -> map_get k' (map_set k e l) = map_get k' l.
Proof.
  intros Hne. induction l as [|[k2 e2] l IH]; simpl.
  - by rewrite decide_False.
  - case_decide; subst; simpl.
    + by rewrite !decide_False.
    + case_decide; [done|apply IH].
Qed.

Lemma map_get_delete_eq k (l : entries) : map_get k (map_delete k l) = None.
Proof.
  induction l as [|[k' e'] l IH]; [done|]. unfold map_delete in *.
  rewrite filter_cons. simpl. case_decide as H; simpl; [|done].
  rewrite decide_False; [done|congruence].
Qed.

Lemma keys_map_set k e (l : entries) :
  map fst (map_set k e l) =
    if decide (k ∈ map fst l) then map fst l else map fst l ++ [k].
Proof.
  induction l as [|[k' e'] l IH]; simpl; [done|].
  destruct (decide (k = k')) as [->|Hne]; simpl.
  - rewrite decide_True; [done|by left].
  - rewrite IH. destruct (decide (k ∈ map fst l)) as [Hin|Hin].
    + rewrite decide_True; [done|by right].
    + rewrite decide_False; [done|]. rewrite elem_of_cons. intuition.
Qed.

Lemma NoDup_keys_map_set k e (l : entries) :
  NoDup (map fst l) -> NoDup (map fst (map_set k e l)).
Proof.
  intros Hl. rewrite keys_map_set. case_decide; [done|].
  apply NoDup_app. split; [done|]. split; [|apply NoDup_singleton].
  intros x Hx ->%list_elem_of_singleton. contradiction.
Qed.

Lemma length_map_set k e (l : entries) :
  length (map_set k e l) = (if decide (k ∈ map fst l) then length l else S (length l))%nat.
Proof.
  rewrite <- (length_map fst (map_set k e l)), keys_map_set.
  case_decide; rewrite ?length_app, ?length_map; simpl; lia.
Qed.

Lemma keys_map_delete k (l : entries) :
  map fst (map_delete k l) = filter (fun x => x <> k) (map fst l).
Proof.
  induction l as [|[k' e'] l IH]; [done|]. unfold map_delete in *.
  simpl. rewrite !filter_cons. simpl. repeat case_decide; simpl; try tauto; by rewrite IH.
Qed.

Lemma NoDup_keys_map_delete k (l : entries) :
  NoDup (map fst l) -> NoDup (map fst (map_delete k l)).
Proof. intros Hl. rewrite keys_map_delete. by apply NoDup_filter. Qed.

Lemma length_map_delete_le k (l : entries) : (length (map_delete k l) <= length l)%nat.
Proof. apply length_filter. Qed.

Lemma map_delete_absent k (l : entries) : k ∉ map fst l -> map_delete k l = l.
Proof.
  induction l as [|[k' e'] l IH]; intros Hk; [done|]. unfold map_delete in *. simpl in *.
  rewrite filter_cons_True; [rewrite IH; [done|]|]; rewrite elem_of_cons in Hk; naive_solver.
Qed.

(** With distinct keys, deleting the first key drops exactly the head. *)
Lemma delete_first_key_tail (l : entries) :
  NoDup (map fst l) -> delete_first_key l = drop 1 l.
Proof.
  destruct l as [|[k e] l]; [done|]. intros Hnd. simpl in *.
  apply NoDup_cons in Hnd as [Hk _]. unfold map_delete.
  rewrite filter_cons_False; [|simpl; tauto]. by apply map_delete_absent.
Qed.

Lemma NoDup_keys_drop n (l : entries) : NoDup (map fst l) -> NoDup (map fst (drop n l)).
Proof. intros Hl. eapply NoDup_keys_sublist; [exact Hl|apply sublist_drop]. Qed.

Lemma map_get_delete_ne k k' (l : entries) :
  k <> k' -> map_get k' (map_delete k l) = map_get k' l.
Proof.
  intros Hne. induction l as [|[kx ex] l IH]; [done|]. unfold map_delete in *.
  rewrite filter_cons. simpl. case_decide as H; simpl.
  - case_decide; [done|apply IH].
  - assert (kx = k) as -> by (destruct (decide (kx = k)); tauto).
    rewrite decide_False; [apply IH|congruence].
Qed.

(** The eviction loop, on distinct keys and a positive [maxSize], drops
    the oldest entries until fewer than [maxSize] remain. *)
Lemma evict_oldest_drop max fuel (l : entries) :
  NoDup (map fst l) -> 0 < max -> (length l < fuel)%nat ->
  evict_oldest fuel max l = Some (drop (Z.to_nat (Z.of_nat (length l) - max + 1)) l).
Proof.
  revert l. induction fuel as [|f IH]; intros l Hnd Hmax Hf; [lia|]. simpl.
  destruct (Z.leb_spec max (Z.of_nat (length l))) as [Hle|Hlt].
  - destruct l as [|[k e] l]; [simpl in Hle; lia|].
    rewrite delete_first_key_tail by done. simpl in *.
    apply NoDup_cons in Hnd as [_ Hnd]. simpl in Hf. rewrite drop_0, (IH l Hnd Hmax ltac:(lia)).
    f_equal. simpl length. replace (Z.to_nat (Z.of_nat (S (length l)) - max + 1))
      with (S (Z.to_nat (Z.of_nat (length l) - max + 1))) by lia. done.
  - f_equal. replace (Z.to_nat (Z.of_nat (length l) - max + 1)) with 0%nat by lia.
    by rewrite drop_0.
Qed.

(** With a non-positive [maxSize] the eviction loop never leaves. *)
Lemma evict_oldest_diverges max fuel (l : entries) :
  max <= 0 -> evict_oldest fuel max l = None.
Proof.
  revert l. induction fuel as [|f IH]; intros l Hmax; [done|]. simpl.
  destruct (Z.leb_spec max (Z.of_nat (length l))); [by apply IH|lia].
Qed.

Lemma abs_lookup k (l : entries) : abs l !! k = map_get k l.
Proof.
  induction l as [|[k' e] l IH]; [done|]. unfold abs in *. rewrite list_to_map_cons. simpl.
  destruct (decide (k = k')) as [->|Hne].
  - by rewrite lookup_insert_eq.
  - by rewrite lookup_insert_ne.
Qed.

Lemma abs_map_set k e (l : entries) : abs (map_set k e l) = <[k := e]> (abs l).
Proof.
  apply map_eq. intros k'. rewrite abs_lookup. destruct (decide (k = k')) as [->|Hne].
  - by rewrite map_get_set_eq, lookup_insert_eq.
  - by rewrite map_get_set_ne, lookup_insert_ne, abs_lookup.
Qed.

Lemma abs_map_delete k (l : entries) : abs (map_delete k l) = base.delete k (abs l).
Proof.
  apply map_eq. intros k'. rewrite abs_lookup. destruct (decide (k = k')) as [->|Hne].
  - by rewrite map_get_delete_eq, lookup_delete_eq.
  - by rewrite map_get_delete_ne, lookup_delete_ne, abs_lookup.
Qed.

Lemma cache_wf_filter (c : Cache V) (P : string * CacheEntry V -> Prop) `{!forall x, Decision (P x)} :
  cache_wf c -> cache_wf (with_entries (filter P (cache c)) c).
Proof.
  intros [Hnd Hlen]. split; simpl.
  - eapply NoDup_keys_sublist; [exact Hnd|apply sublist_filter].
  - pose proof (length_filter P (cache c)). lia.
Qed.

Lemma set_result (c : Cache V) k v now :
  NoDup (map fst (cache c)) -> enabled c = true -> 0 < maxSize c ->
  set (set_fuel c) k v now c =
    Some (with_entries (map_set k (mkEntry v now)
            (drop (Z.to_nat (Z.of_nat (length (cache c)) - maxSize c + 1)) (cache c))) c).
Proof.
  intros Hnd Hen Hmax. unfold set. rewrite Hen. cbn [negb].
  by rewrite (evict_oldest_drop (maxSize c) (set_fuel c) (cache c) Hnd Hmax
                ltac:(unfold set_fuel; lia)).
Qed.

Lemma cache_wf_set (c : Cache V) k v now c' :
  cache_wf c -> set (set_fuel c) k v now c = Some c' -> cache_wf c'.
Proof.
  intros [Hnd Hlen] Hs. destruct (enabled c) eqn:Hen.
  2:{ unfold set in Hs. rewrite Hen in Hs. injection Hs as <-. by split. }
  destruct (Z.lt_ge_cases 0 (maxSize c)) as [Hmax|Hmax].
  2:{ unfold set in Hs. rewrite Hen, evict_oldest_diverges in Hs by done. done. }
  rewrite set_result in Hs by done. injection Hs as <-. split; simpl.
  - apply NoDup_keys_map_set, NoDup_keys_drop, Hnd.
  - rewrite length_map_set, length_drop. case_decide; lia.
Qed.

Lemma exec_op_wf (o : op (V:=V)) (c c' : Cache V) :
  cache_wf c -> exec_op o c = Some c' -> cache_wf c'.
Proof.
  intros Hwf. destruct o as [k now|k v now|k| |now]; simpl; intros Hs.
  - injection Hs as <-. unfold get. destruct (enabled c); [|done]. simpl.
    destruct (map_get k (cache c)); [|done].
    destruct (_ <? _); [by apply cache_wf_filter|done].
  - by eapply cache_wf_set.
  - injection Hs as <-. by apply cache_wf_filter.
  - injection Hs as <-. split; simpl; [constructor|lia].
  - injection Hs as <-. by apply cache_wf_filter.
Qed.

(** C6: a value [set] under [key] at time [t] is what [get] returns for
    [key] at any time [t'] with [t' - t <= ttl]. *)
Theorem set_get_roundtrip (c : Cache V) key v t t' :
  cache_wf c -> enabled c = true -> 0 < maxSize c -> t' - t <= ttl c ->
  exists c', set (set_fuel c) key v t c = Some c' /\ get key t' c' = (Some v, c').
Proof.
  intros [Hnd _] Hen Hmax Ht. rewrite set_result by done. eexists. split; [done|].
  unfold get. simpl. rewrite Hen, map_get_set_eq. simpl.
  destruct (Z.ltb_spec (ttl c) (t' - t)); [lia|done].
Qed.

(** once more than [ttl] has elapsed since [set], [get] misses and
    deletes the stale entry. *)
Theorem set_get_expired (c : Cache V) key v t t' :
  cache_wf c -> enabled c = true -> 0 < maxSize c -> ttl c < t' - t ->
  exists c', set (set_fuel c) key v t c = Some c' /\
    get key t' c' = (None, delete key c') /\ map_get key (cache (delete key c')) = None.
Proof.
  intros [Hnd _] Hen Hmax Ht. rewrite set_result by done. eexists. split; [done|].
  split; [|apply map_get_delete_eq].
  unfold get. simpl. rewrite Hen, map_get_set_eq. simpl.
  destruct (Z.ltb_spec (ttl c) (t' - t)); [done|lia].
Qed.

(** every cache reached from the constructor by [get], [set],
    [delete], [clear] and [cleanup] has distinct keys and at most
    [maxSize] entries. *)
Theorem reachable_cache_wf o0 (c : Cache V) : reachable o0 c -> cache_wf c.
Proof.
  induction 1 as [|c o c' _ IH Hs].
  - split; simpl; [constructor|lia].
  - by eapply exec_op_wf.
Qed.

(** with a non-positive [maxSize] (which [??] keeps from the options)
    [set] on an enabled cache never returns: the eviction loop tests
    [size >= maxSize] forever. *)
Theorem set_maxSize_nonpositive_hangs (c : Cache V) fuel key v now :
  enabled c = true -> maxSize c <= 0 -> set fuel key v now c = None.
Proof. intros Hen Hmax. unfold set. rewrite Hen. simpl. by rewrite evict_oldest_diverges. Qed.

(** on a full cache [set] evicts the oldest inserted entry, whatever
    the key being set and however recently the evicted entry was read. *)
Theorem set_full_evicts_oldest (c : Cache V) k0 e0 rest key v now :
  cache_wf c -> enabled c = true -> cache c = (k0, e0) :: rest ->
  Z.of_nat (length (cache c)) = maxSize c ->
  set (set_fuel c) key v now c = Some (with_entries (map_set key (mkEntry v now) rest) c).
Proof.
  intros [Hnd _] Hen Hc Hfull. rewrite set_result; [|done|done|rewrite Hc in Hfull; simpl in Hfull; lia].
  rewrite <- Hfull, Hc. replace (Z.to_nat _) with 1%nat by lia. done.
Qed.

(** outside eviction the cache is a finite map: [delete] is map
    deletion, a [get] hit or miss is decided by the map's entry, and a
    [set] on a non-full cache is map insertion. *)
Theorem cache_refines_map (c : Cache V) key v now :
  cache_wf c -> enabled c = true ->
  abs (cache (delete key c)) = base.delete key (abs (cache c)) /\
  (get key now c).1 = match abs (cache c) !! key with
                      | Some e => if ttl c <? now - timestamp e then None else Some (value e)
                      | None => None
                      end /\
  (Z.of_nat (length (cache c)) < maxSize c ->
   exists c', set (set_fuel c) key v now c = Some c' /\
     abs (cache c') = <[key := mkEntry v now]> (abs (cache c))).
Proof.
  intros [Hnd _] Hen. split; [|split].
  - apply abs_map_delete.
  - unfold get. rewrite Hen, abs_lookup. simpl. destruct (map_get key (cache c)); [|done].
    by destruct (_ <? _).
  - intros Hlt. rewrite set_result by (done || lia). eexists. split; [done|]. simpl.
    replace (Z.to_nat _) with 0%nat by lia. by rewrite drop_0, abs_map_set.
Qed.

End Props.

(** Eviction is by insertion order, not by use: in a cache of two
    entries, reading ["a"] and then overwriting the existing key ["b"]
    still evicts ["a"], and the cache shrinks to one entry. *)
Example set_overwrite_evicts_other :
  exists c1 c2 c3 : Cache nat,
    set 1 "a" 1%nat 0 (new_Cache {| opt_enabled := None; opt_maxSize := Some 2; opt_ttl := None |})
      = Some c1 /\
    set (set_fuel c1) "b" 2%nat 1 c1 = Some c2 /\
    get "a" 2 c2 = (Some 1%nat, c2) /\
    set (set_fuel c2) "b" 3%nat 3 c2 = Some c3 /\
    get "a" 4 c3 = (None, c3) /\ length (cache c3) = 1%nat.
Proof. do 3 eexists. repeat split; reflexivity. Qed.

(** ** Witnesses *)

Lemma set_get_roundtrip_witness :
  exists c', set 1 "k" 7%nat 0 (new_Cache {| opt_enabled := None; opt_maxSize := None; opt_ttl := Some 10 |})
               = Some c' /\ get "k" 10 c' = (Some 7%nat, c').
Proof.
  apply (set_get_roundtrip (new_Cache {| opt_enabled := None; opt_maxSize := None; opt_ttl := Some 10 |}));
    [split; simpl; [constructor|lia]|done|simpl; lia|simpl; lia].
Defined.

Lemma set_get_expired_witness :
  exists c', set 1 "k" 7%nat 0 (new_Cache {| opt_enabled := None; opt_maxSize := None; opt_ttl := Some 10 |})
               = Some c' /\ get "k" 11 c' = (None, delete "k" c') /\
             map_get "k" (cache (delete "k" c')) = None.
Proof.
  apply (set_get_expired (new_Cache {| opt_enabled := None; opt_maxSize := None; opt_ttl := Some 10 |}));
    [split; simpl; [constructor|lia]|done|simpl; lia|simpl; lia].
Defined.

Lemma reachable_cache_wf_witness :
  exists c : Cache nat,
    exec_op (OpSet "k" 7%nat 0) (new_Cache {| opt_enabled := None; opt_maxSize := Some 1; opt_ttl := None |})
      = Some c /\ cache_wf c.
Proof.
  eexists. split; [reflexivity|].
  apply (reachable_cache_wf {| opt_enabled := None; opt_maxSize := Some 1; opt_ttl := None |}).
  eapply (reach_op _ _ (OpSet "k" 7%nat 0)); [apply reach_new|reflexivity].
Defined.

Lemma set_maxSize_nonpositive_hangs_witness :
  set 1000 "k" 7%nat 0 (new_Cache {| opt_enabled := None; opt_maxSize := Some 0; opt_ttl := None |}) = None.
Proof. apply set_maxSize_nonpositive_hangs; [done|simpl; lia]. Defined.

Lemma set_full_evicts_oldest_witness :
  set 3 "c" 3%nat 5 (mkCache [("a", mkEntry 1%nat 0); ("b", mkEntry 2%nat 1)] true 2 100) =
  Some (with_entries (map_set "c" (mkEntry 3%nat 5) [("b", mkEntry 2%nat 1)])
          (mkCache [("a", mkEntry 1%nat 0); ("b", mkEntry 2%nat 1)] true 2 100)).
Proof.
  apply (set_full_evicts_oldest (mkCache [("a", mkEntry 1%nat 0); ("b", mkEntry 2%nat 1)] true 2 100)
           "a" (mkEntry 1%nat 0)); [|done|done|done].
  split; simpl; [|lia]. repeat constructor; set_solver.
Defined.

Lemma cache_refines_map_witness :
  abs (cache (delete "a" (mkCache [("a", mkEntry 1%nat 0)] true 2 100))) =
    base.delete "a" (abs (cache (mkCache [("a", mkEntry 1%nat 0)] true 2 100))) /\
  (get "a" 5 (mkCache [("a", mkEntry 1%nat 0)] true 2 100)).1 =
    match abs (cache (mkCache [("a", mkEntry 1%nat 0)] true 2 100)) !! "a" with
    | Some e => if 100 <? 5 - timestamp e then None else Some (value e)
    | None => None
    end /\
  (Z.of_nat 1 < 2 ->
   exists c', set 2 "a" 9%nat 5 (mkCache [("a", mkEntry 1%nat 0)] true 2 100) = Some c' /\
     abs (cache c') = <[ "a" := mkEntry 9%nat 5 ]> (abs (cache (mkCache [("a", mkEntry 1%nat 0)] true 2 100)))).
Proof.
  apply (cache_refines_map (mkCache [("a", mkEntry 1%nat 0)] true 2 100)); [|done].
  split; simpl; [repeat constructor; set_solver|lia].
Defined.

End TtlCache.
