(* ===== verification/NodeCache.v ===== *)
(** * NodeCache: the [node-cache] library as [CacheManager] uses it

    [node-cache] is not part of the repository; this model follows the
    library's documented behaviour (version 5).  The cache keeps a plain
    object [data] from keys to wrapped values [{ t, v }], where [t] is
    the expiry time in milliseconds ([0]: never), and statistics of hits,
    misses and keys.  The keys of [data] are in insertion order, which is
    the order of [keys()].

    - [get] checks the entry's expiry: an expired entry is deleted and
      counts as a miss.
    - [set] throws [ECACHEFULL] when a new key would exceed [maxKeys]
      ([-1] or less: no limit); an existing key keeps its position.
    - [del] and [flushAll] delete one key or all of them.
    - The [checkperiod] timer deletes every expired key.

    Time is an argument [now] (the [Date.now()] of the call).  The byte
    sizes [ksize] and [vsize] of the statistics are not modelled. *)

From S2P Require Import Prelude.

Local Open Scope Z_scope.

Module NodeCache.

(** The options [CacheManager] passes (smartCorrection.ts, lines
    276-281). *)
Record Options := {
  stdTTL : Z;
  checkperiod : Z;
  maxKeys : Z;
  useClones : bool;
}.

Record Stats := {
  hits : Z;
  misses : Z;
  keys : Z;
}.

Section WithValue.

Context {V : Type}.

(** A stored value with its expiry time. *)
Record Wrapped := { v : V; t : Z }.

Record NodeCache := {
  options : Options;
  data : list (string * Wrapped);
  stats : Stats;
}.

Definition new_NodeCache (o : Options) : NodeCache :=
  {| options := o; data := []; stats := {| hits := 0; misses := 0; keys := 0 |} |}.

Definition with_data (d : list (string * Wrapped)) (st : Stats) (c : NodeCache) : NodeCache :=
  {| options := options c; data := d; stats := st |}.

(** [_wrap(value, ttl)]: a [ttl] of [0] never expires, another [ttl] is
    in seconds from now, and no [ttl] takes [stdTTL]. *)
Definition livetime (o : Options) (now : Z) (ttl : option Z) : Z :=
  match ttl with
  | Some 0 => 0
  | Some x => now + x * 1000
  | None => if stdTTL o =? 0 then 0 else now + stdTTL o * 1000
  end.

(** [_check]: an entry is alive unless it has an expiry in the past. *)
Definition alive (now : Z) (w : Wrapped) : bool := (t w =? 0) || (now <=? t w).

(** [del(key)]. *)
Definition del (key : string) (c : NodeCache) : NodeCache :=
  match assoc_get key (data c) with
  | Some _ =>
      with_data (assoc_delete key (data c))
        {| hits := hits (stats c); misses := misses (stats c); keys := keys (stats c) - 1 |} c
  | None => c
  end.

(** [get(key)]: a live value counts a hit; an expired one is deleted,
    and it or an absent key counts a miss. *)
Definition get (key : string) (now : Z) (c : NodeCache) : option V * NodeCache :=
  let miss c' := with_data (data c')
                   {| hits := hits (stats c'); misses := misses (stats c') + 1;
                      keys := keys (stats c') |} c' in
  match assoc_get key (data c) with
  | Some w =>
      if alive now w
      then (Some (v w), with_data (data c) {| hits := hits (stats c) + 1; misses := misses (stats c);
                                             keys := keys (stats c) |} c)
      else (None, miss (del key c))
  | None => (None, miss c)
  end.

(** [set(key, value, ttl)]: [None] when it throws [ECACHEFULL]. *)
Definition set (key : string) (val : V) (ttl : option Z) (now : Z) (c : NodeCache)
  : option NodeCache :=
  let existent := bool_decide (key ∈ map fst (data c)) in
  if (-1 <? maxKeys (options c)) && (maxKeys (options c) <=? keys (stats c)) && negb existent
  then None
  else Some (with_data (assoc_set key {| v := val; t := livetime (options c) now ttl |} (data c))
               {| hits := hits (stats c); misses := misses (stats c);
                  keys := if existent then keys (stats c) else keys (stats c) + 1 |} c).

(** [keys()]. *)
Definition keys_of (c : NodeCache) : list string := map fst (data c).

(** [flushAll()]. *)
Definition flushAll (c : NodeCache) : NodeCache :=
  with_data [] {| hits := 0; misses := 0; keys := 0 |} c.

(** [getStats()]. *)
Definition getStats (c : NodeCache) : Stats := stats c.

(** The [checkperiod] timer ([_checkData]): each key is checked, and
    an expired one deleted. *)
Definition checkData (now : Z) (c : NodeCache) : NodeCache :=
  fold_left (fun c' p => if alive now p.2 then c' else del p.1 c') (data c) c.

(** The invariant of the library's bookkeeping: keys are distinct and
    [stats.keys] counts them. *)
Definition nc_wf (c : NodeCache) : Prop :=
  NoDup (map fst (data c)) /\ keys (stats c) = Z.of_nat (length (data c)).

(** ** Bookkeeping *)

Lemma del_wf key c : nc_wf c -> nc_wf (del key c).
Proof.
  intros [Hnd Hk]. unfold del. destruct (assoc_get key (data c)) eqn:E; [|done].
  split; simpl; [by apply NoDup_keys_assoc_delete|].
  rewrite length_assoc_delete, decide_True by (done || (apply assoc_get_elem; by eexists)).
  assert (length (data c) <> 0%nat) by (destruct (data c); [done|simpl; lia]). lia.
Qed.

Lemma get_wf key now c : nc_wf c -> nc_wf (get key now c).2.
Proof.
  intros Hwf. unfold get. destruct (assoc_get key (data c)); [|apply Hwf].
  destruct (alive now w); [apply Hwf|]. by apply del_wf.
Qed.

Lemma set_wf key val ttl now c c' : nc_wf c -> set key val ttl now c = Some c' -> nc_wf c'.
Proof.
  intros [Hnd Hk] Hs. unfold set in Hs. destruct (_ && _ && _); [done|]. injection Hs as <-.
  split; simpl; [by apply NoDup_keys_assoc_set|]. rewrite length_assoc_set.
  case_bool_decide; rewrite ?decide_True, ?decide_False by done; lia.
Qed.

Lemma flushAll_wf c : nc_wf (flushAll c).
Proof. split; [constructor|done]. Qed.

Lemma checkData_wf now c : nc_wf c -> nc_wf (checkData now c).
Proof.
  unfold checkData. generalize (data c). intros l. revert c.
  induction l as [|[k w] l IH]; intros c Hwf; [done|]. simpl. apply IH.
  destruct (alive now w); [done|]. by apply del_wf.
Qed.

(** ** Functional behaviour *)

Lemma get_hit key now c w :
  assoc_get key (data c) = Some w -> alive now w = true ->
  get key now c = (Some (v w), with_data (data c) {| hits := hits (stats c) + 1;
                     misses := misses (stats c); keys := keys (stats c) |} c).
Proof. intros E A. unfold get. by rewrite E, A. Qed.

Lemma get_absent key now c :
  assoc_get key (data c) = None ->
  get key now c = (None, with_data (data c) {| hits := hits (stats c);
                     misses := misses (stats c) + 1; keys := keys (stats c) |} c).
Proof. intros E. unfold get. by rewrite E. Qed.

Lemma set_full key val ttl now c :
  -1 < maxKeys (options c) -> maxKeys (options c) <= keys (stats c) -> key ∉ keys_of c ->
  set key val ttl now c = None.
Proof.
  intros H1 H2 H3. unfold set. rewrite bool_decide_false by done.
  rewrite (proj2 (Z.ltb_lt _ _) H1), (proj2 (Z.leb_le _ _) H2). done.
Qed.

Lemma set_data key val ttl now c c' :
  set key val ttl now c = Some c' ->
  data c' = assoc_set key {| v := val; t := livetime (options c) now ttl |} (data c) /\
  options c' = options c.
Proof. unfold set. cbv zeta. destruct (_ && _ && _); [done|]. by intros [= <-]. Qed.

Lemma set_room key val ttl now c :
  (maxKeys (options c) <= -1 \/ keys (stats c) < maxKeys (options c) \/ key ∈ keys_of c) ->
  exists c', set key val ttl now c = Some c'.
Proof.
  intros H. unfold set. cbv zeta. destruct (_ && _ && _) eqn:E; [|by eexists].
  apply andb_true_iff in E as [[H1 H2]%andb_true_iff H3%negb_true_iff].
  apply Z.ltb_lt in H1. apply Z.leb_le in H2. apply bool_decide_eq_false in H3.
  unfold keys_of in H. destruct H as [?|[?|?]]; [lia|lia|done].
Qed.

Lemma get_set_eq key val ttl now now' c c' :
  set key val ttl now c = Some c' ->
  alive now' {| v := val; t := livetime (options c) now ttl |} = true ->
  (get key now' c').1 = Some val.
Proof.
  intros Hs A. destruct (set_data _ _ _ _ _ _ Hs) as [Hd _].
  unfold get. rewrite Hd, assoc_get_set_eq, A. done.
Qed.

Lemma get_data key now c :
  data (get key now c).2 = data c \/ data (get key now c).2 = assoc_delete key (data c).
Proof.
  unfold get. destruct (assoc_get key (data c)) as [w|] eqn:E; [|by left].
  destruct (alive now w); [by left|]. right. unfold del. by rewrite E.
Qed.

(** A lookup of a key whose entry, if any, is alive: the data stay as
    they are. *)
Lemma get_alive key now c :
  (forall w, assoc_get key (data c) = Some w -> alive now w = true) ->
  exists st, get key now c = (v <$> assoc_get key (data c), with_data (data c) st c).
Proof.
  intros H. unfold get. destruct (assoc_get key (data c)) as [w|] eqn:E; [|by eexists].
  rewrite (H w eq_refl). by eexists.
Qed.

(** After a miss the key is absent: it was absent or has been deleted. *)
Lemma get_none_absent key now c c' :
  get key now c = (None, c') -> assoc_get key (data c') = None.
Proof.
  unfold get. cbv zeta. destruct (assoc_get key (data c)) as [w|] eqn:E.
  - destruct (alive now w); [congruence|]. intros [= <-]. unfold del. simpl. rewrite E. simpl.
    apply assoc_get_delete_eq.
  - intros [= <-]. exact E.
Qed.

End WithValue.

Arguments NodeCache : clear implicits.
Arguments Wrapped : clear implicits.

End NodeCache.
