(* ===== verification/CacheManager.v ===== *)
(** * CacheManager: the query cache of [src/src/utils/smartCorrection.ts]

    [CacheManager] (lines 240-426) wraps a [node-cache] instance (the
    model of [NodeCache.v]).

    - [get(query, filters, fetchFunction, ttl)] hashes the query and the
      filters into a key.  On a hit it increments the access counter
      kept under [key + "_metadata"].  On a miss it awaits
      [fetchFunction()] and stores the value and a fresh metadata
      record.  Any exception (a rejected fetch, a full cache) is caught,
      and the call returns [null].
    - [cleanCache] collects the [_accessCount] of the cached values,
      sorts the keys by it, and deletes the least accessed 30%.
    - A 5-minute interval calls [cleanCache] above 90% of [maxKeys].

    The only await is the fetch, so [get] is split in two steps:
    [get_begin] runs up to the await, and [get_end] runs from the fetch's
    settlement to the return.  [get] is the two run back to back.  The
    hash ([generateKey], a SHA-256 of the JSON of query and filters) is
    an oracle [hash].  So is the [_accessCount] property of a cached
    value of the caller's type, [data_access], and its update,
    [data_bump].  The thresholds [maxKeys * 0.7] and [maxKeys * 0.9] and
    [Math.floor(n * 0.3)] are computed exactly on integers. *)

From S2P Require Import Prelude NodeCache.
From Stdlib Require Import QArith Sorting.Sorted.

Local Open Scope Z_scope.

Module CacheManager.

(** [CacheConfig] (lines 244-249). *)
Record CacheConfig := {
  cfg_stdTTL : option Z;
  cfg_checkperiod : option Z;
  cfg_maxKeys : option Z;
  cfg_useClones : option bool;
}.

(** The private [metrics] (lines 268-273). *)
Record Metrics := {
  m_hits : Z;
  m_misses : Z;
  totalAccessTime : Z;
  queries : Z;
}.

(** [CacheMetrics] (lines 259-264); a quotient is a [js_div]. *)
Record CacheMetrics := {
  hitRate : option Q;
  missRate : option Q;
  averageAccessTime : option Q;
  totalQueries : Z;
}.

Definition zero_metrics : Metrics := {| m_hits := 0; m_misses := 0; totalAccessTime := 0; queries := 0 |}.

(** [`${key}_metadata`]. *)
Definition metaKey (key : string) : string := key ++ "_metadata".

(** The options given to [new NodeCache] (lines 276-281). *)
Definition nc_options (cfg : CacheConfig) : NodeCache.Options := {|
  NodeCache.stdTTL := js_or (cfg_stdTTL cfg) 3600;
  NodeCache.checkperiod := js_or (cfg_checkperiod cfg) 600;
  NodeCache.maxKeys := js_or (cfg_maxKeys cfg) 1000;
  NodeCache.useClones := default true (cfg_useClones cfg);
|}.

(** [updateMetrics(startTime)] (lines 398-402). *)
Definition updateMetrics (t0 t1 : Z) (m : Metrics) : Metrics :=
  {| m_hits := m_hits m; m_misses := m_misses m;
     totalAccessTime := totalAccessTime m + (t1 - t0); queries := queries m + 1 |}.

Definition inc_hits (m : Metrics) : Metrics :=
  {| m_hits := m_hits m + 1; m_misses := m_misses m; totalAccessTime := totalAccessTime m;
     queries := queries m |}.

Definition inc_misses (m : Metrics) : Metrics :=
  {| m_hits := m_hits m; m_misses := m_misses m + 1; totalAccessTime := totalAccessTime m;
     queries := queries m |}.

(** [getMetrics] (lines 404-411). *)
Definition getMetrics (m : Metrics) : CacheMetrics := {|
  hitRate := js_div (m_hits m) (m_hits m + m_misses m);
  missRate := js_div (m_misses m) (m_hits m + m_misses m);
  averageAccessTime := js_div (totalAccessTime m) (queries m);
  totalQueries := queries m;
|}.

(** Keep the pairs with the smallest counts first; ties keep their order
    ([Array.prototype.sort] is stable), lines 332-334. *)
Fixpoint insert_by_count (p : string * Z) (l : list (string * Z)) : list (string * Z) :=
  match l with
  | [] => [p]
  | q :: l' => if q.2 <=? p.2 then q :: insert_by_count p l' else p :: l
  end.

Definition sort_by_count (l : list (string * Z)) : list (string * Z) :=
  fold_left (fun acc p => insert_by_count p acc) l [].

(** Parameters of the examples: the query as its own key, caches of at
    most 2 and 10 keys, and values without an [_accessCount]. *)
Definition ex_hash (q : string) (_ : unit) : string := q.

Definition ex_cfg (n : Z) : CacheConfig :=
  {| cfg_stdTTL := None; cfg_checkperiod := None; cfg_maxKeys := Some n; cfg_useClones := None |}.

Definition no_access {X} (_ : X) : option Z := None.

Section WithTypes.

Context {V F : Type}.

(** The metadata record stored next to a value (lines 382-387). *)
Record Meta := { accessCount : Z; createdAt : Z; query : string; filters : F }.

(** A cached value: the caller's value or a metadata record. *)
Inductive CVal := Data (d : V) | MetaV (m : Meta).

(** The manager: its [node-cache] and its metrics. *)
Record CM := { cache : NodeCache.NodeCache CVal; metrics : Metrics }.

(** The constructor (lines 275-292); the interval of [setupAutoClean] is
    the operation [autoClean]. *)
Definition new_CacheManager (cfg : CacheConfig) : CM :=
  {| cache := NodeCache.new_NodeCache (nc_options cfg); metrics := zero_metrics |}.

Definition with_cache (nc : NodeCache.NodeCache CVal) (m : Metrics) : CM :=
  {| cache := nc; metrics := m |}.

(** The [fetchFunction] argument: absent, or a promise that fulfils with
    a value or rejects. *)
Inductive fetch := NoFetch | Resolves (v : V) | Rejects.

(** Where [get] stands at the await: returned, or waiting for the fetch
    of [key]. *)
Inductive begin_result := BDone (r : option CVal) | BPending (key : string).

Context (hash : string -> F -> string).
Context (data_access : V -> option Z).
Context (data_bump : V -> V).

(** [metadata._accessCount = (metadata._accessCount || 0) + 1]. *)
Definition bump (cv : CVal) : CVal :=
  match cv with
  | MetaV m => MetaV {| accessCount := js_or (Some (accessCount m)) 0 + 1; createdAt := createdAt m;
                        query := query m; filters := filters m |}
  | Data d => Data (data_bump d)
  end.

(** [get] up to the await (lines 349-378).  [now] is [Date.now()] and
    [t0], [t1] are the readings of [performance.now()] at the start and
    at a return before the await. *)
Definition get_begin (q : string) (f : F) (has_fetch : bool) (now t0 t1 : Z) (c : CM)
  : begin_result * CM :=
  let key := hash q f in
  let (r, nc1) := NodeCache.get key now (cache c) in
  match r with
  | Some val =>
      let (mr, nc2) := NodeCache.get (metaKey key) now nc1 in
      match mr with
      | Some md =>
          match NodeCache.set (metaKey key) (bump md) None now nc2 with
          | Some nc3 => (BDone (Some val), with_cache nc3 (updateMetrics t0 t1 (inc_hits (metrics c))))
          | None => (BDone None, with_cache nc2 (updateMetrics t0 t1 (metrics c)))
          end
      | None => (BDone (Some val), with_cache nc2 (updateMetrics t0 t1 (inc_hits (metrics c))))
      end
  | None =>
      if has_fetch then (BPending key, with_cache nc1 (inc_misses (metrics c)))
      else (BDone None, with_cache nc1 (updateMetrics t0 t1 (inc_misses (metrics c))))
  end.

(** [get] from the settlement of the fetch (lines 378-395): [None] is a
    rejected fetch.  A full cache makes either [set] throw; the error is
    caught and [null] returned. *)
Definition get_end (key q : string) (f : F) (fe : option V) (ttl : option Z) (now t0 t1 : Z)
  (c : CM) : option CVal * CM :=
  let m := updateMetrics t0 t1 (metrics c) in
  match fe with
  | None => (None, with_cache (cache c) m)
  | Some val =>
      match NodeCache.set key (Data val) ttl now (cache c) with
      | None => (None, with_cache (cache c) m)
      | Some nc1 =>
          let md := MetaV {| accessCount := 1; createdAt := now; query := q; filters := f |} in
          match NodeCache.set (metaKey key) md None now nc1 with
          | None => (None, with_cache nc1 m)
          | Some nc2 => (Some (Data val), with_cache nc2 m)
          end
      end
  end.

(** [get] without another call between the await and its end: the
    fetch settles at [now'], the call returns at [t1]. *)
Definition get (q : string) (f : F) (fe : fetch) (ttl : option Z) (now now' t0 t1 : Z) (c : CM)
  : option CVal * CM :=
  let has_fetch := match fe with NoFetch => false | _ => true end in
  match get_begin q f has_fetch now t0 t1 c with
  | (BDone r, c1) => (r, c1)
  | (BPending key, c1) =>
      get_end key q f (match fe with Resolves v => Some v | _ => None end) ttl now' t0 t1 c1
  end.

(** [value && value._accessCount] (line 326). *)
Definition access_of (cv : CVal) : option Z :=
  match cv with
  | Data d => data_access d
  | MetaV m => if accessCount m =? 0 then None else Some (accessCount m)
  end.

(** The [forEach] of lines 324-329: [get] each key (which deletes an
    expired one), keeping those whose value has an access count. *)
Fixpoint access_patterns (ks : list string) (now : Z) (nc : NodeCache.NodeCache CVal)
  : list (string * Z) * NodeCache.NodeCache CVal :=
  match ks with
  | [] => ([], nc)
  | k :: ks' =>
      let (r, nc1) := NodeCache.get k now nc in
      let (rest, nc2) := access_patterns ks' now nc1 in
      (match r with
       | Some cv => match access_of cv with Some n => (k, n) :: rest | None => rest end
       | None => rest
       end, nc2)
  end.

(** [cleanCache] (lines 314-341). *)
Definition cleanCache (now : Z) (c : CM) : CM :=
  let ks := NodeCache.keys_of (cache c) in
  if 10 * Z.of_nat (length ks) <=? 7 * js_or (Some (NodeCache.maxKeys (NodeCache.options (cache c)))) 1000
  then c
  else
    let (pats, nc1) := access_patterns ks now (cache c) in
    let sorted := map fst (sort_by_count pats) in
    let n := Z.to_nat ((3 * Z.of_nat (length sorted)) / 10) in
    with_cache (fold_left (fun nc k => NodeCache.del k nc) (take n sorted) nc1) (metrics c).

(** The interval of [setupAutoClean] (lines 306-311). *)
Definition autoClean (now : Z) (c : CM) : CM :=
  if 9 * js_or (Some (NodeCache.maxKeys (NodeCache.options (cache c)))) 1000
       <? 10 * NodeCache.keys (NodeCache.getStats (cache c))
  then cleanCache now c else c.

(** [getStats] and [clear] (lines 413-425). *)
Definition getStats (c : CM) : NodeCache.Stats := NodeCache.getStats (cache c).

Definition clear (c : CM) : CM := with_cache (NodeCache.flushAll (cache c)) zero_metrics.

(** The operations of the manager, and the [node-cache] check timer. *)
Inductive op :=
  | OpGet (q : string) (f : F) (fe : fetch) (ttl : option Z) (now now' t0 t1 : Z)
  | OpAutoClean (now : Z)
  | OpCheck (now : Z)
  | OpClear.

Definition exec_op (o : op) (c : CM) : CM :=
  match o with
  | OpGet q f fe ttl now now' t0 t1 => (get q f fe ttl now now' t0 t1 c).2
  | OpAutoClean now => autoClean now c
  | OpCheck now => with_cache (NodeCache.checkData now (cache c)) (metrics c)
  | OpClear => clear c
  end.

Inductive reachable (cfg : CacheConfig) : CM -> Prop :=
  | reach_new : reachable cfg (new_CacheManager cfg)
  | reach_op o c : reachable cfg c -> reachable cfg (exec_op o c).

(** ** The bookkeeping of the wrapped [node-cache] *)

Definition cm_wf (c : CM) : Prop := NodeCache.nc_wf (cache c).

Lemma get_begin_wf q f hf now t0 t1 c : cm_wf c -> cm_wf (get_begin q f hf now t0 t1 c).2.
Proof.
  unfold cm_wf, get_begin. intros Hwf.
  pose proof (NodeCache.get_wf (hash q f) now _ Hwf) as W1.
  destruct (NodeCache.get (hash q f) now (cache c)) as [[val|] nc1]; simpl in W1.
  - pose proof (NodeCache.get_wf (metaKey (hash q f)) now _ W1) as W2.
    destruct (NodeCache.get (metaKey (hash q f)) now nc1) as [[md|] nc2]; simpl in W2; [|done].
    destruct (NodeCache.set _ _ _ _ nc2) eqn:E; [|done]. by eapply NodeCache.set_wf.
  - by destruct hf.
Qed.

Lemma get_end_wf key q f fe ttl now t0 t1 c : cm_wf c -> cm_wf (get_end key q f fe ttl now t0 t1 c).2.
Proof.
  unfold cm_wf, get_end. intros Hwf. destruct fe as [val|]; [|done].
  destruct (NodeCache.set key _ _ _ _) as [nc1|] eqn:E1; [|done].
  pose proof (NodeCache.set_wf _ _ _ _ _ _ Hwf E1) as W1.
  destruct (NodeCache.set (metaKey key) _ _ _ nc1) eqn:E2; [|done]. by eapply NodeCache.set_wf.
Qed.

Lemma cm_get_wf q f fe ttl now now' t0 t1 c : cm_wf c -> cm_wf (get q f fe ttl now now' t0 t1 c).2.
Proof.
  intros Hwf. unfold get. pose proof (get_begin_wf q f (match fe with NoFetch => false | _ => true end) now t0 t1 c Hwf) as W.
  destruct (get_begin _ _ _ _ _ _ _) as [[r|key] c1]; [done|]. by apply get_end_wf.
Qed.

Lemma access_patterns_wf ks now (nc : NodeCache.NodeCache CVal) :
  NodeCache.nc_wf nc -> NodeCache.nc_wf (access_patterns ks now nc).2.
Proof.
  revert nc. induction ks as [|k ks IH]; intros nc Hwf; [done|]. simpl.
  pose proof (NodeCache.get_wf k now nc Hwf) as W.
  destruct (NodeCache.get k now nc) as [r nc1]. specialize (IH nc1 W).
  destruct (access_patterns ks now nc1). done.
Qed.

Lemma fold_del_wf ks (nc : NodeCache.NodeCache CVal) :
  NodeCache.nc_wf nc -> NodeCache.nc_wf (fold_left (fun nc k => NodeCache.del k nc) ks nc).
Proof.
  revert nc. induction ks as [|k ks IH]; intros nc Hwf; [done|]. simpl. by apply IH, NodeCache.del_wf.
Qed.

Lemma cleanCache_wf now c : cm_wf c -> cm_wf (cleanCache now c).
Proof.
  unfold cm_wf, cleanCache. intros Hwf. destruct (_ <=? _); [done|].
  pose proof (access_patterns_wf (NodeCache.keys_of (cache c)) now _ Hwf) as W.
  destruct (access_patterns _ _ _). by apply fold_del_wf.
Qed.

Lemma cm_exec_op_wf o c : cm_wf c -> cm_wf (exec_op o c).
Proof.
  intros Hwf. destruct o; simpl.
  - by apply cm_get_wf.
  - unfold autoClean. destruct (_ <? _); [by apply cleanCache_wf|done].
  - by apply NodeCache.checkData_wf.
  - apply NodeCache.flushAll_wf.
Qed.

(** In every reachable state of the manager, the keys of the wrapped
    [node-cache] are distinct and its [keys] statistic counts them. *)
Theorem reachable_cm_wf cfg c : reachable cfg c -> cm_wf c.
Proof.
  induction 1 as [|o c _ IH]; [split; [constructor|done]|]. by apply cm_exec_op_wf.
Qed.

(** ** [get] *)

Lemma string_append_ne (s t : string) : t <> EmptyString -> (s ++ t)%string <> s.
Proof.
  intros Ht. induction s as [|a s IH]; simpl; [done|]. intros E. injection E. done.
Qed.

Lemma metaKey_ne key : metaKey key <> key.
Proof. apply string_append_ne. done. Qed.

Lemma keys_get key now (nc : NodeCache.NodeCache CVal) :
  assoc_get key (NodeCache.data nc) = None ->
  NodeCache.get key now nc = (None, NodeCache.with_data (NodeCache.data nc)
    {| NodeCache.hits := NodeCache.hits (NodeCache.stats nc);
       NodeCache.misses := NodeCache.misses (NodeCache.stats nc) + 1;
       NodeCache.keys := NodeCache.keys (NodeCache.stats nc) |} nc).
Proof. apply NodeCache.get_absent. Qed.

Lemma set_existing key cv ttl now (nc : NodeCache.NodeCache CVal) :
  key ∈ NodeCache.keys_of nc -> exists nc', NodeCache.set key cv ttl now nc = Some nc'.
Proof. intros H. apply NodeCache.set_room. by right; right. Qed.

(** A miss whose fetch fulfils and fits stores the value and its
    metadata. *)
Lemma get_miss_store q f val ttl now now' t0 t1 c :
  assoc_get (hash q f) (NodeCache.data (cache c)) = None ->
  (NodeCache.maxKeys (NodeCache.options (cache c)) <= -1 \/
   NodeCache.keys (NodeCache.stats (cache c)) + 2 <= NodeCache.maxKeys (NodeCache.options (cache c))) ->
  exists c1, get q f (Resolves val) ttl now now' t0 t1 c = (Some (Data val), c1) /\
    assoc_get (hash q f) (NodeCache.data (cache c1)) =
      Some {| NodeCache.v := Data val; NodeCache.t := NodeCache.livetime (NodeCache.options (cache c)) now' ttl |} /\
    NodeCache.options (cache c1) = NodeCache.options (cache c).
Proof.
  intros Hk Hroom. unfold get, get_begin. rewrite keys_get by done. cbn -[NodeCache.set].
  match goal with |- context [NodeCache.set ?k ?cv ?tt ?n ?nc] =>
    destruct (NodeCache.set_room k cv tt n nc) as [nc1 E1]; [simpl; lia|] end.
  rewrite E1. destruct (NodeCache.set_data _ _ _ _ _ _ E1) as [D1 O1].
  destruct (NodeCache.set_room (metaKey (hash q f))
              (MetaV {| accessCount := 1; createdAt := now'; query := q; filters := f |}) None now' nc1)
    as [nc2 E2].
  { unfold NodeCache.set in E1. cbv zeta in E1. destruct (_ && _ && _); [done|].
    injection E1 as <-. cbn. case_bool_decide as Hin.
    { exfalso. apply assoc_get_elem in Hin as [? Hin]. cbn in Hin. congruence. }
    destruct Hroom; [left|right; left]; cbn; lia. }
  rewrite E2. eexists. split; [done|].
  destruct (NodeCache.set_data _ _ _ _ _ _ E2) as [D2 O2]. simpl. rewrite D2, O2, O1.
  rewrite assoc_get_set_ne by apply not_eq_sym, metaKey_ne. rewrite D1, assoc_get_set_eq. done.
Qed.

(** A [get] whose fetch fulfils stores the value: a later [get] of
    the same query and filters, while the entry lives, returns it from
    the cache without fetching, whatever its own [fetchFunction] is. *)
Theorem get_set_roundtrip q f val ttl now now' t0 t1 c fe' ttl' now2 now2' t2 t3 :
  assoc_get (hash q f) (NodeCache.data (cache c)) = None ->
  (NodeCache.maxKeys (NodeCache.options (cache c)) <= -1 \/
   NodeCache.keys (NodeCache.stats (cache c)) + 2 <= NodeCache.maxKeys (NodeCache.options (cache c))) ->
  NodeCache.alive now2 {| NodeCache.v := Data val;
                          NodeCache.t := NodeCache.livetime (NodeCache.options (cache c)) now' ttl |} = true ->
  exists c1, get q f (Resolves val) ttl now now' t0 t1 c = (Some (Data val), c1) /\
    (get q f fe' ttl' now2 now2' t2 t3 c1).1 = Some (Data val).
Proof.
  intros Hk Hroom Ha. destruct (get_miss_store q f val ttl now now' t0 t1 c Hk Hroom) as (c1 & E & G & O).
  exists c1. split; [done|]. unfold get, get_begin.
  rewrite (NodeCache.get_hit _ _ _ _ G) by done. cbn -[NodeCache.get NodeCache.set].
  destruct (NodeCache.get (metaKey (hash q f)) now2 _) as [[md|] nc2] eqn:Em; [|done].
  destruct (set_existing (metaKey (hash q f)) (bump md) None now2 nc2) as [nc3 ->]; [|done].
  destruct (NodeCache.get_data (metaKey (hash q f)) now2
              (NodeCache.with_data (NodeCache.data (cache c1)) {| NodeCache.hits := NodeCache.hits (NodeCache.stats (cache c1)) + 1;
                   NodeCache.misses := NodeCache.misses (NodeCache.stats (cache c1));
                   NodeCache.keys := NodeCache.keys (NodeCache.stats (cache c1)) |} (cache c1))) as [Hd|Hd];
    rewrite Em in Hd; simpl in Hd; unfold NodeCache.keys_of; rewrite Hd.
  - revert Em. unfold NodeCache.get. cbn [NodeCache.data NodeCache.with_data].
    destruct (assoc_get (metaKey (hash q f)) (NodeCache.data (cache c1))) eqn:Eg; [|congruence].
    intros _. apply assoc_get_elem. by eexists.
  - exfalso. revert Em. unfold NodeCache.get. cbv zeta. cbn [NodeCache.data NodeCache.with_data].
    destruct (assoc_get (metaKey (hash q f)) (NodeCache.data (cache c1))) eqn:Eg; [|congruence].
    intros Em. destruct (NodeCache.alive now2 w); [injection Em as <- <-|congruence]. simpl in Hd.
    apply (f_equal (assoc_get (metaKey (hash q f)))) in Hd. rewrite assoc_get_delete_eq in Hd. congruence.
Qed.

(** On a full cache ([maxKeys] keys, a limit set), a miss still
    calls [fetchFunction], but storing the fetched value throws
    [ECACHEFULL]: [get] returns [null], nothing is stored, and the miss
    and the query are counted. *)
Theorem get_full_drops_fetched q f val ttl now now' t0 t1 c :
  -1 < NodeCache.maxKeys (NodeCache.options (cache c)) <= NodeCache.keys (NodeCache.stats (cache c)) ->
  assoc_get (hash q f) (NodeCache.data (cache c)) = None ->
  exists c1, get q f (Resolves val) ttl now now' t0 t1 c = (None, c1) /\
    NodeCache.data (cache c1) = NodeCache.data (cache c) /\
    m_misses (metrics c1) = m_misses (metrics c) + 1 /\ queries (metrics c1) = queries (metrics c) + 1.
Proof.
  intros Hfull Hk. unfold get, get_begin. rewrite keys_get by done. cbn -[NodeCache.set].
  rewrite NodeCache.set_full; [by eexists| simpl; lia|simpl; lia|].
  unfold NodeCache.keys_of. simpl. intros Hin%assoc_get_elem. rewrite Hk in Hin. by destruct Hin.
Qed.

(** Concurrent [get]s of the same missing query are not
    deduplicated: a second call that starts while the first awaits its
    fetch misses too and fetches again. *)
Theorem get_concurrent_misses_both_fetch q f now t0 t1 now2 t2 t3 c c1 key :
  get_begin q f true now t0 t1 c = (BPending key, c1) ->
  exists c2, get_begin q f true now2 t2 t3 c1 = (BPending key, c2).
Proof.
  unfold get_begin. destruct (NodeCache.get (hash q f) now (cache c)) as [[val|] nc1] eqn:E.
  { destruct (NodeCache.get (metaKey _) _ _) as [[md|] nc2]; [destruct (NodeCache.set _ _ _ _ _)|];
      intros; congruence. }
  intros [= <- <-]. simpl. pose proof (NodeCache.get_none_absent _ _ _ _ E) as Hn.
  rewrite keys_get by done. by eexists.
Qed.

(** ** [cleanCache] *)

Lemma insert_by_count_perm p l : insert_by_count p l ≡ₚ p :: l.
Proof.
  induction l as [|q l IH]; simpl; [done|]. destruct (q.2 <=? p.2); [|done].
  rewrite IH. apply perm_swap.
Qed.

Lemma sort_by_count_perm l : sort_by_count l ≡ₚ l.
Proof.
  unfold sort_by_count. cut (forall acc, fold_left (fun acc p => insert_by_count p acc) l acc ≡ₚ l ++ acc).
  { intros H. rewrite H. by rewrite app_nil_r. }
  induction l as [|p l IH]; intros acc; simpl; [done|].
  rewrite IH, insert_by_count_perm. symmetry. apply Permutation_middle.
Qed.

(** A live binding whose value has no access count survives the scan of
    [cleanCache] and is not among the keys it collects. *)
Lemma access_patterns_keep ks now (nc : NodeCache.NodeCache CVal) k w :
  assoc_get k (NodeCache.data nc) = Some w -> NodeCache.alive now w = true ->
  access_of (NodeCache.v w) = None ->
  assoc_get k (NodeCache.data (access_patterns ks now nc).2) = Some w /\
  k ∉ map fst (access_patterns ks now nc).1.
Proof.
  revert nc. induction ks as [|k' ks IH]; intros nc Hk Ha Hacc; simpl; [split; [done|apply not_elem_of_nil]|].
  destruct (NodeCache.get k' now nc) as [r nc1] eqn:Eg.
  assert (Hk1 : assoc_get k (NodeCache.data nc1) = Some w /\ (k = k' -> r = Some (NodeCache.v w))).
  { destruct (decide (k = k')) as [<-|Hne].
    - rewrite (NodeCache.get_hit _ _ _ _ Hk Ha) in Eg. injection Eg as <- <-. by split.
    - split; [|done]. destruct (NodeCache.get_data k' now nc) as [Hd|Hd]; rewrite Eg in Hd; simpl in Hd;
        rewrite Hd; [done|by rewrite assoc_get_delete_ne]. }
  destruct Hk1 as [Hk1 Hr]. destruct (IH nc1 Hk1 Ha Hacc) as [IH1 IH2].
  destruct (access_patterns ks now nc1) as [rest nc2]. simpl in *. split; [done|].
  destruct r as [cv|]; [|done]. destruct (access_of cv) eqn:Ea; [|done].
  simpl. rewrite elem_of_cons. intros [->|]; [|done].
  specialize (Hr eq_refl). injection Hr as ->. congruence.
Qed.

Lemma fold_del_keep ks k (nc : NodeCache.NodeCache CVal) :
  k ∉ ks ->
  assoc_get k (NodeCache.data (fold_left (fun nc k => NodeCache.del k nc) ks nc)) =
  assoc_get k (NodeCache.data nc).
Proof.
  revert nc. induction ks as [|k' ks IH]; intros nc Hk; [done|]. simpl.
  rewrite elem_of_cons in Hk. rewrite IH by tauto. unfold NodeCache.del.
  destruct (assoc_get k' _); [|done]. simpl. apply assoc_get_delete_ne. tauto.
Qed.

(** [cleanCache] never evicts a cached value: it sorts the keys
    whose value has an [_accessCount], but the counts live in the
    [_metadata] records, so a live value without its own [_accessCount]
    stays in the cache; only metadata records are deleted. *)
Theorem cleanCache_keeps_values now c k w d :
  assoc_get k (NodeCache.data (cache c)) = Some w -> NodeCache.v w = Data d ->
  data_access d = None -> NodeCache.alive now w = true ->
  assoc_get k (NodeCache.data (cache (cleanCache now c))) = Some w.
Proof.
  intros Hk Hv Hd Ha. unfold cleanCache. destruct (_ <=? _); [done|].
  assert (Hacc : access_of (NodeCache.v w) = None) by (by rewrite Hv).
  destruct (access_patterns_keep (NodeCache.keys_of (cache c)) now _ k w Hk Ha Hacc) as [H1 H2].
  destruct (access_patterns _ _ _) as [pats nc1]. simpl in *.
  rewrite fold_del_keep; [done|]. intros Hin. apply elem_of_take in Hin as (i & Hi & _).
  apply list_elem_of_lookup_2 in Hi. apply H2.
  by rewrite <- (Permutation_map fst (sort_by_count_perm pats)).
Qed.

Lemma insert_by_count_sorted p l :
  Sorted (fun a b : string * Z => a.2 <= b.2) l ->
  Sorted (fun a b : string * Z => a.2 <= b.2) (insert_by_count p l).
Proof.
  induction 1 as [|q l Hs IH Hhd]; simpl; [repeat constructor|].
  destruct (Z.leb_spec q.2 p.2).
  - constructor; [done|]. destruct l as [|r l]; simpl; [constructor; lia|].
    inversion Hhd; subst. destruct (r.2 <=? p.2); constructor; lia.
  - constructor; [by constructor|]. constructor. lia.
Qed.

Lemma sort_by_count_sorted l : Sorted (fun a b : string * Z => a.2 <= b.2) (sort_by_count l).
Proof.
  unfold sort_by_count. cut (forall acc, Sorted (fun a b : string * Z => a.2 <= b.2) acc ->
    Sorted (fun a b : string * Z => a.2 <= b.2) (fold_left (fun acc p => insert_by_count p acc) l acc)).
  { intros H. apply H. constructor. }
  induction l as [|p l IH]; intros acc Hacc; simpl; [done|]. by apply IH, insert_by_count_sorted.
Qed.

Lemma StronglySorted_app_le {X} (R : X -> X -> Prop) (l1 l2 : list X) :
  StronglySorted R (l1 ++ l2) -> forall x y, x ∈ l1 -> y ∈ l2 -> R x y.
Proof.
  induction l1 as [|a l1 IH]; intros Hs x y Hx Hy; [by apply not_elem_of_nil in Hx|].
  simpl in Hs. apply StronglySorted_inv in Hs as [Hs Hall].
  apply elem_of_cons in Hx as [->|Hx]; [|by apply IH].
  rewrite List.Forall_forall in Hall. apply Hall, in_or_app. right. by apply list_elem_of_In.
Qed.

(** The keys [cleanCache] deletes are the least accessed of those it
    collected: the order of [sort((a, b) => a[1] - b[1])] puts every
    deleted count at most every kept count. *)
Theorem cleanCache_deletes_least_accessed (pats : list (string * Z)) (n : nat) p1 p2 :
  p1 ∈ take n (sort_by_count pats) -> p2 ∈ drop n (sort_by_count pats) -> p1.2 <= p2.2.
Proof.
  intros H1 H2. eapply (StronglySorted_app_le (fun a b : string * Z => a.2 <= b.2)); [|done|done].
  rewrite take_drop. apply Sorted_StronglySorted; [intros ???; lia|apply sort_by_count_sorted].
Qed.

End WithTypes.

(** ** Examples *)

(** [cleanCache] does not bring a full cache back to 70% of
    [maxKeys]: after five cached queries in a cache of 10 keys (five
    values and five metadata records), it deletes one metadata record
    and leaves 9 keys, every value still cached. *)
Example cleanCache_leaves_cache_above_70 :
  let c := fold_left (fun c q => exec_op ex_hash no_access id (OpGet q tt (Resolves 1%Z) None 0 0 0 0) c)
             ["a"; "b"; "c"; "d"; "e"] (@new_CacheManager Z unit (ex_cfg 10)) in
  NodeCache.keys (NodeCache.stats (cache c)) = 10 /\
  NodeCache.keys_of (cache (cleanCache no_access 0 c)) =
    ["a"; "b"; "b_metadata"; "c"; "c_metadata"; "d"; "d_metadata"; "e"; "e_metadata"].
Proof. vm_compute. split; reflexivity. Qed.

Lemma reachable_cm_wf_witness :
  cm_wf (exec_op ex_hash no_access id (OpGet "a" tt (Resolves 1%Z) None 0 0 0 0)
           (@new_CacheManager Z unit (ex_cfg 10))).
Proof. apply (reachable_cm_wf ex_hash no_access id (ex_cfg 10)). apply reach_op, reach_new. Defined.

Lemma get_set_roundtrip_witness :
  exists c1, get ex_hash id "a" tt (Resolves 1%Z) None 0 0 0 0 (@new_CacheManager Z unit (ex_cfg 10)) =
               (Some (Data 1%Z), c1) /\
    (get ex_hash id "a" tt NoFetch None 1000 1000 5 6 c1).1 = Some (Data 1%Z).
Proof.
  apply (get_set_roundtrip ex_hash id "a" tt 1%Z None 0 0 0 0 (new_CacheManager (ex_cfg 10)) NoFetch None 1000 1000 5 6);
    [reflexivity|right; vm_compute; congruence|reflexivity].
Defined.

Lemma get_full_drops_fetched_witness :
  let c := (get ex_hash id "a" tt (Resolves 1%Z) None 0 0 0 0 (@new_CacheManager Z unit (ex_cfg 2))).2 in
  exists c1, get ex_hash id "b" tt (Resolves 2%Z) None 5 5 5 5 c = (None, c1) /\
    NodeCache.data (cache c1) = NodeCache.data (cache c) /\
    m_misses (metrics c1) = m_misses (metrics c) + 1 /\ queries (metrics c1) = queries (metrics c) + 1.
Proof. apply get_full_drops_fetched; [vm_compute; split; congruence|reflexivity]. Defined.

Lemma get_concurrent_misses_both_fetch_witness :
  exists c2, get_begin ex_hash id "a" tt true 3 3 3
               (get_begin ex_hash id "a" tt true 0 0 0 (@new_CacheManager Z unit (ex_cfg 10))).2 =
             (BPending "a", c2).
Proof. apply (get_concurrent_misses_both_fetch ex_hash id "a" tt 0 0 0 3 3 3 (new_CacheManager (ex_cfg 10))). reflexivity. Defined.

Lemma cleanCache_keeps_values_witness :
  let c := fold_left (fun c q => exec_op ex_hash no_access id (OpGet q tt (Resolves 1%Z) None 0 0 0 0) c)
             ["a"; "b"; "c"; "d"; "e"] (@new_CacheManager Z unit (ex_cfg 10)) in
  assoc_get "a" (NodeCache.data (cache (cleanCache no_access 0 c))) =
    Some {| NodeCache.v := Data 1%Z; NodeCache.t := 3600000 |}.
Proof.
  apply (cleanCache_keeps_values ex_hash no_access 0 _ "a" _ 1%Z); reflexivity.
Defined.

Lemma cleanCache_deletes_least_accessed_witness : ("y_metadata", 1).2 <= ("x_metadata", 3).2.
Proof.
  apply (cleanCache_deletes_least_accessed [("x_metadata", 3); ("y_metadata", 1); ("z_metadata", 2)] 1);
    apply list_elem_of_In; vm_compute; auto.
Defined.

End CacheManager.
