(* ===== verification/WorkerPool.v ===== *)
(** * WorkerPool: the thread pool of [src/src/utils/workerPool.ts] (lines 1-235)

    [WorkerPool] keeps [workers] (the list of live workers), [idleWorkers]
    (a stack: [push] and [pop] at the end), [taskQueue] (tasks stay in the
    queue while they run, so that the [message] handler can find them),
    [workerScripts] and three counters.  Every method runs to completion
    in JavaScript's single thread: [executeTask], [processNextTask] and
    the [message], [error] and [exit] handlers, the task timeout and the
    [cleanupIdleWorkers] interval.  The model is an event-driven state
    machine: [step e p] runs the handler of event [e] on the pool [p].

    Besides the fields of the class the state has ghost components that
    record what the environment can observe: the identities of created
    threads, the messages posted to workers and not yet answered, the
    pending timeouts, the threads [terminate]d, the number of submitted
    tasks, and the settlement of each task's promise (a promise settles
    once; later [resolve]/[reject] calls do nothing).  [enabled e p] says
    which events the environment can produce: a worker answers only a
    message it was posted, a timeout fires only if it was set, task ids
    ([Math.random] strings) are fresh. *)

From S2P Require Import Prelude.
From Stdlib Require Import QArith.

Local Open Scope Z_scope.

Module WorkerPool.

(** Worker threads, by the order of their creation. *)
Definition wid := nat.

(** [WorkerPoolOptions] (lines 6-11) and their defaults (lines 44-49),
    taken with [||]: a [0] falls back to the default. *)
Record WorkerPoolOptions := {
  opt_minWorkers : option Z;
  opt_maxWorkers : option Z;
  opt_idleTimeout : option Z;
  opt_taskTimeout : option Z;
}.

Record Options := {
  minWorkers : Z;
  maxWorkers : Z;
  idleTimeout : Z;
  taskTimeout : Z;
}.

Definition options_of (o : WorkerPoolOptions) : Options := {|
  minWorkers := js_or (opt_minWorkers o) 2;
  maxWorkers := js_or (opt_maxWorkers o) 4;
  idleTimeout := js_or (opt_idleTimeout o) 60000;
  taskTimeout := js_or (opt_taskTimeout o) 30000;
|}.

(** [WorkerTask] (lines 13-20); [resolve] and [reject] act on the
    settlement log of the pool. *)
Record WorkerTask := {
  t_id : string;
  t_type : string;
  t_data : string;
  t_startTime : Z;
}.

(** The settled value of a task's promise. *)
Inductive outcome :=
  | Resolved (result : option string)
  | Rejected (reason : string).

(** The message a worker posts back ([workerWrapper], the message handler
    at [src/src/utils/smartCorrection.ts] lines 434-450): a result, or
    the error's message. *)
Record WorkerReply := {
  reply_result : option string;
  reply_error : option string;
}.

(** [if (error)]: a string is truthy when it is not empty. *)
Definition js_truthy_string (o : option string) : bool :=
  match o with
  | Some e => negb (String.eqb e "")
  | None => false
  end.

Record Pool := {
  opts : Options;
  workers : list wid;
  idleWorkers : list wid;
  taskQueue : list WorkerTask;
  workerScripts : gmap string string;
  completedTasks : Z;
  failedTasks : Z;
  totalProcessingTime : Z;
  (* ghost state *)
  nextWorker : wid;
  alive : list wid;
  terminated : list wid;
  posted : list (wid * string);
  timers : list (string * wid);
  submitted : Z;
  settled : list (string * outcome);
}.

(** Record updates, one per field the handlers write. *)
Definition set_workers (ws : list wid) (p : Pool) : Pool :=
  {| opts := opts p; workers := ws; idleWorkers := idleWorkers p; taskQueue := taskQueue p;
     workerScripts := workerScripts p; completedTasks := completedTasks p;
     failedTasks := failedTasks p; totalProcessingTime := totalProcessingTime p;
     nextWorker := nextWorker p; alive := alive p; terminated := terminated p;
     posted := posted p; timers := timers p; submitted := submitted p; settled := settled p |}.

Definition set_idle (ws : list wid) (p : Pool) : Pool :=
  {| opts := opts p; workers := workers p; idleWorkers := ws; taskQueue := taskQueue p;
     workerScripts := workerScripts p; completedTasks := completedTasks p;
     failedTasks := failedTasks p; totalProcessingTime := totalProcessingTime p;
     nextWorker := nextWorker p; alive := alive p; terminated := terminated p;
     posted := posted p; timers := timers p; submitted := submitted p; settled := settled p |}.

Definition set_queue (q : list WorkerTask) (p : Pool) : Pool :=
  {| opts := opts p; workers := workers p; idleWorkers := idleWorkers p; taskQueue := q;
     workerScripts := workerScripts p; completedTasks := completedTasks p;
     failedTasks := failedTasks p; totalProcessingTime := totalProcessingTime p;
     nextWorker := nextWorker p; alive := alive p; terminated := terminated p;
     posted := posted p; timers := timers p; submitted := submitted p; settled := settled p |}.

Definition set_scripts (m : gmap string string) (p : Pool) : Pool :=
  {| opts := opts p; workers := workers p; idleWorkers := idleWorkers p; taskQueue := taskQueue p;
     workerScripts := m; completedTasks := completedTasks p;
     failedTasks := failedTasks p; totalProcessingTime := totalProcessingTime p;
     nextWorker := nextWorker p; alive := alive p; terminated := terminated p;
     posted := posted p; timers := timers p; submitted := submitted p; settled := settled p |}.

Definition set_counters (c f t : Z) (p : Pool) : Pool :=
  {| opts := opts p; workers := workers p; idleWorkers := idleWorkers p; taskQueue := taskQueue p;
     workerScripts := workerScripts p; completedTasks := c;
     failedTasks := f; totalProcessingTime := t;
     nextWorker := nextWorker p; alive := alive p; terminated := terminated p;
     posted := posted p; timers := timers p; submitted := submitted p; settled := settled p |}.

Definition set_ghost (n : wid) (al tm : list wid) (ps : list (wid * string))
  (tr : list (string * wid)) (sb : Z) (st : list (string * outcome)) (p : Pool) : Pool :=
  {| opts := opts p; workers := workers p; idleWorkers := idleWorkers p; taskQueue := taskQueue p;
     workerScripts := workerScripts p; completedTasks := completedTasks p;
     failedTasks := failedTasks p; totalProcessingTime := totalProcessingTime p;
     nextWorker := n; alive := al; terminated := tm;
     posted := ps; timers := tr; submitted := sb; settled := st |}.

(** [resolve]/[reject] of the promise of task [id]: only the first
    settlement counts. *)
Definition settle (id : string) (o : outcome) (p : Pool) : Pool :=
  if decide (id ∈ map fst (settled p)) then p
  else set_ghost (nextWorker p) (alive p) (terminated p) (posted p) (timers p)
         (submitted p) (settled p ++ [(id, o)]) p.

(** [Array.prototype.indexOf] followed by [splice(i, 1)]: the first
    occurrence is removed. *)
Fixpoint remove_first (w : wid) (l : list wid) : list wid :=
  match l with
  | [] => []
  | x :: l' => if Nat.eq_dec x w then l' else x :: remove_first w l'
  end.

(** [createWorker] (lines 74-111).  It pushes the new worker on
    [idleWorkers] and never on [workers]. *)
Definition createWorker (p : Pool) : Pool :=
  let w := nextWorker p in
  set_ghost (S w) (alive p ++ [w]) (terminated p) (posted p) (timers p) (submitted p)
    (settled p) (set_idle (idleWorkers p ++ [w]) p).

(** The constructor and [initialize] (lines 42-68): [minWorkers] calls of
    [createWorker]; the cleanup interval is the event [EvCleanup]. *)
Definition new_WorkerPool (o : WorkerPoolOptions) : Pool :=
  let op := options_of o in
  Nat.iter (Z.to_nat (minWorkers op)) createWorker
    {| opts := op; workers := []; idleWorkers := []; taskQueue := [];
       workerScripts := ∅; completedTasks := 0; failedTasks := 0;
       totalProcessingTime := 0; nextWorker := 0%nat; alive := []; terminated := [];
       posted := []; timers := []; submitted := 0; settled := [] |}.

(** The constructor's default argument [options = {}] (line 42). *)
Definition no_options : WorkerPoolOptions := {|
  opt_minWorkers := None; opt_maxWorkers := None; opt_idleTimeout := None; opt_taskTimeout := None |}.

(** [registerWorkerScript] (lines 70-72). *)
Definition registerWorkerScript (type path : string) (p : Pool) : Pool :=
  set_scripts (<[type := path]> (workerScripts p)) p.

(** [processNextTask] (lines 113-144).  The head task is read, not
    removed; [pop] takes the last idle worker; the timeout is armed. *)
Definition processNextTask (p : Pool) : Pool :=
  match taskQueue p, last (idleWorkers p) with
  | task :: _, Some w =>
      let p1 := set_idle (removelast (idleWorkers p)) p in
      match workerScripts p !! t_type task with
      | None =>
          settle (t_id task)
            (Rejected ("No worker script registered for task type: " ++ t_type task)) p1
      | Some _ =>
          set_ghost (nextWorker p1) (alive p1) (terminated p1)
            (posted p1 ++ [(w, t_id task)]) (timers p1 ++ [(t_id task, w)])
            (submitted p1) (settled p1) p1
      end
  | _, _ => p
  end.

(** [removeWorker] (lines 158-168). *)
Definition removeWorker (w : wid) (p : Pool) : Pool :=
  set_idle (remove_first w (idleWorkers p)) (set_workers (remove_first w (workers p)) p).

(** [handleWorkerError] (lines 146-149). *)
Definition handleWorkerError (w : wid) (p : Pool) : Pool :=
  createWorker (removeWorker w p).

(** [handleWorkerExit] (lines 151-156). *)
Definition handleWorkerExit (w : wid) (p : Pool) : Pool :=
  let p1 := removeWorker w p in
  if Z.of_nat (length (workers p1)) <? minWorkers (opts p1) then createWorker p1 else p1.

(** [executeTask] (lines 183-206): the task's promise is created, the
    task queued, a worker created when none is idle and [workers] is
    below [maxWorkers], and [processNextTask] called. *)
Definition executeTask (type data id : string) (now : Z) (p : Pool) : Pool :=
  let task := {| t_id := id; t_type := type; t_data := data; t_startTime := now |} in
  let p1 := set_queue (taskQueue p ++ [task]) p in
  let p1 := set_ghost (nextWorker p1) (alive p1) (terminated p1) (posted p1) (timers p1)
              (submitted p1 + 1) (settled p1) p1 in
  let p2 := if bool_decide (idleWorkers p1 = []) &&
               (Z.of_nat (length (workers p1)) <? maxWorkers (opts p1))
            then createWorker p1 else p1 in
  processNextTask p2.

(** The [message] handler (lines 77-95). *)
Definition onMessage (w : wid) (tid : string) (reply : WorkerReply) (now : Z) (p : Pool) : Pool :=
  match find (fun t => bool_decide (t_id t = tid)) (taskQueue p) with
  | None => p
  | Some task =>
      let total := totalProcessingTime p + (now - t_startTime task) in
      let p1 :=
        if js_truthy_string (reply_error reply)
        then settle tid (Rejected (default "" (reply_error reply)))
               (set_counters (completedTasks p) (failedTasks p + 1) total p)
        else settle tid (Resolved (reply_result reply))
               (set_counters (completedTasks p + 1) (failedTasks p) total p) in
      let p2 := set_queue (filter (fun t => t_id t <> tid) (taskQueue p1)) p1 in
      processNextTask (set_idle (idleWorkers p2 ++ [w]) p2)
  end.

(** [Array.prototype.findIndex]. *)
Fixpoint find_index (tid : string) (q : list WorkerTask) : option nat :=
  match q with
  | [] => None
  | t :: q' => if decide (t_id t = tid) then Some 0%nat else S <$> find_index tid q'
  end.

(** The timeout callback armed by [processNextTask] (lines 134-143). *)
Definition onTimeout (tid : string) (w : wid) (p : Pool) : Pool :=
  match find_index tid (taskQueue p) with
  | None => p
  | Some i =>
      let p1 := set_queue (take i (taskQueue p) ++ drop (S i) (taskQueue p)) p in
      let p2 := set_counters (completedTasks p1) (failedTasks p1 + 1) (totalProcessingTime p1) p1 in
      handleWorkerError w (settle tid (Rejected "Task timeout") p2)
  end.

(** [worker.terminate()]. *)
Definition terminate (w : wid) (p : Pool) : Pool :=
  set_ghost (nextWorker p) (alive p) (terminated p ++ [w]) (posted p) (timers p)
    (submitted p) (settled p) p.

(** [cleanupIdleWorkers] (lines 170-181); [fuel] bounds the loop tests. *)
Fixpoint cleanup_loop (fuel : nat) (p : Pool) : Pool :=
  match fuel with
  | O => p
  | S f =>
      if (minWorkers (opts p) <? Z.of_nat (length (workers p))) &&
         negb (bool_decide (idleWorkers p = []))
      then match last (idleWorkers p) with
           | Some w => cleanup_loop f (removeWorker w (terminate w (set_idle (removelast (idleWorkers p)) p)))
           | None => p
           end
      else p
  end.

Definition cleanupIdleWorkers (p : Pool) : Pool :=
  cleanup_loop (S (length (idleWorkers p))) p.

(** [getMetrics] (lines 208-219); the average is [None] for JavaScript's
    [NaN] ([0 / 0]). *)
Record WorkerMetrics := {
  m_activeWorkers : Z;
  m_idleWorkers : Z;
  m_completedTasks : Z;
  m_failedTasks : Z;
  m_averageProcessingTime : option Q;
  m_totalProcessingTime : Z;
}.

Definition getMetrics (p : Pool) : WorkerMetrics := {|
  m_activeWorkers := Z.of_nat (length (workers p)) - Z.of_nat (length (idleWorkers p));
  m_idleWorkers := Z.of_nat (length (idleWorkers p));
  m_completedTasks := completedTasks p;
  m_failedTasks := failedTasks p;
  m_averageProcessingTime :=
    js_div (totalProcessingTime p) (completedTasks p + failedTasks p);
  m_totalProcessingTime := totalProcessingTime p;
|}.

(** [shutdown] (lines 221-234): [None] while tasks are queued (the method
    polls every 100 ms), then every worker of [workers] is terminated. *)
Definition shutdown (p : Pool) : option Pool :=
  match taskQueue p with
  | _ :: _ => None
  | [] => Some (set_idle [] (set_workers [] (fold_left (fun q w => terminate w q) (workers p) p)))
  end.

(** ** Events and runs *)

Inductive event :=
  | EvRegister (type path : string)
  | EvExecute (type data id : string) (now : Z)
  | EvMessage (w : wid) (tid : string) (reply : WorkerReply) (now : Z)
  | EvWorkerError (w : wid)
  | EvWorkerExit (w : wid) (code : Z)
  | EvTimeout (tid : string) (w : wid)
  | EvCleanup.

(** Remove one pending message or timer, or a thread that exited. *)
Definition drop_posted (w : wid) (tid : string) (p : Pool) : Pool :=
  set_ghost (nextWorker p) (alive p) (terminated p)
    (list_difference (posted p) [(w, tid)]) (timers p) (submitted p) (settled p) p.

Definition drop_timer (tid : string) (w : wid) (p : Pool) : Pool :=
  set_ghost (nextWorker p) (alive p) (terminated p) (posted p)
    (list_difference (timers p) [(tid, w)]) (submitted p) (settled p) p.

Definition drop_alive (w : wid) (p : Pool) : Pool :=
  set_ghost (nextWorker p) (remove_first w (alive p)) (terminated p) (posted p)
    (timers p) (submitted p) (settled p) p.

Definition step (e : event) (p : Pool) : Pool :=
  match e with
  | EvRegister ty path => registerWorkerScript ty path p
  | EvExecute ty data id now => executeTask ty data id now p
  | EvMessage w tid r now => onMessage w tid r now (drop_posted w tid p)
  | EvWorkerError w => handleWorkerError w p
  | EvWorkerExit w _ => handleWorkerExit w (drop_alive w p)
  | EvTimeout tid w => onTimeout tid w (drop_timer tid w p)
  | EvCleanup => cleanupIdleWorkers p
  end.

Definition enabled (e : event) (p : Pool) : bool :=
  match e with
  | EvRegister _ _ | EvCleanup => true
  | EvExecute _ _ id _ =>
      bool_decide (id ∉ map t_id (taskQueue p)) && bool_decide (id ∉ map fst (settled p))
  | EvMessage w tid _ _ => bool_decide ((w, tid) ∈ posted p)
  | EvWorkerError w | EvWorkerExit w _ => bool_decide (w ∈ alive p)
  | EvTimeout tid w => bool_decide ((tid, w) ∈ timers p)
  end.

Fixpoint run (es : list event) (p : Pool) : Pool :=
  match es with
  | [] => p
  | e :: es' => run es' (step e p)
  end.

Inductive reachable (o : WorkerPoolOptions) : Pool -> Prop :=
  | reach_init : reachable o (new_WorkerPool o)
  | reach_step p e : reachable o p -> enabled e p = true -> reachable o (step e p).

(** The workers that hold a posted, unanswered task. *)
Definition busy (p : Pool) : list wid := remove_dups (map fst (posted p)).

(** Runs in which every event is enabled when it happens. *)
Fixpoint valid_run (es : list event) (p : Pool) : bool :=
  match es with
  | [] => true
  | e :: es' => enabled e p && valid_run es' (step e p)
  end.

(** The task-accounting state: the queue, the counters of finished tasks
    and the number of submitted tasks. *)
Definition accounting (p : Pool) : list WorkerTask * Z * Z * Z :=
  (taskQueue p, completedTasks p, failedTasks p, submitted p).

(** Every submitted task is queued or counted exactly once. *)
Definition tasks_inv (p : Pool) : Prop :=
  NoDup (map t_id (taskQueue p)) /\
  completedTasks p + failedTasks p + Z.of_nat (length (taskQueue p)) = submitted p.

(** The task [t] is at the head of the queue, its type has no script,
    and it was never posted to a worker nor given a timeout. *)
Definition head_blocked (t : WorkerTask) (p : Pool) : Prop :=
  (exists rest, taskQueue p = t :: rest) /\ workerScripts p !! t_type t = None /\
  (forall w, (w, t_id t) ∉ posted p) /\ (forall w, (t_id t, w) ∉ timers p).

(** [p'] has the queue, scripts, posted messages and timers of [p]. *)
Definition same_dispatch (p p' : Pool) : Prop :=
  taskQueue p' = taskQueue p /\ workerScripts p' = workerScripts p /\
  posted p' = posted p /\ timers p' = timers p.

(** [e] registers a script for the task type [ty]. *)
Definition registers (ty : string) (e : event) : bool :=
  match e with EvRegister ty' _ => bool_decide (ty' = ty) | _ => false end.

(** Runs used by the examples: a script for [text] and two tasks; a task
    of a type with no script. *)
Definition pool_two_busy : list event :=
  [EvRegister "text" "text.js"; EvExecute "text" "a" "t1" 0; EvExecute "text" "b" "t2" 0].

Definition pool_unregistered : list event := [EvExecute "x" "d" "x1" 0].

Definition task_x1 : WorkerTask := {| t_id := "x1"; t_type := "x"; t_data := "d"; t_startTime := 0 |}.

(** ** Frame lemmas of the auxiliary operations *)

Lemma workers_createWorker p : workers (createWorker p) = workers p.
Proof. done. Qed.

Lemma workers_settle id o p : workers (settle id o p) = workers p.
Proof. unfold settle. by case_decide. Qed.

Lemma accounting_settle id o p : accounting (settle id o p) = accounting p.
Proof. unfold settle. by case_decide. Qed.

Lemma accounting_createWorker p : accounting (createWorker p) = accounting p.
Proof. done. Qed.

Lemma accounting_removeWorker w p : accounting (removeWorker w p) = accounting p.
Proof. done. Qed.

Lemma workers_processNextTask p : workers (processNextTask p) = workers p.
Proof.
  unfold processNextTask. destruct (taskQueue p), (last (idleWorkers p)); try done.
  destruct (_ !! _); [done|]. by rewrite workers_settle.
Qed.

Lemma accounting_processNextTask p : accounting (processNextTask p) = accounting p.
Proof.
  unfold processNextTask. destruct (taskQueue p), (last (idleWorkers p)); try done.
  destruct (_ !! _); [done|]. by rewrite accounting_settle.
Qed.

Lemma workers_handleWorkerError w p :
  workers (handleWorkerError w p) = remove_first w (workers p).
Proof. done. Qed.

Lemma workers_handleWorkerExit w p :
  workers (handleWorkerExit w p) = remove_first w (workers p).
Proof. unfold handleWorkerExit. by destruct (_ <? _). Qed.

Lemma accounting_handleWorkerError w p : accounting (handleWorkerError w p) = accounting p.
Proof. done. Qed.

Lemma accounting_handleWorkerExit w p : accounting (handleWorkerExit w p) = accounting p.
Proof. unfold handleWorkerExit. by destruct (_ <? _). Qed.

Lemma workers_cleanup_loop f p : workers p = [] -> workers (cleanup_loop f p) = [].
Proof.
  revert p. induction f as [|f IH]; intros p Hw; simpl; [done|].
  destruct (_ && _); [|done]. destruct (last _); [|done]. apply IH. simpl. by rewrite Hw.
Qed.

Lemma accounting_cleanup_loop f p : accounting (cleanup_loop f p) = accounting p.
Proof.
  revert p. induction f as [|f IH]; intros p; simpl; [done|].
  destruct (_ && _); [|done]. destruct (last _); [|done]. by rewrite IH.
Qed.

Lemma workers_onMessage w tid r now p : workers (onMessage w tid r now p) = workers p.
Proof.
  unfold onMessage. destruct (find _ _); [|done].
  rewrite workers_processNextTask. simpl. by destruct (js_truthy_string _); rewrite workers_settle.
Qed.

Lemma workers_onTimeout tid w p :
  workers (onTimeout tid w p) = workers p \/ workers (onTimeout tid w p) = remove_first w (workers p).
Proof.
  unfold onTimeout. destruct (find_index _ _); [|by left]. right. cbv zeta.
  by rewrite (workers_handleWorkerError w), workers_settle.
Qed.

(** [workers] stays empty under every event. *)
Lemma workers_step e p : workers p = [] -> workers (step e p) = [].
Proof.
  intros Hw. destruct e as [ty path|ty d id now|w tid r now|w|w c|tid w|]; unfold step.
  - done.
  - unfold executeTask. rewrite workers_processNextTask.
    destruct (_ && _); [rewrite workers_createWorker|]; done.
  - rewrite workers_onMessage. done.
  - by rewrite (workers_handleWorkerError w), Hw.
  - rewrite (workers_handleWorkerExit w). simpl. by rewrite Hw.
  - destruct (workers_onTimeout tid w (drop_timer tid w p)) as [-> | ->]; simpl; by rewrite Hw.
  - by apply workers_cleanup_loop.
Qed.

Lemma workers_new o : workers (new_WorkerPool o) = [].
Proof.
  unfold new_WorkerPool. generalize (Z.to_nat (minWorkers (options_of o))) as n.
  induction n as [|n IH]; [done|]. cbn [Nat.iter]. exact IH.
Qed.

Lemma tasks_inv_accounting p p' : accounting p' = accounting p -> tasks_inv p -> tasks_inv p'.
Proof.
  unfold accounting, tasks_inv. intros H. injection H as Hq Hc Hf Hs.
  by rewrite Hq, Hc, Hf, Hs.
Qed.

Lemma length_filter_id_unique (tid : string) (q : list WorkerTask) :
  NoDup (map t_id q) -> tid ∈ map t_id q ->
  length (filter (fun t => t_id t <> tid) q) = (length q - 1)%nat.
Proof.
  induction q as [|t q IH]; simpl; intros Hnd Hin; [by apply not_elem_of_nil in Hin|].
  apply NoDup_cons in Hnd as [Ht Hnd]. rewrite filter_cons.
  destruct (decide (t_id t = tid)) as [Heq|Hne].
  - rewrite decide_False by tauto. rewrite filter_all_keep; [lia|].
    intros x Hx Hx'. apply Ht. rewrite Heq, <- Hx'. by apply list_elem_of_fmap_2.
  - rewrite decide_True by done. simpl.
    apply elem_of_cons in Hin as [Hin|Hin]; [congruence|]. rewrite IH by done.
    destruct q; [by apply not_elem_of_nil in Hin|]. simpl. lia.
Qed.

Lemma NoDup_ids_filter (P : WorkerTask -> Prop) `{!forall x, Decision (P x)} q :
  NoDup (map t_id q) -> NoDup (map t_id (filter P q)).
Proof. intros Hq. eapply sublist_NoDup; [exact Hq|]. apply sublist_map, sublist_filter. Qed.

Lemma sublist_take_drop_S {X} (i : nat) (l : list X) : sublist (take i l ++ drop (S i) l) l.
Proof.
  revert l. induction i as [|i IH]; intros [|x l]; simpl; try constructor.
  - apply sublist_drop.
  - by apply IH.
Qed.

Lemma find_index_spec tid q i :
  find_index tid q = Some i -> (i < length q)%nat /\ exists t, q !! i = Some t /\ t_id t = tid.
Proof.
  revert i. induction q as [|t q IH]; intros i H; simpl in H; [done|].
  case_decide.
  - injection H as <-. simpl. split; [lia|]. by exists t.
  - destruct (find_index tid q) as [j|] eqn:E; [|done]. injection H as <-.
    destruct (IH j eq_refl) as (Hj & t' & Ht' & Hid). simpl. split; [lia|]. by exists t'.
Qed.

Lemma tasks_inv_step e p : tasks_inv p -> enabled e p = true -> tasks_inv (step e p).
Proof.
  intros Hinv Hen. destruct e as [ty path|ty d id now|w tid r now|w|w c|tid w|]; unfold step.
  - by apply (tasks_inv_accounting p).
  - simpl in Hen. apply andb_true_iff in Hen as [Hid _]. apply bool_decide_eq_true in Hid.
    unfold executeTask. cbv zeta.
    match goal with |- tasks_inv (processNextTask (if ?b then _ else ?p1)) =>
      assert (H1 : tasks_inv p1) end.
    { destruct Hinv as [Hnd Hc]. split; simpl.
      - rewrite map_app. apply NoDup_app. split; [done|]. split; [|apply NoDup_singleton].
        intros x Hx ->%list_elem_of_singleton. contradiction.
      - rewrite length_app. simpl. lia. }
    eapply tasks_inv_accounting; [|exact H1].
    rewrite accounting_processNextTask. by destruct (_ && _).
  - unfold onMessage. destruct (find _ _) as [task|] eqn:F.
    2:{ by apply (tasks_inv_accounting p). }
    apply find_some in F as [Fin Fid]. apply bool_decide_eq_true in Fid.
    destruct Hinv as [Hnd Hc].
    assert (Htid : tid ∈ map t_id (taskQueue p)).
    { rewrite <- Fid. apply list_elem_of_fmap_2. by apply list_elem_of_In. }
    eapply tasks_inv_accounting; [rewrite accounting_processNextTask; reflexivity|].
    destruct (js_truthy_string _); unfold accounting; rewrite ?accounting_settle;
      split; simpl; rewrite ?workers_settle.
    all: unfold settle; repeat case_decide; simpl.
    all: first [by apply NoDup_ids_filter
               | rewrite length_filter_id_unique by done;
                 destruct (taskQueue p) as [|t0 q0]; [by apply not_elem_of_nil in Htid|];
                 simpl in *; lia].
  - by apply (tasks_inv_accounting p).
  - apply (tasks_inv_accounting p); [by rewrite accounting_handleWorkerExit|done].
  - unfold onTimeout. destruct (find_index _ _) as [i|] eqn:F.
    2:{ by apply (tasks_inv_accounting p). }
    apply find_index_spec in F as [Hi _]. destruct Hinv as [Hnd Hc]. cbv zeta.
    eapply tasks_inv_accounting;
      [rewrite accounting_handleWorkerError, accounting_settle; reflexivity|].
    split; simpl in *.
    + eapply sublist_NoDup; [exact Hnd|]. apply sublist_map, sublist_take_drop_S.
    + rewrite length_app, length_take, length_drop. lia.
  - by apply (tasks_inv_accounting p); [apply accounting_cleanup_loop|].
Qed.

Lemma tasks_inv_new o : tasks_inv (new_WorkerPool o).
Proof.
  unfold new_WorkerPool. generalize (Z.to_nat (minWorkers (options_of o))) as n.
  induction n as [|n IH]; [split; simpl; [constructor|lia]|]. cbn [Nat.iter]. exact IH.
Qed.

Lemma same_dispatch_refl p : same_dispatch p p.
Proof. by repeat split. Qed.

Lemma same_dispatch_trans p1 p2 p3 :
  same_dispatch p1 p2 -> same_dispatch p2 p3 -> same_dispatch p1 p3.
Proof. unfold same_dispatch. intuition congruence. Qed.

Lemma same_dispatch_settle id o p : same_dispatch p (settle id o p).
Proof. unfold settle. case_decide; by repeat split. Qed.

Lemma same_dispatch_handleWorkerError w p : same_dispatch p (handleWorkerError w p).
Proof. by repeat split. Qed.

Lemma same_dispatch_handleWorkerExit w p : same_dispatch p (handleWorkerExit w p).
Proof. unfold handleWorkerExit. destruct (_ <? _); by repeat split. Qed.

Lemma same_dispatch_cleanup_loop f p : same_dispatch p (cleanup_loop f p).
Proof.
  revert p. induction f as [|f IH]; intros p; simpl; [apply same_dispatch_refl|].
  destruct (_ && _); [|apply same_dispatch_refl]. destruct (last _); [|apply same_dispatch_refl].
  eapply same_dispatch_trans; [|apply IH]. by repeat split.
Qed.

Lemma head_blocked_same t p p' : head_blocked t p -> same_dispatch p p' -> head_blocked t p'.
Proof.
  intros (Hq & Hs & Hp & Ht) (E1 & E2 & E3 & E4). unfold head_blocked.
  rewrite E1, E2, E3, E4. by repeat split.
Qed.

#[local] Hint Resolve same_dispatch_refl same_dispatch_settle same_dispatch_handleWorkerError
  same_dispatch_handleWorkerExit same_dispatch_cleanup_loop : jsmodel.

(** [processNextTask] on a blocked head rejects it again and posts nothing. *)
Lemma processNextTask_blocked t p : head_blocked t p -> same_dispatch p (processNextTask p).
Proof.
  intros (Hq & Hs & _). unfold processNextTask. destruct Hq as [rest ->].
  destruct (last _); [|apply same_dispatch_refl]. rewrite Hs.
  eapply same_dispatch_trans; [|apply same_dispatch_settle]. by repeat split.
Qed.

Lemma find_index_complete tid q : tid ∈ map t_id q -> exists i, find_index tid q = Some i.
Proof.
  induction q as [|t q IH]; simpl; intros Hin; [by apply not_elem_of_nil in Hin|].
  case_decide; [by eexists|]. apply elem_of_cons in Hin as [->|Hin]; [done|].
  destruct (IH Hin) as [i ->]. by eexists.
Qed.

(** Removing the task found by [findIndex] removes its id, when ids are distinct. *)
Lemma find_index_remove_unique tid q i :
  NoDup (map t_id q) -> find_index tid q = Some i ->
  tid ∉ map t_id (take i q ++ drop (S i) q).
Proof.
  revert i. induction q as [|t q IH]; intros i Hnd Hf; simpl in Hf; [done|].
  apply NoDup_cons in Hnd as [Ht Hnd]. case_decide as Heq.
  - injection Hf as <-. simpl. by rewrite <- Heq.
  - destruct (find_index tid q) as [j|] eqn:E; [|done]. injection Hf as <-. simpl.
    rewrite elem_of_cons. intros [?|?]; [congruence|]. by eapply IH.
Qed.

(** A task removed by [findIndex]/[splice] other than the head keeps the head. *)
Lemma find_index_keep_head tid t rest i :
  t_id t <> tid -> find_index tid (t :: rest) = Some i ->
  exists rest', take i (t :: rest) ++ drop (S i) (t :: rest) = t :: rest'.
Proof.
  intros Hne Hf. simpl in Hf. rewrite decide_False in Hf by done.
  destruct (find_index tid rest) as [j|]; [|done]. injection Hf as <-. simpl. by eexists.
Qed.

Lemma same_dispatch_createWorker p : same_dispatch p (createWorker p).
Proof. by repeat split. Qed.

Lemma same_dispatch_set_idle ws p : same_dispatch p (set_idle ws p).
Proof. by repeat split. Qed.

Lemma same_dispatch_set_counters c f tt p : same_dispatch p (set_counters c f tt p).
Proof. by repeat split. Qed.

Lemma head_blocked_requeue t p q' :
  head_blocked t p -> (exists rest, q' = t :: rest) -> head_blocked t (set_queue q' p).
Proof. intros (_ & Hs & Hp & Ht) Hq. by repeat split. Qed.

(** Dropping posted messages or timers keeps a head blocked. *)
Lemma head_blocked_shrink t p ps tr :
  head_blocked t p -> (forall x, x ∈ ps -> x ∈ posted p) -> (forall x, x ∈ tr -> x ∈ timers p) ->
  head_blocked t (set_ghost (nextWorker p) (alive p) (terminated p) ps tr (submitted p) (settled p) p).
Proof.
  intros (Hq & Hs & Hp & Ht) Hps Htr. repeat split; simpl; auto.
  - intros w Hin. by apply (Hp w), Hps.
  - intros w Hin. by apply (Ht w), Htr.
Qed.

Lemma elem_of_list_difference_1 {X} `{EqDecision X} (x : X) l k :
  x ∈ list_difference l k -> x ∈ l.
Proof. by intros [? _]%list_elem_of_difference. Qed.

(** A message for another task keeps a blocked head blocked and posts nothing. *)
Lemma onMessage_blocked t w tid r now p :
  head_blocked t p -> tid <> t_id t ->
  head_blocked t (onMessage w tid r now p) /\ posted (onMessage w tid r now p) = posted p.
Proof.
  intros Hb Hne. unfold onMessage. destruct (find _ _) as [task|]; [|done].
  set (p1 := if js_truthy_string _ then _ else _).
  assert (H1 : same_dispatch p p1)
    by (subst p1; destruct (js_truthy_string _);
        (eapply same_dispatch_trans; [apply same_dispatch_set_counters|apply same_dispatch_settle])).
  assert (Hb2 : head_blocked t (set_idle (idleWorkers (set_queue (filter (fun t0 => t_id t0 <> tid) (taskQueue p1)) p1) ++ [w])
                  (set_queue (filter (fun t0 => t_id t0 <> tid) (taskQueue p1)) p1))).
  { eapply head_blocked_same; [|apply same_dispatch_set_idle].
    apply head_blocked_requeue; [by eapply head_blocked_same|].
    destruct Hb as [[rest Hq] _]. destruct H1 as [-> _]. rewrite Hq, filter_cons.
    rewrite decide_True by congruence. by eexists. }
  split; [by eapply head_blocked_same, processNextTask_blocked|].
  destruct (processNextTask_blocked _ _ Hb2) as (_ & _ & -> & _). simpl. by destruct H1 as (_ & _ & -> & _).
Qed.

(** A timeout of another task keeps a blocked head blocked and posts nothing. *)
Lemma onTimeout_blocked t tid w p :
  head_blocked t p -> tid <> t_id t ->
  head_blocked t (onTimeout tid w p) /\ posted (onTimeout tid w p) = posted p.
Proof.
  intros Hb Hne. unfold onTimeout. destruct (find_index tid _) as [i|] eqn:Hf; [|done].
  pose proof Hb as [[rest Hq] _]. rewrite Hq in Hf |- *.
  destruct (find_index_keep_head tid t rest i) as [rest' Hr]; [congruence|done|].
  rewrite Hr. split; [|unfold settle; by case_decide].
  eapply head_blocked_same; [|apply same_dispatch_handleWorkerError].
  eapply head_blocked_same; [|apply same_dispatch_settle].
  eapply head_blocked_same; [|apply same_dispatch_set_counters].
  apply head_blocked_requeue; eauto.
Qed.

Lemma same_dispatch_posted p p' : same_dispatch p p' -> posted p' = posted p.
Proof. by intros (_ & _ & ? & _). Qed.

Lemma same_dispatch_posted_sub p p' : same_dispatch p p' -> forall x, x ∈ posted p' -> x ∈ posted p.
Proof. intros H x. by rewrite (same_dispatch_posted _ _ H). Qed.

(** One enabled event other than registering [t]'s type keeps [t] blocked,
    and only removes posted messages. *)
Lemma blocked_step t e p :
  head_blocked t p -> enabled e p = true -> (forall path, e <> EvRegister (t_type t) path) ->
  head_blocked t (step e p) /\ (forall x, x ∈ posted (step e p) -> x ∈ posted p).
Proof.
  intros Hb He Hr. destruct e as [ty path|ty d id now|w tid r now|w|w code|tid w|]; simpl in He |- *.
  - assert (ty <> t_type t) by (intros ->; by apply (Hr path)).
    destruct Hb as (Hq & Hs & Hp & Ht). repeat split; auto.
    simpl. by rewrite lookup_insert_ne.
  - unfold executeTask. cbv zeta.
    match goal with |- context [processNextTask (if ?c then createWorker ?q else ?q)] =>
      set (p1 := q); set (p2 := if c then createWorker p1 else p1) end.
    assert (Hb1 : head_blocked t p1).
    { destruct Hb as ([rest Hq] & Hs & Hp & Ht). repeat split; simpl; auto.
      rewrite Hq. by eexists. }
    assert (H2 : same_dispatch p1 p2)
      by (unfold p2; case_match; [apply same_dispatch_createWorker|apply same_dispatch_refl]).
    assert (Hb2 : head_blocked t p2) by (by eapply head_blocked_same).
    pose proof (processNextTask_blocked _ _ Hb2) as H3. split; [by eapply head_blocked_same|].
    intros x. change (x ∈ posted (processNextTask p2) -> x ∈ posted p). rewrite (same_dispatch_posted _ _ H3), (same_dispatch_posted _ _ H2). done.
  - apply bool_decide_eq_true in He.
    assert (tid <> t_id t) by (destruct Hb as (_ & _ & Hp & _); intros ->; by apply (Hp w)).
    assert (Hb1 : head_blocked t (drop_posted w tid p))
      by (apply head_blocked_shrink; [done|intro; apply elem_of_list_difference_1|done]).
    destruct (onMessage_blocked t w tid r now _ Hb1 ltac:(done)) as [? ->].
    split; [done|]. intro; apply elem_of_list_difference_1.
  - split; [by eapply head_blocked_same, same_dispatch_handleWorkerError|].
    apply same_dispatch_posted_sub, (same_dispatch_handleWorkerError w).
  - split; [|apply (same_dispatch_posted_sub (drop_alive w p)), same_dispatch_handleWorkerExit].
    eapply head_blocked_same; [|apply same_dispatch_handleWorkerExit].
    by apply head_blocked_shrink.
  - apply bool_decide_eq_true in He.
    assert (tid <> t_id t) by (destruct Hb as (_ & _ & _ & Ht); intros ->; by apply (Ht w)).
    assert (Hb1 : head_blocked t (drop_timer tid w p))
      by (apply head_blocked_shrink; [done|done|intro; apply elem_of_list_difference_1]).
    destruct (onTimeout_blocked t tid w _ Hb1 ltac:(done)) as [? ->]. done.
  - pose proof (same_dispatch_cleanup_loop (S (length (idleWorkers p))) p) as H.
    split; [by eapply head_blocked_same|]. unfold cleanupIdleWorkers.
    by rewrite (same_dispatch_posted _ _ H).
Qed.

(** C2: Head-of-line blocking.  A queued task at the head of the queue
    whose type has no registered script, and which was never posted,
    stays at the head during any run that does not register its type,
    and no task is dispatched to a worker: every message posted after
    the run was already posted before it. *)
Theorem unregistered_head_blocks_queue t es p :
  head_blocked t p -> valid_run es p = true -> Forall (fun e => registers (t_type t) e = false) es ->
  head_blocked t (run es p) /\ (forall x, x ∈ posted (run es p) -> x ∈ posted p).
Proof.
  revert p. induction es as [|e es IH]; intros p Hb Hv Hf; simpl in *; [done|].
  apply andb_true_iff in Hv as [He Hv]. apply Forall_cons in Hf as [Hr Hf].
  destruct (blocked_step t e p Hb He) as [Hb1 Hs1].
  { intros path ->. simpl in Hr. by rewrite bool_decide_true in Hr. }
  destruct (IH _ Hb1 Hv Hf) as [? Hs2]. split; [done|]. eauto.
Qed.

Lemma reachable_workers_nil o p : reachable o p -> workers p = [].
Proof.
  induction 1 as [|p e _ IH _]; [apply workers_new|by apply workers_step].
Qed.

Lemma alive_processNextTask p : alive (processNextTask p) = alive p.
Proof.
  unfold processNextTask. repeat case_match; try done. unfold settle. by case_decide.
Qed.

Lemma counters_processNextTask p :
  completedTasks (processNextTask p) = completedTasks p /\ failedTasks (processNextTask p) = failedTasks p.
Proof. pose proof (accounting_processNextTask p) as H. unfold accounting in H. by simplify_eq. Qed.

Lemma find_id_none tid q :
  tid ∉ map t_id q -> find (fun t => bool_decide (t_id t = tid)) q = None.
Proof.
  induction q as [|t q IH]; simpl; intros Hn; [done|].
  rewrite elem_of_cons in Hn. case_bool_decide as E; [subst; tauto|]. apply IH. tauto.
Qed.

Lemma reachable_run o es p :
  reachable o p -> valid_run es p = true -> reachable o (run es p).
Proof.
  revert p. induction es as [|e es IH]; intros p Hr Hv; simpl in *; [done|].
  apply andb_true_iff in Hv as [He Hv]. apply IH; [by constructor|done].
Qed.

Lemma length_removelast_lt {X} (l : list X) : l <> [] -> (length (removelast l) < length l)%nat.
Proof.
  intros Hl. rewrite removelast_firstn_len, length_firstn.
  destruct l; [done|simpl; lia].
Qed.

Lemma length_remove_first w l : (length (remove_first w l) <= length l)%nat.
Proof. induction l as [|x l IH]; simpl; [lia|]. destruct (Nat.eq_dec x w); simpl; lia. Qed.

(** ** Properties of the pool *)

(** C4: In every reachable state the pool's [workers] list is empty, so
    [getMetrics] reports no busy worker and minus the number of idle
    workers as [activeWorkers]: [createWorker] never records a worker. *)
Theorem reachable_metrics_untracked o p :
  reachable o p ->
  workers p = [] /\ m_activeWorkers (getMetrics p) = - Z.of_nat (length (idleWorkers p)).
Proof.
  intros Hr. pose proof (reachable_workers_nil o p Hr) as Hw. split; [done|].
  simpl. rewrite Hw. simpl. lia.
Qed.

(** C1: Every submitted task is either still queued or counted once as
    completed or failed, and queued tasks have distinct ids, in every
    reachable state. *)
Theorem reachable_task_accounting o p :
  reachable o p ->
  NoDup (map t_id (taskQueue p)) /\
  completedTasks p + failedTasks p + Z.of_nat (length (taskQueue p)) = submitted p.
Proof.
  induction 1 as [|p e _ IH He]; [apply tasks_inv_new|]. by apply tasks_inv_step.
Qed.

(** [shutdown] on a reachable pool with an empty queue terminates no
    thread: every created worker thread stays alive. *)
Theorem shutdown_terminates_nothing o p :
  reachable o p -> taskQueue p = [] ->
  exists p', shutdown p = Some p' /\ terminated p' = terminated p /\ alive p' = alive p.
Proof.
  intros Hr Hq. unfold shutdown. rewrite Hq, (reachable_workers_nil o p Hr). by eexists.
Qed.

(** [cleanupIdleWorkers] never removes an idle worker of a reachable
    pool (with [minWorkers >= 0]): the loop tests [workers.length], which
    stays 0. *)
Theorem cleanup_never_trims o p :
  reachable o p -> 0 <= minWorkers (opts p) -> step EvCleanup p = p.
Proof.
  intros Hr Hmin. simpl. unfold cleanupIdleWorkers. simpl.
  rewrite (reachable_workers_nil o p Hr). simpl. by rewrite (proj2 (Z.ltb_ge _ _)).
Qed.

(** When no worker is idle, [executeTask] on a reachable pool creates
    a new worker thread whatever the number of threads already running,
    since the [maxWorkers] test reads the empty [workers] list. *)
Theorem executeTask_spawns_beyond_max o p ty d id now :
  reachable o p -> idleWorkers p = [] -> 0 < maxWorkers (opts p) ->
  alive (step (EvExecute ty d id now) p) = alive p ++ [nextWorker p].
Proof.
  intros Hr Hi Hmax. simpl. unfold executeTask. cbv zeta. rewrite alive_processNextTask.
  simpl. rewrite Hi, (reachable_workers_nil o p Hr). simpl.
  by rewrite (proj2 (Z.ltb_lt (Z.of_nat 0) _) Hmax).
Qed.


(** C8: When the timeout of a queued task fires, the task is removed from
    the queue, counted as failed, and its promise is rejected with
    "Task timeout" unless it was settled before. *)
Theorem timeout_rejects_task tid w p :
  NoDup (map t_id (taskQueue p)) -> tid ∈ map t_id (taskQueue p) ->
  (tid ∉ map t_id (taskQueue (step (EvTimeout tid w) p))) /\
  failedTasks (step (EvTimeout tid w) p) = failedTasks p + 1 /\
  (tid ∉ map fst (settled p) ->
   settled (step (EvTimeout tid w) p) = settled p ++ [(tid, Rejected "Task timeout")]).
Proof.
  intros Hnd Hin. destruct (find_index_complete _ _ Hin) as [i Hi]. simpl.
  unfold onTimeout. simpl. rewrite Hi. unfold settle. simpl.
  split; [case_decide; by apply find_index_remove_unique|].
  split; [by case_decide|]. intros Hs. by rewrite decide_False.
Qed.

(** A reply whose [error] is the empty string is falsy in [if
    (reply.error)]: the task is counted as completed, not failed, and its
    promise resolves with the reply's result. *)
Theorem empty_error_counts_completed w tid res now p task :
  find (fun t => bool_decide (t_id t = tid)) (taskQueue p) = Some task ->
  tid ∉ map fst (settled p) ->
  let p' := step (EvMessage w tid {| reply_result := res; reply_error := Some "" |} now) p in
  completedTasks p' = completedTasks p + 1 /\ failedTasks p' = failedTasks p /\
  (tid, Resolved res) ∈ settled p'.
Proof.
  intros Hf Hs. simpl. unfold onMessage. simpl. rewrite Hf. simpl.
  rewrite (proj1 (counters_processNextTask _)), (proj2 (counters_processNextTask _)).
  unfold settle. simpl. rewrite decide_False by done. simpl. split; [done|split; [done|]].
  (* [processNextTask] only appends to [settled] *)
  unfold processNextTask. simpl. repeat case_match; simpl; try set_solver.
  unfold settle. case_decide; set_solver.
Qed.

(** An [error] event of a worker neither rejects nor requeues the task
    it was running: the task stays queued and posted to the failed
    worker, and a replacement thread is created. *)
Theorem worker_error_keeps_task w p :
  settled (step (EvWorkerError w) p) = settled p /\
  taskQueue (step (EvWorkerError w) p) = taskQueue p /\
  posted (step (EvWorkerError w) p) = posted p /\
  alive (step (EvWorkerError w) p) = alive p ++ [nextWorker p].
Proof. done. Qed.

(** A reply for a task no longer queued (a second reply to a task
    dispatched twice, or a reply after its timeout) is ignored: the
    worker is not returned to [idleWorkers], and nothing is settled. *)
Theorem late_reply_leaks_worker w tid r now p :
  tid ∉ map t_id (taskQueue p) ->
  idleWorkers (step (EvMessage w tid r now) p) = idleWorkers p /\
  settled (step (EvMessage w tid r now) p) = settled p.
Proof. intros Hn. simpl. unfold onMessage. simpl. by rewrite find_id_none. Qed.

(** With the default options, a registered task type and five tasks
    submitted at once, five worker threads hold a posted message (more
    than [maxWorkers] = 4), and all five were posted the first task. *)
Example pool_exceeds_maxWorkers :
  let es := [EvRegister "text" "text.js"; EvExecute "text" "a" "t1" 0;
             EvExecute "text" "b" "t2" 0; EvExecute "text" "c" "t3" 0;
             EvExecute "text" "d" "t4" 0; EvExecute "text" "e" "t5" 0] in
  let p := run es (new_WorkerPool no_options) in
  valid_run es (new_WorkerPool no_options) = true /\
  maxWorkers (opts p) < Z.of_nat (length (busy p)) /\
  Forall (fun m => snd m = "t1") (posted p).
Proof. vm_compute. split; [done|split; [done|repeat constructor]]. Qed.

(** The loop of [cleanupIdleWorkers] ends within [idleWorkers.length + 1]
    tests: each iteration pops an idle worker, so any two fuels above the
    number of idle workers give the same result. *)
Theorem cleanup_loop_terminates f g p :
  (length (idleWorkers p) < f)%nat -> (length (idleWorkers p) < g)%nat ->
  cleanup_loop f p = cleanup_loop g p.
Proof.
  revert g p. induction f as [|f IH]; intros g p Hf Hg; [lia|].
  destruct g as [|g]; [lia|]. simpl.
  destruct (_ && _) eqn:Hc; [|done].
  apply andb_true_iff in Hc as [_ Hne%negb_true_iff%bool_decide_eq_false].
  destruct (last _) as [w|]; [|done]. apply IH; simpl;
    pose proof (length_remove_first w (removelast (idleWorkers p)));
    pose proof (length_removelast_lt _ Hne); lia.
Qed.

(** ** Witnesses *)

Lemma reachable_metrics_untracked_witness :
  workers (new_WorkerPool no_options) = [] /\
  m_activeWorkers (getMetrics (new_WorkerPool no_options)) = -2.
Proof. apply (reachable_metrics_untracked no_options), reach_init. Defined.

Lemma reachable_task_accounting_witness :
  NoDup (map t_id (taskQueue (run pool_two_busy (new_WorkerPool no_options)))) /\
  completedTasks (run pool_two_busy (new_WorkerPool no_options)) +
  failedTasks (run pool_two_busy (new_WorkerPool no_options)) +
  Z.of_nat (length (taskQueue (run pool_two_busy (new_WorkerPool no_options)))) =
  submitted (run pool_two_busy (new_WorkerPool no_options)).
Proof.
  apply (reachable_task_accounting no_options), reachable_run; [apply reach_init|reflexivity].
Defined.

Lemma shutdown_terminates_nothing_witness :
  exists p', shutdown (new_WorkerPool no_options) = Some p' /\
    terminated p' = [] /\ alive p' = [0%nat; 1%nat].
Proof.
  apply (shutdown_terminates_nothing no_options); [apply reach_init|reflexivity].
Defined.

Lemma cleanup_never_trims_witness :
  step EvCleanup (run pool_two_busy (new_WorkerPool no_options)) =
  run pool_two_busy (new_WorkerPool no_options).
Proof.
  apply (cleanup_never_trims no_options);
    [apply reachable_run; [apply reach_init|reflexivity]|vm_compute; congruence].
Defined.

Lemma executeTask_spawns_beyond_max_witness :
  alive (step (EvExecute "text" "c" "t3" 0) (run pool_two_busy (new_WorkerPool no_options))) =
  alive (run pool_two_busy (new_WorkerPool no_options)) ++
    [nextWorker (run pool_two_busy (new_WorkerPool no_options))].
Proof.
  apply (executeTask_spawns_beyond_max no_options);
    [apply reachable_run; [apply reach_init|reflexivity]|reflexivity|reflexivity].
Defined.

Lemma unregistered_head_blocks_queue_witness :
  head_blocked task_x1 (run pool_two_busy (run pool_unregistered (new_WorkerPool no_options))) /\
  (forall x, x ∈ posted (run pool_two_busy (run pool_unregistered (new_WorkerPool no_options))) ->
             x ∈ posted (run pool_unregistered (new_WorkerPool no_options))).
Proof.
  apply unregistered_head_blocks_queue.
  - split; [by eexists|split; [reflexivity|]].
    split; intros w Hin; by apply not_elem_of_nil in Hin.
  - reflexivity.
  - repeat constructor.
Defined.


Lemma timeout_rejects_task_witness :
  let p := run pool_two_busy (new_WorkerPool no_options) in
  ("t1" ∉ map t_id (taskQueue (step (EvTimeout "t1" 1%nat) p))) /\
  failedTasks (step (EvTimeout "t1" 1%nat) p) = failedTasks p + 1 /\
  ("t1" ∉ map fst (settled p) ->
   settled (step (EvTimeout "t1" 1%nat) p) = settled p ++ [("t1", Rejected "Task timeout")]).
Proof. apply timeout_rejects_task; apply (bool_decide_unpack _); vm_compute; reflexivity. Defined.

Lemma empty_error_counts_completed_witness :
  let p := run pool_two_busy (new_WorkerPool no_options) in
  let p' := step (EvMessage 1%nat "t1" {| reply_result := Some "ok"; reply_error := Some "" |} 7) p in
  completedTasks p' = completedTasks p + 1 /\ failedTasks p' = failedTasks p /\
  ("t1", Resolved (Some "ok")) ∈ settled p'.
Proof.
  apply (empty_error_counts_completed _ _ _ _ _
           {| t_id := "t1"; t_type := "text"; t_data := "a"; t_startTime := 0 |});
    [reflexivity|apply (bool_decide_unpack _); vm_compute; reflexivity].
Defined.

Lemma cleanup_loop_terminates_witness :
  cleanup_loop 3 (new_WorkerPool no_options) = cleanup_loop 10 (new_WorkerPool no_options).
Proof. apply cleanup_loop_terminates; vm_compute; lia. Defined.

Lemma late_reply_leaks_worker_witness :
  let p := step (EvMessage 1%nat "t1" {| reply_result := None; reply_error := None |} 7)
             (run pool_two_busy (new_WorkerPool no_options)) in
  idleWorkers (step (EvMessage 0%nat "t1" {| reply_result := None; reply_error := None |} 8) p) =
    idleWorkers p /\
  settled (step (EvMessage 0%nat "t1" {| reply_result := None; reply_error := None |} 8) p) = settled p.
Proof. apply late_reply_leaks_worker. apply (bool_decide_unpack _). vm_compute. reflexivity. Defined.

End WorkerPool.
