(* ===== verification/WorkerScript.v ===== *)
(** * WorkerScript: the worker thread of the pool

    [workerWrapper.js], the script every [Worker] of [WorkerPool] runs
    ([src/src/utils/smartCorrection.ts], lines 427-451): it refuses to
    start outside a worker thread, and for each message [{ taskId,
    scriptPath, data }] that [processNextTask] posts it imports the
    task type's script, awaits its default export on [data], and posts
    [{ taskId, result }] or [{ taskId, error }] back.  The dynamic
    [import] is an oracle: the module it loads, or what it throws.  The
    reply is the [WorkerReply] of [WorkerPool], and [reply_event] is the
    [message] event it raises in the pool. *)

From S2P Require Import Prelude WorkerPool.

Module WorkerScript.

Import WorkerPool.

Local Open Scope string_scope.

(** A thrown value: an [Error] with its [message], or anything else. *)
Inductive exc := ErrorObj (message : string) | OtherValue.

(** [error instanceof Error ? error.message : 'Unknown error'] (line 447). *)
Definition error_text (e : exc) : string :=
  match e with ErrorObj m => m | OtherValue => "Unknown error" end.

(** The message the pool posts (lines 127-131 of workerPool.ts). *)
Record WorkerMessage := { taskId : string; scriptPath : string; data : string }.

(** What [await import(path.resolve(scriptPath))] gives: a module with
    or without a default export (a function of [data] that returns a
    result or throws), or a throw. *)
Definition script := string -> exc + option string.

(** The check of lines 430-432. *)
Definition start (parentPort : bool) : string + unit :=
  if parentPort then inr tt else inl "This module must be run as a worker thread!".

(** The [message] handler (lines 434-450): the posted [taskId] and the
    reply.  Calling a missing default export throws a [TypeError]. *)
Definition workerWrapper (import : string -> exc + option script) (m : WorkerMessage) : string * WorkerReply :=
  let fail e := (taskId m, {| reply_result := None; reply_error := Some (error_text e) |}) in
  match import (scriptPath m) with
  | inl e => fail e
  | inr None => fail (ErrorObj "workerScript.default is not a function")
  | inr (Some f) =>
      match f (data m) with
      | inl e => fail e
      | inr r => (taskId m, {| reply_result := r; reply_error := None |})
      end
  end.

(** The message [processNextTask] posts for the queued task [tid], and
    the [message] event the worker's answer raises in the pool. *)
Definition posted_message (tid : string) (p : Pool) : option WorkerMessage :=
  match find (fun t => bool_decide (t_id t = tid)) (taskQueue p) with
  | Some task =>
      match workerScripts p !! t_type task with
      | Some path => Some {| taskId := t_id task; scriptPath := path; data := t_data task |}
      | None => None
      end
  | None => None
  end.

Definition reply_event (import : string -> exc + option script) (w : wid) (tid : string) (now : Z) (p : Pool)
  : option event :=
  match posted_message tid p with
  | Some m => let '(id, r) := workerWrapper import m in Some (EvMessage w id r now)
  | None => None
  end.

(** How the pool's [message] handler settles a task for a reply
    (lines 83-89 of workerPool.ts). *)
Definition reply_outcome (r : WorkerReply) : outcome :=
  if js_truthy_string (reply_error r) then Rejected (default "" (reply_error r)) else Resolved (reply_result r).

(** How the task script ends: [import] throws, the module has no
    default export, or the export returns or throws. *)
Inductive script_run (import : string -> exc + option script) (path d : string) : exc + option string -> Prop :=
  | run_import_fails e : import path = inl e -> script_run import path d (inl e)
  | run_no_default : import path = inr None ->
      script_run import path d (inl (ErrorObj "workerScript.default is not a function"))
  | run_export f x : import path = inr (Some f) -> f d = x -> script_run import path d x.

(** The settlement of the task's promise for each end of its script. *)
Definition task_outcome (x : exc + option string) : outcome :=
  match x with
  | inr r => Resolved r
  | inl e => if bool_decide (error_text e = "") then Resolved None else Rejected (error_text e)
  end.

(** ** Examples *)

Definition ex_pool : Pool :=
  step (EvExecute "clean" "text" "task1" 0) (step (EvRegister "clean" "./clean.js") (new_WorkerPool no_options)).

Definition ex_import (_ : string) : exc + option script := inr (Some (fun _ => inl (ErrorObj ""))).

(** ** Lemmas *)

Lemma posted_message_taskId tid p m : posted_message tid p = Some m -> taskId m = tid.
Proof.
  unfold posted_message. destruct (find _ _) as [task|] eqn:Hf; [|done].
  apply find_some in Hf as [_ Ht]. apply bool_decide_eq_true in Ht.
  case_match; [|done]. intros [= <-]. done.
Qed.

Lemma workerWrapper_taskId import m : fst (workerWrapper import m) = taskId m.
Proof. unfold workerWrapper. by repeat case_match. Qed.

(** The pool's handler settles a queued, unsettled task with the
    outcome the reply says. *)
Lemma message_settles w tid r now p task :
  find (fun t => bool_decide (t_id t = tid)) (taskQueue p) = Some task ->
  tid ∉ map fst (settled p) ->
  (tid, reply_outcome r) ∈ settled (step (EvMessage w tid r now) p).
Proof.
  intros Hf Hs. simpl. unfold onMessage. simpl. rewrite Hf.
  assert (Hp : forall q, settled q ⊆ settled (processNextTask q)).
  { intros q. unfold processNextTask. repeat case_match; simpl; try set_solver.
    unfold settle. case_decide; set_solver. }
  apply Hp. unfold reply_outcome. destruct (js_truthy_string _); unfold settle; simpl;
    rewrite decide_False by done; set_solver.
Qed.

Lemma workerWrapper_run import m x :
  script_run import (scriptPath m) (data m) x ->
  reply_outcome (snd (workerWrapper import m)) = task_outcome x.
Proof.
  unfold workerWrapper, reply_outcome, task_outcome.
  destruct 1 as [e He|Hn|f x Hi <-]; [rewrite He|rewrite Hn|rewrite Hi; destruct (f (data m)) as [e|r]];
    cbn; try done.
  all: destruct e as [[|c m']|]; cbn; done.
Qed.

(** ** Properties *)

(** C9: The worker thread settles the task it is posted as its script
    ends: a task whose script returns [r] resolves with [r]; one whose
    [import] or script throws rejects with the [Error]'s message, or
    with "Unknown error" for a value that is not an [Error], except that
    an [Error] with an empty message resolves the task with [undefined],
    because the pool tests [if (error)]. *)
Theorem worker_settles_task import w tid now p m x :
  posted_message tid p = Some m -> tid ∉ map fst (settled p) ->
  script_run import (scriptPath m) (data m) x ->
  exists e, reply_event import w tid now p = Some e /\ (tid, task_outcome x) ∈ settled (step e p).
Proof.
  intros Hm Hs Hr. unfold reply_event. rewrite Hm.
  pose proof (workerWrapper_taskId import m) as Hid. destruct (workerWrapper import m) as [id r] eqn:Hw.
  eexists; split; [reflexivity|]. cbn in Hid. rewrite Hid, (posted_message_taskId _ _ _ Hm).
  rewrite <- (workerWrapper_run _ _ _ Hr), Hw. cbn [snd].
  unfold posted_message in Hm. destruct (find _ _) eqn:Hf; [|done].
  by apply (message_settles _ _ _ _ _ w0).
Qed.

(** ** Witnesses *)

Lemma worker_settles_task_witness :
  exists e, reply_event ex_import 0 "task1" 5 ex_pool = Some e /\ ("task1", Resolved None) ∈ settled (step e ex_pool).
Proof.
  apply (worker_settles_task ex_import 0 "task1" 5 ex_pool
           {| taskId := "task1"; scriptPath := "./clean.js"; data := "text" |} (inl (ErrorObj ""))).
  - vm_compute. reflexivity.
  - vm_compute. set_solver.
  - by apply (run_export _ _ _ (fun _ => inl (ErrorObj ""))).
Defined.

End WorkerScript.
