(* ===== verification/YouTube.v ===== *)
(** * YouTube: the [YouTubeProcessor] of [workerPool.ts]

    The class [YouTubeProcessor] of [src/src/utils/workerPool.ts] (lines
    236-549) turns YouTube videos into stored transcript chunks.
    [processVideo] runs a pipeline (download the audio, transcribe it,
    vectorize the transcript with the shared [BatchProcessor] of
    [ChunkBatch], delete the audio), and deduplicates calls through the
    [Map] [processingQueue] from video ids to the pipeline's promise.
    [processVideoBatch] feeds a text made of the videos' titles to a new
    [BatchProcessor] and calls [processVideo] from its chunk processor.
    [monitorChannel], the polling interval and [checkForNewVideos] watch
    channels for new videos.

    The processor is a state machine ([step] on [event]), like the
    [WorkerPool].  A pipeline in the queue is [Pending] at the stage it
    awaits, and each awaited call settles by an event of its own.  A
    [Settled] entry is a promise that is already settled when [set]
    stores it.  Ghost logs record the pipelines started and how they
    settled.

    Two parts of the code are single steps, although the source awaits
    inside them.  The first is one iteration of [checkForNewVideos] for
    one channel ([checkChannel]), including the [processVideoBatch] it
    awaits.  The second is [processChannel].  The outcome of each
    [processVideo] call that [processVideoBatch] awaits is an oracle
    [ok]; the pipelines those calls start still settle by their own
    later events.  [vectorize] runs [ChunkBatch.processLargeDocument] on
    the shared processor state in one step.  The YouTube API responses,
    the splitter and [addDocument] are oracles. *)

From S2P Require Import Prelude ChunkBatch.

Local Open Scope Z_scope.

Module YouTube.

(** [VideoMetadata] (lines 248-255). *)
Record VideoMetadata := {
  id : string;
  title : string;
  description : string;
  publishedAt : string;
  channelId : string;
  channelTitle : string;
}.

(** [ProcessingOptions] (lines 267-272): [None] is [undefined]. *)
Record ProcessingOptions := {
  downloadAudio : option bool;
  transcribe : option bool;
  vectorize : option bool;
  deleteAfterProcessing : option bool;
}.

Definition no_options : ProcessingOptions :=
  {| downloadAudio := None; transcribe := None; vectorize := None; deleteAfterProcessing := None |}.

(** The options after the destructuring defaults of [processVideo]
    (lines 399-404): each applies only to [undefined]. *)
Record Flags := {
  f_download : bool;
  f_transcribe : bool;
  f_vectorize : bool;
  f_delete : bool;
}.

Definition flags_of (o : ProcessingOptions) : Flags := {|
  f_download := default true (downloadAudio o);
  f_transcribe := default true (transcribe o);
  f_vectorize := default true (vectorize o);
  f_delete := default true (deleteAfterProcessing o);
|}.

(** An item of [youtube.search.list]: [item.id?.videoId] and
    [item.snippet]. *)
Record Snippet := {
  sn_title : string;
  sn_description : option string;
  sn_publishedAt : string;
  sn_channelId : string;
  sn_channelTitle : string;
}.

Record SearchItem := {
  it_videoId : option string;
  it_snippet : option Snippet;
}.

(** The [filter] and [map] of [getChannelVideos] (lines 316-340) on
    [response.data.items]. *)
Definition to_video (it : SearchItem) : option VideoMetadata :=
  match it_videoId it, it_snippet it with
  | Some v, Some sn =>
      if truthy v then
        Some {| id := v; title := sn_title sn;
                description := default "" (sn_description sn);
                publishedAt := sn_publishedAt sn; channelId := sn_channelId sn;
                channelTitle := sn_channelTitle sn |}
      else None
  | _, _ => None
  end.

Definition getChannelVideos (items : option (list SearchItem)) : list VideoMetadata :=
  omap to_video (default [] items).

Definition nl : string := String (Ascii.ascii_of_nat 10) EmptyString.

(** The text of [processVideoBatch] (lines 379-381). *)
Definition video_line (index : nat) (video : VideoMetadata) : string :=
  "Video " ++ pretty (Z.of_nat index + 1) ++ ":" ++ nl ++ "Title: " ++ title video ++ nl ++
  "Description: " ++ description video ++ nl.

Definition videoText (videos : list VideoMetadata) : string :=
  String.concat (nl ++ nl) (imap video_line videos).

(** The stage a pipeline awaits (lines 412-452). *)
Inductive stage :=
  | Downloading
  | Transcribing (audioPath : string)
  | Vectorizing (audioPath : string) (transcript : string)
  | Unlinking.

(** An entry of [processingQueue]: the promise of a pipeline that is
    pending at a stage, or a promise that settled before [set] stored it. *)
Inductive entry :=
  | Pending (fl : Flags) (s : stage)
  | Settled.

(** [{ lastVideos, options }] of [channelMonitors]. *)
Record Monitor := {
  lastVideos : list VideoMetadata;
  m_options : ProcessingOptions;
}.

(** The processor's state.  [pendingMonitors] are the [monitorChannel]
    calls that await [getChannelVideos].  [polling] says whether
    [pollingInterval] is set.  [bp] is the state of the shared
    [BatchProcessor].  [started], [resolved] and [rejected] are ghost
    logs of the pipelines. *)
Record YP := {
  processingQueue : list (string * entry);
  channelMonitors : list (string * Monitor);
  pendingMonitors : list (string * ProcessingOptions);
  polling : bool;
  bp : @ChunkBatch.St unit;
  started : list (string * Flags);
  resolved : list string;
  rejected : list string;
}.

(** The constructor (lines 286-302). *)
Definition new_YouTubeProcessor : YP := {|
  processingQueue := []; channelMonitors := []; pendingMonitors := [];
  polling := false; bp := ChunkBatch.st0; started := []; resolved := []; rejected := [];
|}.

Definition set_queue (q : list (string * entry)) (st : YP) : YP :=
  {| processingQueue := q; channelMonitors := channelMonitors st;
     pendingMonitors := pendingMonitors st; polling := polling st; bp := bp st;
     started := started st; resolved := resolved st; rejected := rejected st |}.

Definition set_monitors (m : list (string * Monitor)) (p : list (string * ProcessingOptions))
  (pl : bool) (st : YP) : YP :=
  {| processingQueue := processingQueue st; channelMonitors := m;
     pendingMonitors := p; polling := pl; bp := bp st;
     started := started st; resolved := resolved st; rejected := rejected st |}.

Definition set_bp (b : @ChunkBatch.St unit) (st : YP) : YP :=
  {| processingQueue := processingQueue st; channelMonitors := channelMonitors st;
     pendingMonitors := pendingMonitors st; polling := polling st; bp := b;
     started := started st; resolved := resolved st; rejected := rejected st |}.

Definition log_start (vid : string) (fl : Flags) (st : YP) : YP :=
  {| processingQueue := processingQueue st; channelMonitors := channelMonitors st;
     pendingMonitors := pendingMonitors st; polling := polling st; bp := bp st;
     started := started st ++ [(vid, fl)]; resolved := resolved st; rejected := rejected st |}.

(** The [finally] of the pipeline (line 454): the entry is deleted, and
    the promise resolves ([true]) or rejects. *)
Definition settle (vid : string) (ok : bool) (st : YP) : YP :=
  {| processingQueue := assoc_delete vid (processingQueue st);
     channelMonitors := channelMonitors st;
     pendingMonitors := pendingMonitors st; polling := polling st; bp := bp st;
     started := started st;
     resolved := if ok then resolved st ++ [vid] else resolved st;
     rejected := if ok then rejected st else rejected st ++ [vid] |}.

(** What the body does after a stage, in the order of lines 412-452:
    [None] when it reaches its [finally]. *)
Definition unlink_or_end (fl : Flags) (audioPath : string) : option stage :=
  if f_delete fl && truthy audioPath then Some Unlinking else None.

Definition after_transcribe (fl : Flags) (audioPath transcript : string) : option stage :=
  if f_vectorize fl && truthy transcript then Some (Vectorizing audioPath transcript)
  else unlink_or_end fl audioPath.

Definition after_download (fl : Flags) (audioPath : string) : option stage :=
  if f_transcribe fl && truthy audioPath then Some (Transcribing audioPath)
  else unlink_or_end fl audioPath.

(** The first stage: without [downloadAudio], [audioPath] and
    [transcript] stay [undefined] and the body awaits nothing. *)
Definition start_stage (fl : Flags) : option stage :=
  if f_download fl then Some Downloading else None.

(** The pipeline of [vid] goes on to [next], or reaches its [finally]
    and resolves. *)
Definition advance (vid : string) (fl : Flags) (next : option stage) (st : YP) : YP :=
  match next with
  | Some s => set_queue (assoc_set vid (Pending fl s) (processingQueue st)) st
  | None => settle vid true st
  end.

(** [processVideo(videoId, options)] (lines 395-457), up to its first
    [await].  A video in the queue awaits the stored promise.  Otherwise
    the [async] body runs until its first [await] before [set] stores its
    promise; a body that awaits nothing has already run its [finally]. *)
Definition processVideo (vid : string) (opts : ProcessingOptions) (st : YP) : YP :=
  if bool_decide (vid ∈ map fst (processingQueue st)) then st
  else
    let fl := flags_of opts in
    let st1 := log_start vid fl st in
    match start_stage fl with
    | Some s => set_queue (assoc_set vid (Pending fl s) (processingQueue st1)) st1
    | None =>
        let st2 := settle vid true st1 in
        set_queue (assoc_set vid Settled (processingQueue st2)) st2
    end.

(** [stopPolling] with the [delete] of [stopMonitoring] (lines
    522-535). *)
Definition stopMonitoring (c : string) (st : YP) : YP :=
  let m := assoc_delete c (channelMonitors st) in
  set_monitors m (pendingMonitors st) (if bool_decide (m = []) then false else polling st) st.

(** [monitorChannel] (lines 478-494) up to its [await]. *)
Definition monitorChannel (c : string) (opts : ProcessingOptions) (st : YP) : YP :=
  if bool_decide (c ∈ map fst (channelMonitors st)) then st
  else set_monitors (channelMonitors st) (pendingMonitors st ++ [(c, opts)]) (polling st) st.

(** The rest of the [i]-th pending [monitorChannel], when its
    [getChannelVideos] resolves with [items]; [startPolling] (lines
    515-520) replaces the interval, so [polling] becomes [true]. *)
Definition monitorResume (i : nat) (items : option (list SearchItem)) (st : YP) : option YP :=
  match pendingMonitors st !! i with
  | Some (c, opts) =>
      Some (set_monitors
              (assoc_set c {| lastVideos := getChannelVideos items; m_options := opts |}
                 (channelMonitors st))
              (delete i (pendingMonitors st)) true st)
  | None => None
  end.

(** [getProcessingStatus] (lines 536-548), without the metrics of the
    unused [this.cache]. *)
Definition getProcessingStatus (st : YP) : Z * list string * ChunkBatch.ProcessingMetrics :=
  (Z.of_nat (length (processingQueue st)), map fst (channelMonitors st), ChunkBatch.metrics (bp st)).

Section WithOracles.

(** The splitter of both [BatchProcessor]s (chunk size 1000, overlap
    200) and the outcome of [vectorStorage.addDocument] for a chunk of a
    video's transcript and its index. *)
Context (split : string -> list string).
Context (addDocument : string -> string -> Z -> bool).

(** The default options of [this.batchProcessor]. *)
Definition shared_options : ChunkBatch.Options := ChunkBatch.options_of ChunkBatch.no_options.

(** [this.batchProcessor.processLargeDocument] on a transcript (lines
    428-444); its slicing loop needs one test more than the chunks. *)
Definition vectorize_run (vid transcript : string) (now0 now1 : Z) (b : @ChunkBatch.St unit)
  : option ((string + ChunkBatch.ProcessingMetrics) * @ChunkBatch.St unit) :=
  @ChunkBatch.processLargeDocument unit shared_options split (addDocument vid)
    (S (length (split transcript))) transcript now0 now1 b.

(** [processVideoBatch] (lines 374-393).  The chunk processor of
    chunk [index] calls [processVideo] on [videos[index]], whose outcome
    is [ok].  The calls are those the new processor makes, in order;
    [true] when it resolves. *)
Definition batch_processor (ok : string -> bool) (videos : list VideoMetadata) (c : string) (index : Z) : bool :=
  match videos !! Z.to_nat index with Some v => ok (id v) | None => true end.

Definition processVideoBatch (ok : string -> bool) (videos : list VideoMetadata) (st : YP)
  : option (bool * YP) :=
  let text := videoText videos in
  match @ChunkBatch.processLargeDocument unit (ChunkBatch.options_of (ChunkBatch.with_batchSize 5))
          split (batch_processor ok videos) (S (length (split text))) text 0 0 ChunkBatch.st0 with
  | Some (r, s') =>
      let called := omap (fun ci => videos !! Z.to_nat ci.2) (ChunkBatch.calls s') in
      Some (match r with inr _ => true | inl _ => false end,
            foldl (fun st v => processVideo (id v) no_options st) st called)
  | None => None
  end.

(** The [for (const batch of batches)] loop of [processChannel]: a
    rejected [processVideoBatch] rejects the channel and stops it. *)
Fixpoint run_video_batches (ok : string -> bool) (batches : list (list VideoMetadata)) (st : YP)
  : option (bool * YP) :=
  match batches with
  | [] => Some (true, st)
  | b :: bs =>
      match processVideoBatch ok b st with
      | Some (true, st') => run_video_batches ok bs st'
      | Some (false, st') => Some (false, st')
      | None => None
      end
  end.

(** [processChannel] (lines 460-476) after [getChannelVideos] resolves
    with [items]: batches of 5 videos, each awaited in turn.  Its
    [options] argument is unused. *)
Definition processChannel (ok : string -> bool) (items : option (list SearchItem)) (st : YP)
  : option (bool * YP) :=
  let videos := getChannelVideos items in
  match slices_loop (S (length videos)) 5 videos 0 with
  | Some batches => run_video_batches ok batches st
  | None => None
  end.

(** The [filter] of [checkForNewVideos] (lines 500-502). *)
Definition new_videos (last current : list VideoMetadata) : list VideoMetadata :=
  filter (fun video => negb (existsb (fun v => String.eqb (id v) (id video)) last)) current.

(** One iteration of [checkForNewVideos] (lines 496-513) for channel [c],
    when [getChannelVideos] resolves with [items]: the new videos go to
    [processVideoBatch], and [lastVideos] is replaced when it resolves.
    A rejection is caught. *)
Definition checkChannel (ok : string -> bool) (c : string) (items : option (list SearchItem)) (st : YP)
  : option YP :=
  match assoc_get c (channelMonitors st) with
  | None => None
  | Some m =>
      let currentVideos := getChannelVideos items in
      match new_videos (lastVideos m) currentVideos with
      | [] => Some st
      | nv =>
          match processVideoBatch ok nv st with
          | Some (true, st') =>
              Some (set_monitors (assoc_set c {| lastVideos := currentVideos; m_options := m_options m |}
                                    (channelMonitors st'))
                      (pendingMonitors st') (polling st') st')
          | Some (false, st') => Some st'
          | None => None
          end
      end
  end.

(** The events: calls of the public methods, settlements of the awaited
    calls of a pipeline, and the polling interval's iterations. *)
Inductive event :=
  | EvProcessVideo (vid : string) (opts : ProcessingOptions)
  | EvDownloaded (vid : string) (r : option string)
  | EvTranscribed (vid : string) (r : option string)
  | EvVectorize (vid : string) (now0 now1 : Z)
  | EvUnlinked (vid : string) (ok : bool)
  | EvProcessChannel (ok : string -> bool) (items : option (list SearchItem))
  | EvMonitorChannel (c : string) (opts : ProcessingOptions)
  | EvMonitorResume (i : nat) (items : option (list SearchItem))
  | EvCheckChannel (ok : string -> bool) (c : string) (items : option (list SearchItem))
  | EvStopMonitoring (c : string)
  | EvInitialize.

(** The handler of an event; [None] when the event cannot occur. *)
Definition step (e : event) (st : YP) : option YP :=
  match e with
  | EvProcessVideo vid opts => Some (processVideo vid opts st)
  | EvDownloaded vid r =>
      match assoc_get vid (processingQueue st), r with
      | Some (Pending fl Downloading), Some p => Some (advance vid fl (after_download fl p) st)
      | Some (Pending fl Downloading), None => Some (settle vid false st)
      | _, _ => None
      end
  | EvTranscribed vid r =>
      match assoc_get vid (processingQueue st), r with
      | Some (Pending fl (Transcribing p)), Some t => Some (advance vid fl (after_transcribe fl p t) st)
      | Some (Pending fl (Transcribing _)), None => Some (settle vid false st)
      | _, _ => None
      end
  | EvVectorize vid now0 now1 =>
      match assoc_get vid (processingQueue st) with
      | Some (Pending fl (Vectorizing p t)) =>
          match vectorize_run vid t now0 now1 (bp st) with
          | Some (inr _, b) => Some (advance vid fl (unlink_or_end fl p) (set_bp b st))
          | Some (inl _, b) => Some (settle vid false (set_bp b st))
          | None => None
          end
      | _ => None
      end
  | EvUnlinked vid ok =>
      match assoc_get vid (processingQueue st) with
      | Some (Pending fl Unlinking) => Some (settle vid ok st)
      | _ => None
      end
  | EvProcessChannel ok items => option_map snd (processChannel ok items st)
  | EvMonitorChannel c opts => Some (monitorChannel c opts st)
  | EvMonitorResume i items => monitorResume i items st
  | EvCheckChannel ok c items => if polling st then checkChannel ok c items st else None
  | EvStopMonitoring c => Some (stopMonitoring c st)
  | EvInitialize => Some (set_bp (ChunkBatch.set_metrics (fun _ => ChunkBatch.zero_metrics) (bp st)) st)
  end.

(** A run of events. *)
Fixpoint run (es : list event) (st : YP) : option YP :=
  match es with
  | [] => Some st
  | e :: es' => match step e st with Some st' => run es' st' | None => None end
  end.

Definition can_step (st st' : YP) : Prop := exists e, step e st = Some st'.

Definition reachable (st : YP) : Prop := rtc can_step new_YouTubeProcessor st.

End WithOracles.

(** The pipelines of [vid] started, settled, and pending in the queue. *)
Definition starts (vid : string) (st : YP) : nat :=
  length (List.filter (fun p => String.eqb vid p.1) (started st)).

Definition count_vid (vid : string) (l : list string) : nat :=
  length (List.filter (String.eqb vid) l).

Definition settled (vid : string) (st : YP) : nat :=
  (count_vid vid (resolved st) + count_vid vid (rejected st))%nat.

Definition pending_of (vid : string) (q : list (string * entry)) : nat :=
  match assoc_get vid q with Some (Pending _ _) => 1 | _ => 0 end%nat.

(** The invariant of the queue: its keys are distinct, and every
    pipeline started for a video has settled or is the one pending in
    the queue. *)
Definition qinv (st : YP) : Prop :=
  NoDup (map fst (processingQueue st)) /\
  forall vid, starts vid st = (settled vid st + pending_of vid (processingQueue st))%nat.

(** The invariant of the monitors: distinct channels, and the interval
    is set only while a channel is monitored. *)
Definition minv (st : YP) : Prop :=
  NoDup (map fst (channelMonitors st)) /\ (polling st = true -> channelMonitors st <> []).

Definition yp_wf (st : YP) : Prop := qinv st /\ minv st.

(** A step that leaves the monitors and the interval as they are. *)
Definition same_mon (st st' : YP) : Prop :=
  channelMonitors st' = channelMonitors st /\ pendingMonitors st' = pendingMonitors st /\
  polling st' = polling st.

(** The invariant of the queue, as a relation between two states. *)
Definition qinv_rel (st st' : YP) : Prop := qinv st -> qinv st'.

(** A step that keeps a settled entry of [vid] and starts no pipeline
    of [vid]. *)
Definition keeps_settled (vid : string) (st st' : YP) : Prop :=
  assoc_get vid (processingQueue st) = Some Settled ->
  assoc_get vid (processingQueue st') = Some Settled /\ starts vid st' = starts vid st.

(** A step that starts pipelines with the default options only. *)
Definition adds_default (st st' : YP) : Prop :=
  exists l, started st' = started st ++ l /\ Forall (fun p => p.2 = flags_of no_options) l.

(** Data of the examples. *)
Definition no_download : ProcessingOptions :=
  {| downloadAudio := Some false; transcribe := None; vectorize := None; deleteAfterProcessing := None |}.

Definition ex_video (vid : string) : VideoMetadata :=
  {| id := vid; title := vid; description := ""; publishedAt := ""; channelId := "c"; channelTitle := "" |}.

Definition ex_split1 (t : string) : list string := [t].

Definition ex_addDocument (_ _ : string) (_ : Z) : bool := true.

(** The rank of a stage: how many awaited calls the pipeline may still
    make. *)
Definition stage_rank (s : stage) : nat :=
  match s with Downloading => 4 | Transcribing _ => 3 | Vectorizing _ _ => 2 | Unlinking => 1 end.

Definition pending_rank (vid : string) (st : YP) : nat :=
  match assoc_get vid (processingQueue st) with Some (Pending _ s) => stage_rank s | _ => 0 end.

(** The events by which the pipeline of [vid] goes on. *)
Definition pipeline_event (vid : string) (e : event) : Prop :=
  match e with
  | EvDownloaded v _ | EvTranscribed v _ | EvVectorize v _ _ | EvUnlinked v _ => v = vid
  | _ => False
  end.

Definition ex_item (vid : string) : SearchItem :=
  {| it_videoId := Some vid;
     it_snippet := Some {| sn_title := vid; sn_description := None; sn_publishedAt := "";
                           sn_channelId := "c"; sn_channelTitle := "" |} |}.

Definition ex_run (es : list event) (st : YP) : YP :=
  default new_YouTubeProcessor (run ex_split1 ex_addDocument es st).

(** [processVideo("v1", { downloadAudio: false })], then
    [processVideo("v1")]. *)
Definition ex_stale : YP := ex_run [EvProcessVideo "v1" no_download] new_YouTubeProcessor.
Definition ex_stale2 : YP := ex_run [EvProcessVideo "v1" no_options] ex_stale.

(** [monitorChannel("c", { downloadAudio: false })] with no video yet,
    then a check that finds the video "a". *)
Definition ex_monitored : YP :=
  ex_run [EvMonitorChannel "c" no_download; EvMonitorResume 0 (Some [])] new_YouTubeProcessor.
Definition ex_checked : YP :=
  default new_YouTubeProcessor (checkChannel ex_split1 (fun _ => true) "c" (Some [ex_item "a"]) ex_monitored).

(** ** The queue invariant *)

Create Rewrite HintDb ytrw.

Ltac yp_simpl :=
  cbn [processingQueue channelMonitors pendingMonitors polling bp started resolved rejected
       set_queue set_monitors set_bp log_start settle] in *.

Lemma count_vid_snoc x v l : count_vid x (l ++ [v]) = (count_vid x l + if String.eqb x v then 1 else 0)%nat.
Proof. unfold count_vid. rewrite List.filter_app, length_app. simpl. by destruct (String.eqb x v). Qed.

Lemma starts_log_start x vid fl st :
  starts x (log_start vid fl st) = (starts x st + if String.eqb x vid then 1 else 0)%nat.
Proof. unfold starts. simpl. rewrite List.filter_app, length_app. simpl. by destruct (String.eqb x vid). Qed.

Lemma settled_settle x vid ok st :
  settled x (settle vid ok st) = (settled x st + if String.eqb x vid then 1 else 0)%nat.
Proof. unfold settled. simpl. destruct ok; rewrite count_vid_snoc; lia. Qed.

Lemma pending_of_set x vid e q :
  pending_of x (assoc_set vid e q) =
    if String.eqb x vid then match e with Pending _ _ => 1 | Settled => 0 end%nat else pending_of x q.
Proof.
  unfold pending_of. destruct (String.eqb_spec x vid) as [->|Hne].
  - by rewrite assoc_get_set_eq.
  - by rewrite assoc_get_set_ne.
Qed.

Lemma pending_of_delete x vid q :
  pending_of x (assoc_delete vid q) = if String.eqb x vid then 0%nat else pending_of x q.
Proof.
  unfold pending_of. destruct (String.eqb_spec x vid) as [->|Hne].
  - by rewrite assoc_get_delete_eq.
  - by rewrite assoc_get_delete_ne.
Qed.

Lemma settled_log_start x vid fl st : settled x (log_start vid fl st) = settled x st.
Proof. done. Qed.

#[local] Hint Rewrite starts_log_start settled_log_start settled_settle pending_of_set pending_of_delete : ytrw.

Lemma qinv_processVideo vid opts st : qinv st -> qinv (processVideo vid opts st).
Proof.
  intros [Hnd Hacc]. unfold processVideo. case_bool_decide as Hin; [by split|].
  assert (E : assoc_get vid (processingQueue st) = None) by by apply assoc_get_None_elem.
  assert (P0 : pending_of vid (processingQueue st) = 0%nat) by (unfold pending_of; by rewrite E).
  destruct (start_stage (flags_of opts)) as [sg|]; split.
  - by apply NoDup_keys_assoc_set.
  - intros x. specialize (Hacc x).
    change (starts x (log_start vid (flags_of opts) st) =
            (settled x (log_start vid (flags_of opts) st) +
             pending_of x (assoc_set vid (Pending (flags_of opts) sg) (processingQueue st)))%nat).
    autorewrite with ytrw. destruct (String.eqb_spec x vid) as [->|]; lia.
  - apply NoDup_keys_assoc_set, NoDup_keys_assoc_delete. done.
  - intros x. specialize (Hacc x).
    change (starts x (log_start vid (flags_of opts) st) =
            (settled x (settle vid true (log_start vid (flags_of opts) st)) +
             pending_of x (assoc_set vid Settled (assoc_delete vid (processingQueue st))))%nat).
    autorewrite with ytrw. unfold settled in *. yp_simpl.
    destruct (String.eqb_spec x vid) as [->|]; lia.
Qed.

Lemma qinv_settle vid fl sg ok st :
  assoc_get vid (processingQueue st) = Some (Pending fl sg) -> qinv st -> qinv (settle vid ok st).
Proof.
  intros E [Hnd Hacc]. split; [by apply NoDup_keys_assoc_delete|]. intros x.
  specialize (Hacc x). change (starts x st = (settled x (settle vid ok st) +
    pending_of x (assoc_delete vid (processingQueue st)))%nat).
  autorewrite with ytrw. destruct (String.eqb_spec x vid) as [->|]; [|lia].
  unfold pending_of in Hacc. rewrite E in Hacc. lia.
Qed.

Lemma qinv_advance vid fl sg next st :
  assoc_get vid (processingQueue st) = Some (Pending fl sg) -> qinv st -> qinv (advance vid fl next st).
Proof.
  intros E Hq. destruct next as [s'|]; [|by eapply qinv_settle].
  destruct Hq as [Hnd Hacc]. split; [by apply NoDup_keys_assoc_set|]. intros x.
  specialize (Hacc x). change (starts x st = (settled x st +
    pending_of x (assoc_set vid (Pending fl s') (processingQueue st)))%nat).
  autorewrite with ytrw. destruct (String.eqb_spec x vid) as [->|]; [|lia].
  unfold pending_of in Hacc. rewrite E in Hacc. lia.
Qed.

Lemma qinv_set_bp b st : qinv st -> qinv (set_bp b st).
Proof. done. Qed.

Lemma qinv_set_monitors m p pl st : qinv st -> qinv (set_monitors m p pl st).
Proof. done. Qed.


Lemma same_mon_processVideo vid opts st : same_mon st (processVideo vid opts st).
Proof. unfold processVideo, same_mon. case_bool_decide; [done|]. by destruct (start_stage _). Qed.

Lemma same_mon_trans st1 st2 st3 : same_mon st1 st2 -> same_mon st2 st3 -> same_mon st1 st3.
Proof. unfold same_mon. intros (?&?&?) (?&?&?). split_and!; congruence. Qed.

Lemma minv_same_mon st st' : same_mon st st' -> minv st -> minv st'.
Proof. intros (E1 & _ & E3) [H1 H2]. split; rewrite E1; [done|]. by rewrite E3. Qed.

Lemma minv_set_queue q st : minv st -> minv (set_queue q st).
Proof. done. Qed.

Lemma minv_settle vid ok st : minv st -> minv (settle vid ok st).
Proof. done. Qed.

Lemma minv_advance vid fl next st : minv st -> minv (advance vid fl next st).
Proof. by destruct next. Qed.

Lemma minv_set_bp b st : minv st -> minv (set_bp b st).
Proof. done. Qed.

Lemma assoc_set_nonempty {V} (k : string) (v : V) l : assoc_set k v l <> [].
Proof. destruct l as [|[]]; simpl; [done|]. by case_decide. Qed.

Lemma minv_monitorChannel c opts st : minv st -> minv (monitorChannel c opts st).
Proof. unfold monitorChannel. by case_bool_decide. Qed.

Lemma minv_monitorResume i items st st' : monitorResume i items st = Some st' -> minv st -> minv st'.
Proof.
  unfold monitorResume. destruct (pendingMonitors st !! i) as [[c opts]|]; [|done].
  intros [= <-] [Hnd _]. split; [by apply NoDup_keys_assoc_set|]. intros _. apply assoc_set_nonempty.
Qed.

Lemma minv_stopMonitoring c st : minv st -> minv (stopMonitoring c st).
Proof.
  intros [Hnd Hp]. split; [by apply NoDup_keys_assoc_delete|]. simpl. by case_bool_decide.
Qed.

#[local] Instance same_mon_preorder : PreOrder same_mon.
Proof. split; [intros st; by repeat split|intros ???; apply same_mon_trans]. Qed.

#[local] Instance qinv_rel_preorder : PreOrder qinv_rel.
Proof. split; [intros st H; exact H|intros ??? H1 H2 H; auto]. Qed.

Lemma qinv_rel_processVideo vid st : qinv_rel st (processVideo vid no_options st).
Proof. intros H. by apply qinv_processVideo. Qed.

(** The composite operations call [processVideo] with the default
    options only, so every relation that each such call satisfies
    relates their initial and final states. *)
Section PVFrame.
Context (R : YP -> YP -> Prop) `{!PreOrder R}.
Context (HR : forall vid st, R st (processVideo vid no_options st)).
Context (split : string -> list string) (ok : string -> bool).

Lemma frame_processVideos vs st : R st (foldl (fun st v => processVideo (id v) no_options st) st vs).
Proof.
  revert st. induction vs as [|v vs IH]; intros st; simpl; [reflexivity|].
  etrans; [apply HR|apply IH].
Qed.

Lemma frame_processVideoBatch vs st b st' :
  processVideoBatch split ok vs st = Some (b, st') -> R st st'.
Proof.
  unfold processVideoBatch. repeat case_match; try done; intros [= _ <-]; apply frame_processVideos.
Qed.

Lemma frame_run_video_batches bs st b st' :
  run_video_batches split ok bs st = Some (b, st') -> R st st'.
Proof.
  revert st. induction bs as [|vs bs IH]; intros st; simpl; [by intros [= _ <-]|].
  destruct (processVideoBatch split ok vs st) as [[[] st1]|] eqn:E; [| |done].
  - intros H. etrans; [apply (frame_processVideoBatch _ _ _ _ E)|apply (IH _ H)].
  - intros [= _ <-]. apply (frame_processVideoBatch _ _ _ _ E).
Qed.

Lemma frame_processChannel items st b st' :
  processChannel split ok items st = Some (b, st') -> R st st'.
Proof. unfold processChannel. case_match; [apply frame_run_video_batches|done]. Qed.

End PVFrame.

Section Frames2.
Context (split : string -> list string) (ok : string -> bool).

Lemma wf_processChannel items st b st' :
  processChannel split ok items st = Some (b, st') -> yp_wf st -> yp_wf st'.
Proof.
  intros E [Hq Hm]. split.
  - by apply (frame_processChannel qinv_rel qinv_rel_processVideo split ok items st b).
  - eapply minv_same_mon; [|done]. by eapply (frame_processChannel same_mon (fun vid => same_mon_processVideo vid no_options)).
Qed.

Lemma wf_checkChannel c items st st' :
  checkChannel split ok c items st = Some st' -> yp_wf st -> yp_wf st'.
Proof.
  unfold checkChannel. destruct (assoc_get c (channelMonitors st)) as [m|] eqn:Em; [|done].
  destruct (new_videos _ _) as [|v vs]; [by intros [= <-]|].
  destruct (processVideoBatch split ok (v :: vs) st) as [[[] st1]|] eqn:E; [| |done];
    intros [= <-] [Hq Hm];
    pose proof (frame_processVideoBatch same_mon (fun vid => same_mon_processVideo vid no_options) split ok _ _ _ _ E) as Hs;
    pose proof (frame_processVideoBatch qinv_rel qinv_rel_processVideo split ok _ _ _ _ E Hq) as Hq1.
  - split; [by apply qinv_set_monitors|].
    destruct Hm as [Hnd _], Hs as (E1 & _ & _). split; simpl; rewrite E1; [by apply NoDup_keys_assoc_set|].
    intros _. apply assoc_set_nonempty.
  - split; [done|]. by eapply minv_same_mon.
Qed.

End Frames2.

Section Steps.
Context (split : string -> list string) (addDocument : string -> string -> Z -> bool).

Lemma wf_pipeline_step vid fl sg st (f : YP -> YP) :
  assoc_get vid (processingQueue st) = Some (Pending fl sg) ->
  (forall st0, qinv st0 -> assoc_get vid (processingQueue st0) = Some (Pending fl sg) -> qinv (f st0)) ->
  (forall st0, minv st0 -> minv (f st0)) ->
  yp_wf st -> yp_wf (f st).
Proof. intros E Hq Hm [H1 H2]. split; [by apply Hq|by apply Hm]. Qed.

Lemma step_wf e st st' : step split addDocument e st = Some st' -> yp_wf st -> yp_wf st'.
Proof.
  destruct e as [vid opts|vid r|vid r|vid now0 now1|vid ok|ok items|c opts|i items|ok c items|c|];
    cbn [step].
  - intros [= <-] [Hq Hm]. split; [by apply qinv_processVideo|].
    eapply minv_same_mon; [apply same_mon_processVideo|done].
  - destruct (assoc_get vid _) as [[fl [] |]|] eqn:E; destruct r; try done; intros [= <-];
      (apply (wf_pipeline_step vid fl Downloading); [done| |];
       [intros; by eapply qinv_advance || by eapply qinv_settle
       |intros; by apply minv_advance || by apply minv_settle]).
  - destruct (assoc_get vid _) as [[fl [] |]|] eqn:E; destruct r; try done; intros [= <-];
      (apply (wf_pipeline_step vid fl (Transcribing audioPath)); [done| |];
       [intros; by eapply qinv_advance || by eapply qinv_settle
       |intros; by apply minv_advance || by apply minv_settle]).
  - destruct (assoc_get vid _) as [[fl [] |]|] eqn:E; try done.
    destruct (vectorize_run _ _ _ _ _ _ _) as [[[] b]|]; try done; intros [= <-] [Hq Hm]; split.
    + by eapply qinv_settle, qinv_set_bp.
    + by apply minv_settle, minv_set_bp.
    + by eapply qinv_advance, qinv_set_bp.
    + by apply minv_advance, minv_set_bp.
  - destruct (assoc_get vid _) as [[fl [] |]|] eqn:E; try done; intros [= <-] [Hq Hm].
    split; [by eapply qinv_settle|by apply minv_settle].
  - destruct (processChannel split ok items st) as [[b st1]|] eqn:E; [|done].
    intros [= <-]. by eapply wf_processChannel.
  - intros [= <-] [Hq Hm]. split; [unfold monitorChannel; by case_bool_decide|].
    by apply minv_monitorChannel.
  - intros E [Hq Hm]. split; [|by eapply minv_monitorResume].
    revert E. unfold monitorResume. case_match; [|done]. destruct p. by intros [= <-].
  - destruct (polling st); [|done]. apply wf_checkChannel.
  - intros [= <-] [Hq Hm]. split; [done|by apply minv_stopMonitoring].
  - intros [= <-] [Hq Hm]. split; [by apply qinv_set_bp|by apply minv_set_bp].
Qed.

Lemma new_wf : yp_wf new_YouTubeProcessor.
Proof. split; split; [constructor|done|constructor|done]. Qed.

End Steps.

(** ** Settled entries *)

#[local] Instance keeps_settled_preorder vid : PreOrder (keeps_settled vid).
Proof.
  split; [by intros st H|]. intros st1 st2 st3 H12 H23 H1.
  destruct (H12 H1) as [H2 E2]. destruct (H23 H2) as [H3 E3]. split; [done|congruence].
Qed.

Lemma keeps_settled_processVideo vid vid' opts st : keeps_settled vid st (processVideo vid' opts st).
Proof.
  intros E. unfold processVideo. case_bool_decide as Hin; [done|].
  assert (Hne : vid <> vid') by (intros ->; apply Hin, assoc_get_elem; rewrite E; by eexists).
  assert (Hb : String.eqb vid vid' = false) by by apply String.eqb_neq.
  destruct (start_stage (flags_of opts)); simpl;
    rewrite ?assoc_get_set_ne, ?assoc_get_delete_ne by done; split; try done;
    change (starts vid (log_start vid' (flags_of opts) st) = starts vid st);
    rewrite starts_log_start, Hb; lia.
Qed.

Lemma keeps_settled_settle vid vid' fl sg ok st :
  assoc_get vid' (processingQueue st) = Some (Pending fl sg) -> keeps_settled vid st (settle vid' ok st).
Proof.
  intros E' E. assert (vid <> vid') by congruence. simpl. by rewrite assoc_get_delete_ne.
Qed.

Lemma keeps_settled_advance vid vid' fl sg next st :
  assoc_get vid' (processingQueue st) = Some (Pending fl sg) -> keeps_settled vid st (advance vid' fl next st).
Proof.
  intros E'. destruct next; [|by eapply keeps_settled_settle].
  intros E. assert (vid <> vid') by congruence. simpl. by rewrite assoc_get_set_ne.
Qed.

Section SettledSteps.
Context (split : string -> list string) (addDocument : string -> string -> Z -> bool).

Lemma keeps_settled_step vid e st st' :
  step split addDocument e st = Some st' -> keeps_settled vid st st'.
Proof.
  destruct e as [vid' opts|vid' r|vid' r|vid' now0 now1|vid' ok|ok items|c opts|i items|ok c items|c|];
    cbn [step].
  - intros [= <-]. apply keeps_settled_processVideo.
  - destruct (assoc_get vid' _) as [[fl [] |]|] eqn:E; destruct r; try done; intros [= <-];
      by eapply keeps_settled_advance || by eapply keeps_settled_settle.
  - destruct (assoc_get vid' _) as [[fl [] |]|] eqn:E; destruct r; try done; intros [= <-];
      by eapply keeps_settled_advance || by eapply keeps_settled_settle.
  - destruct (assoc_get vid' _) as [[fl [] |]|] eqn:E; try done.
    destruct (vectorize_run _ _ _ _ _ _ _) as [[[] b]|]; try done; intros [= <-].
    + by apply (keeps_settled_settle vid vid' fl (Vectorizing audioPath transcript) false (set_bp b st)).
    + by apply (keeps_settled_advance vid vid' fl (Vectorizing audioPath transcript) _ (set_bp b st)).
  - destruct (assoc_get vid' _) as [[fl [] |]|] eqn:E; try done; intros [= <-].
    by eapply keeps_settled_settle.
  - destruct (processChannel split ok items st) as [[b st1]|] eqn:E; [|done]. intros [= <-].
    exact (frame_processChannel (keeps_settled vid) (fun vid' => keeps_settled_processVideo vid vid' no_options)
             split ok items st b st1 E).
  - intros [= <-]. unfold monitorChannel. case_bool_decide; by intros ?.
  - unfold monitorResume. destruct (pendingMonitors st !! i) as [[c opts]|]; [|done].
    intros [= <-]. by intros ?.
  - destruct (polling st); [|done]. unfold checkChannel. case_match; [|done].
    case_match; [by intros [= <-]|].
    destruct (processVideoBatch split ok _ st) as [[[] st1]|] eqn:E; [| |done]; intros [= <-];
      exact (frame_processVideoBatch (keeps_settled vid) (fun vid' => keeps_settled_processVideo vid vid' no_options)
               split ok _ st _ st1 E).
  - intros [= <-]. by intros ?.
  - intros [= <-]. by intros ?.
Qed.

Lemma run_reachable es st st' :
  run split addDocument es st = Some st' -> rtc (can_step split addDocument) st st'.
Proof.
  revert st. induction es as [|e es IH]; intros st; simpl; [intros [= <-]; apply rtc_refl|].
  destruct (step split addDocument e st) as [st1|] eqn:E; [|done].
  intros H. eapply rtc_l; [by exists e|]. by apply IH.
Qed.

End SettledSteps.

(** ** The calls of [processVideoBatch] and the options of the pipelines *)

Lemma omap_lookup_imap {A B} (l : list A) (cs : list B) n :
  omap (fun ci => l !! Z.to_nat ci.2) (imap (fun i c => (c, Z.of_nat (n + i))) cs) =
  take (length cs) (drop n l).
Proof.
  revert n. induction cs as [|c cs IH]; intros n; [done|]. rewrite imap_cons. simpl.
  rewrite Nat.add_0_r, Nat2Z.id.
  rewrite (imap_ext _ (fun i c => (c, Z.of_nat (S n + i)))) by (intros i x _; unfold compose; simpl; by rewrite Nat.add_succ_r).
  rewrite IH. destruct (l !! n) as [x|] eqn:E.
  - by rewrite (drop_S l x n E).
  - apply lookup_ge_None in E. rewrite !drop_ge by lia. by rewrite !take_nil.
Qed.

#[local] Instance adds_default_preorder : PreOrder adds_default.
Proof.
  split; [intros st; exists []; by rewrite app_nil_r|].
  intros st1 st2 st3 (l1 & E1 & F1) (l2 & E2 & F2). exists (l1 ++ l2).
  rewrite E2, E1, app_assoc. split; [done|]. by apply Forall_app.
Qed.

Lemma adds_default_processVideo vid st : adds_default st (processVideo vid no_options st).
Proof.
  unfold processVideo. case_bool_decide; [exists []; by rewrite app_nil_r|].
  exists [(vid, flags_of no_options)]. destruct (start_stage _); (split; [done|by repeat constructor]).
Qed.

Lemma batch_processor_ok ok vs c i :
  (forall v, v ∈ vs -> ok (id v) = true) -> batch_processor ok vs c i = true.
Proof.
  intros H. unfold batch_processor. destruct (vs !! Z.to_nat i) as [v|] eqn:E; [|done].
  apply H. by eapply list_elem_of_lookup_2.
Qed.

Section Vectorize.
Context (split : string -> list string) (addDocument : string -> string -> Z -> bool).

Lemma vectorize_run_total vid t now0 now1 b :
  exists r b', vectorize_run split addDocument vid t now0 now1 b = Some (r, b').
Proof. apply ChunkBatch.processLargeDocument_total; simpl; lia. Qed.

End Vectorize.

Lemma pending_rank_advance vid fl next st :
  pending_rank vid (advance vid fl next st) = match next with Some s => stage_rank s | None => 0%nat end.
Proof.
  unfold pending_rank. destruct next; simpl; [by rewrite assoc_get_set_eq|by rewrite assoc_get_delete_eq].
Qed.

Lemma pending_rank_settle vid ok st : pending_rank vid (settle vid ok st) = 0%nat.
Proof. unfold pending_rank. simpl. by rewrite assoc_get_delete_eq. Qed.

Lemma rank_unlink_or_end fl p : (match unlink_or_end fl p with Some s => stage_rank s | None => 0 end <= 1)%nat.
Proof. unfold unlink_or_end. destruct (f_delete fl && truthy p); simpl; lia. Qed.

Lemma rank_unlink_or_end_le fl p n :
  (1 <= n)%nat -> (match unlink_or_end fl p with Some s => stage_rank s | None => 0 end <= n)%nat.
Proof. pose proof (rank_unlink_or_end fl p). lia. Qed.

Lemma rank_after_transcribe fl p t :
  (match after_transcribe fl p t with Some s => stage_rank s | None => 0 end <= 2)%nat.
Proof.
  unfold after_transcribe. destruct (f_vectorize fl && truthy t); [simpl; lia|]. apply rank_unlink_or_end_le; lia.
Qed.

Lemma rank_after_download fl p :
  (match after_download fl p with Some s => stage_rank s | None => 0 end <= 3)%nat.
Proof.
  unfold after_download. destruct (f_transcribe fl && truthy p); [simpl; lia|]. apply rank_unlink_or_end_le; lia.
Qed.

Section Claims.
Context (split : string -> list string) (addDocument : string -> string -> Z -> bool).

(** In every state the processor reaches, the keys of
    [processingQueue] and of [channelMonitors] are distinct, the polling
    interval is set only while some channel is monitored, and, for every
    video, the pipelines started equal those settled plus the one pending
    in the queue, if any: no two pipelines of a video run at once. *)
Theorem reachable_yp_wf st : reachable split addDocument st -> yp_wf st.
Proof.
  unfold reachable. intros H. cut (yp_wf new_YouTubeProcessor); [|apply new_wf].
  induction H as [|x y z [e He] _ IH]; [done|]. intros Hx. apply IH. by eapply step_wf.
Qed.

(** [processVideo] with [downloadAudio: false] on a video not in the
    queue runs its whole body, [finally] included, before [set] stores the
    promise: the pipeline has resolved, yet the queue keeps an entry for
    the video. *)
Theorem processVideo_without_download_stale vid opts st :
  vid ∉ map fst (processingQueue st) -> downloadAudio opts = Some false ->
  assoc_get vid (processingQueue (processVideo vid opts st)) = Some Settled /\
  resolved (processVideo vid opts st) = resolved st ++ [vid] /\
  starts vid (processVideo vid opts st) = S (starts vid st).
Proof.
  intros Hin Hd. unfold processVideo. rewrite bool_decide_false by done.
  assert (Hs : start_stage (flags_of opts) = None) by (unfold start_stage, flags_of; by rewrite Hd).
  rewrite Hs. simpl. rewrite assoc_get_set_eq.
  split_and!; [done|done|]. change (starts vid (log_start vid (flags_of opts) st) = S (starts vid st)).
  rewrite starts_log_start, String.eqb_refl. lia.
Qed.

(** A settled entry is never deleted: whatever happens afterwards,
    the entry stays, and no pipeline of the video starts again, because
    every later [processVideo] of it awaits the settled promise. *)
Theorem settled_entry_blocks_video vid st st' :
  rtc (can_step split addDocument) st st' -> assoc_get vid (processingQueue st) = Some Settled ->
  assoc_get vid (processingQueue st') = Some Settled /\ starts vid st' = starts vid st.
Proof.
  induction 1 as [|x y z [e He] _ IH]; [done|]. intros Hx.
  destruct (keeps_settled_step split addDocument vid e x y He Hx) as [Hy Ey].
  destruct (IH Hy) as [Hz Ez]. split; [done|congruence].
Qed.

(** [processVideoBatch] calls [processVideo] on [videos[index]] for
    the index of each chunk of the videos' text, so it processes only
    the first [n] videos, where [n] is the number of chunks, whatever
    the number of videos. *)
Theorem processVideoBatch_first_chunks ok videos st :
  (forall v, v ∈ videos -> ok (id v) = true) ->
  processVideoBatch split ok videos st =
    Some (true, foldl (fun st v => processVideo (id v) no_options st) st
                  (take (length (split (videoText videos))) videos)).
Proof.
  intros Hok. unfold processVideoBatch.
  destruct (ChunkBatch.processLargeDocument_ok_calls (M:=unit)
              (ChunkBatch.options_of (ChunkBatch.with_batchSize 5)) split (batch_processor ok videos)
              (S (length (split (videoText videos)))) (videoText videos) 0 0 ChunkBatch.st0
              ltac:(simpl; lia) ltac:(lia) ltac:(intros; by apply batch_processor_ok))
    as (s' & -> & Hc).
  rewrite Hc. simpl. by rewrite (omap_lookup_imap videos _ 0).
Qed.

(** [checkForNewVideos] ignores the options given to
    [monitorChannel]: every pipeline a channel check starts has the
    default options (download, transcribe, vectorize and delete). *)
Theorem checkChannel_default_options ok c items st st' :
  checkChannel split ok c items st = Some st' -> adds_default st st'.
Proof.
  unfold checkChannel. case_match; [|done]. case_match; [intros [= <-]; reflexivity|].
  destruct (processVideoBatch split ok _ st) as [[[] st1]|] eqn:E; [| |done]; intros [= <-];
    exact (frame_processVideoBatch adds_default adds_default_processVideo split ok _ st _ st1 E).
Qed.

(** C37: A pending pipeline never gets stuck: some event of its own can
    occur, and every such event settles it or moves it to a later
    stage, so it settles after at most four of its events. *)
Theorem pipeline_progress vid fl sg st :
  assoc_get vid (processingQueue st) = Some (Pending fl sg) ->
  (exists e st', pipeline_event vid e /\ step split addDocument e st = Some st') /\
  (forall e st', pipeline_event vid e -> step split addDocument e st = Some st' ->
                 (pending_rank vid st' < stage_rank sg)%nat).
Proof.
  intros E. split.
  - destruct sg as [|p|p t|].
    + exists (EvDownloaded vid None). eexists. split; [done|]. simpl. by rewrite E.
    + exists (EvTranscribed vid None). eexists. split; [done|]. simpl. by rewrite E.
    + destruct (vectorize_run_total split addDocument vid t 0 0 (bp st)) as ([e|m] & b & Ev);
        exists (EvVectorize vid 0 0); eexists; (split; [done|]); simpl; rewrite E, Ev; done.
    + exists (EvUnlinked vid true). eexists. split; [done|]. simpl. by rewrite E.
  - intros [v o|v r|v r|v n0 n1|v ok|ok items|c o|i items|ok c items|c|] st' He; try done;
      simpl in He; subst v;
      cbn [step]; rewrite E; destruct sg; try done.
    + destruct r; intros [= <-]; rewrite ?pending_rank_advance, ?pending_rank_settle;
        [pose proof (rank_after_download fl s)|]; simpl; lia.
    + destruct r; intros [= <-]; rewrite ?pending_rank_advance, ?pending_rank_settle;
        [pose proof (rank_after_transcribe fl audioPath s)|]; simpl; lia.
    + destruct (vectorize_run _ _ _ _ _ _ _) as [[[] b]|]; intros; simplify_eq.
      * rewrite pending_rank_settle. simpl. lia.
      * rewrite pending_rank_advance. pose proof (rank_unlink_or_end fl audioPath). simpl. lia.
    + intros [= <-]. rewrite pending_rank_settle. simpl. lia.
Qed.

End Claims.

Lemma reachable_yp_wf_witness : yp_wf ex_stale2.
Proof.
  apply (reachable_yp_wf ex_split1 ex_addDocument).
  apply (run_reachable ex_split1 ex_addDocument [EvProcessVideo "v1" no_download; EvProcessVideo "v1" no_options]).
  vm_compute. reflexivity.
Defined.

Lemma processVideo_without_download_stale_witness :
  assoc_get "v1" (processingQueue (processVideo "v1" no_download new_YouTubeProcessor)) = Some Settled /\
  resolved (processVideo "v1" no_download new_YouTubeProcessor) = ["v1"] /\
  starts "v1" (processVideo "v1" no_download new_YouTubeProcessor) = 1%nat.
Proof.
  apply (processVideo_without_download_stale "v1" no_download new_YouTubeProcessor);
    [apply not_elem_of_nil|reflexivity].
Defined.

Lemma settled_entry_blocks_video_witness :
  assoc_get "v1" (processingQueue ex_stale2) = Some Settled /\ starts "v1" ex_stale2 = starts "v1" ex_stale.
Proof.
  apply (settled_entry_blocks_video ex_split1 ex_addDocument "v1" ex_stale ex_stale2).
  - apply (run_reachable ex_split1 ex_addDocument [EvProcessVideo "v1" no_options]). vm_compute. reflexivity.
  - vm_compute. reflexivity.
Defined.

Lemma processVideoBatch_first_chunks_witness :
  processVideoBatch ex_split1 (fun _ => true) [ex_video "a"; ex_video "b"; ex_video "c"] new_YouTubeProcessor =
    Some (true, foldl (fun st v => processVideo (id v) no_options st) new_YouTubeProcessor [ex_video "a"]).
Proof.
  apply (processVideoBatch_first_chunks ex_split1 (fun _ => true) [ex_video "a"; ex_video "b"; ex_video "c"]).
  intros; reflexivity.
Defined.

Lemma checkChannel_default_options_witness : adds_default ex_monitored ex_checked.
Proof.
  apply (checkChannel_default_options ex_split1 (fun _ => true) "c" (Some [ex_item "a"])).
  vm_compute. reflexivity.
Defined.

Lemma pipeline_progress_witness :
  let st := ex_run [EvProcessVideo "v1" no_options] new_YouTubeProcessor in
  (exists e st', pipeline_event "v1" e /\ step ex_split1 ex_addDocument e st = Some st') /\
  (forall e st', pipeline_event "v1" e -> step ex_split1 ex_addDocument e st = Some st' ->
                 (pending_rank "v1" st' < stage_rank Downloading)%nat).
Proof.
  apply (pipeline_progress ex_split1 ex_addDocument "v1" (flags_of no_options) Downloading).
  vm_compute. reflexivity.
Defined.

End YouTube.
