(* ===== verification/Regex.v ===== *)
(** * Regex: the JavaScript regular expressions of the text functions

    The text functions of the repository ([textProcessing.ts], the
    transcription helpers of [workerPool.ts], [smartCorrection.ts] and
    [system/status.ts]) clean and split strings with regular expression
    literals, [String.prototype.replace] with the [g] flag,
    [String.prototype.split] and [trim].  This file models the fragment
    they use as a backtracking matcher in continuation-passing style.
    That is how the ECMAScript specification defines matching (section
    22.2.2), so it gives the specification's result, not the POSIX
    longest match:
    - character classes, literals (compared up to case under the [i]
      flag), sequence, alternation tried left first, and greedy or
      lazy repetition;
    - a repetition stops when an iteration matches the empty string
      (the [RepeatMatcher] check), which also bounds the loop by the
      length of the input;
    - [replace_all] is the global replace: a match is replaced, and an
      empty match is followed by the character after it;
    - [split] is [SplitMatcher]'s loop, with its rule that the end of a
      match equal to the end of the last piece does not split.

    A string is the list of its code units; a code unit is an [ascii]
    byte, so the model covers strings of Latin-1 characters, where [\s]
    includes the no-break space (160). *)

From S2P Require Import Prelude.
From Stdlib Require Import Ascii.

Module Regex.

Definition chars := list ascii.

Definition code (c : ascii) : nat := nat_of_ascii c.

Definition is_digit (c : ascii) : bool := (48 <=? code c)%nat && (code c <=? 57)%nat.
Definition is_upper (c : ascii) : bool := (65 <=? code c)%nat && (code c <=? 90)%nat.
Definition is_lower (c : ascii) : bool := (97 <=? code c)%nat && (code c <=? 122)%nat.

(** [\w], [\s] (tab, line feed, vertical tab, form feed, carriage return,
    space and no-break space) and the line terminators [.] excludes. *)
Definition is_word (c : ascii) : bool := is_digit c || is_upper c || is_lower c || (code c =? 95)%nat.
Definition is_space (c : ascii) : bool :=
  (code c =? 32)%nat || ((9 <=? code c)%nat && (code c <=? 13)%nat) || (code c =? 160)%nat.
Definition is_line_terminator (c : ascii) : bool := (code c =? 10)%nat || (code c =? 13)%nat.

(** [toLowerCase] on a Latin-1 code unit: the ASCII capitals and the
    Latin-1 capitals from 192 to 222 but the sign 215. *)
Definition is_latin1_upper (c : ascii) : bool :=
  (192 <=? code c)%nat && (code c <=? 222)%nat && negb (code c =? 215)%nat.

Definition to_lower (c : ascii) : ascii :=
  if is_upper c || is_latin1_upper c then ascii_of_nat (code c + 32) else c.

Definition lower (s : string) : string := String.string_of_list_ascii (map to_lower (String.list_ascii_of_string s)).

(** The syntax: a class of characters, a literal, [ε], sequence,
    alternation and repetition ([true]: greedy). *)
Inductive re :=
  | REps
  | RClass (p : ascii -> bool)
  | RLit (c : ascii)
  | RSeq (r1 r2 : re)
  | RAlt (r1 r2 : re)
  | RStar (greedy : bool) (r : re).

(** [r+], [r?], [.], [\S], a literal string, and [r{n}]. *)
Definition RPlus (r : re) : re := RSeq r (RStar true r).
Definition ROpt (r : re) : re := RAlt r REps.
Definition RDot : re := RClass (fun c => negb (is_line_terminator c)).
Definition RNonSpace : re := RClass (fun c => negb (is_space c)).

Fixpoint RStr (s : chars) : re :=
  match s with [] => REps | c :: s' => RSeq (RLit c) (RStr s') end.

Definition RS (s : string) : re := RStr (String.list_ascii_of_string s).

Fixpoint RRep (n : nat) (r : re) : re :=
  match n with O => REps | S n' => RSeq r (RRep n' r) end.

Section Match.
Context {A : Type} (ci : bool).

(** A literal matches a code unit, up to case under [i]: on Latin-1
    code units, comparing the lower cases is [Canonicalize]'s
    comparison of the upper cases. *)
Definition lit_ok (d c : ascii) : bool :=
  if ci then Ascii.eqb (to_lower d) (to_lower c) else Ascii.eqb d c.

(** [RepeatMatcher]: each iteration must consume input; [n] bounds the
    iterations and is never reached from [S (length s)]. *)
Fixpoint star_loop (n : nat) (greedy : bool) (m : chars -> (chars -> option A) -> option A)
  (s : chars) (k : chars -> option A) : option A :=
  match n with
  | O => k s
  | S n' =>
      let iter := m s (fun s' => if (length s' <? length s)%nat then star_loop n' greedy m s' k else None) in
      if greedy then match iter with Some x => Some x | None => k s end
      else match k s with Some x => Some x | None => iter end
  end.

(** The matcher: [bt r s k] matches [r] at the start of [s] and passes
    the rest of the input to the continuation [k], backtracking into [r]
    when [k] fails. *)
Fixpoint bt (r : re) (s : chars) (k : chars -> option A) {struct r} : option A :=
  match r with
  | REps => k s
  | RClass p => match s with c :: s' => if p c then k s' else None | [] => None end
  | RLit d => match s with c :: s' => if lit_ok d c then k s' else None | [] => None end
  | RSeq r1 r2 => bt r1 s (fun s' => bt r2 s' k)
  | RAlt r1 r2 => match bt r1 s k with Some x => Some x | None => bt r2 s k end
  | RStar g r1 => star_loop (S (length s)) g (bt r1) s k
  end.

End Match.

(** A match of [r] at the start of [s]: the input after it. *)
Definition match_at (ci : bool) (r : re) (s : chars) : option chars := bt ci r s Some.

(** [s.replace(/r/g, rep)]. *)
Fixpoint replace_loop (n : nat) (ci : bool) (r : re) (rep : chars) (s : chars) : chars :=
  match n with
  | O => s
  | S n' =>
      match s with
      | [] => match match_at ci r [] with Some _ => rep | None => [] end
      | c :: s' =>
          match match_at ci r s with
          | Some rest =>
              if (length rest <? length s)%nat then rep ++ replace_loop n' ci r rep rest
              else rep ++ c :: replace_loop n' ci r rep s'
          | None => c :: replace_loop n' ci r rep s'
          end
      end
  end.

Definition replace_all (ci : bool) (r : re) (rep : string) (s : string) : string :=
  let cs := String.list_ascii_of_string s in
  String.string_of_list_ascii (replace_loop (S (length cs)) ci r (String.list_ascii_of_string rep) cs).

(** [SplitMatcher]'s loop: [seg] is the piece from the end of the last
    match to the position tried, [s] the input from there. *)
Fixpoint split_loop (n : nat) (r : re) (seg : chars) (s : chars) (acc : list chars) : list chars :=
  match n with
  | O => acc ++ [seg ++ s]
  | S n' =>
      match s with
      | [] => acc ++ [seg]
      | c :: s' =>
          match match_at false r s with
          | None => split_loop n' r (seg ++ [c]) s' acc
          | Some rest =>
              if (length rest =? length s)%nat then
                match seg with
                | [] => split_loop n' r [c] s' acc
                | _ => split_loop n' r [c] s' (acc ++ [seg])
                end
              else split_loop n' r [] rest (acc ++ [seg])
          end
      end
  end.

(** [s.split(r)]: the empty string gives [[]] when [r] matches it and
    [[""]] otherwise. *)
Definition split_chars (r : re) (s : chars) : list chars :=
  match s with
  | [] => match match_at false r [] with Some _ => [] | None => [[]] end
  | _ => split_loop (S (length s)) r [] s []
  end.

Definition split (r : re) (s : string) : list string :=
  map String.string_of_list_ascii (split_chars r (String.list_ascii_of_string s)).

(** The input after the longest prefix of a class. *)
Fixpoint drop_class (p : ascii -> bool) (s : chars) : chars :=
  match s with c :: s' => if p c then drop_class p s' else s | [] => [] end.

(** [s.trim()]. *)
Definition ltrim (s : chars) : chars := drop_class is_space s.

Definition trim_chars (s : chars) : chars := rev (ltrim (rev (ltrim s))).

Definition trim (s : string) : string := String.string_of_list_ascii (trim_chars (String.list_ascii_of_string s)).

(** ** The matcher *)

Section Lemmas.
Context {A : Type} (ci : bool).

Lemma star_loop_ext n g (m : chars -> (chars -> option A) -> option A) s k1 k2 :
  (forall s k1 k2, (forall s', k1 s' = k2 s') -> m s k1 = m s k2) ->
  (forall s', k1 s' = k2 s') -> star_loop n g m s k1 = star_loop n g m s k2.
Proof.
  intros Hm. revert s k1 k2. induction n as [|n IH]; intros s k1 k2 Hk; simpl; [apply Hk|].
  rewrite (Hm s _ (fun s' => if (length s' <? length s)%nat then star_loop n g m s' k2 else None)),
    Hk by (intros s'; case_match; [by apply IH|done]).
  done.
Qed.

Lemma bt_ext r s (k1 k2 : chars -> option A) :
  (forall s', k1 s' = k2 s') -> bt ci r s k1 = bt ci r s k2.
Proof.
  revert s k1 k2. induction r as [| | |r1 IH1 r2 IH2|r1 IH1 r2 IH2|g r IH]; intros s k1 k2 Hk; cbn [bt].
  - apply Hk.
  - destruct s; [done|]. case_match; [apply Hk|done].
  - destruct s; [done|]. case_match; [apply Hk|done].
  - apply IH1. intros s'. by apply IH2.
  - rewrite (IH1 s k1 k2 Hk), (IH2 s k1 k2 Hk). done.
  - apply star_loop_ext; [|done]. intros. by apply IH.
Qed.

(** Any bound above the length of the input gives the same repetition. *)
Lemma star_loop_fuel g (m : chars -> (chars -> option A) -> option A) :
  (forall s k1 k2, (forall s', k1 s' = k2 s') -> m s k1 = m s k2) ->
  forall n1 n2 s k, (length s < n1)%nat -> (length s < n2)%nat ->
  star_loop n1 g m s k = star_loop n2 g m s k.
Proof.
  intros Hm n1. induction n1 as [|n1 IH]; intros [|n2] s k H1 H2; try lia. simpl.
  rewrite (Hm s _ (fun s' => if (length s' <? length s)%nat then star_loop n2 g m s' k else None)).
  - done.
  - intros s'. destruct (Nat.ltb_spec (length s') (length s)); [apply IH; lia|done].
Qed.

(** The matcher passes its continuation a suffix of its input. *)
Lemma star_loop_suffix n g (m : chars -> (chars -> option A) -> option A) s k x :
  (forall s k x, m s k = Some x -> exists s', (length s' <= length s)%nat /\ k s' = Some x) ->
  star_loop n g m s k = Some x -> exists s', (length s' <= length s)%nat /\ k s' = Some x.
Proof.
  intros Hm. revert s k x. induction n as [|n IH]; intros s k x; simpl; [intros; by exists s|].
  assert (Hi : forall y, m s (fun s' => if (length s' <? length s)%nat then star_loop n g m s' k else None) = Some y ->
               exists s', (length s' <= length s)%nat /\ k s' = Some y).
  { intros y Hy. destruct (Hm _ _ _ Hy) as (s1 & L1 & E1).
    destruct (Nat.ltb_spec (length s1) (length s)); [|done].
    destruct (IH s1 k y E1) as (s2 & L2 & E2). exists s2. split; [lia|done]. }
  destruct g; repeat case_match; intros; simplify_eq; eauto.
Qed.

Lemma bt_suffix r s k (x : A) :
  bt ci r s k = Some x -> exists s', (length s' <= length s)%nat /\ k s' = Some x.
Proof.
  revert s k x. induction r as [| | |r1 IH1 r2 IH2|r1 IH1 r2 IH2|g r IH]; intros s k x; cbn [bt].
  - intros; by exists s.
  - destruct s as [|c0 s]; [done|]. case_match; [|done]. intros. exists s. simpl. split; [lia|done].
  - destruct s as [|c0 s]; [done|]. case_match; [|done]. intros. exists s. simpl. split; [lia|done].
  - intros H. destruct (IH1 _ _ _ H) as (s1 & L1 & E1). destruct (IH2 _ _ _ E1) as (s2 & L2 & E2).
    exists s2. split; [lia|done].
  - case_match; [intros [= <-]; by apply IH1|]. apply IH2.
  - apply star_loop_suffix. intros. by apply IH.
Qed.

End Lemmas.

Lemma match_at_suffix ci r s rest : match_at ci r s = Some rest -> (length rest <= length s)%nat.
Proof. intros H. destruct (bt_suffix ci r s Some rest H) as (s' & L & [= ->]). done. Qed.

(** Any fuel above the length of the input gives the same global
    replace. *)
Lemma replace_loop_fuel ci r rep n1 n2 s :
  (length s < n1)%nat -> (length s < n2)%nat -> replace_loop n1 ci r rep s = replace_loop n2 ci r rep s.
Proof.
  revert n2 s. induction n1 as [|n1 IH]; intros [|n2] s H1 H2; try lia. simpl.
  destruct s as [|c s']; [done|]. destruct (match_at ci r (c :: s')) as [rest|] eqn:E.
  - pose proof (match_at_suffix _ _ _ _ E). destruct (Nat.ltb_spec (length rest) (length (c :: s'))).
    + f_equal. apply IH; simpl in *; lia.
    + do 2 f_equal. apply IH; simpl in *; lia.
  - f_equal. apply IH; simpl in *; lia.
Qed.

(** A pattern that matches at no suffix of the input leaves it as it is. *)
Lemma replace_loop_nomatch ci r rep n s :
  (forall s', suffix s' s -> match_at ci r s' = None) -> replace_loop n ci r rep s = s.
Proof.
  revert s. induction n as [|n IH]; intros s H; [done|]. simpl.
  destruct s as [|c s'].
  - by rewrite H by done.
  - rewrite H by done. f_equal. apply IH. intros s'' Hs. apply H. by apply suffix_cons_r.
Qed.

(** ** Patterns of one class *)

Lemma star_class ci p n s :
  (length s < n)%nat -> star_loop n true (bt ci (RClass p)) s Some = Some (drop_class p s).
Proof.
  revert n. induction s as [|c s IH]; intros [|n] Hn; simpl in *; try lia; [done|].
  destruct (p c); [|done]. rewrite (proj2 (Nat.ltb_lt (length s) (S (length s)))) by lia.
  rewrite IH by lia. done.
Qed.

Lemma match_plus_class ci p c s :
  p c = true -> match_at ci (RPlus (RClass p)) (c :: s) = Some (drop_class p s).
Proof. intros Hc. unfold match_at, RPlus. cbn [bt]. rewrite Hc. exact (star_class ci p (S (length s)) s ltac:(lia)). Qed.

Lemma match_plus_class_none ci p s :
  match s with c :: _ => p c = false | [] => True end -> match_at ci (RPlus (RClass p)) s = None.
Proof. destruct s as [|c s]; [done|]. intros Hc. unfold match_at, RPlus. cbn [bt]. by rewrite Hc. Qed.

Lemma drop_class_length p s : (length (drop_class p s) <= length s)%nat.
Proof. induction s as [|c s IH]; simpl; [lia|]. destruct (p c); simpl; lia. Qed.

(** The global replace of a class's runs leaves no character of the class
    but those of the replacement. *)
Lemma replace_plus_class ci p rep n s :
  (length s < n)%nat ->
  Forall (fun c => p c = false \/ c ∈ rep) (replace_loop n ci (RPlus (RClass p)) rep s).
Proof.
  revert s. induction n as [|n IH]; intros s Hn; [lia|]. cbn [replace_loop]. destruct s as [|c s].
  - by rewrite match_plus_class_none.
  - destruct (p c) eqn:Hc.
    + rewrite match_plus_class by done. pose proof (drop_class_length p s).
      rewrite (proj2 (Nat.ltb_lt _ _)) by (simpl; lia). apply Forall_app. split.
      * apply Forall_forall. by right.
      * apply IH. simpl in Hn. lia.
    + rewrite match_plus_class_none by done. constructor; [by left|]. apply IH. simpl in Hn. lia.
Qed.

(** A pattern that starts with a literal does not match where the input
    does not start with it. *)
Lemma match_lit_none ci d r s :
  match s with c :: _ => lit_ok ci d c = false | [] => True end -> match_at ci (RSeq (RLit d) r) s = None.
Proof. destruct s as [|c s]; [done|]. intros Hc. unfold match_at. cbn [bt]. by rewrite Hc. Qed.

(** A split by a pattern that matches at no suffix gives the whole input. *)
Lemma split_loop_nomatch r n seg s acc :
  (forall s', suffix s' s -> match_at false r s' = None) -> split_loop n r seg s acc = acc ++ [seg ++ s].
Proof.
  revert seg s acc. induction n as [|n IH]; intros seg s acc H; [done|]. cbn [split_loop].
  destruct s as [|c s']; [by rewrite app_nil_r|]. rewrite H by done.
  rewrite IH, <- app_assoc by (intros; apply H; by apply suffix_cons_r). done.
Qed.

Lemma split_chars_nomatch r s :
  (forall s', suffix s' s -> match_at false r s' = None) -> split_chars r s = [s].
Proof.
  intros H. destruct s as [|c s']; unfold split_chars.
  - by rewrite H.
  - by rewrite split_loop_nomatch.
Qed.

(** The global replace of a class by the empty string deletes its
    characters. *)
Lemma replace_class_empty ci p n s :
  (length s < n)%nat -> replace_loop n ci (RClass p) [] s = filter (fun c => p c = false) s.
Proof.
  revert s. induction n as [|n IH]; intros s Hn; [lia|]. cbn [replace_loop].
  destruct s as [|c s]; [done|]. unfold match_at. cbn [bt]. rewrite filter_cons. simpl in Hn.
  destruct (p c) eqn:Hc.
  - rewrite (proj2 (Nat.ltb_lt _ _)) by (simpl; lia). rewrite decide_False by congruence. simpl. apply IH. lia.
  - rewrite decide_True by done. f_equal. apply IH. lia.
Qed.

Lemma ltrim_all_space s : Forall (fun c => is_space c = true) s -> ltrim s = [].
Proof. induction 1 as [|c s Hc _ IH]; [done|]. unfold ltrim in *. simpl. by rewrite Hc. Qed.

Lemma drop_class_idem p s : drop_class p (drop_class p s) = drop_class p s.
Proof. induction s as [|c s IH]; simpl; [done|]. destruct (p c) eqn:E; [done|]. simpl. by rewrite E. Qed.

Lemma drop_class_split p s : exists pre, s = pre ++ drop_class p s.
Proof.
  induction s as [|c s [pre IH]]; simpl; [by exists []|].
  destruct (p c); [exists (c :: pre); simpl; by f_equal|by exists []].
Qed.

Lemma drop_class_head p s : match drop_class p s with c :: _ => p c = false | [] => True end.
Proof. induction s as [|c s IH]; simpl; [done|]. by destruct (p c) eqn:E. Qed.

Lemma drop_class_id p s : match s with c :: _ => p c = false | [] => True end -> drop_class p s = s.
Proof. destruct s as [|c s]; simpl; [done|]. by intros ->. Qed.

Lemma trim_chars_idem s : trim_chars (trim_chars s) = trim_chars s.
Proof.
  unfold trim_chars, ltrim. set (t := drop_class is_space s). set (r := drop_class is_space (rev t)).
  assert (Hr : drop_class is_space (rev r) = rev r).
  { destruct (drop_class_split is_space (rev t)) as [pre Hpre]. fold r in Hpre.
    assert (Ht : t = rev r ++ rev pre) by (rewrite <- rev_app_distr, <- Hpre, rev_involutive; done).
    pose proof (drop_class_head is_space s) as Hh. fold t in Hh. apply drop_class_id.
    destruct (rev r) as [|c l]; [done|]. rewrite Ht in Hh. exact Hh. }
  rewrite Hr, rev_involutive. unfold r. by rewrite drop_class_idem.
Qed.

(** [s.trim().trim()] is [s.trim()]. *)
Lemma trim_idem s : trim (trim s) = trim s.
Proof. unfold trim. by rewrite String.list_ascii_of_string_of_list_ascii, trim_chars_idem. Qed.

End Regex.
