(* ===== verification/Text.v ===== *)
(** * Text: the text functions of the ingestion paths

    - [cleanText], [cleanTranscript] and [cleanYouTubeTranscript] of
      [src/src/workers/textProcessing.ts] (lines 113-237), a chain of
      global replaces of regular expression literals ([Regex]);
    - [detectContentType] of [src/unnamed/part_002], keyword counts on
      the lower-cased text, with a table of language keywords that is a
      JavaScript object;
    - [processText], [calculateComplexity] and [getComplexityLevel] of
      [textProcessing.ts] (lines 1-70): word counts by [split(/\s+/)] and
      the Automated Readability Index;
    - the clean-up of [transcribeWebPage] in
      [src/src/utils/workerPool.ts] (lines 652-656).

    The scores of [calculateComplexity] are computed in exact rationals
    where the source uses floating point. *)

From S2P Require Import Prelude Regex.
From Stdlib Require Import Ascii QArith Qminmax.

Module Text.

Import Regex.

(** A pattern as the sequence of its parts. *)
Fixpoint RCat (rs : list re) : re :=
  match rs with [] => REps | [r] => r | r :: rs' => RSeq r (RCat rs') end.

Definition digit : re := RClass is_digit.
Definition space : re := RClass is_space.

(** The patterns of [cleanText] (lines 141-175). *)
Definition timestamp_re : re :=
  RCat [ROpt (RLit "["); digit; ROpt digit; RLit ":"; RRep 2 digit;
        ROpt (RSeq (RLit ":") (RRep 2 digit)); ROpt (RLit "]")].
Definition paren_timestamp_re : re :=
  RCat [RLit "("; digit; ROpt digit; RLit ":"; RRep 2 digit;
        ROpt (RSeq (RLit ":") (RRep 2 digit)); RLit ")"].
Definition url_re : re := RCat [RS "http"; ROpt (RLit "s"); RS "://"; RPlus RNonSpace].
Definition www_re : re := RCat [RS "www."; RPlus RNonSpace].
Definition email_char (c : ascii) : bool := is_word c || Ascii.eqb c "." || Ascii.eqb c "-".
Definition email_re : re :=
  RCat [RPlus (RClass email_char); RLit "@"; RPlus (RClass email_char); RLit "."; RPlus (RClass is_word)].
Definition bracket_re (o c : ascii) : re := RCat [RLit o; RStar false RDot; RLit c].
Definition kept_char (c : ascii) : bool :=
  is_word c || is_space c || Ascii.eqb c "." || Ascii.eqb c "," || Ascii.eqb c "!" ||
  Ascii.eqb c "?" || Ascii.eqb c "-".
Definition special_re : re := RClass (fun c => negb (kept_char c)).
Definition spaces_re : re := RPlus space.

Definition nl : string := String (ascii_of_nat 10) EmptyString.

Definition repl (r : re) (rep : string) (s : string) : string := replace_all false r rep s.

(** [CleanTextOptions] (lines 116-124): [None] is [undefined], and every
    option defaults to [true]. *)
Record CleanTextOptions := {
  removeTimestamps : option bool;
  removeSpecialChars : option bool;
  removeBrackets : option bool;
  removeUrls : option bool;
  removeEmails : option bool;
  removeExtraSpaces : option bool;
  removeEmptyLines : option bool;
}.

Definition no_clean_options : CleanTextOptions :=
  {| removeTimestamps := None; removeSpecialChars := None; removeBrackets := None; removeUrls := None;
     removeEmails := None; removeExtraSpaces := None; removeEmptyLines := None |}.

Definition all_options (b : bool) : CleanTextOptions :=
  {| removeTimestamps := Some true; removeSpecialChars := Some b; removeBrackets := Some true;
     removeUrls := Some true; removeEmails := Some true; removeExtraSpaces := Some true;
     removeEmptyLines := Some true |}.

Definition with_removeEmptyLines (o : CleanTextOptions) (b : bool) : CleanTextOptions :=
  {| removeTimestamps := removeTimestamps o; removeSpecialChars := removeSpecialChars o;
     removeBrackets := removeBrackets o; removeUrls := removeUrls o; removeEmails := removeEmails o;
     removeExtraSpaces := removeExtraSpaces o; removeEmptyLines := Some b |}.

(** The empty-line filter (lines 174-178). *)
Definition drop_empty_lines (s : string) : string :=
  String.concat nl (filter (fun line => (0 < String.length (trim line))%nat) (split (RS nl) s)).

(** [cleanText] (lines 126-181). *)
Definition cleanText (text : string) (o : CleanTextOptions) : string :=
  let c1 := if default true (removeTimestamps o)
            then repl paren_timestamp_re "" (repl timestamp_re "" text) else text in
  let c2 := if default true (removeUrls o) then repl www_re "" (repl url_re "" c1) else c1 in
  let c3 := if default true (removeEmails o) then repl email_re "" c2 else c2 in
  let c4 := if default true (removeBrackets o)
            then repl (bracket_re "{" "}") "" (repl (bracket_re "(" ")") "" (repl (bracket_re "[" "]") "" c3))
            else c3 in
  let c5 := if default true (removeSpecialChars o) then repl special_re "" c4 else c4 in
  let c6 := if default true (removeExtraSpaces o) then repl spaces_re " " c5 else c5 in
  let c7 := if default true (removeEmptyLines o) then drop_empty_lines c6 else c6 in
  trim c7.

(** [cleanTranscript] (lines 209-219). *)
Definition cleanTranscript (transcript : string) : string := cleanText transcript (all_options false).

(** [cleanWebPageContent] (lines 183-206): the text cheerio extracts
    from the page (an oracle: [load], the removals and [.text()]),
    cleaned with every option set. *)
Definition cleanWebPageContent (extract : string -> string) (html : string) : string :=
  cleanText (extract html) (all_options true).

(** [cleanYouTubeTranscript] (lines 221-237); the first and the last
    five patterns have the [i] flag. *)
Definition speaker_re : re :=
  RCat [ROpt (RLit "["); RS "Speaker"; RStar true space; RStar true digit; ROpt (RLit "]");
        RLit ":"; RStar true space].
Definition label_re : re := RCat [RLit "["; RStar false RDot; RLit "]"; RLit ":"; RStar true space].

Definition cleanYouTubeTranscript (transcript : string) : string :=
  let c := replace_all true speaker_re "" transcript in
  let c := repl label_re "" c in
  let c := replace_all true (RS "[Music]") "" c in
  let c := replace_all true (RS "[Applause]") "" c in
  let c := replace_all true (RS "[Laughter]") "" c in
  let c := replace_all true (RS "[Background Noise]") "" c in
  let c := replace_all true (RS "[Inaudible]") "" c in
  cleanTranscript c.

(** The clean-up of [transcribeWebPage] (lines 652-656): the literals
    [/\\s+/g] and [/\\n+/g] match a backslash followed by [s]s or [n]s,
    and ['\\n'] is a backslash and an [n]. *)
Definition backslash : ascii := ascii_of_nat 92.

Definition webpage_clean (text : string) : string :=
  let c := repl (RSeq (RLit backslash) (RPlus (RLit "s"))) " " text in
  let c := repl (RSeq (RLit backslash) (RPlus (RLit "n"))) (String backslash (String "n" EmptyString)) c in
  trim c.

(** [detectContentType] (part_002, lines 1-66): the input is a string or
    an object with a [mimetype]. *)
Inductive dct_input := DText (s : string) | DObject (mimetype : option string).

Definition technicalKeywords : list string :=
  ["algorithm"; "function"; "class"; "interface"; "implementation"; "architecture"; "framework"].
Definition scientificKeywords : list string :=
  ["research"; "hypothesis"; "experiment"; "methodology"; "statistical"; "analysis"; "conclusion"].

(** [languageSpecificKeywords[key]]: an own property, or a property of
    [Object.prototype] (a function or, for [__proto__], an object), or
    [undefined]. *)
Inductive js_lookup := Own (kws : list string) | Inherited | Undefined.

Definition languageSpecificKeywords (key : string) : js_lookup :=
  if String.eqb key "python" then Own ["def"; "class"; "import"; "from"]
  else if String.eqb key "javascript" then Own ["const"; "let"; "function"; "import"]
  else if String.eqb key "spanish" then Own ["el"; "la"; "de"; "que"]
  else if String.eqb key "french" then Own ["le"; "la"; "de"; "qui"]
  else if bool_decide (key ∈ js_object_prototype_keys) then Inherited
  else Undefined.

Definition keyword_score (kws : list string) (text : string) : nat :=
  length (filter (fun k => includes text k = true) kws).

Definition mime_type (m : string) : option string :=
  if includes m "text/plain" then Some "text"
  else if includes m "application/pdf" then Some "document"
  else if includes m "application/msword" ||
          includes m "application/vnd.openxmlformats-officedocument.wordprocessingml.document"
  then Some "document" else None.

(** [inl] is the [TypeError] of [.filter] on an inherited property. *)
Definition detectContentType (input : dct_input) (preferredLanguage : option string) : string + string :=
  let mimeType := match input with DObject m => m | DText _ => None end in
  let text := match input with DText s => s | DObject _ => "" end in
  match match mimeType with Some m => if truthy m then mime_type m else None | None => None end with
  | Some t => inr t
  | None =>
      let lowercaseText := lower text in
      if (2 <? keyword_score technicalKeywords lowercaseText)%nat then inr "technical"
      else if (2 <? keyword_score scientificKeywords lowercaseText)%nat then inr "scientific"
      else match preferredLanguage with
           | Some pl =>
               if truthy pl then
                 match languageSpecificKeywords (lower pl) with
                 | Inherited => inl "languageKeywords.filter is not a function"
                 | Own kws => if (1 <? keyword_score kws lowercaseText)%nat then inr (lower pl) else inr "text"
                 | Undefined => inr "text"
                 end
               else inr "text"
           | None => inr "text"
           end
  end.

(** [text.trim().split(/\s+/)] (lines 24 and 49). *)
Definition words_of (text : string) : list string := split spaces_re (trim text).

Definition sentence_end (c : ascii) : bool := Ascii.eqb c "." || Ascii.eqb c "!" || Ascii.eqb c "?".

(** [calculateComplexity] (lines 46-64). *)
Definition calculateComplexity (text : string) : Q :=
  let sentences := filter (fun s => s <> "") (split (RPlus (RClass sentence_end)) text) in
  let words := words_of text in
  let characters := String.length (repl space "" text) in
  match sentences, words with
  | [], _ | _, [] => 0
  | _, _ =>
      let averageWordLength := inject_Z (Z.of_nat characters) / inject_Z (Z.of_nat (length words)) in
      let averageSentenceLength := inject_Z (Z.of_nat (length words)) / inject_Z (Z.of_nat (length sentences)) in
      let ariScore := (471 # 100) * averageWordLength + (1 # 2) * averageSentenceLength - (2143 # 100) in
      Qmax 0 (Qmin 100 ((ariScore + (2143 # 100)) * 5))
  end%Q.

(** [getComplexityLevel] (lines 66-70). *)
Definition getComplexityLevel (score : Q) : string :=
  if Qlt_le_dec score 40 then "basic" else if Qlt_le_dec score 70 then "intermediate" else "advanced".

(** [TextProcessingResult] (lines 4-13) and [processText] (lines
    15-44); [analyzeContent] is the caller's, and [t0], [t1] are the
    readings of [performance.now()]. *)
Record TextProcessingResult {An : Type} := {
  analysis : An;
  processingTime : Z;
  wordCount : nat;
  readingTime : Q;
  complexity_score : Q;
  complexity_level : string;
}.

Definition processText {An} (analyzeContent : string -> An) (t0 t1 : Z) (text : string)
  : @TextProcessingResult An :=
  let wc := length (words_of text) in
  let score := calculateComplexity text in
  {| analysis := analyzeContent text; processingTime := t1 - t0; wordCount := wc;
     readingTime := inject_Z (Z.of_nat wc) / 200; complexity_score := score;
     complexity_level := getComplexityLevel score |}.

(** ** Lemmas *)

Lemma repl_chars ci r rep s :
  String.list_ascii_of_string (replace_all ci r rep s) = replace_loop (S (length (String.list_ascii_of_string s))) ci r (String.list_ascii_of_string rep) (String.list_ascii_of_string s).
Proof. unfold replace_all. apply String.list_ascii_of_string_of_list_ascii. Qed.

Lemma string_length_chars s : String.length s = length (String.list_ascii_of_string s).
Proof. induction s as [|c s IH]; simpl; [done|]. by rewrite IH. Qed.

Lemma elem_of_suffix_head {X} (c : X) s l : suffix (c :: s) l -> c ∈ l.
Proof. intros [k ->]. apply elem_of_app. right. apply list_elem_of_here. Qed.

(** After [replace(/\s+/g, ' ')] no line break is left. *)
Lemma spaces_no_newline s : ascii_of_nat 10 ∉ String.list_ascii_of_string (repl spaces_re " " s).
Proof.
  unfold repl. rewrite repl_chars. intros Hin.
  pose proof (replace_plus_class false is_space (String.list_ascii_of_string " ") (S (length (String.list_ascii_of_string s))) (String.list_ascii_of_string s) ltac:(lia)) as HF.
  rewrite Forall_forall in HF. destruct (HF _ Hin) as [H|H]; [done|].
  apply list_elem_of_singleton in H. done.
Qed.

(** A literal that occurs nowhere in the input matches at no suffix. *)
Lemma lit_nomatch ci d r s :
  (forall c, c ∈ s -> lit_ok ci d c = false) ->
  forall s', suffix s' s -> match_at ci (RSeq (RLit d) r) s' = None.
Proof.
  intros H [|c s'] Hs; apply match_lit_none; [done|]. by apply H, (elem_of_suffix_head _ s').
Qed.

Lemma lit_ok_absent d c (s : list ascii) : d ∉ s -> c ∈ s -> lit_ok false d c = false.
Proof. intros Hd Hc. unfold lit_ok. apply Ascii.eqb_neq. intros ->. done. Qed.

Lemma trim_empty : trim "" = "".
Proof. done. Qed.

Lemma drop_empty_lines_trim s : ascii_of_nat 10 ∉ String.list_ascii_of_string s -> trim (drop_empty_lines s) = trim s.
Proof.
  intros Hs. unfold drop_empty_lines, split.
  rewrite split_chars_nomatch.
  - cbn [map]. rewrite String.string_of_list_ascii_of_string. rewrite filter_cons, filter_nil.
    case_decide as Hl; [done|]. simpl. destruct (trim s); [done|simpl in Hl; lia].
  - apply (lit_nomatch false (ascii_of_nat 10) REps (String.list_ascii_of_string s)). intros c Hc. by apply (lit_ok_absent _ _ (String.list_ascii_of_string s)).
Qed.

Lemma no_match_identity r rep s :
  (forall s', suffix s' (String.list_ascii_of_string s) -> match_at false r s' = None) -> repl r rep s = s.
Proof.
  intros H. unfold repl, replace_all. rewrite replace_loop_nomatch by done.
  apply String.string_of_list_ascii_of_string.
Qed.

Lemma sentence_end_not_space c : is_space c = true -> sentence_end c = false.
Proof.
  intros Hs. unfold sentence_end.
  destruct (Ascii.eqb_spec c ".") as [->|]; [done|].
  destruct (Ascii.eqb_spec c "!") as [->|]; [done|].
  destruct (Ascii.eqb_spec c "?") as [->|]; [done|]. done.
Qed.

Lemma trim_all_space s : Forall (fun c => is_space c = true) (String.list_ascii_of_string s) -> trim s = "".
Proof. intros H. unfold trim, trim_chars. by rewrite (ltrim_all_space _ H). Qed.

Lemma words_of_blank s : Forall (fun c => is_space c = true) (String.list_ascii_of_string s) -> words_of s = [""].
Proof. intros H. unfold words_of. by rewrite trim_all_space. Qed.

Lemma repl_space_blank s : Forall (fun c => is_space c = true) (String.list_ascii_of_string s) -> repl space "" s = "".
Proof.
  intros H. unfold repl, replace_all, space. rewrite replace_class_empty by lia.
  induction H as [|c l Hc _ IH]; [done|]. rewrite filter_cons, decide_False by congruence. done.
Qed.

Lemma sentences_blank s : s <> "" -> Forall (fun c => is_space c = true) (String.list_ascii_of_string s) ->
  filter (fun x => x <> "") (split (RPlus (RClass sentence_end)) s) = [s].
Proof.
  intros Hne H. unfold split. rewrite split_chars_nomatch.
  - cbn [map]. rewrite String.string_of_list_ascii_of_string, filter_cons, decide_True by done. done.
  - intros s' Hs. apply match_plus_class_none. destruct s' as [|c s'']; [done|].
    apply sentence_end_not_space. rewrite Forall_forall in H. apply H, (elem_of_suffix_head _ s''), Hs.
Qed.

(** With [removeExtraSpaces] (the default), [cleanText] leaves no
    line break before its empty-line filter, so [removeEmptyLines] has
    no effect on the result. *)
Theorem cleanText_empty_lines_redundant text o :
  default true (removeExtraSpaces o) = true ->
  cleanText text o = cleanText text (with_removeEmptyLines o false).
Proof.
  intros H. unfold cleanText. cbv zeta. cbn [removeTimestamps removeUrls removeEmails removeBrackets
    removeSpecialChars removeExtraSpaces removeEmptyLines with_removeEmptyLines default].
  rewrite H. destruct (default true (removeEmptyLines o)); [|done].
  apply drop_empty_lines_trim, spaces_no_newline.
Qed.

Lemma drop_class_sub p x s : x ∈ drop_class p s -> x ∈ s.
Proof. intros H. destruct (drop_class_split p s) as [pre E]. rewrite E. apply elem_of_app. by right. Qed.

Lemma trim_chars_sub x s : x ∉ s -> x ∉ trim_chars s.
Proof.
  assert (Hr : forall l : chars, x ∈ rev l -> x ∈ l) by (intros l; rewrite !list_elem_of_In; apply in_rev).
  unfold trim_chars, ltrim. intros Hx H. apply Hx.
  by apply Hr, drop_class_sub, Hr, drop_class_sub in H.
Qed.

(** The content [cleanWebPageContent] gives the vector store is one
    line: [removeExtraSpaces] turns every line break into a space
    before the empty-line filter it also asks for. *)
Theorem cleanWebPageContent_single_line extract html :
  ascii_of_nat 10 ∉ String.list_ascii_of_string (cleanWebPageContent extract html).
Proof.
  unfold cleanWebPageContent, cleanText. cbn [removeTimestamps removeUrls removeEmails removeBrackets
    removeSpecialChars removeExtraSpaces removeEmptyLines all_options default from_option id].
  rewrite drop_empty_lines_trim by apply spaces_no_newline.
  unfold trim. rewrite String.list_ascii_of_string_of_list_ascii. apply trim_chars_sub, spaces_no_newline.
Qed.

(** The clean-up of [transcribeWebPage] collapses no whitespace: its
    patterns [/\\s+/g] and [/\\n+/g] match a backslash, so on a page text
    without backslashes it is only [trim]. *)
Theorem webpage_clean_is_trim text :
  backslash ∉ String.list_ascii_of_string text -> webpage_clean text = trim text.
Proof.
  intros Hb. unfold webpage_clean. cbv zeta.
  assert (Hn : forall r rep, repl (RSeq (RLit backslash) r) rep text = text).
  { intros r rep. apply no_match_identity, lit_nomatch. intros c Hc. by apply (lit_ok_absent _ _ _ Hb). }
  by rewrite !Hn.
Qed.

(** [processText] on a non-empty text of whitespace only counts one
    word ([split] of the empty string gives [[""]]), a reading time of
    1/200 minute, and a complexity score of 2.5 instead of 0. *)
Theorem processText_blank_text {An} (analyzeContent : string -> An) t0 t1 text :
  text <> "" -> Forall (fun c => is_space c = true) (String.list_ascii_of_string text) ->
  wordCount (processText analyzeContent t0 t1 text) = 1%nat /\
  (readingTime (processText analyzeContent t0 t1 text) == 1 # 200)%Q /\
  (complexity_score (processText analyzeContent t0 t1 text) == 5 # 2)%Q /\
  complexity_level (processText analyzeContent t0 t1 text) = "basic".
Proof.
  intros Hne H. unfold processText, calculateComplexity. cbn [wordCount readingTime complexity_score complexity_level].
  rewrite (sentences_blank _ Hne H), (words_of_blank _ H), (repl_space_blank _ H). vm_compute. split_and!; done.
Qed.

(** The table of language keywords is an object literal, so a
    preferred language whose lower case is [constructor] finds an
    inherited function and [detectContentType] throws a [TypeError] on a
    text that is neither technical nor scientific. *)
Theorem detectContentType_constructor_throws t pl :
  (keyword_score technicalKeywords (lower t) <= 2)%nat -> (keyword_score scientificKeywords (lower t) <= 2)%nat ->
  lower pl = "constructor" ->
  detectContentType (DText t) (Some pl) = inl "languageKeywords.filter is not a function".
Proof.
  intros H1 H2 Hl. unfold detectContentType. cbv zeta. cbn [negb].
  rewrite (proj2 (Nat.ltb_ge _ _) H1), (proj2 (Nat.ltb_ge _ _) H2), Hl.
  assert (Hpl : truthy pl = true) by (destruct pl; [discriminate Hl|done]). by rewrite Hpl.
Qed.

(** The language keywords are matched as substrings: with
    [preferredLanguage] Spanish, an English text that contains "el" and
    "de" inside its words is classified as Spanish. *)
Example detectContentType_english_as_spanish :
  detectContentType (DText "Hello delightful model") (Some "Spanish") = inr "spanish".
Proof. vm_compute. reflexivity. Qed.

Lemma cleanText_empty_lines_redundant_witness :
  cleanText "a

b" no_clean_options = cleanText "a

b" (with_removeEmptyLines no_clean_options false).
Proof. apply cleanText_empty_lines_redundant. reflexivity. Defined.

Lemma webpage_clean_is_trim_witness : webpage_clean "  a   b  " = trim "  a   b  ".
Proof. apply webpage_clean_is_trim. apply (bool_decide_unpack _). vm_compute. exact I. Defined.

Lemma processText_blank_text_witness :
  wordCount (processText (fun _ => tt) 0 1 "   ") = 1%nat /\
  (readingTime (processText (fun _ => tt) 0 1 "   ") == 1 # 200)%Q /\
  (complexity_score (processText (fun _ => tt) 0 1 "   ") == 5 # 2)%Q /\
  complexity_level (processText (fun _ => tt) 0 1 "   ") = "basic".
Proof. apply processText_blank_text; [discriminate|repeat constructor]. Defined.

Lemma detectContentType_constructor_throws_witness :
  detectContentType (DText "hello") (Some "Constructor") = inl "languageKeywords.filter is not a function".
Proof. apply detectContentType_constructor_throws; vm_compute; [lia|lia|reflexivity]. Defined.

End Text.
