(* ===== verification/Http.v ===== *)
(** * Http: requests, responses, JSON values and the vector index

    What the API routes of [src/src/pages/api] share:
    - the JSON values of request and response bodies, with JavaScript's
      [undefined], truthiness, and property access, which throws a
      [TypeError] on [undefined] and [null];
    - [NextApiRequest] (its method, query and parsed body) and the
      response a handler sends ([res.status(code).json(body)], or
      [res.status(code).end()]);
    - [process.env] as an association list;
    - the Pinecone index the routes write and read, as a map from vector
      ids to metadata: [upsert] replaces an id's record, [deleteOne]
      removes it, and the matches of a [query] are any records of the
      index, with distinct ids and at most [topK] of them.  The
      embeddings and similarity scores are not modelled. *)

From S2P Require Import Prelude.
From Stdlib Require Import QArith.

Module Http.

(** A JSON value, or [undefined]. *)
#[warnings="-register-all"]
Inductive jv :=
  | JUndef
  | JNull
  | JBool (b : bool)
  | JNum (q : Q)
  | JStr (s : string)
  | JArr (l : list jv)
  | JObj (fields : list (string * jv)).

Definition jint (z : Z) : jv := JNum (inject_Z z).

(** [!!v]. *)
Definition js_truthy (v : jv) : bool :=
  match v with
  | JUndef | JNull => false
  | JBool b => b
  | JNum q => negb (Qeq_bool q 0)
  | JStr s => truthy s
  | JArr _ | JObj _ => true
  end.

(** [String(v)], the conversion of a template literal; [num] is
    [Number.prototype.toString]. *)
Fixpoint to_string (num : Q -> string) (v : jv) : string :=
  match v with
  | JUndef => "undefined"
  | JNull => "null"
  | JBool true => "true"
  | JBool false => "false"
  | JNum q => num q
  | JStr s => s
  | JArr l => String.concat "," (map (fun x => match x with JUndef | JNull => "" | _ => to_string num x end) l)
  | JObj _ => "[object Object]"
  end.

(** [v.k]: [None] is the [TypeError] on [undefined] or [null]; a
    missing property is [undefined]. *)
Definition field (k : string) (v : jv) : option jv :=
  match v with
  | JUndef | JNull => None
  | JObj fs => Some (default JUndef (assoc_get k fs))
  | _ => Some JUndef
  end.

(** [Object.keys(v)]; [None] is the [TypeError] on [undefined] and
    [null].  An object's fields are its own enumerable properties. *)
Definition object_keys (v : jv) : option (list string) :=
  match v with
  | JUndef | JNull => None
  | JObj fs => Some (map fst fs)
  | JArr l => Some (map (fun i => pretty (N.of_nat i)) (seq 0 (length l)))
  | JStr s => Some (map (fun i => pretty (N.of_nat i)) (seq 0 (String.length s)))
  | _ => Some []
  end.

(** [v.k] on an object. *)
Definition get (k : string) (fs : list (string * jv)) : jv := default JUndef (assoc_get k fs).

Record Request := {
  method : string;
  query : list (string * jv);
  body : jv;
}.

(** [res.status(code).json(body)], or [end()] when [body] is [None]. *)
Record Response := {
  status : Z;
  payload : option jv;
}.

Definition respond (code : Z) (fs : list (string * jv)) : Response :=
  {| status := code; payload := Some (JObj fs) |}.

Definition respond_json (code : Z) (v : jv) : Response := {| status := code; payload := Some v |}.

Definition respond_end (code : Z) : Response := {| status := code; payload := None |}.

(** [process.env]. *)
Definition Env := list (string * string).

Definition env_get (e : Env) (k : string) : option string := assoc_get k e.

(** [!process.env[k]]. *)
Definition env_missing (e : Env) (k : string) : bool :=
  match env_get e k with Some v => negb (truthy v) | None => true end.

(** The outcome of an awaited call: a rejection with its message, or
    the value. *)
Definition outcome (A : Type) : Type := string + A.

(** A rejection: the error's [message] and [status], when it has them. *)
Record Err := { err_message : option string; err_status : option Z }.

Definition error_of (m : string) : Err := {| err_message := Some m; err_status := None |}.

(** [error?.message?.includes(t)]. *)
Definition msg_includes (e : Err) (t : string) : bool :=
  match err_message e with Some m => includes m t | None => false end.

(** [error?.message || d]. *)
Definition msg_or (e : Err) (d : string) : string :=
  match err_message e with Some m => if truthy m then m else d | None => d end.

(** [error instanceof Error ? error.message : 'Unknown error']. *)
Definition error_message (e : Err) : string := default "Unknown error" (err_message e).

(** The [TypeError] of [const { k, .. } = req.body] on an undefined or
    null body. *)
Definition destructure_error (k : string) (b : jv) : Err :=
  error_of ("Cannot destructure property '" ++ k ++ "' of 'req.body' as it is " ++
            (match b with JNull => "null" | _ => "undefined" end) ++ ".").

(** [a || b]. *)
Definition jor (a b : jv) : jv := if js_truthy a then a else b.

(** [{ ...o, ...fs }]. *)
Definition spread (o fs : list (string * jv)) : list (string * jv) :=
  fold_left (fun m kv => assoc_set kv.1 kv.2 m) fs o.

(** The fields [JSON.stringify] keeps: the defined ones. *)
Definition is_defined (v : jv) : bool := match v with JUndef => false | _ => true end.

Definition json_fields (o : list (string * jv)) : list (string * jv) :=
  filter (fun kv => is_defined kv.2 = true) o.

(** [JSON.parse(JSON.stringify(v))]: [undefined] in an array becomes
    [null], an [undefined] field is left out. *)
Fixpoint json_wire (v : jv) : jv :=
  match v with
  | JArr l => JArr (map (fun x => match json_wire x with JUndef => JNull | y => y end) l)
  | JObj fs => JObj (filter (fun kv => is_defined kv.2 = true) (map (fun kv => (kv.1, json_wire kv.2)) fs))
  | _ => v
  end.

(** The payload's field of a response. *)
Definition resp_field (k : string) (r : Response) : jv :=
  match payload r with Some (JObj fs) => get k fs | _ => JUndef end.

(** ** The Pinecone index *)

Definition Metadata := list (string * jv).

Definition Index := list (string * Metadata).

(** [index.upsert(vectors)]: each vector replaces the record of its id. *)
Definition upsert (vs : list (string * Metadata)) (idx : Index) : Index :=
  fold_left (fun i v => assoc_set v.1 v.2 i) vs idx.

(** [index.deleteOne(id)]. *)
Definition deleteOne (id : string) (idx : Index) : Index := assoc_delete id idx.

(** The namespaces of the index, by name; the default one is [""]. *)
Definition Store := list (string * Index).

Definition ns_index (st : Store) (ns : string) : Index := default [] (assoc_get ns st).

Definition ns_update (ns : string) (f : Index -> Index) (st : Store) : Store :=
  assoc_set ns (f (ns_index st ns)) st.

(** The namespace of [PineconeStore.fromExistingIndex(.., { namespace })]:
    an undefined one is the default namespace. *)
Definition namespace_of (v : option string) : string := default "" v.

(** A match of a query: the id, and the metadata when the query asks
    for it with [includeMetadata: true]. *)
Definition Match : Type := string * option Metadata.

(** The matches that [index.query({ topK, filter, includeMetadata })]
    may return: distinct records of the index that pass the filter, as
    many as [topK] allows, in any order (the order of the similarity
    scores, which are not modelled). *)
Definition query_matches (idx : Index) (flt : Metadata -> bool) (topK : nat) (incl : bool)
    (ms : list Match) : Prop :=
  NoDup (map fst ms) /\
  Forall (fun m => exists r, assoc_get m.1 idx = Some r /\ flt r = true /\
                             m.2 = (if incl then Some r else None)) ms /\
  length ms = Nat.min topK (length (filter (fun r => flt r.2 = true) idx)).

(** A reference answer to a query: the first records that pass the
    filter. *)
Definition query_take (idx : Index) (flt : Metadata -> bool) (topK : nat) (incl : bool) : list Match :=
  map (fun r => (r.1, if incl then Some r.2 else None)) (take topK (filter (fun r => flt r.2 = true) idx)).

(** The [{ k: { $exists: true } }] filter. *)
Definition has_field (k : string) (md : Metadata) : bool :=
  match assoc_get k md with Some _ => true | None => false end.

(** The [{ k: true }] filter. *)
Definition is_true_field (k : string) (md : Metadata) : bool :=
  match get k md with JBool true => true | _ => false end.

(** ** Lemmas *)

Lemma ns_index_update_eq ns f st : ns_index (ns_update ns f st) ns = f (ns_index st ns).
Proof. unfold ns_index, ns_update. by rewrite assoc_get_set_eq. Qed.

Lemma ns_index_update_ne ns ns' f st : ns <> ns' -> ns_index (ns_update ns f st) ns' = ns_index st ns'.
Proof. intros Hne. unfold ns_index, ns_update. by rewrite assoc_get_set_ne by congruence. Qed.

Create Rewrite HintDb httprw.
#[export] Hint Rewrite ns_index_update_eq : httprw.
#[export] Hint Rewrite ns_index_update_ne using congruence : httprw.

(** Upserting fresh, distinct ids appends their records. *)
Lemma upsert_fresh vs idx :
  NoDup (map fst vs) -> (forall k, k ∈ map fst vs -> k ∉ map fst idx) -> upsert vs idx = idx ++ vs.
Proof. apply fold_assoc_set_fresh. Qed.

Lemma upsert_get_notin k vs idx : k ∉ map fst vs -> assoc_get k (upsert vs idx) = assoc_get k idx.
Proof.
  revert idx; induction vs as [|[k' v'] vs IH]; intros idx Hk; [done|]. cbn [map fst] in Hk.
  unfold upsert in *; simpl. rewrite IH by (intros ?; apply Hk; by right).
  apply assoc_get_set_ne. intros ->; apply Hk; left.
Qed.

Lemma upsert_get_in k v vs idx : NoDup (map fst vs) -> (k, v) ∈ vs -> assoc_get k (upsert vs idx) = Some v.
Proof.
  revert idx; induction vs as [|[k' v'] vs IH]; intros idx Hnd Hin; [by apply not_elem_of_nil in Hin|].
  cbn [map fst] in Hnd. apply NoDup_cons in Hnd as [Hk' Hnd]. unfold upsert in *; simpl.
  apply elem_of_cons in Hin as [[= -> ->]|Hin].
  - rewrite upsert_get_notin by done. apply assoc_get_set_eq.
  - by apply IH.
Qed.

Lemma assoc_get_json_fields k v o :
  assoc_get k o = Some v -> is_defined v = true -> assoc_get k (json_fields o) = Some v.
Proof. apply assoc_get_filter_val. Qed.

(** The records a filter accepts in an index extended by records it
    all accepts, when it accepts none of the index. *)
Lemma filter_app_count (flt : Metadata -> bool) (idx vs : Index) :
  Forall (fun r : string * Metadata => flt r.2 = false) idx ->
  Forall (fun r : string * Metadata => flt r.2 = true) vs ->
  length (filter (fun r : string * Metadata => flt r.2 = true) (idx ++ vs)) = length vs.
Proof.
  intros H1 H2. rewrite filter_app, filter_none, filter_all_keep; [done| |].
  - intros r Hr. by eapply Forall_forall in H2.
  - intros r Hr. eapply Forall_forall in H1; [|exact Hr]. congruence.
Qed.

(** The matches of a query without [includeMetadata] carry none. *)
Lemma query_matches_no_metadata idx flt k ms :
  query_matches idx flt k false ms -> Forall (fun m : Match => m.2 = None) ms.
Proof. intros (_&Hall&_). eapply Forall_impl; [exact Hall|]. by intros m (r&_&_&->). Qed.

(** On an index with distinct ids, [query_matches] has an answer. *)
Lemma query_take_matches idx flt k incl :
  NoDup (map fst idx) -> query_matches idx flt k incl (query_take idx flt k incl).
Proof.
  intros Hnd. unfold query_take.
  assert (Hs : sublist (take k (filter (fun r => flt r.2 = true) idx)) idx)
    by (etrans; [apply sublist_take|apply sublist_filter]).
  split; [|split].
  - rewrite List.map_map. apply (NoDup_keys_sublist _ _ Hnd Hs).
  - apply Forall_fmap, Forall_forall. intros [i r] Hin. exists r. simpl. split; [|split; [|done]].
    + apply assoc_get_elem_NoDup; [done|]. by eapply elem_of_sublist.
    + eapply elem_of_sublist in Hin; [|apply sublist_take]. by apply list_elem_of_filter in Hin as [? _].
  - rewrite List.length_map, length_take. lia.
Qed.

(** A query whose [topK] allows every record that passes the filter
    returns all of them. *)
Lemma query_matches_complete idx flt k incl ms id r :
  query_matches idx flt k incl ms ->
  (length (filter (fun r => flt r.2 = true) idx) <= k)%nat ->
  (id, r) ∈ idx -> flt r = true -> id ∈ map fst ms.
Proof.
  intros (Hnd & Hall & Hlen) Hk Hin Hf.
  assert (Hsub : List.incl (map fst ms) (map fst (filter (fun r => flt r.2 = true) idx))).
  { intros x (m & <- & Hm)%in_map_iff. apply list_elem_of_In in Hm.
    destruct (proj1 (Forall_forall _ _) Hall m Hm) as (r' & Hg & Hf' & _).
    apply list_elem_of_In, list_elem_of_fmap. exists (m.1, r'). split; [done|].
    apply list_elem_of_filter. split; [done|]. by apply assoc_get_Some_elem. }
  apply list_elem_of_In. eapply NoDup_length_incl; [by apply NoDup_ListNoDup| |exact Hsub|].
  - rewrite !List.length_map. unfold Match in Hlen. rewrite Hlen. lia.
  - apply in_map_iff. exists (id, r). split; [done|]. apply list_elem_of_In, list_elem_of_filter. by split.
Qed.

End Http.
