(* ===== verification/JsNum.v ===== *)
(** * JsNum: JavaScript numbers

    The values of JavaScript's number type that the modelled code
    computes: [NaN], the two infinities, and finite values, kept as exact
    rationals (the rounding of doubles is not modelled; the code
    computes ratios of counts and short decimals).  [num_mul], [num_div]
    and [js_max] are [*], [/] and [Math.max(...)], with their IEEE rules
    for [NaN], infinities and zero.  [num_eq] is equality up to [Qeq];
    the operations respect it. *)

From S2P Require Import Prelude Http.
From Stdlib Require Import QArith.

Module JsNum.

Import Http.

Inductive num := NaN | Inf (neg : bool) | Fin (q : Q).

Definition is_neg (q : Q) : bool := negb (Qle_bool 0 q).

(** [a * b]. *)
Definition num_mul (a b : num) : num :=
  match a, b with
  | NaN, _ | _, NaN => NaN
  | Inf s, Inf t => Inf (xorb s t)
  | Inf s, Fin q | Fin q, Inf s => if Qeq_bool q 0 then NaN else Inf (xorb s (is_neg q))
  | Fin p, Fin q => Fin (p * q)
  end.

(** [a / b]. *)
Definition num_div (a b : num) : num :=
  match a, b with
  | NaN, _ | _, NaN => NaN
  | Inf _, Inf _ => NaN
  | Inf s, Fin q => Inf (xorb s (is_neg q))
  | Fin _, Inf _ => Fin 0
  | Fin p, Fin q => if Qeq_bool q 0 then (if Qeq_bool p 0 then NaN else Inf (is_neg p)) else Fin (p / q)
  end.

(** [Math.max(a, b)]. *)
Definition num_max2 (a b : num) : num :=
  match a, b with
  | NaN, _ | _, NaN => NaN
  | Inf false, _ | _, Inf false => Inf false
  | Inf true, x | x, Inf true => x
  | Fin p, Fin q => if Qle_bool p q then Fin q else Fin p
  end.

(** [Math.max(...xs)]: [-Infinity] for no argument. *)
(** [JSON.stringify] writes [NaN] and the infinities as [null]. *)
Definition num_json (n : num) : jv := match n with Fin q => JNum q | _ => JNull end.

Definition js_max (xs : list num) : num := fold_left num_max2 xs (Inf true).

Definition num_of_nat (n : nat) : num := Fin (inject_Z (Z.of_nat n)).

(** [a === b]. *)
Definition num_strict_eq (a b : num) : bool :=
  match a, b with
  | Fin p, Fin q => Qeq_bool p q
  | Inf s, Inf t => Bool.eqb s t
  | _, _ => false
  end.

(** [a > 0]. *)
Definition num_pos (a : num) : bool :=
  match a with Fin q => negb (Qle_bool q 0) | Inf false => true | _ => false end.

(** ** Equality of numbers up to [Qeq] *)

Definition num_eq (a b : num) : Prop :=
  match a, b with
  | NaN, NaN => True
  | Inf s, Inf t => s = t
  | Fin p, Fin q => p == q
  | _, _ => False
  end.

Infix "≡n" := num_eq (at level 70).

#[export] Instance num_eq_equiv : Equivalence num_eq.
Proof.
  split.
  - intros []; simpl; reflexivity.
  - intros [] []; simpl; try done; intros H; by symmetry.
  - intros [] [] []; simpl; try done; intros H1 H2; [congruence|]. by rewrite H1.
Qed.

Lemma Qeq_bool_compat p q r : p == q -> Qeq_bool p r = Qeq_bool q r.
Proof.
  intros H. destruct (Qeq_bool p r) eqn:E1, (Qeq_bool q r) eqn:E2; try done.
  - apply Qeq_bool_iff in E1. apply Qeq_bool_neq in E2. exfalso. apply E2. by rewrite <- H.
  - apply Qeq_bool_iff in E2. apply Qeq_bool_neq in E1. exfalso. apply E1. by rewrite H.
Qed.

Lemma is_neg_compat p q : p == q -> is_neg p = is_neg q.
Proof.
  intros H. unfold is_neg. f_equal.
  destruct (Qle_bool 0 p) eqn:E1, (Qle_bool 0 q) eqn:E2; try done.
  - apply Qle_bool_iff in E1. rewrite H in E1. apply Qle_bool_iff in E1. congruence.
  - apply Qle_bool_iff in E2. rewrite <- H in E2. apply Qle_bool_iff in E2. congruence.
Qed.

Ltac qcompat :=
  repeat match goal with
  | H : ?p == ?q |- context [Qeq_bool ?p 0] => rewrite (Qeq_bool_compat p q 0 H)
  | H : ?p == ?q |- context [is_neg ?p] => rewrite (is_neg_compat p q H)
  end.

#[export] Instance num_mul_proper : Proper (num_eq ==> num_eq ==> num_eq) num_mul.
Proof.
  intros a a' Ha b b' Hb.
  destruct a as [|s|p], a' as [|s'|p'], b as [|t|q], b' as [|t'|q']; simpl in *; try done;
    subst; qcompat; repeat case_match; simpl; try done.
  by rewrite Ha, Hb.
Qed.

#[export] Instance num_div_proper : Proper (num_eq ==> num_eq ==> num_eq) num_div.
Proof.
  intros a a' Ha b b' Hb.
  destruct a as [|s|p], a' as [|s'|p'], b as [|t|q], b' as [|t'|q']; simpl in *; try done;
    subst; qcompat; repeat case_match; simpl; try done.
  by rewrite Ha, Hb.
Qed.

Lemma num_mul_1_r a : num_mul a (Fin 1) ≡n a.
Proof. destruct a as [|[]|q]; simpl; try done. apply Qmult_1_r. Qed.

End JsNum.
