(* ===== verification/ApiConfig.v ===== *)
(** * ApiConfig: the configuration and key-test routes

    The routes that check the configuration of the application:
    - [/api/config-status] ([config-status.ts], lines 1-160): required
      environment variables, then a validation call to each service;
    - [/api/setup] ([setup.ts]) with [validatePineconeCredentials]
      ([src/src/utils/pinecone.ts]): validates the three keys in order
      and writes them to [.env];
    - [/api/health], [/api/pinecone-stats], and the key tests of
      [test/openai.ts] (OpenAI, and the Pinecone key in its second part),
      [test/pinecone-index.ts] and [src/unnamed/part_007] (YouTube key).

    Each handler is a function from the request, the environment and
    the outcomes of its awaited remote calls to the response.  A remote
    call's outcome is an oracle: its rejection with an error, or its
    value.  An exception a handler does not catch is [unhandled], the
    500 response of Next.js. *)

From S2P Require Import Prelude Http.
From Stdlib Require Import QArith.

Module ApiConfig.

Import Http.

Local Open Scope string_scope.

(** The response of Next.js to an exception the handler does not catch. *)
Definition unhandled : Response := respond_end 500.

(** ** [/api/config-status] *)

Definition requiredEnvVars : list string :=
  ["OPENAI_API_KEY"; "PINECONE_API_KEY"; "PINECONE_INDEX"; "PINECONE_ENVIRONMENT"].

Definition details (o p y : bool) : jv :=
  JObj [("openai", JBool o); ("pinecone", JBool p); ("youtube", JBool y)].

(** The [validationErrors] (lines 59-111), as services and messages.
    [openai] and [pinecone] are the outcomes of [openai.models.list()]
    and [index.describeIndexStats()]; [youtube] is the outcome of the
    [fetch], with [response.ok]. *)
Definition validation_errors (env : Env) (openai pinecone : outcome unit) (youtube : outcome bool)
  : list (string * string) :=
  (match openai with inl _ => [("openai", "Invalid OpenAI API key")] | inr _ => [] end) ++
  (if env_missing env "PINECONE_API_KEY" || env_missing env "PINECONE_INDEX"
   then [("pinecone", "Missing Pinecone configuration")]
   else match pinecone with inl m => [("pinecone", m)] | inr _ => [] end) ++
  (if env_missing env "YOUTUBE_API_KEY" then []
   else match youtube with inr true => [] | _ => [("youtube", "Invalid YouTube API key")] end).

Definition has_service (s : string) (errs : list (string * string)) : bool :=
  existsb (fun e => String.eqb e.1 s) errs.

(** The handler (lines 21-160).  Its outer [catch] is unreachable: every
    awaited call has a [try] of its own. *)
Definition configStatus (req : Request) (env : Env) (openai pinecone : outcome unit) (youtube : outcome bool)
  : Response :=
  if negb (String.eqb (method req) "GET") then
    respond 405 [("configured", JBool false); ("missingSecrets", JArr []); ("message", JStr "Method not allowed")]
  else
    let missingSecrets := filter (fun v => env_missing env v = true) requiredEnvVars in
    match missingSecrets with
    | _ :: _ =>
        respond 200 [("configured", JBool false); ("missingSecrets", JArr (map JStr missingSecrets));
                     ("message", JStr "Missing required environment variables");
                     ("details", details (negb (bool_decide ("OPENAI_API_KEY" ∈ missingSecrets)))
                                         (negb (existsb (fun s => starts_with s "PINECONE_") missingSecrets)) true)]
    | [] =>
        let errs := validation_errors env openai pinecone youtube in
        match errs with
        | _ :: _ =>
            respond 200 [("configured", JBool false); ("missingSecrets", JArr []);
                         ("message", JStr "Configuration validation failed");
                         ("details", details (negb (has_service "openai" errs)) (negb (has_service "pinecone" errs))
                                             (negb (has_service "youtube" errs)))]
        | [] =>
            respond 200 [("configured", JBool true); ("missingSecrets", JArr []);
                         ("message", JStr "Configuration complete"); ("details", details true true true)]
        end
    end.

(** ** [/api/health] (health.ts, lines 10-20) *)

Definition health (env : Env) (timestamp : string) (uptime : Q) : Response :=
  respond 200 [("status", JStr "healthy"); ("timestamp", JStr timestamp); ("uptime", JNum uptime);
               ("version", JStr (match env_get env "npm_package_version" with
                                 | Some v => if truthy v then v else "1.0.0"
                                 | None => "1.0.0" end))].

(** ** [/api/pinecone-stats] (pinecone-stats.ts, lines 6-37) *)

Definition pineconeStats (req : Request) (env : Env) (stats : outcome jv) : Response :=
  if negb (String.eqb (method req) "GET") then respond 405 [("message", JStr "Method not allowed")]
  else if env_missing env "PINECONE_API_KEY" || env_missing env "PINECONE_INDEX" then
    respond 500 [("message", JStr "Pinecone API key or index name not found")]
  else match stats with
       | inr s => respond_json 200 s
       | inl m => respond 500 [("message", JStr m)]
       end.

(** ** [validatePineconeCredentials] (utils/pinecone.ts, lines 6-33) *)

Definition validatePineconeCredentials (stats : outcome unit) : bool * option string :=
  match stats with
  | inr _ => (true, None)
  | inl m => (false, Some (if includes m "Unauthorized" then "Invalid Pinecone API key"
                           else "Pinecone validation error: " ++ m))
  end.

(** ** [/api/setup] (setup.ts, lines 22-134) *)

(** The outcomes of the awaited calls of [/api/setup], in order:
    [openai.models.list()], [validatePineconeCredentials]'s
    [describeIndexStats()], the handler's own [describeIndexStats()],
    [youtube.search.list] and [writeFile]. *)
Record SetupCalls := {
  sc_openai : outcome unit;
  sc_pinecone_stats : outcome unit;
  sc_pinecone_index : outcome unit;
  sc_youtube : outcome unit;
  sc_write : outcome unit;
}.

Definition setup_fail (code : Z) (m : string) (step : option string) : Response :=
  respond code (app [("success", JBool false); ("message", JStr m)]
                (match step with Some s => [("step", JStr s)] | None => [] end)).

(** [error.message || 'Unknown error']. *)
Definition unknown_or (m : string) : string := if truthy m then m else "Unknown error".

Definition nl : string := String (Ascii.ascii_of_nat 10) EmptyString.

Section Setup.

(** [Number.prototype.toString], for a key sent as a number. *)
Variable num : Q -> string.

(** The content written to [.env] (lines 114-118). *)
Definition envContent (env : Env) (openaiKey pineconeKey pineconeIndex youtubeKey : jv) : string :=
  "OPENAI_API_KEY=" ++ to_string num openaiKey ++ nl ++
  "PINECONE_API_KEY=" ++ to_string num pineconeKey ++ nl ++
  "PINECONE_INDEX=" ++ to_string num pineconeIndex ++ nl ++ "PINECONE_ENVIRONMENT=" ++
  (match env_get env "PINECONE_ENVIRONMENT" with Some v => if truthy v then v else "gcp-starter"
   | None => "gcp-starter" end) ++ nl ++ "YOUTUBE_API_KEY=" ++ to_string num youtubeKey.

(** The steps after the format check (lines 50-126). *)
Definition setup_validate (env : Env) (c : SetupCalls) (ok pk pi yk : jv) : Response * option string :=
  match sc_openai c with
  | inl m => (setup_fail 400 ("Failed to validate OpenAI API key: " ++ unknown_or m) (Some "openai_validation"), None)
  | inr _ =>
  match validatePineconeCredentials (sc_pinecone_stats c) with
  | (false, e) =>
      (respond 400 [("success", JBool false);
                    ("message", JStr (match e with Some m => if truthy m then m
                                      else "Failed to validate Pinecone credentials"
                                      | None => "Failed to validate Pinecone credentials" end));
                    ("step", JStr "pinecone_validation");
                    ("details", JObj (app [("valid", JBool false)]
                                      (match e with Some m => [("error", JStr m)] | None => [] end)))], None)
  | (true, _) =>
  match sc_pinecone_index c with
  | inl m => (setup_fail 400 ("Failed to validate Pinecone credentials: " ++ unknown_or m)
                (Some "pinecone_validation"), None)
  | inr _ =>
  match sc_youtube c with
  | inl m => (setup_fail 400 ("Failed to validate YouTube API key: " ++ unknown_or m)
                (Some "youtube_validation"), None)
  | inr _ =>
      let content := envContent env ok pk pi yk in
      match sc_write c with
      | inl m => (setup_fail 500 ("Setup failed: " ++ unknown_or m) None, Some content)
      | inr _ => (respond 200 [("success", JBool true);
                               ("message", JStr "Configuration saved successfully")], Some content)
      end
  end end end end.

(** The handler (lines 22-134), and the content it passes to
    [writeFile], if it gets that far.  Destructuring an [undefined] or
    [null] body, and [startsWith] on a key that is not a string, throw a
    [TypeError], which the outer [catch] turns into a 500. *)
Definition setup (req : Request) (env : Env) (c : SetupCalls) : Response * option string :=
  if negb (String.eqb (method req) "POST") then
    (respond 405 [("success", JBool false); ("message", JStr "Method not allowed")], None)
  else
    match body req with
    | JUndef => (setup_fail 500 "Setup failed: Cannot destructure property 'openaiKey' of 'req.body' as it is undefined." None, None)
    | JNull => (setup_fail 500 "Setup failed: Cannot destructure property 'openaiKey' of 'req.body' as it is null." None, None)
    | b =>
      let f k := default JUndef (field k b) in
      if negb (js_truthy (f "openaiKey") && js_truthy (f "pineconeKey") &&
               js_truthy (f "pineconeIndex") && js_truthy (f "youtubeKey")) then
        (setup_fail 400 "All fields are required" None, None)
      else match f "openaiKey" with
      | JStr k =>
          if negb (starts_with k "sk-") then
            (setup_fail 400 "Invalid OpenAI API key format" (Some "openai_validation"), None)
          else setup_validate env c (f "openaiKey") (f "pineconeKey") (f "pineconeIndex") (f "youtubeKey")
      | _ => (setup_fail 500 "Setup failed: openaiKey.startsWith is not a function" None, None)
      end
    end.

End Setup.

(** ** The key tests *)

Definition fail_msg (code : Z) (m : string) : Response :=
  respond code [("success", JBool false); ("message", JStr m)].

(** [/api/test/openai] (test/openai.ts, lines 4-70).  [models] is the
    outcome of [openai.models.list()], its value the [data] field.  The
    destructuring of the body and [startsWith] are outside the [try]. *)
Definition testOpenai (req : Request) (models : Err + jv) : Response :=
  if negb (String.eqb (method req) "POST") then fail_msg 405 "Method not allowed"
  else match field "openaiKey" (body req) with
  | None => unhandled
  | Some key =>
    if negb (js_truthy key) then fail_msg 400 "OpenAI API key is required"
    else match key with
    | JStr k =>
      if negb (starts_with k "sk-") then
        fail_msg 400 "Invalid OpenAI API key format. Key should start with 'sk-'"
      else
        let r := match models with
                 | inr (JArr (_ :: _)) => inr tt
                 | inr _ => inl (error_of "Unable to fetch models with provided API key")
                 | inl e => inl e
                 end in
        match r with
        | inr _ => respond 200 [("success", JBool true)]
        | inl e =>
          if bool_decide (err_status e = Some 401%Z) then
            fail_msg 400 "Invalid OpenAI API key. Please check your key and try again."
          else if bool_decide (err_status e = Some 429%Z) then
            fail_msg 400 "Rate limit exceeded. Please try again in a few minutes."
          else if msg_includes e "fetch" then
            fail_msg 400 "Could not connect to OpenAI. Please check your internet connection."
          else fail_msg 400 (msg_or e "Failed to validate OpenAI API key")
        end
    | _ => unhandled
    end
  end.

(** The Pinecone key test (test/openai.ts, lines 74-131).  [indexList]
    is the outcome of [pinecone.listIndexes()]. *)
Definition testPineconeKey (req : Request) (indexList : Err + jv) : Response :=
  if negb (String.eqb (method req) "POST") then fail_msg 405 "Method not allowed"
  else match field "pineconeKey" (body req) with
  | None => unhandled
  | Some key =>
    if negb (js_truthy key) then fail_msg 400 "Pinecone API key is required"
    else
      let r := match indexList with
               | inr l => match object_keys l with
                          | Some ks => inr ks
                          | None => inl (error_of "Cannot convert undefined or null to object")
                          end
               | inl e => inl e
               end in
      match r with
      | inr ks => respond 200 [("success", JBool true); ("indexes", JArr (map JStr ks))]
      | inl e =>
        if msg_includes e "Unauthorized" then
          fail_msg 400 "Invalid Pinecone API key. Please check your key and try again."
        else if msg_includes e "connect" then
          fail_msg 400 "Could not connect to Pinecone. Please check your internet connection."
        else fail_msg 400 (msg_or e "Failed to validate Pinecone API key")
      end
  end.

Section PineconeIndexTest.

Variable num : Q -> string.

(** [/api/test/pinecone-index] (test/pinecone-index.ts, lines 4-57).
    [client] is [None] when [new Pinecone] succeeds, or the error it
    throws; [described] is the outcome of [describeIndex]. *)
Definition testPineconeIndex (req : Request) (client : option Err) (described : Err + unit) : Response :=
  if negb (String.eqb (method req) "POST") then fail_msg 405 "Method not allowed"
  else match field "pineconeIndex" (body req), field "pineconeKey" (body req) with
  | Some idx, Some key =>
    if negb (js_truthy idx) then fail_msg 400 "Pinecone index name is required"
    else if negb (js_truthy key) then fail_msg 400 "Pinecone API key is required"
    else match client with
    | Some e => fail_msg 400 (msg_or e "Failed to connect to Pinecone")
    | None =>
      match described with
      | inr _ => respond 200 [("success", JBool true)]
      | inl e =>
        if msg_includes e "not found" then
          fail_msg 400 ("Index '" ++ to_string num idx ++ "' not found. Please check the index name and try again.")
        else fail_msg 400 (msg_or e "Failed to validate Pinecone index")
      end
    end
  | _, _ => unhandled
  end.

End PineconeIndexTest.

(** The YouTube key test (src/unnamed/part_007, lines 4-40).  [search]
    is the outcome of [youtube.search.list]. *)
Definition testYoutube (req : Request) (search : Err + unit) : Response :=
  if negb (String.eqb (method req) "POST") then respond 405 [("error", JStr "Method not allowed")]
  else match field "youtubeKey" (body req) with
  | None => unhandled
  | Some key =>
    if negb (js_truthy key) then respond 400 [("error", JStr "YouTube API key is required")]
    else match search with
    | inr _ => respond 200 [("success", JBool true)]
    | inl _ => respond 400 [("error", JStr "Invalid YouTube API key or API quota exceeded")]
    end
  end.

(** A key test of the example. *)
Definition ex_key_req : Request :=
  {| method := "POST"; query := []; body := JObj [("pineconeKey", JStr "pk")] |}.

(** ** Properties *)

(** The body of [setup] after the format check passes its keys to
    [writeFile] exactly when the four validations succeed. *)
Lemma setup_validate_writes num env c ok pk pi yk content :
  (setup_validate num env c ok pk pi yk).2 = Some content <->
  (exists u, sc_openai c = inr u) /\ (exists u, sc_pinecone_stats c = inr u) /\
  (exists u, sc_pinecone_index c = inr u) /\ (exists u, sc_youtube c = inr u) /\
  content = envContent num env ok pk pi yk.
Proof.
  unfold setup_validate, validatePineconeCredentials.
  destruct (sc_openai c), (sc_pinecone_stats c), (sc_pinecone_index c), (sc_youtube c), (sc_write c);
    simpl; split; (intros H; try discriminate; [..]);
    repeat match goal with
    | H : _ /\ _ |- _ => destruct H
    | H : exists _, _ |- _ => destruct H
    end; simplify_eq; eauto 10.
Qed.

(** C32: [/api/config-status] answers [configured: true] exactly when
    the request is a GET, the four required variables are set, the
    OpenAI and Pinecone calls succeed, and, when [YOUTUBE_API_KEY] is
    set, the YouTube search answers [ok]. *)
Lemma configStatus_configured_iff req env o p y :
  resp_field "configured" (configStatus req env o p y) = JBool true <->
  method req = "GET" /\ Forall (fun v => env_missing env v = false) requiredEnvVars /\
  (exists u, o = inr u) /\ (exists u, p = inr u) /\
  (env_missing env "YOUTUBE_API_KEY" = false -> y = inr true).
Proof.
  unfold configStatus, validation_errors, requiredEnvVars.
  rewrite !Forall_cons, Forall_nil, !filter_cons, filter_nil.
  destruct (String.eqb_spec (method req) "GET") as [Hm|Hm]; simpl;
    [|split; [discriminate|intuition]].
  destruct (env_missing env "OPENAI_API_KEY"), (env_missing env "PINECONE_API_KEY"),
    (env_missing env "PINECONE_INDEX"), (env_missing env "PINECONE_ENVIRONMENT"); simpl;
    try (split; [discriminate|intuition congruence]).
  destruct o as [|[]], p as [|[]], (env_missing env "YOUTUBE_API_KEY"), y as [|[]]; simpl.
  all: split.
  all: try (intros H; try discriminate; split_and!; eauto; intros; first [discriminate|reflexivity]).
  all: intros (_&_&[? Ho]&[? Hp]&Hy); try reflexivity; try discriminate; specialize (Hy eq_refl); congruence.
Qed.

(** [/api/setup] writes [.env] exactly when the request is a POST
    whose body is an object with the four keys set, the OpenAI key a
    string starting with [sk-], and the OpenAI, both Pinecone and the
    YouTube validations succeed, in that order; what it writes is the
    four keys and [PINECONE_ENVIRONMENT]. *)
Lemma setup_writes_env_iff num req env c content :
  (setup num req env c).2 = Some content <->
  method req = "POST" /\
  exists fs ok, body req = JObj fs /\ get "openaiKey" fs = JStr ok /\ starts_with ok "sk-" = true /\
    js_truthy (get "pineconeKey" fs) = true /\ js_truthy (get "pineconeIndex" fs) = true /\
    js_truthy (get "youtubeKey" fs) = true /\
    (exists u, sc_openai c = inr u) /\ (exists u, sc_pinecone_stats c = inr u) /\
    (exists u, sc_pinecone_index c = inr u) /\ (exists u, sc_youtube c = inr u) /\
    content = envContent num env (JStr ok) (get "pineconeKey" fs) (get "pineconeIndex" fs)
                         (get "youtubeKey" fs).
Proof.
  unfold setup.
  destruct (String.eqb_spec (method req) "POST") as [Hm|Hm]; simpl;
    [|split; [discriminate|intuition]].
  destruct (body req) as [| | | | | |fs]; simpl;
    try (split; [discriminate|intros (_&?&?&?&_); congruence]).
  fold (get "openaiKey" fs) (get "pineconeKey" fs) (get "pineconeIndex" fs) (get "youtubeKey" fs).
  destruct (js_truthy (get "openaiKey" fs)) eqn:E0, (js_truthy (get "pineconeKey" fs)) eqn:E1,
    (js_truthy (get "pineconeIndex" fs)) eqn:E2, (js_truthy (get "youtubeKey" fs)) eqn:E3; simpl;
    try (split; [discriminate|intros (_&?&?&[= <-]&Hk&Hs&?&?&?&_)]);
    try congruence;
    try (rewrite Hk in E0; simpl in E0; rewrite (starts_with_truthy _ _ Hs eq_refl) in E0; discriminate).
  destruct (get "openaiKey" fs) as [| |?|?|k|?|?] eqn:Ek; simpl;
    try (split; [discriminate|intros (_&?&?&[= <-]&?&_); congruence]).
  destruct (starts_with k "sk-") eqn:Es; simpl;
    [|split; [discriminate|intros (_&?&?&[= <-]&?&?&_); congruence]].
  rewrite setup_validate_writes; split.
  - intros (?&?&?&?&->); split; [done|exists fs, k; split_and!; auto].
  - intros (_&?&?&[= <-]&Hk&_&_&_&_&?&?&?&?&->); rewrite Ek in Hk; simplify_eq; auto.
Qed.

(** The Pinecone key test answers with the property names of what
    [listIndexes()] resolves to, not with the names of the indexes: for
    the [{ indexes: [...] }] of the client, [indexes] is always
    [["indexes"]], whatever indexes the account has. *)
Lemma testPineconeKey_returns_field_names req key l :
  method req = "POST" -> field "pineconeKey" (body req) = Some key -> js_truthy key = true ->
  resp_field "indexes" (testPineconeKey req (inr (JObj [("indexes", JArr l)]))) = JArr [JStr "indexes"].
Proof.
  intros Hm Hk Ht; unfold testPineconeKey; rewrite Hm, Hk, Ht; reflexivity.
Qed.

Lemma testPineconeKey_returns_field_names_witness :
  resp_field "indexes" (testPineconeKey ex_key_req
    (inr (JObj [("indexes", JArr [JObj [("name", JStr "docs")]; JObj [("name", JStr "faq")]])])))
  = JArr [JStr "indexes"].
Proof. apply (testPineconeKey_returns_field_names ex_key_req (JStr "pk")); reflexivity. Defined.

End ApiConfig.
