(* ===== verification/Documents.v ===== *)
(** * Documents: the routes that read and write the vector index

    The routes of [src/src/pages/api] over the Pinecone index:
    - [documents/index.ts] (GET: the matches of a query, as documents),
      [documents/[id].ts] (DELETE: [deleteOne]),
      [documents/list.ts] (GET: the documents grouped by [source_id]),
      [documents/categories.ts] (GET: the categories, created on first
      use);
    The routes that write documents are in [Uploads].

    The index is the [Store] of [Http]: namespaces of records.  A route
    is a function of the request, the store and the outcomes of its
    awaited calls to the response and the new store.  The outcomes of
    queries are oracles constrained by [query_matches]; the text
    splitter, the embeddings and the ids [addDocuments] draws are
    oracles too. *)

From S2P Require Import Prelude Http.
From Stdlib Require Import QArith.

Module Documents.

Import Http.

Local Open Scope string_scope.

(** The field [k] of an object. *)
Definition resp_field_of (k : string) (v : jv) : jv :=
  match v with JObj fs => get k fs | _ => JUndef end.

Definition method_not_allowed : Response := respond 405 [("message", JStr "Method not allowed")].

(** ** [GET /api/documents] (documents/index.ts, lines 4-57) *)

(** The document of a match (lines 30-41); [iso] is
    [new Date().toISOString()]. *)
Definition index_document (iso : string) (m : Match) : string * jv :=
  let md := default [] m.2 in
  (m.1, JObj [("id", JStr m.1);
              ("title", jor (get "title" md) (JStr "Untitled"));
              ("description", match get "text" md with
                              | JStr t => JStr (String.substring 0 200 t)
                              | _ => JStr "No description" end);
              ("type", jor (get "source" md) (JStr "unknown"));
              ("dateAdded", jor (get "uploadTimestamp" md) (JStr iso));
              ("chunks", jor (get "chunks" md) (jint 1));
              ("contentType", jor (get "contentType" md) (JStr "text"));
              ("tags", jor (get "tags" md) (JArr []))]).

(** [q] is the outcome of the construction of the client and of
    [index.query({ topK: 100, vector, includeMetadata: true })]. *)
Definition documentsIndex (req : Request) (iso : string) (q : Err + list Match) : Response :=
  if negb (String.eqb (method req) "GET") then method_not_allowed
  else match q with
  | inl e => respond 500 [("message", JStr "Error fetching documents"); ("error", JStr (error_message e))]
  | inr ms => respond_json 200 (JArr (map snd (js_map_of (map (index_document iso) ms))))
  end.

(** ** [DELETE /api/documents/[id]] (documents/[id].ts, lines 4-32) *)

(** [del] is the outcome of [index.deleteOne(id)] on the default
    namespace: the [namespace] of line 15 is computed and not used.  An
    [id] that is not a string leaves the index as it is. *)
Definition documentDelete (req : Request) (del : Err + unit) (st : Store) : Response * Store :=
  if String.eqb (method req) "DELETE" then
    match del with
    | inl e => (respond 500 [("message", JStr "Error deleting document"); ("error", JStr (error_message e))], st)
    | inr _ => (respond 200 [("message", JStr "Document deleted successfully")],
                match get "id" (query req) with JStr i => ns_update "" (deleteOne i) st | _ => st end)
    end
  else (method_not_allowed, st).

(** ** [GET /api/documents/categories] (documents/categories.ts) *)

Record Category := {
  cat_id : string;
  cat_name : string;
  cat_description : string;
  cat_subcategories : list (string * string * string);
}.

(** [DEFAULT_CATEGORIES] (lines 18-56). *)
Definition DEFAULT_CATEGORIES : list Category :=
  [ {| cat_id := "educational"; cat_name := "Educational";
       cat_description := "Educational content and tutorials"; cat_subcategories := [] |};
    {| cat_id := "entertainment"; cat_name := "Entertainment";
       cat_description := "Entertainment content"; cat_subcategories := [] |};
    {| cat_id := "news"; cat_name := "News"; cat_description := "News and current events";
       cat_subcategories := [] |};
    {| cat_id := "technology"; cat_name := "Technology";
       cat_description := "Technology-related content";
       cat_subcategories :=
         [("programming", "Programming", "Programming and coding content");
          ("ai-ml", "AI & Machine Learning", "Artificial Intelligence and Machine Learning content")] |};
    {| cat_id := "business"; cat_name := "Business";
       cat_description := "Business and entrepreneurship content"; cat_subcategories := [] |} ].

(** The records of [categoryVectors] (lines 79-107); the zero vectors
    are not modelled.  [subcategories in category] holds only for the
    category that declares them. *)
Definition category_vectors (c : Category) : list (string * Metadata) :=
  ("category-" ++ cat_id c,
   [("isCategory", JBool true); ("categoryId", JStr (cat_id c)); ("name", JStr (cat_name c));
    ("description", JStr (cat_description c))]) ::
  map (fun '(i, n, d) =>
         ("category-" ++ i,
          [("isCategory", JBool true); ("categoryId", JStr i); ("name", JStr n);
           ("description", JStr d); ("parentId", JStr (cat_id c))])) (cat_subcategories c).

Definition categoryVectors : list (string * Metadata) := flat_map category_vectors DEFAULT_CATEGORIES.

(** A category of a match (lines 121-129), kept when its [id] and its
    [name] are truthy. *)
Definition match_category (m : Match) : jv :=
  let md := default [] m.2 in
  JObj [("id", jor (get "categoryId" md) (JStr "")); ("name", jor (get "name" md) (JStr ""));
        ("description", get "description" md); ("parentId", get "parentId" md)].

Definition category_kept (c : jv) : bool :=
  match c with JObj fs => js_truthy (get "id" fs) && js_truthy (get "name" fs) | _ => false end.

Definition categories_fail (e : Err) : Response :=
  respond 500 [("categories", JArr []);
               ("error", JStr (match err_message e with
                               | Some m => if truthy m then m else "Failed to manage categories"
                               | None => "Failed to manage categories" end))].

(** The handler (lines 58-145).  [q1] is the outcome of the first query
    ([topK: 1, filter: { isCategory: true }]), on the store as it is;
    [ups] that of the [upsert] when [q1] has no match; [q2] that of the
    second query ([topK: 100], same filter), on the store after the
    upsert.  Neither query asks for metadata. *)
Definition categoriesGet (req : Request) (st : Store) (q1 : Err + list Match) (ups : Err + unit)
    (q2 : Err + list Match) : Response * Store :=
  if negb (String.eqb (method req) "GET") then
    (respond 405 [("categories", JArr []); ("error", JStr "Method not allowed")], st)
  else match q1 with
  | inl e => (categories_fail e, st)
  | inr ms1 =>
    let r := match ms1 with
             | [] => match ups with
                     | inl e => inl e
                     | inr _ => inr (ns_update "" (upsert categoryVectors) st)
                     end
             | _ => inr st
             end in
    match r with
    | inl e => (categories_fail e, st)
    | inr st' =>
      match q2 with
      | inl e => (categories_fail e, st')
      | inr ms2 => (respond 200 [("categories", JArr (filter (fun c => category_kept c = true)
                                                          (map match_category ms2)))], st')
      end
    end
  end.

(** ** [GET /api/documents/list] (documents/list.ts, lines 25-104) *)

(** [SameValueZero] on the values of metadata, the keys of a [Map]:
    objects and arrays parsed from two responses are never the same. *)
Definition jv_same (a b : jv) : bool :=
  match a, b with
  | JUndef, JUndef | JNull, JNull => true
  | JBool x, JBool y => Bool.eqb x y
  | JNum x, JNum y => Qeq_bool x y
  | JStr x, JStr y => String.eqb x y
  | _, _ => false
  end.

(** An entry of [documentMap]: its key, the metadata of the first match
    of that [source_id], and the chunk count. *)
Definition DocEntry : Type := jv * (Metadata * nat).

(** [documentMap.get(k).chunks += 1]. *)
Fixpoint bump (k : jv) (m : list DocEntry) : list DocEntry :=
  match m with
  | [] => []
  | (k', (md, n)) :: m' => if jv_same k' k then (k', (md, S n)) :: m' else (k', (md, n)) :: bump k m'
  end.

(** The body of the [forEach] (lines 38-60). *)
Definition list_step (m : list DocEntry) (mt : Match) : list DocEntry :=
  let md := default [] mt.2 in
  let sid := get "source_id" md in
  if js_truthy sid then
    if existsb (fun e => jv_same e.1 sid) m then bump sid m else m ++ [(sid, (md, 1%nat))]
  else m.

Definition documentMap (ms : list Match) : list DocEntry := fold_left list_step ms [].

(** The [DocumentMetadata] of an entry (lines 41-53). *)
Definition list_document (iso : string) (e : DocEntry) : jv :=
  let '(sid, (md, n)) := e in
  JObj [("id", sid); ("title", jor (get "title" md) (JStr "Untitled"));
        ("type", jor (get "source_type" md) (JStr "document")); ("url", get "url" md);
        ("dateAdded", jor (get "date_added" md) (JStr iso)); ("chunks", jint (Z.of_nat n));
        ("summary", get "summary" md); ("duration", get "duration" md); ("author", get "author" md);
        ("thumbnailUrl", get "thumbnail_url" md); ("categories", get "categories" md)].

Section List.

(** [new Date(v).getTime()], [None] for [NaN]. *)
Variable time : jv -> option Z.

(** The comparator of line 65; [NaN] compares as [0]. *)
Definition by_date_desc (a b : jv) : Z :=
  match time (resp_field_of "dateAdded" b), time (resp_field_of "dateAdded" a) with
  | Some x, Some y => x - y
  | _, _ => 0
  end%Z.

(** [Array.prototype.sort], stable: an element goes before the first
    one it does not compare above.  For a consistent comparator every
    stable sort gives this order. *)
Fixpoint insert_by (x : jv) (l : list jv) : list jv :=
  match l with
  | [] => [x]
  | y :: l' => if (by_date_desc x y <=? 0)%Z then x :: l else y :: insert_by x l'
  end.

Fixpoint sort_by_date (l : list jv) : list jv :=
  match l with [] => [] | x :: l' => insert_by x (sort_by_date l') end.

(** The handler.  [q] is the outcome of the client and of
    [index.query({ topK: 10000, includeMetadata: true,
    filter: { source_id: { $exists: true } } })]. *)
Definition documentsList (req : Request) (env : Env) (iso : string) (q : Err + list Match) : Response :=
  if negb (String.eqb (method req) "GET") then respond_end 405
  else if env_missing env "PINECONE_API_KEY" || env_missing env "PINECONE_INDEX" then
    respond 500 [("documents", JArr []); ("totalDocuments", jint 0);
                 ("error", JStr "Pinecone credentials not configured")]
  else match q with
  | inl e => respond 500 [("documents", JArr []); ("totalDocuments", jint 0);
                          ("error", JStr (msg_or e "Failed to fetch documents"))]
  | inr ms =>
      let documents := sort_by_date (map (list_document iso) (documentMap ms)) in
      respond 200 [("documents", JArr documents); ("totalDocuments", jint (Z.of_nat (length documents)))]
  end.

End List.

(** ** Examples *)

Definition ex_get : Request := {| method := "GET"; query := []; body := JUndef |}.

(** The default categories, as the second query of a GET returns them. *)
Definition ex_category_matches : list Match := map (fun r => (r.1, None)) categoryVectors.

Definition ex_store : Store := [("", [("a-1", [("text", JStr "alpha")]); ("a-2", [("text", JStr "beta")])])].

Definition ex_doc_matches : list Match :=
  [("a-1", Some [("text", JStr "alpha")]); ("a-2", Some [("text", JStr "beta")])].

Definition ex_env : Env := [("PINECONE_API_KEY", "pk"); ("PINECONE_INDEX", "docs")].

(** Two chunks of one added text. *)
Definition ex_chunk_matches : list Match :=
  [("u-0", Some [("source_id", JStr "doc-1"); ("title", JStr "Notes")]);
   ("u-1", Some [("source_id", JStr "doc-1"); ("title", JStr "Notes")])].

Definition ex_delete (i : string) : Request :=
  {| method := "DELETE"; query := [("id", JStr i)]; body := JUndef |}.

(** ** Properties *)

Lemma categories_of_bare (ms : list Match) :
  Forall (fun m : Match => m.2 = None) ms ->
  filter (fun c => category_kept c = true) (map match_category ms) = [].
Proof.
  induction 1 as [|[i md] ms Hm _ IH]; [done|]. simpl in Hm; subst.
  by rewrite map_cons, filter_cons, decide_False by (vm_compute; discriminate).
Qed.

(** The [forEach] of the list route on matches of one [source_id]. *)
Lemma fold_list_step_same sid md k (ms : list Match) :
  Forall (fun m : Match => get "source_id" (default [] m.2) = JStr sid) ms -> truthy sid = true ->
  fold_left list_step ms [(JStr sid, (md, k))] = [(JStr sid, (md, k + length ms))]%nat.
Proof.
  intros Hall Ht. revert k; induction Hall as [|m ms Hm _ IH]; intros k; simpl; [by rewrite Nat.add_0_r|].
  unfold list_step at 2. cbv beta zeta.
  rewrite Hm; simpl; rewrite ?Ht, ?String.eqb_refl; simpl; rewrite ?Ht, ?String.eqb_refl.
  rewrite IH. do 3 f_equal. lia.
Qed.

Lemma documentMap_same sid (ms : list Match) :
  ms <> [] -> Forall (fun m : Match => get "source_id" (default [] m.2) = JStr sid) ms -> truthy sid = true ->
  exists md, documentMap ms = [(JStr sid, (md, length ms))].
Proof.
  destruct ms as [|m ms]; [done|]. intros _ Hall Ht. inversion Hall as [|? ? Hm Hall']; subst.
  exists (default [] m.2). unfold documentMap; simpl. unfold list_step at 2. cbv beta zeta.
  rewrite Hm; simpl; rewrite Ht. by rewrite fold_list_step_same.
Qed.

Lemma NoDup_categoryVectors : NoDup (map fst categoryVectors).
Proof. apply (bool_decide_unpack _). vm_compute. reflexivity. Qed.

(** [GET /api/documents/categories] never lists a category: its
    second query does not ask for metadata, so every match maps to an
    empty [id] and [name] and is filtered out, whatever the index holds
    and whatever the first query and the upsert did. *)
Lemma categoriesGet_always_empty req st q1 ups idx ms2 :
  query_matches idx (is_true_field "isCategory") 100 false ms2 ->
  resp_field "categories" (categoriesGet req st q1 ups (inr ms2)).1 = JArr [].
Proof.
  intros Hq%query_matches_no_metadata. unfold categoriesGet, categories_fail.
  repeat case_match; simplify_eq; try done; simpl; by rewrite categories_of_bare.
Qed.

(** A GET whose first query finds no category and whose upsert
    succeeds leaves every default category and subcategory in the
    default namespace, under the id [category-<id>]. *)
Lemma categoriesGet_seeds_defaults req st u q2 :
  method req = "GET" ->
  Forall (fun r => assoc_get r.1 (ns_index (categoriesGet req st (inr []) (inr u) q2).2 "") = Some r.2)
    categoryVectors.
Proof.
  intros Hm. unfold categoriesGet. rewrite Hm; simpl.
  apply Forall_forall. intros [k v] Hin.
  destruct q2; simpl; rewrite ns_index_update_eq; (apply upsert_get_in; [apply NoDup_categoryVectors|exact Hin]).
Qed.

(** [GET /api/documents] lists one document per match: the
    [Map] that should remove duplicates is keyed by the vector id, which
    the matches of a query never repeat, so each chunk of a text is a
    document of its own. *)
Lemma documentsIndex_one_per_match req iso ms idx :
  method req = "GET" -> query_matches idx (fun _ => true) 100 true ms ->
  payload (documentsIndex req iso (inr ms)) = Some (JArr (map (fun m => (index_document iso m).2) ms)).
Proof.
  intros Hm (Hnd&_&_). unfold documentsIndex. rewrite Hm; simpl.
  rewrite js_map_of_NoDup, map_map; [done|].
  by rewrite map_map; erewrite map_ext; [exact Hnd|].
Qed.

(** [DELETE /api/documents/[id]] with an id no vector of the default
    namespace has (such as the [source_id] that [/api/documents/list]
    shows as a document's id) answers that the document is deleted and
    leaves every namespace as it was. *)
Lemma documentDelete_missing_id_keeps_index req del st i ns :
  get "id" (query req) = JStr i -> i ∉ map fst (ns_index st "") ->
  ns_index (documentDelete req del st).2 ns = ns_index st ns.
Proof.
  intros Hi Hnot. unfold documentDelete. destruct (String.eqb _ _); [|done].
  destruct del; [done|]. simpl. rewrite Hi.
  destruct (decide (ns = "")) as [->|Hne]; autorewrite with httprw; [|done].
  unfold deleteOne. by rewrite assoc_delete_absent by by apply assoc_get_None_elem.
Qed.

(** [GET /api/documents/list] groups the matches of one [source_id]
    into one document whose [chunks] is the number of those matches, and
    reports one document. *)
Lemma documentsList_one_source time req env iso ms sid :
  method req = "GET" -> env_missing env "PINECONE_API_KEY" = false -> env_missing env "PINECONE_INDEX" = false ->
  ms <> [] -> Forall (fun m : Match => get "source_id" (default [] m.2) = JStr sid) ms -> truthy sid = true ->
  exists md, documentsList time req env iso (inr ms) =
    respond 200 [("documents", JArr [list_document iso (JStr sid, (md, length ms))]); ("totalDocuments", jint 1)].
Proof.
  intros Hm H1 H2 Hne Hall Ht. destruct (documentMap_same sid ms Hne Hall Ht) as [md Hmap].
  exists md. unfold documentsList. rewrite Hm, H1, H2; simpl. by rewrite Hmap.
Qed.

Lemma documentsList_one_source_witness :
  exists md, documentsList (fun _ => None) ex_get ex_env "now" (inr ex_chunk_matches) =
    respond 200 [("documents", JArr [list_document "now" (JStr "doc-1", (md, 2%nat))]); ("totalDocuments", jint 1)].
Proof.
  apply (documentsList_one_source _ _ _ _ ex_chunk_matches "doc-1"); try reflexivity; [done|].
  repeat constructor.
Defined.

Lemma categoriesGet_always_empty_witness :
  query_matches categoryVectors (is_true_field "isCategory") 100 false ex_category_matches /\
  resp_field "categories" (categoriesGet ex_get [] (inr []) (inr tt) (inr ex_category_matches)).1 = JArr [].
Proof.
  assert (Hq : query_matches categoryVectors (is_true_field "isCategory") 100 false ex_category_matches).
  { split; [apply (bool_decide_unpack _); vm_compute; reflexivity|split; [|reflexivity]].
    repeat constructor; eexists; (split; [reflexivity|split; reflexivity]). }
  split; [exact Hq|]. exact (categoriesGet_always_empty ex_get [] (inr []) (inr tt) _ _ Hq).
Defined.

Lemma categoriesGet_seeds_defaults_witness :
  Forall (fun r => assoc_get r.1 (ns_index (categoriesGet ex_get [] (inr []) (inr tt) (inr [])).2 "") = Some r.2)
    categoryVectors.
Proof. apply categoriesGet_seeds_defaults. reflexivity. Defined.

Lemma documentsIndex_one_per_match_witness :
  payload (documentsIndex ex_get "2024-01-01T00:00:00.000Z" (inr ex_doc_matches)) =
  Some (JArr (map (fun m => (index_document "2024-01-01T00:00:00.000Z" m).2) ex_doc_matches)).
Proof.
  apply (documentsIndex_one_per_match _ _ _ (ns_index ex_store "")); [reflexivity|].
  split; [apply (bool_decide_unpack _); vm_compute; reflexivity|split; [|reflexivity]].
  repeat constructor; eexists; (split; [reflexivity|split; reflexivity]).
Defined.

Lemma documentDelete_missing_id_keeps_index_witness :
  ns_index (documentDelete (ex_delete "doc-1700000000000") (inr tt) ex_store).2 "" = ns_index ex_store "".
Proof.
  apply (documentDelete_missing_id_keeps_index _ _ _ "doc-1700000000000"); [reflexivity|].
  apply (bool_decide_unpack _). vm_compute. reflexivity.
Defined.

End Documents.
