(* ===== verification/Uploads.v ===== *)
(** * Uploads: the routes that split, embed and store documents

    - [langchain.ts]: the question-answering route (lines 34-151) and
      the add-text route (lines 161-235), which stores the chunks of a
      text under one [source_id];
    - [pinecone.ts]: the text-indexing route (lines 14-68) and the file
      upload (lines 93-201);
    - [upload/text.ts] and [upload/url.ts].

    The text splitter of LangChain, the embeddings and the ids that
    [addDocuments] draws are oracles (Section variables); a route is a
    function of the request, the store of [Http] and the outcomes of
    its awaited calls to the response and the new store.  The
    round-trip theorems connect these routes to the reading routes of
    [Documents]. *)

From S2P Require Import Prelude Http Regex Text Documents.
From Stdlib Require Import QArith.

Module Uploads.

Import Http Regex Text Documents.

Local Open Scope string_scope.

(** ** Splitting and storing documents *)

(** A [Document] of LangChain: its [pageContent] and [metadata]. *)
Definition Doc : Type := string * Metadata.

(** [RecursiveCharacterTextSplitter.createDocuments([v])] on a value
    that is not a string: its [_splitText] calls [text.includes]. *)
Definition splitter_error : Err := error_of "text.includes is not a function".

(** The record [PineconeStore.addDocuments] writes for a document:
    its metadata with the page content under [text] (the nesting of
    [flatten] is not modelled). *)
Definition store_record (d : Doc) : Metadata := json_fields (spread d.2 [("text", JStr d.1)]).

(** [getErrorMessage] of [~/utils/error], a module the repository does
    not contain. *)
Section Store.

Variable getErrorMessage : Err -> string.

(** [splitter.createDocuments([text])] with [chunkSize] and
    [chunkOverlap: 200]. *)
Variable createDocuments : Z -> string -> list Doc.

(** The ids [addDocuments] draws ([uuid.v4()]), by position. *)
Variable uuid : nat -> string.

Definition create_documents (chunkSize : Z) (v : jv) : Err + list Doc :=
  match v with JStr s => inr (createDocuments chunkSize s) | _ => inl splitter_error end.

Definition add_documents (docs : list Doc) : list (string * Metadata) :=
  imap (fun i d => (uuid i, store_record d)) docs.

Definition message (code : Z) (m : string) : Response := respond code [("message", JStr m)].

(** [`doc-${Date.now()}`] (line 205). *)
Definition source_id_of (now : Z) : string := "doc-" ++ pretty (Z.to_N now).

(** The metadata of the chunk [i] of [n] of an added text (lines
    206-219). *)
Definition add_text_metadata (sourceId iso : string) (title categories description : jv) (n i : nat)
  (d : Doc) : Doc :=
  (d.1, spread d.2 [("source_id", JStr sourceId); ("source_type", JStr "document");
                    ("title", jor title (JStr "Untitled Document")); ("date_added", JStr iso);
                    ("chunk_index", jint (Z.of_nat i)); ("total_chunks", jint (Z.of_nat n));
                    ("categories", categories); ("description", description)]).

(** The add-text route (langchain.ts, lines 161-235).  [now] is
    [Date.now()], [iso] [new Date().toISOString()], [out] the outcome of
    [fromExistingIndex(..).then(store => store.addDocuments(..))]. *)
Definition addText (req : Request) (env : Env) (now : Z) (iso : string) (out : Err + unit) (st : Store)
  : Response * Store :=
  if negb (String.eqb (method req) "POST") then (method_not_allowed, st)
  else match body req with
  | JUndef | JNull => (message 500 (getErrorMessage (destructure_error "text" (body req))), st)
  | b =>
    let f k := default JUndef (field k b) in
    let categories := match f "categories" with JUndef => JArr [] | v => v end in
    if negb (js_truthy (f "text")) then (message 400 "No text provided", st)
    else if env_missing env "PINECONE_API_KEY" || env_missing env "PINECONE_INDEX" then
      (message 500 "Pinecone API key or index name not found", st)
    else match create_documents 1000 (f "text") with
    | inl e => (message 500 (getErrorMessage e), st)
    | inr docs =>
      let sourceId := source_id_of now in
      let processed := imap (add_text_metadata sourceId iso (f "title") categories (f "description")
                               (length docs)) docs in
      match out with
      | inl e => (message 500 (getErrorMessage e), st)
      | inr _ => (respond 200 [("message", JStr "Successfully processed text"); ("documentId", JStr sourceId)],
                  ns_update (namespace_of (env_get env "PINECONE_NAMESPACE")) (upsert (add_documents processed)) st)
      end
    end
  end.

(** The text-indexing route (pinecone.ts, lines 14-68). *)
Definition indexText (req : Request) (env : Env) (out : Err + unit) (st : Store) : Response * Store :=
  if negb (String.eqb (method req) "POST") then (method_not_allowed, st)
  else match body req with
  | JUndef | JNull => (message 500 (getErrorMessage (destructure_error "text" (body req))), st)
  | b =>
    let text := default JUndef (field "text" b) in
    if negb (js_truthy text) then (message 400 "No text provided", st)
    else if env_missing env "PINECONE_API_KEY" || env_missing env "PINECONE_INDEX" then
      (message 500 "Pinecone API key or index name not found", st)
    else match create_documents 1000 text with
    | inl e => (message 500 (getErrorMessage e), st)
    | inr docs =>
      match out with
      | inl e => (message 500 (getErrorMessage e), st)
      | inr _ => (message 200 "Successfully indexed text",
                  ns_update (namespace_of (env_get env "PINECONE_NAMESPACE")) (upsert (add_documents docs)) st)
      end
    end
  end.

(** ** The question-answering route (langchain.ts, lines 34-151) *)

(** The status of an error's message (lines 140-144). *)
Definition qa_status (m : string) : Z :=
  if includes m "rate limit" then 429 else if includes m "not allowed" then 403
  else if includes m "invalid" then 400 else 500.

Definition qa_fail (e : Err) : Response :=
  let m := default "An unknown error occurred" (err_message e) in
  respond (qa_status m) [("message", JStr "Error processing request"); ("details", JStr m)].

(** [`Human: ${human}\nAssistant: ${ai}`], for [[human, ai]] taken
    from an array (or a string); [None] for a pair that is not
    iterable. *)
Definition history_line (num : Q -> string) (p : jv) : option string :=
  let line h a := "Human: " ++ to_string num h ++ String (Ascii.ascii_of_nat 10) EmptyString ++
                  "Assistant: " ++ to_string num a in
  match p with
  | JArr l => Some (line (default JUndef (l !! 0%nat)) (default JUndef (l !! 1%nat)))
  | JStr s => Some (line (match String.get 0 s with Some c => JStr (String c EmptyString) | None => JUndef end)
                         (match String.get 1 s with Some c => JStr (String c EmptyString) | None => JUndef end))
  | _ => None
  end.

(** [chat_history.map(..).join('\n')]; [inl] is the [TypeError]. *)
Definition formattedHistory (num : Q -> string) (not_iterable : jv -> string) (h : jv) : Err + string :=
  match h with
  | JUndef => inr ""
  | JArr l =>
      match mapM (history_line num) l with
      | Some ls => inr (String.concat (String (Ascii.ascii_of_nat 10) EmptyString) ls)
      | None => inl (error_of (not_iterable (default JUndef (head (filter (fun p => history_line num p = None) l)))))
      end
  | _ => inl (error_of "chat_history.map is not a function")
  end.

(** The handler.  [chain] is the outcome of [fromExistingIndex] and of
    [chain.call] on the question and the formatted history: the answer
    and the metadata of the source documents. *)
Definition langchainQA (num : Q -> string) (not_iterable : jv -> string) (req : Request) (env : Env)
    (chain : jv -> string -> Err + (jv * option (list Metadata))) : Response :=
  if negb (String.eqb (method req) "POST") then
    respond 405 [("message", JStr "Method not allowed"); ("details", JStr "Only POST requests are accepted")]
  else if env_missing env "OPENAI_API_KEY" || env_missing env "PINECONE_API_KEY" || env_missing env "PINECONE_INDEX" then
    qa_fail (error_of "Missing required environment variables")
  else match body req with
  | JUndef | JNull => qa_fail (destructure_error "question" (body req))
  | b =>
    let question := default JUndef (field "question" b) in
    let blank := match question with
                 | JUndef | JNull => inr true
                 | JStr q => inr (negb (truthy (trim q)))
                 | _ => inl (error_of "question?.trim is not a function")
                 end in
    match blank with
    | inl e => qa_fail e
    | inr true => respond 400 [("message", JStr "Invalid request"); ("details", JStr "Question cannot be empty")]
    | inr false =>
      match formattedHistory num not_iterable (default JUndef (field "chat_history" b)) with
      | inl e => qa_fail e
      | inr h =>
        match chain question h with
        | inl e => qa_fail e
        | inr (answer, srcs) =>
          respond 200 ([("answer", answer)] ++
                       match srcs with Some ds => [("sources", JArr (map (get "source") ds))] | None => [] end)
        end
      end
    end
  end.

(** ** Uploads *)

(** [{ removeUrls, removeEmails, removeSpecialChars, removeExtraSpaces }]. *)
Definition upload_clean_options : CleanTextOptions :=
  {| removeTimestamps := None; removeSpecialChars := Some true; removeBrackets := None;
     removeUrls := Some true; removeEmails := Some true; removeExtraSpaces := Some true;
     removeEmptyLines := None |}.

(** [SUPPORTED_FILE_TYPES] (pinecone.ts, lines 86-91). *)
Definition SUPPORTED_FILE_TYPES : list string :=
  ["text/plain"; "application/pdf"; "application/msword";
   "application/vnd.openxmlformats-officedocument.wordprocessingml.document"].

(** The double quote. *)
Definition dq : string := String (Ascii.ascii_of_nat 34) EmptyString.

(** The file formidable parsed. *)
Record File := {
  mimetype : option string;
  newFilename : string;
  originalFilename : jv;
  filepath : string;
}.

(** The outcomes of the awaited calls of the file upload, in order. *)
Record UploadCalls := {
  uc_parse : Err + option File;
  uc_read : Err + string;
  uc_embed : Err + unit;
  uc_upsert : Err + unit;
  uc_unlink : Err + unit;
}.

Definition upload_fail (m : string) (e : Err) : Response :=
  respond 500 ([("message", JStr m)] ++ match err_message e with Some x => [("error", JStr x)] | None => [] end).

(** The records of the file upload (lines 165-180). *)
Definition file_vectors (f : File) (contentType iso : string) (docs : list Doc) : list (string * Metadata) :=
  imap (fun i d => (newFilename f ++ "_" ++ pretty (N.of_nat i),
                    json_fields [("text", JStr d.1); ("source", JStr (newFilename f));
                                 ("contentType", JStr contentType);
                                 ("originalFileName", originalFilename f); ("uploadTimestamp", JStr iso)])) docs.

(** The file upload (pinecone.ts, lines 93-201).  [detectContentType] is
    called with the MIME type as its text (line 137). *)
Definition fileUpload (req : Request) (iso : string) (c : UploadCalls) (st : Store) : Response * Store :=
  let fail := upload_fail "Internal server error during file upload" in
  if negb (String.eqb (method req) "POST") then
    (respond 405 [("message", JStr "Method not allowed"); ("supportedMethods", JArr [JStr "POST"])], st)
  else match uc_parse c with
  | inl e => (fail e, st)
  | inr None => (respond 400 [("message", JStr "No file uploaded");
                              ("hint", JStr ("Please upload a file using the form input named " ++ dq ++ "file" ++ dq))], st)
  | inr (Some f) =>
    let mt := default "" (mimetype f) in
    if negb (bool_decide (mt ∈ SUPPORTED_FILE_TYPES)) then
      (respond 400 [("message", JStr "Unsupported file type");
                    ("supportedTypes", JArr (map JStr SUPPORTED_FILE_TYPES))], st)
    else match uc_read c with
    | inl e => (fail e, st)
    | inr content =>
      match detectContentType (DText mt) None with
      | inl m => (fail (error_of m), st)
      | inr contentType =>
        let cleanedContent := cleanText content upload_clean_options in
        let docs := createDocuments (if String.eqb contentType "document" then 1500 else 1000) cleanedContent in
        match uc_embed c with
        | inl e => (fail e, st)
        | inr _ =>
          let vectors := file_vectors f contentType iso docs in
          match uc_upsert c with
          | inl e => (fail e, st)
          | inr _ =>
            let st' := ns_update "" (upsert vectors) st in
            match uc_unlink c with
            | inl e => (fail e, st')
            | inr _ => (respond 200 [("message", JStr "File uploaded and processed successfully");
                                     ("chunks", jint (Z.of_nat (length vectors)));
                                     ("contentType", JStr contentType)], st')
            end
          end
        end
      end
    end
  end.

(** [validateTextUpload] (upload/text.ts, lines 21-41); [inl] is the
    [TypeError] of [trim] on a field that is not a string. *)
Definition validateTextUpload (data : jv) : Err + list string :=
  match field "title" data, field "text" data with
  | Some title, Some text =>
    let required k v m :=
      if negb (js_truthy v) then inr [m]
      else match v with
           | JStr x => inr (if (String.length (trim x) =? 0)%nat then [m] else [])
           | _ => inl (error_of ("data." ++ k ++ ".trim is not a function"))
           end in
    match required "title" title "Title is required", required "text" text "Text content is required" with
    | inr e1, inr e2 =>
      inr (e1 ++ e2 ++
           (match title with
            | JStr x => if (200 <? Z.of_nat (String.length x))%Z then ["Title must be less than 200 characters"] else []
            | _ => [] end) ++
           (match text with
            | JStr x => if (100000 <? Z.of_nat (String.length x))%Z
                        then ["Text content must be less than 100,000 characters"] else []
            | _ => [] end))%list
    | inl e, _ | _, inl e => inl e
    end
  | _, _ => inl (error_of "Cannot read properties of undefined (reading 'title')")
  end.

(** [detectContentType(text, { preferredLanguage: language })]: a
    [language] that is truthy and not a string throws at its
    [toLowerCase] (part_002, line 56), once the keyword scores fall
    through. *)
Definition detect_with_language (text : string) (language : jv) : string + string :=
  match language with
  | JStr l => detectContentType (DText text) (Some l)
  | v => if js_truthy v then
           match detectContentType (DText text) None with
           | inr "text" => inl "options.preferredLanguage.toLowerCase is not a function"
           | r => r
           end
         else detectContentType (DText text) None
  end.

(** The records of the text upload (lines 99-116). *)
(** [`text_${uuidv4()}_${index}`] (line 103). *)
Definition text_vector_id (i : nat) : string := "text_" ++ uuid i ++ "_" ++ pretty (N.of_nat i).

Definition text_vectors (title tags language : jv) (contentType iso : string) (docs : list Doc)
  : list (string * Metadata) :=
  imap (fun i d => (text_vector_id i,
                    json_fields [("text", JStr d.1); ("source", JStr "text_upload"); ("title", title);
                                 ("contentType", JStr contentType); ("tags", jor tags (JArr []));
                                 ("language", jor language (JStr "unknown")); ("uploadTimestamp", JStr iso)])) docs.

(** The text upload (upload/text.ts, lines 43-135).  [embed] and [ups]
    are the outcomes of the embeddings and of the [upsert]. *)
Definition textUpload (req : Request) (iso : string) (embed ups : Err + unit) (st : Store) : Response * Store :=
  let fail := upload_fail "Internal server error during text upload" in
  if negb (String.eqb (method req) "POST") then
    (respond 405 [("message", JStr "Method not allowed"); ("supportedMethods", JArr [JStr "POST"])], st)
  else
    let data := body req in
    match validateTextUpload data with
    | inl e => (fail e, st)
    | inr (_ :: _ as errs) => (respond 400 [("message", JStr "Validation failed"); ("errors", JArr (map JStr errs))], st)
    | inr [] =>
      let f k := default JUndef (field k data) in
      let text := match f "text" with JStr x => x | _ => "" end in
      let cleanedText := cleanText text upload_clean_options in
      match detect_with_language text (f "language") with
      | inl m => (fail (error_of m), st)
      | inr contentType =>
        let docs := createDocuments (if String.eqb contentType "technical" then 1500 else 1000) cleanedText in
        match embed with
        | inl e => (fail e, st)
        | inr _ =>
          let vectors := text_vectors (f "title") (f "tags") (f "language") contentType iso docs in
          match ups with
          | inl e => (fail e, st)
          | inr _ => (respond 200 [("message", JStr "Text uploaded and processed successfully");
                                   ("chunks", jint (Z.of_nat (length vectors))); ("contentType", JStr contentType);
                                   ("title", f "title")], ns_update "" (upsert vectors) st)
          end
        end
      end
    end.

(** The result of [transcribeYouTube] and [transcribeWebPage]. *)
Record Transcription := { tr_text : string; tr_title : jv; tr_author : jv; tr_duration : jv }.

(** The URL upload (upload/url.ts, lines 8-84).  [formatContentForVectorDB]
    is [async] and not awaited (line 27): [createDocuments] is given its
    Promise, on which the splitter throws, so the records of lines
    52-72 are never built. *)
Definition urlUpload (req : Request) (transcribeYouTube transcribeWebPage : string -> Err + Transcription)
  : Response :=
  let fail := upload_fail "Error processing URL" in
  if negb (String.eqb (method req) "POST") then method_not_allowed
  else match body req with
  | JUndef | JNull => fail (destructure_error "url" (body req))
  | b =>
    let url := default JUndef (field "url" b) in
    if negb (js_truthy url) then message 400 "URL is required"
    else match url with
    | JStr u =>
      let isYouTube := includes u "youtube.com" || includes u "youtu.be" in
      match (if isYouTube then transcribeYouTube u else transcribeWebPage u) with
      | inl e => fail e
      | inr _ => fail splitter_error
      end
    | _ => fail (error_of "url.includes is not a function")
    end
  end.

End Store.

(** ** Examples *)

(** One chunk per text, and ids [u0], [u1], ... *)
Definition ex_cd (_ : Z) (t : string) : list Doc := [(t, [])].

Definition ex_uuid (i : nat) : string := "u" ++ pretty (N.of_nat i).

Definition ex_add_req : Request :=
  {| method := "POST"; query := [];
     body := JObj [("text", JStr "hello world"); ("title", JStr "Notes")] |}.

Definition ex_ns_env : Env := [("PINECONE_API_KEY", "pk"); ("PINECONE_INDEX", "docs"); ("PINECONE_NAMESPACE", "prod")].

(** The match of the one chunk [ex_add_req] stores. *)
Definition ex_add_matches : list Match :=
  [(ex_uuid 0, Some (store_record (add_text_metadata (source_id_of 5) "iso" (JStr "Notes") (JArr []) JUndef 1 0
                                                     ("hello world", []))))].

(** ** Properties *)

Lemma addText_ok gm cd uuid req env now iso u st fs t :
  method req = "POST" -> body req = JObj fs -> get "text" fs = JStr t -> truthy t = true ->
  env_missing env "PINECONE_API_KEY" = false -> env_missing env "PINECONE_INDEX" = false ->
  addText gm cd uuid req env now iso (inr u) st =
    (respond 200 [("message", JStr "Successfully processed text"); ("documentId", JStr (source_id_of now))],
     ns_update (namespace_of (env_get env "PINECONE_NAMESPACE"))
       (upsert (add_documents uuid
          (imap (add_text_metadata (source_id_of now) iso (get "title" fs)
                   (match get "categories" fs with JUndef => JArr [] | v => v end)
                   (get "description" fs) (length (cd 1000%Z t))) (cd 1000%Z t)))) st).
Proof.
  intros Hm Hb Ht Htr H1 H2. unfold addText. rewrite Hm, Hb. simpl.
  unfold get in Ht. rewrite Ht. simpl. rewrite Htr, H1, H2. reflexivity.
Qed.

Lemma store_record_add_text_source_id sid iso title cats descr n i d :
  assoc_get "source_id" (store_record (add_text_metadata sid iso title cats descr n i d)) = Some (JStr sid).
Proof.
  unfold store_record, add_text_metadata, spread; simpl.
  apply assoc_get_json_fields; [|done].
  rewrite assoc_get_set_ne by done. rewrite !assoc_get_set_ne by done. by rewrite assoc_get_set_eq.
Qed.

Lemma add_documents_keys uuid ds : map fst (add_documents uuid ds) = map uuid (seq 0 (length ds)).
Proof. unfold add_documents. rewrite <- imap_seq_map. apply fmap_imap. Qed.

Lemma text_vectors_no_source_id uuid title tags language ct iso docs :
  Forall (fun r : string * Metadata => has_field "source_id" r.2 = false)
    (text_vectors uuid title tags language ct iso docs).
Proof.
  apply Forall_imap_intro. intros i d. unfold has_field, json_fields. cbn [snd].
  by rewrite assoc_get_filter_None.
Qed.

Lemma supported_types_text mt :
  mt ∈ SUPPORTED_FILE_TYPES -> detectContentType (DText mt) None = inr "text".
Proof.
  intros Hin. repeat (apply elem_of_cons in Hin as [->|Hin]; [vm_compute; reflexivity|]).
  by apply not_elem_of_nil in Hin.
Qed.

(** C13: A text added through [langchain.ts] is listed by
    [/api/documents/list] as one document: when [PINECONE_NAMESPACE] is
    unset, the ids [addDocuments] draws are fresh and distinct, and the
    default namespace holds no record with a [source_id], every answer
    of the list query on the new index gives one document, whose id is
    the [documentId] the add-text route returned and whose [chunks] is
    the number of chunks the splitter made (at most the query's
    [topK]). *)
Theorem addText_then_list gm cd uuid time req env now iso u st fs t req2 iso2 ms :
  method req = "POST" -> body req = JObj fs -> get "text" fs = JStr t -> truthy t = true ->
  env_missing env "PINECONE_API_KEY" = false -> env_missing env "PINECONE_INDEX" = false ->
  namespace_of (env_get env "PINECONE_NAMESPACE") = "" ->
  cd 1000%Z t <> [] -> (length (cd 1000%Z t) <= 10000)%nat ->
  NoDup (map uuid (seq 0 (length (cd 1000%Z t)))) ->
  Forall (fun k => k ∉ map fst (ns_index st "")) (map uuid (seq 0 (length (cd 1000%Z t)))) ->
  Forall (fun r : string * Metadata => has_field "source_id" r.2 = false) (ns_index st "") ->
  method req2 = "GET" ->
  query_matches (ns_index (addText gm cd uuid req env now iso (inr u) st).2 "")
    (has_field "source_id") 10000 true ms ->
  resp_field "documentId" (addText gm cd uuid req env now iso (inr u) st).1 = JStr (source_id_of now) /\
  exists md, documentsList time req2 env iso2 (inr ms) =
    respond 200 [("documents", JArr [list_document iso2 (JStr (source_id_of now), (md, length (cd 1000%Z t)))]);
                 ("totalDocuments", jint 1)].
Proof.
  intros Hm Hb Ht Htr H1 H2 Hns Hne Hle Hnd Hfr Hold Hm2 Hq.
  rewrite (addText_ok _ _ _ _ _ _ _ _ _ fs t) in Hq |- * by done. split; [reflexivity|].
  cbn [snd] in Hq. rewrite Hns, ns_index_update_eq in Hq.
  set (vs := add_documents uuid _) in Hq.
  assert (Hkeys : map fst vs = map uuid (seq 0 (length (cd 1000%Z t))))
    by (unfold vs; by rewrite add_documents_keys, length_imap).
  assert (Hsrc : Forall (fun kr : string * Metadata =>
                           assoc_get "source_id" kr.2 = Some (JStr (source_id_of now))) vs).
  { unfold vs, add_documents.
    apply (Forall_imap_impl (fun d => assoc_get "source_id" (store_record d) = Some (JStr (source_id_of now))));
      [|done].
    apply Forall_imap_intro. intros. apply store_record_add_text_source_id. }
  rewrite upsert_fresh in Hq; [|by rewrite Hkeys|].
  2:{ intros k Hk. rewrite Hkeys in Hk. by eapply Forall_forall in Hfr. }
  destruct Hq as (_ & Hall & Hlen).
  assert (Hlen' : length ms = length (cd 1000%Z t)).
  { rewrite Hlen, filter_app_count.
    - unfold vs, add_documents. rewrite !length_imap. lia.
    - exact Hold.
    - eapply Forall_impl; [exact Hsrc|]. intros kr Hkr. unfold has_field. by rewrite Hkr. }
  rewrite <- Hlen'. apply documentsList_one_source; [done|done|done|..].
  - intros ->. simpl in Hlen'. destruct (cd 1000%Z t); done.
  - eapply Forall_impl; [exact Hall|]. intros m (r & Hget & Hf & ->). simpl.
    rewrite assoc_get_app in Hget. destruct (assoc_get m.1 (ns_index st "")) eqn:E.
    + simplify_eq. apply assoc_get_Some_elem in E. eapply Forall_forall in Hold; [|exact E].
      simpl in Hold. congruence.
    + apply assoc_get_Some_elem in Hget. eapply Forall_forall in Hsrc; [|exact Hget].
      unfold get. simpl in Hsrc. by rewrite Hsrc.
  - done.
Qed.

(** With [PINECONE_NAMESPACE] set, the add-text route writes to that
    namespace and leaves the default one, the only one the document
    routes read, as it was. *)
Lemma addText_namespace_hides gm cd uuid req env now iso out st :
  namespace_of (env_get env "PINECONE_NAMESPACE") <> "" ->
  ns_index (addText gm cd uuid req env now iso out st).2 "" = ns_index st "".
Proof.
  intros Hns. unfold addText. repeat case_match; simpl; try done; by rewrite ns_index_update_ne.
Qed.

(** The text upload writes only to the default namespace, and only
    records without a [source_id]: [/api/documents/list], which asks for
    [source_id], never shows an uploaded text. *)
Lemma textUpload_writes_no_source_id cd uuid req iso embed ups st :
  (textUpload cd uuid req iso embed ups st).2 = st \/
  exists vs, (textUpload cd uuid req iso embed ups st).2 = ns_update "" (upsert vs) st /\
             Forall (fun r : string * Metadata => has_field "source_id" r.2 = false) vs.
Proof.
  unfold textUpload. repeat case_match; simpl; auto.
  all: right; eexists; split; [reflexivity|apply text_vectors_no_source_id].
Qed.

(** [validateTextUpload] accepts only a [title] and a [text] that are
    strings, not blank once trimmed, of at most 200 and 100000 characters. *)
Lemma validateTextUpload_bounds data :
  validateTextUpload data = inr [] ->
  exists title text, field "title" data = Some (JStr title) /\ field "text" data = Some (JStr text) /\
    (0 < Z.of_nat (String.length (trim title)) /\ Z.of_nat (String.length title) <= 200 /\
     0 < Z.of_nat (String.length (trim text)) /\ Z.of_nat (String.length text) <= 100000)%Z.
Proof.
  unfold validateTextUpload. intros H.
  repeat (case_match; simplify_eq; try done).
  all: eexists _, _; split_and!; [reflexivity|reflexivity|..].
  all: repeat match goal with
         | H : (_ =? _)%nat = false |- _ => apply Nat.eqb_neq in H
         | H : (_ <? _)%Z = false |- _ => apply Z.ltb_ge in H
         end; lia.
Qed.

(** The file upload never stores a file as a [document]: it calls
    [detectContentType] with the MIME type as the text to scan, so every
    supported type is [text] and the 1500-character chunks are never
    used. *)
Lemma fileUpload_never_document cd req iso c st :
  resp_field "contentType" (fileUpload cd req iso c st).1 <> JStr "document".
Proof.
  unfold fileUpload, upload_fail.
  repeat case_match; simplify_eq; try done.
  all: match goal with
       | Hb : negb (bool_decide _) = false, Hd : detectContentType _ None = inr _ |- _ =>
           apply negb_false_iff, bool_decide_eq_true, supported_types_text in Hb;
           rewrite Hb in Hd; simplify_eq; done
       end.
Qed.


Lemma addText_then_list_witness :
  resp_field "documentId" (addText (fun _ => "") ex_cd ex_uuid ex_add_req ex_env 5 "iso" (inr tt) []).1
    = JStr (source_id_of 5) /\
  exists md, documentsList (fun _ => None) ex_get ex_env "now" (inr ex_add_matches) =
    respond 200 [("documents", JArr [list_document "now" (JStr (source_id_of 5), (md, 1%nat))]);
                 ("totalDocuments", jint 1)].
Proof.
  apply (addText_then_list _ ex_cd ex_uuid _ _ _ _ _ _ [] [("text", JStr "hello world"); ("title", JStr "Notes")] "hello world");
    try reflexivity; try done.
  - apply Nat.leb_le. vm_compute. reflexivity.
  - vm_compute. repeat constructor; set_solver.
  - vm_compute. repeat constructor; set_solver.
  - split; [vm_compute; repeat constructor; set_solver|split; [|vm_compute; reflexivity]].
    constructor; [|constructor]. eexists; split; [vm_compute; reflexivity|split; vm_compute; reflexivity].
Defined.

Lemma addText_namespace_hides_witness :
  ns_index (addText (fun _ => "") ex_cd ex_uuid ex_add_req ex_ns_env 5 "iso" (inr tt) []).2 "" = [].
Proof. apply (addText_namespace_hides _ _ _ _ _ _ _ _ []). vm_compute. discriminate. Defined.

Lemma validateTextUpload_bounds_witness :
  exists title text, field "title" (body ex_add_req) = Some (JStr title) /\
    field "text" (body ex_add_req) = Some (JStr text) /\
    (0 < Z.of_nat (String.length (trim title)) /\ Z.of_nat (String.length title) <= 200 /\
     0 < Z.of_nat (String.length (trim text)) /\ Z.of_nat (String.length text) <= 100000)%Z.
Proof. apply validateTextUpload_bounds. vm_compute. reflexivity. Defined.

End Uploads.
