(* ===== verification/Transcription.v ===== *)
(** * Transcription: the transcription helpers

    The module [~/utils/transcription], concatenated at lines 549-668 of
    [src/src/utils/workerPool.ts]: [transcribeVideo], [transcribeYouTube]
    and [transcribeWebPage], the last two called by the URL upload route
    ([Uploads.urlUpload]).  Each is a computation of the monad [js] of
    the Prelude over [Sys], the files and directories of the disk and
    the number of browsers puppeteer has open.  The calls of libraries
    (the [whisper] command, [ytdl], puppeteer's page) are the oracles of
    the section [Oracles]; the disk operations ([mkdir], [readFile],
    [createWriteStream], [unlink]) are written out as Node does them.
    A computation that never settles is [None]: an [error] of the
    [ytdl] stream, which nothing listens to. *)

From S2P Require Import Prelude Http Regex Text Uploads.
From Stdlib Require Import Ascii.

Module Transcription.

Import Http Regex Text.

Local Open Scope string_scope.
Local Open Scope js_scope.

(** The disk (regular files by path, directories by path) and the open
    browsers. *)
Record Sys := {
  files : gmap string string;
  dirs : gset string;
  browsers : nat;
}.

Definition set_files (f : gmap string string) (s : Sys) : Sys :=
  {| files := f; dirs := dirs s; browsers := browsers s |}.
Definition set_dirs (d : gset string) (s : Sys) : Sys :=
  {| files := files s; dirs := d; browsers := browsers s |}.
Definition set_browsers (n : nat) (s : Sys) : Sys :=
  {| files := files s; dirs := dirs s; browsers := n |}.

(** [path.join(dir, name)] for an absolute [dir] without a trailing
    slash, which is what [process.cwd()] answers. *)
Definition path_join (d n : string) : string := d ++ "/" ++ n.

(** [path.basename]: the trailing slashes dropped, the segment after
    the last slash. *)
Fixpoint last_segment (s acc : list ascii) : list ascii :=
  match s with
  | [] => rev acc
  | c :: s' => if Ascii.eqb c "/" then last_segment s' [] else last_segment s' (c :: acc)
  end.

Definition basename (p : string) : string :=
  String.string_of_list_ascii
    (last_segment (rev (drop_class (fun c => Ascii.eqb c "/") (rev (String.list_ascii_of_string p)))) []).

(** The double quote of the template literal of line 576. *)
Definition dq : string := String (ascii_of_nat 34) EmptyString.

Definition ENOENT (syscall p : string) : string :=
  "ENOENT: no such file or directory, " ++ syscall ++ " '" ++ p ++ "'".

(** [TranscriptionResult] (lines 559-565). *)
Record TranscriptionResult := {
  text : string;
  source : string;
  title : option string;
  duration : option string;
  author : option string;
}.

(** [ytdl.getInfo(url).videoDetails]: [title], [author.name] and
    [lengthSeconds], a string in ytdl-core. *)
Record VideoInfo := { vi_title : string; vi_author : string; vi_lengthSeconds : string }.

(** What the audio stream of [ytdl(url, {filter: 'audioonly'})] does:
    deliver its bytes, or emit [error]. *)
Inductive audio_stream := Audio (bytes : string) | StreamError (e : string).

(** [await fs.promises.mkdir(d, { recursive: true })]. *)
Definition mkdir_p (d : string) : js Sys unit := js_modify (fun s => set_dirs ({[d]} ∪ dirs s) s).

(** [await fs.promises.readFile(p, 'utf-8')]. *)
Definition readFile (p : string) : js Sys string := fun s =>
  match files s !! p with
  | Some c => Some (inr c, s)
  | None => Some (inl (ENOENT "open" p), s)
  end.

(** [await fs.promises.unlink(p)]. *)
Definition unlink (p : string) : js Sys unit := fun s =>
  match files s !! p with
  | Some _ => Some (inr tt, set_files (delete p (files s)) s)
  | None => Some (inl (ENOENT "unlink" p), s)
  end.

Section Oracles.

(** [process.cwd()]; the effect of a shell command on the files, or its
    failure; the answers of ytdl; the steps of puppeteer: [launch],
    [newPage], [goto], the text [page.evaluate] extracts and
    [page.title()]. *)
Context (cwd : string).
Context (shell : string -> gmap string string -> string + gmap string string).
Context (getInfo : string -> string + VideoInfo).
Context (audio : string -> audio_stream).
Context (launch newPage : string + unit).
Context (goto page_text page_title : string -> string + string).

Definition temp_dir : string := path_join cwd "temp".

(** [await execAsync(cmd)]: rejects when the command fails. *)
Definition execAsync (cmd : string) : js Sys unit := fun s =>
  match shell cmd (files s) with
  | inl e => Some (inl e, s)
  | inr f => Some (inr tt, set_files f s)
  end.

(** The promise of lines 601-606: [pipe] returns the write stream, so
    its [finish] and [error] settle the promise; the write stream fails
    to open [p] when the directory [d] is missing; an [error] of the
    [ytdl] stream has no listener and the promise never settles. *)
Definition download (url d p : string) : js Sys unit := fun s =>
  if bool_decide (d ∉ dirs s) then Some (inl (ENOENT "open" p), s)
  else match audio url with
       | StreamError _ => None
       | Audio bytes => Some (inr tt, set_files (<[p := bytes]> (files s)) s)
       end.

(** [transcribeVideo] (lines 567-589). *)
Definition transcribeVideo (filePath : string) : js Sys TranscriptionResult :=
  js_catch
    (let outputPath := path_join temp_dir "transcript.txt" in
     mkdir_p temp_dir ;!
     execAsync ("whisper " ++ dq ++ filePath ++ dq ++ " --output_txt") ;!
     let! t := readFile outputPath in
     js_ret {| text := t; source := basename filePath; title := None; duration := None; author := None |})
    (fun _ => js_throw "Failed to transcribe video").

(** [transcribeYouTube] (lines 591-625). *)
Definition transcribeYouTube (url : string) : js Sys TranscriptionResult :=
  js_catch
    (let! info := js_of_sum (getInfo url) in
     let tempAudioPath := path_join temp_dir "audio.mp3" in
     download url temp_dir tempAudioPath ;!
     let! r := transcribeVideo tempAudioPath in
     unlink tempAudioPath ;!
     js_ret {| text := text r; source := url; title := Some (vi_title info);
               duration := Some (vi_lengthSeconds info); author := Some (vi_author info) |})
    (fun _ => js_throw "Failed to transcribe YouTube video").

(** [puppeteer.launch] and [browser.close()]. *)
Definition open_browser : js Sys unit := fun s =>
  match launch with
  | inl e => Some (inl e, s)
  | inr _ => Some (inr tt, set_browsers (S (browsers s)) s)
  end.

Definition close_browser : js Sys unit := js_modify (fun s => set_browsers (pred (browsers s)) s).

(** [transcribeWebPage] (lines 627-667), its clean-up [Text.webpage_clean]. *)
Definition transcribeWebPage (url : string) : js Sys TranscriptionResult :=
  js_catch
    (open_browser ;!
     js_of_sum newPage ;!
     js_of_sum (goto url) ;!
     let! t := js_of_sum (page_text url) in
     let! ti := js_of_sum (page_title url) in
     close_browser ;!
     js_ret {| text := webpage_clean t; source := url; title := Some ti; duration := None; author := None |})
    (fun _ => js_throw "Failed to transcribe web page").

(** A call of the helpers, as the URL upload route makes them, one at
    a time. *)
Inductive call := CallYouTube (url : string) | CallWebPage (url : string).

Definition run_call (c : call) : js Sys TranscriptionResult :=
  match c with
  | CallYouTube u => transcribeYouTube u
  | CallWebPage u => transcribeWebPage u
  end.

Inductive calls_step : Sys -> Sys -> Prop :=
  | calls_step_run c s r s' : run_call c s = Some (r, s') -> calls_step s s'.

End Oracles.

(** The value the route's [await] gets: the rejection's [Error], or the
    result, whose absent fields read [undefined]. *)
Definition opt_jv (o : option string) : jv := match o with Some x => JStr x | None => JUndef end.

Definition to_upload (r : TranscriptionResult) : Uploads.Transcription :=
  {| Uploads.tr_text := text r; Uploads.tr_title := opt_jv (title r);
     Uploads.tr_author := opt_jv (author r); Uploads.tr_duration := opt_jv (duration r) |}.

Definition awaited (m : js Sys TranscriptionResult) (s : Sys) : option (Err + Uploads.Transcription) :=
  match m s with
  | Some (inl e, _) => Some (inl (error_of e))
  | Some (inr a, _) => Some (inr (to_upload a))
  | None => None
  end.

(** The POST of [{ url }] to [/api/upload/url]. *)
Definition url_request (u : string) : Request := {| method := "POST"; query := []; body := JObj [("url", JStr u)] |}.

(** ** Examples *)

Definition ex_cwd : string := "/app".
Definition ex_audio_path : string := "/app/temp/audio.mp3".
Definition ex_transcript_path : string := "/app/temp/transcript.txt".
Definition ex_url : string := "https://www.youtube.com/watch?v=abc".
Definition ex_info : VideoInfo := {| vi_title := "Talk"; vi_author := "Ann"; vi_lengthSeconds := "60" |}.

(** A disk with the [temp] directory, and one without. *)
Definition ex_sys : Sys := {| files := ∅; dirs := {[ "/app/temp" ]}; browsers := 0 |}.
Definition ex_fresh : Sys := {| files := ∅; dirs := ∅; browsers := 0 |}.

(** A [whisper] that writes the transcript, and one that fails. *)
Definition ex_whisper (_ : string) (f : gmap string string) : string + gmap string string :=
  inr (<[ex_transcript_path := "hello world"]> f).
Definition ex_whisper_fails (_ : string) (_ : gmap string string) : string + gmap string string :=
  inl "Command failed: whisper".

Definition ex_getInfo (_ : string) : string + VideoInfo := inr ex_info.
Definition ex_audio (_ : string) : audio_stream := Audio "mp3".
Definition ex_ok : string + unit := inr tt.
Definition ex_page (_ : string) : string + string := inr "page".
Definition ex_goto_fails (_ : string) : string + string := inl "net::ERR_NAME_NOT_RESOLVED".

Section Proofs.

Context (cwd : string).
Context (shell : string -> gmap string string -> string + gmap string string).
Context (getInfo : string -> string + VideoInfo).
Context (audio : string -> audio_stream).
Context (launch newPage : string + unit).
Context (goto page_text page_title : string -> string + string).

Local Abbreviation temp := (temp_dir cwd).
Local Abbreviation audio_path := (path_join (temp_dir cwd) "audio.mp3").
Local Abbreviation transcript_path := (path_join (temp_dir cwd) "transcript.txt").
Local Abbreviation whisper_cmd p := ("whisper " ++ dq ++ p ++ dq ++ " --output_txt").
Local Abbreviation tVideo := (transcribeVideo cwd shell).
Local Abbreviation tYouTube := (transcribeYouTube cwd shell getInfo audio).
Local Abbreviation tWebPage := (transcribeWebPage launch newPage goto page_text page_title).

(** ** Lemmas *)

(** [transcribeVideo] creates [temp], runs [whisper] on the file and
    reads the transcript at the fixed path [temp/transcript.txt]. *)
Lemma transcribeVideo_ok p s f t :
  shell (whisper_cmd p) (files s) = inr f -> f !! transcript_path = Some t ->
  tVideo p s = Some (inr {| text := t; source := basename p; title := None; duration := None; author := None |},
                     {| files := f; dirs := {[temp]} ∪ dirs s; browsers := browsers s |}).
Proof.
  intros Hw Ht. unfold transcribeVideo, js_catch, js_bind, mkdir_p, js_modify, execAsync, readFile.
  cbn -[path_join temp_dir]. rewrite Hw. cbn -[path_join temp_dir]. by rewrite Ht.
Qed.

Lemma transcribeVideo_shell_fails p s e :
  shell (whisper_cmd p) (files s) = inl e ->
  tVideo p s = Some (inl "Failed to transcribe video", set_dirs ({[temp]} ∪ dirs s) s).
Proof. intros Hw. unfold transcribeVideo, js_catch, js_bind, mkdir_p, js_modify, execAsync. cbn -[path_join temp_dir]. by rewrite Hw. Qed.

(** Without [temp], [transcribeYouTube] fails at the write stream and
    leaves the disk as it was. *)
Lemma transcribeYouTube_no_temp u s :
  temp ∉ dirs s -> tYouTube u s = Some (inl "Failed to transcribe YouTube video", s).
Proof.
  intros Hd. unfold transcribeYouTube, js_catch, js_bind, js_of_sum, download.
  destruct (getInfo u); [done|]. cbn. by rewrite bool_decide_true.
Qed.

Definition same_dirs (s s' : Sys) : Prop := dirs s' = dirs s.

#[local] Instance same_dirs_refl : Reflexive same_dirs.
Proof. by intros s. Qed.

#[local] Instance same_dirs_trans : Transitive same_dirs.
Proof. unfold same_dirs. intros s1 s2 s3 -> ->. done. Qed.

(** [transcribeWebPage] touches no directory. *)
Lemma transcribeWebPage_dirs u : js_rel same_dirs (tWebPage u).
Proof.
  unfold transcribeWebPage. repeat (intros; js_rel_split).
  - intros s r s' H. unfold open_browser in H. destruct launch; by simplify_eq.
  - by apply js_rel_modify.
Qed.

Lemma calls_step_no_temp s s' : temp ∉ dirs s -> calls_step cwd shell getInfo audio launch newPage goto page_text page_title s s' ->
  temp ∉ dirs s'.
Proof.
  intros Hd Hs. revert Hd. destruct Hs as [[u|u] s r s' H]; intros Hd; unfold run_call in H.
  - rewrite transcribeYouTube_no_temp in H by done. by simplify_eq.
  - by rewrite (transcribeWebPage_dirs u _ _ _ H : dirs _ = dirs s).
Qed.

(** ** Properties *)

(** C21: On a disk without [<cwd>/temp], every YouTube transcription
    fails with "Failed to transcribe YouTube video", after any sequence
    of transcriptions: the write stream of the download cannot open
    [temp/audio.mp3], and the only [mkdir] of [temp] is in
    [transcribeVideo], which runs after the download. *)
Theorem fresh_disk_youtube_always_fails s0 s u :
  temp ∉ dirs s0 -> rtc (calls_step cwd shell getInfo audio launch newPage goto page_text page_title) s0 s ->
  transcribeYouTube cwd shell getInfo audio u s = Some (inl "Failed to transcribe YouTube video", s).
Proof.
  intros Hd Hr. apply transcribeYouTube_no_temp.
  induction Hr as [|s1 s2 s3 Hs _ IH]; [done|]. eauto using calls_step_no_temp.
Qed.

(** With [temp] present, a YouTube transcription whose download,
    [whisper] run and transcript read succeed answers the transcript
    read at [temp/transcript.txt], the URL as source and the video's
    title, length and author, and removes the audio file. *)
Theorem transcribeYouTube_ok u s info bytes f t :
  temp ∈ dirs s -> getInfo u = inr info -> audio u = Audio bytes ->
  shell (whisper_cmd audio_path) (<[audio_path := bytes]> (files s)) = inr f ->
  f !! transcript_path = Some t -> is_Some (f !! audio_path) ->
  tYouTube u s =
  Some (inr {| text := t; source := u; title := Some (vi_title info);
               duration := Some (vi_lengthSeconds info); author := Some (vi_author info) |},
        {| files := delete audio_path f; dirs := {[temp]} ∪ dirs s; browsers := browsers s |}).
Proof.
  intros Hd Hi Ha Hw Ht [b Hb]. unfold transcribeYouTube, js_catch, js_bind, js_of_sum, download.
  rewrite Hi. cbn -[path_join temp_dir transcribeVideo]. rewrite bool_decide_false by (intros []; done).
  rewrite Ha. erewrite transcribeVideo_ok; [|exact Hw|exact Ht].
  unfold unlink. cbn -[path_join temp_dir]. by rewrite Hb.
Qed.

(** C22: When [whisper] fails, the YouTube transcription rejects with
    "Failed to transcribe YouTube video" and leaves the downloaded
    audio at [temp/audio.mp3]: the [unlink] is skipped. *)
Theorem transcribeYouTube_leaks_audio u s info bytes e :
  temp ∈ dirs s -> getInfo u = inr info -> audio u = Audio bytes ->
  shell (whisper_cmd audio_path) (<[audio_path := bytes]> (files s)) = inl e ->
  exists s', transcribeYouTube cwd shell getInfo audio u s = Some (inl "Failed to transcribe YouTube video", s') /\ files s' !! audio_path = Some bytes.
Proof.
  intros Hd Hi Ha Hw. unfold transcribeYouTube, js_catch, js_bind, js_of_sum, download.
  rewrite Hi. cbn -[path_join temp_dir transcribeVideo]. rewrite bool_decide_false by (intros []; done).
  rewrite Ha. erewrite transcribeVideo_shell_fails; [|exact Hw]. cbn -[path_join temp_dir insert lookup]. eexists; split; [reflexivity|].
  cbn [files set_dirs set_files]. by rewrite lookup_insert_eq.
Qed.

(** When the audio stream of [ytdl] emits [error], the YouTube
    transcription never settles: the handlers are on the write stream
    [pipe] returns. *)
Theorem transcribeYouTube_stream_error_hangs u s info e :
  temp ∈ dirs s -> getInfo u = inr info -> audio u = StreamError e -> tYouTube u s = None.
Proof.
  intros Hd Hi Ha. unfold transcribeYouTube, js_catch, js_bind, js_of_sum, download.
  rewrite Hi. cbn -[path_join temp_dir]. rewrite bool_decide_false by (intros []; done). by rewrite Ha.
Qed.

(** A web page transcription that succeeds closes its browser and
    answers the page's text cleaned by [webpage_clean]; one whose page
    fails to load rejects with "Failed to transcribe web page" and
    leaves its browser open. *)
Theorem transcribeWebPage_browsers u s :
  launch = inr tt -> newPage = inr tt ->
  (forall x t ti, goto u = inr x -> page_text u = inr t -> page_title u = inr ti ->
     tWebPage u s = Some (inr {| text := webpage_clean t; source := u; title := Some ti; duration := None; author := None |}, s)) /\
  (forall e, goto u = inl e -> tWebPage u s = Some (inl "Failed to transcribe web page", set_browsers (S (browsers s)) s)).
Proof.
  intros Hl Hn. unfold transcribeWebPage, js_catch, js_bind, js_of_sum, open_browser, close_browser, js_modify.
  rewrite Hl, Hn. split.
  - intros x t ti Hg Ht Hti. rewrite Hg, Ht, Hti. by destruct s.
  - intros e Hg. by rewrite Hg.
Qed.

(** The URL upload of a YouTube URL on a disk without [temp]
    answers 500 with the message "Error processing URL" and the error
    "Failed to transcribe YouTube video". *)
Theorem youtube_upload_fails_fresh_disk u s tY tW :
  temp ∉ dirs s -> includes u "youtube.com" = true -> awaited (tYouTube u) s = Some (tY u) ->
  Uploads.urlUpload (url_request u) tY tW =
  Uploads.upload_fail "Error processing URL" (error_of "Failed to transcribe YouTube video").
Proof.
  intros Hd Hy Ha. unfold awaited in Ha. rewrite transcribeYouTube_no_temp in Ha by done.
  injection Ha as Ha. unfold Uploads.urlUpload, url_request. cbn [method body].
  change (field "url" (JObj [("url", JStr u)])) with (Some (JStr u)).
  destruct u as [|c u']; [discriminate|]. cbn -[includes].
  rewrite Hy. cbn [orb]. by rewrite <- Ha.
Qed.

End Proofs.

(** ** Witnesses *)

Lemma fresh_disk_youtube_always_fails_witness :
  transcribeYouTube ex_cwd ex_whisper ex_getInfo ex_audio ex_url ex_fresh =
  Some (inl "Failed to transcribe YouTube video", ex_fresh).
Proof.
  apply (fresh_disk_youtube_always_fails ex_cwd ex_whisper ex_getInfo ex_audio ex_ok ex_ok ex_page ex_page ex_page
           ex_fresh ex_fresh ex_url).
  - set_solver.
  - apply rtc_refl.
Defined.

Lemma transcribeYouTube_ok_witness :
  transcribeYouTube ex_cwd ex_whisper ex_getInfo ex_audio ex_url ex_sys =
  Some (inr {| text := "hello world"; source := ex_url; title := Some "Talk"; duration := Some "60"; author := Some "Ann" |},
        {| files := delete ex_audio_path (<[ex_transcript_path := "hello world"]> (<[ex_audio_path := "mp3"]> ∅));
           dirs := {[ "/app/temp" ]} ∪ {[ "/app/temp" ]}; browsers := 0 |}).
Proof.
  apply (transcribeYouTube_ok ex_cwd ex_whisper ex_getInfo ex_audio ex_url ex_sys ex_info "mp3"); try reflexivity.
  all: first [set_solver | vm_compute; eauto].
Defined.

Lemma transcribeYouTube_leaks_audio_witness :
  exists s', transcribeYouTube ex_cwd ex_whisper_fails ex_getInfo ex_audio ex_url ex_sys =
             Some (inl "Failed to transcribe YouTube video", s') /\ files s' !! ex_audio_path = Some "mp3".
Proof.
  apply (transcribeYouTube_leaks_audio ex_cwd ex_whisper_fails ex_getInfo ex_audio ex_url ex_sys ex_info "mp3"
           "Command failed: whisper"); try reflexivity.
  all: set_solver.
Defined.

Lemma transcribeYouTube_stream_error_hangs_witness :
  transcribeYouTube ex_cwd ex_whisper ex_getInfo (fun _ => StreamError "Status code: 410") ex_url ex_sys = None.
Proof.
  apply (transcribeYouTube_stream_error_hangs ex_cwd ex_whisper ex_getInfo (fun _ => StreamError "Status code: 410")
           ex_url ex_sys ex_info "Status code: 410"); try reflexivity.
  all: set_solver.
Defined.

Lemma transcribeWebPage_browsers_witness :
  transcribeWebPage ex_ok ex_ok ex_goto_fails ex_page ex_page "https://example.com" ex_sys =
  Some (inl "Failed to transcribe web page", set_browsers 1 ex_sys).
Proof.
  exact (proj2 (transcribeWebPage_browsers ex_ok ex_ok ex_goto_fails ex_page ex_page "https://example.com" ex_sys
                  eq_refl eq_refl) "net::ERR_NAME_NOT_RESOLVED" eq_refl).
Defined.

Lemma youtube_upload_fails_fresh_disk_witness :
  Uploads.urlUpload (url_request ex_url) (fun _ => inl (error_of "Failed to transcribe YouTube video")) (fun _ => inl (error_of ""))
  = Uploads.upload_fail "Error processing URL" (error_of "Failed to transcribe YouTube video").
Proof.
  apply (youtube_upload_fails_fresh_disk ex_cwd ex_whisper ex_getInfo ex_audio ex_url ex_fresh).
  - set_solver.
  - reflexivity.
  - reflexivity.
Defined.

End Transcription.
