(* ===== verification/SystemStatus.v ===== *)
(** * SystemStatus: the [/api/system/status] route

    [src/src/pages/api/system/status.ts]: the route reads three secret
    files, checks the OpenAI and Pinecone keys, and reports the
    container's uptime and memory from [docker stats] and
    [docker inspect].  The model keeps:
    - JavaScript numbers as [num]: [NaN], the infinities, and finite
      values as exact rationals (the rounding of doubles is not
      modelled; every value here is a short decimal);
    - [parseFloat] on its decimal grammar, [formatUptime] with
      [Math.floor] as [Z.div] and [%] as [Z.rem], and
      [parseMemoryToBytes] with its object-literal table of units;
    - the outputs of the two [docker] commands, the secret files, the
      [fetch] of OpenAI and the construction of the Pinecone client as
      oracles, and [new Date(s).getTime()] as an oracle [parse_date]. *)

From S2P Require Import Prelude Http Regex JsNum.
From Stdlib Require Import QArith Qpower Ascii.

Module SystemStatus.

Import Http Regex JsNum.

Local Open Scope string_scope.

(** ** [parseFloat] *)

Fixpoint digits (s : chars) : list nat * chars :=
  match s with
  | c :: s' => if is_digit c then let '(ds, r) := digits s' in (code c - 48 :: ds, r) else ([], s)
  | [] => ([], [])
  end%nat.

Definition digits_value (ds : list nat) : Z := fold_left (fun acc d => 10 * acc + Z.of_nat d)%Z ds 0%Z.

Definition sign (s : chars) : bool * chars :=
  match s with
  | "-"%char :: s' => (true, s')
  | "+"%char :: s' => (false, s')
  | _ => (false, s)
  end.

Definition infinity_chars : chars := String.list_ascii_of_string "Infinity".

(** The exponent of a [StrDecimalLiteral]: an [e] with no digit after
    it is not part of the literal. *)
Definition exponent (s : chars) : Z :=
  match s with
  | c :: s' => if Ascii.eqb c "e" || Ascii.eqb c "E" then
                 let '(neg, s1) := sign s' in
                 let '(ds, _) := digits s1 in
                 match ds with [] => 0 | _ => if neg then - digits_value ds else digits_value ds end
               else 0
  | [] => 0
  end%Z.

(** [parseFloat(s)]: the longest prefix of the trimmed string that is a
    decimal literal, or [NaN]. *)
Definition parse_float (s : string) : num :=
  let cs := ltrim (String.list_ascii_of_string s) in
  let '(neg, cs1) := sign cs in
  if prefix_of infinity_chars cs1 then Inf neg
  else
    let '(int, cs2) := digits cs1 in
    let '(frac, cs3) := match cs2 with "."%char :: r => digits r | _ => ([], cs2) end in
    match int, frac with
    | [], [] => NaN
    | _, _ =>
      let m := inject_Z (digits_value (int ++ frac)) * Qpower 10 (exponent cs3 - Z.of_nat (length frac)) in
      Fin (if neg then - m else m)
    end.

(** ** [parseMemoryToBytes] (lines 170-181) *)

(** [memory.replace(/[\d.]/g, '').trim().toLowerCase()]. *)
Definition memory_unit (memory : string) : string :=
  lower (trim (String.string_of_list_ascii
                 (filter (fun c => negb (is_digit c || Ascii.eqb c ".")) (String.list_ascii_of_string memory)))).

(** [multipliers[unit]]: an own property, a property of
    [Object.prototype] (a function), or [undefined]. *)
Inductive unit_lookup := UOwn (m : Q) | UInherited | UUndefined.

Definition multipliers (u : string) : unit_lookup :=
  if String.eqb u "b" then UOwn 1
  else if String.eqb u "kb" then UOwn 1024
  else if String.eqb u "mb" then UOwn (1024 ^ 2)
  else if String.eqb u "gb" then UOwn (1024 ^ 3)
  else if String.eqb u "tb" then UOwn (1024 ^ 4)
  else if bool_decide (u ∈ js_object_prototype_keys) then UInherited
  else UUndefined.

(** [value * (multipliers[unit] || 1)]: a function times a number is
    [NaN]. *)
Definition parseMemoryToBytes (memory : string) : num :=
  let value := parse_float memory in
  match multipliers (memory_unit memory) with
  | UOwn m => num_mul value (Fin m)
  | UInherited => NaN
  | UUndefined => num_mul value (Fin 1)
  end.

(** ** [formatUptime] (lines 158-168) *)

(** [ms] is [Date.now() - startTime.getTime()], [None] for [NaN]. *)
Definition formatUptime (ms : option Z) : string :=
  match ms with
  | None => "NaNs"
  | Some ms =>
    let seconds := ms / 1000 in
    let minutes := seconds / 60 in
    let hours := minutes / 60 in
    let days := hours / 24 in
    if 0 <? days then pretty days ++ "d " ++ pretty (Z.rem hours 24) ++ "h"
    else if 0 <? hours then pretty hours ++ "h " ++ pretty (Z.rem minutes 60) ++ "m"
    else if 0 <? minutes then pretty minutes ++ "m " ++ pretty (Z.rem seconds 60) ++ "s"
    else pretty seconds ++ "s"
  end%Z.

(** ** [getSystemStats] (lines 110-156) *)

Definition stats_json (uptime used total : string) (percentage : num) (cpu memory network : jv) : jv :=
  JObj [("uptime", JStr uptime);
        ("memoryUsage", JObj [("used", JStr used); ("total", JStr total); ("percentage", num_json percentage)]);
        ("dockerStats", JObj [("cpu", cpu); ("memory", memory); ("network", network)])].

Definition unknown_stats : jv :=
  stats_json "Unknown" "Unknown" "Unknown" (Fin 0) (JStr "Unknown") (JStr "Unknown") (JStr "Unknown").

Definition nth_jv (l : list string) (i : nat) : jv := match l !! i with Some s => JStr s | None => JUndef end.

(** [(usedBytes / totalBytes) * 100]. *)
Definition percentage_of (used total : string) : num :=
  num_mul (num_div (parseMemoryToBytes used) (parseMemoryToBytes total)) (Fin 100).

(** [docker] and [inspect] are the outcomes of the two [execAsync]
    calls; [memUsage.split] on a missing field and [memory.replace] on a
    missing total throw, and every failure gives the [Unknown] stats. *)
Definition getSystemStats (parse_date : string -> option Z) (now : Z) (docker inspect : Err + string) : jv :=
  match docker, inspect with
  | inr out, inr up =>
    let parts := split (RS ";") (trim out) in
    let uptime := formatUptime (option_map (fun t => now - t)%Z (parse_date (trim up))) in
    match parts !! 1%nat with
    | None => unknown_stats
    | Some memUsage =>
      match split (RS " / ") memUsage with
      | used :: total :: _ =>
          stats_json uptime used total (percentage_of used total) (nth_jv parts 0) (JStr memUsage) (nth_jv parts 2)
      | _ => unknown_stats
      end
    end
  | _, _ => unknown_stats
  end.

(** ** The checks and the handler *)

(** [checkOpenAI] (lines 62-85): [fetched] is the outcome of the
    [fetch], with [response.ok]. *)
Definition checkOpenAI (fetched : Err + bool) (iso : string) : jv :=
  match fetched with
  | inr true => JObj [("status", JStr "ok"); ("lastCheck", JStr iso)]
  | inr false => JObj [("status", JStr "error"); ("message", JStr "OpenAI API check failed"); ("lastCheck", JStr iso)]
  | inl e => JObj [("status", JStr "error");
                   ("message", match err_message e with Some m => JStr m | None => JUndef end);
                   ("lastCheck", JStr iso)]
  end.

(** [checkPinecone] (lines 87-108): [client] is the error the
    constructor throws, if it throws.  The object of [pinecone.index]
    has no [describeIndex] method (the client has one, the index has
    [describeIndexStats]), so the call throws a [TypeError]. *)
Definition checkPinecone (client : option Err) (iso : string) : string * option string * string :=
  match client with
  | Some e => ("error", err_message e, iso)
  | None => ("error", Some "index.describeIndex is not a function", iso)
  end.

(** The outcomes of the route's calls. *)
Record StatusCalls := {
  sc_secrets : option (string * string * string);
  sc_openai : Err + bool;
  sc_pinecone_client : option Err;
  sc_docker : Err + string;
  sc_inspect : Err + string;
}.

(** The handler (lines 183-215). *)
Definition systemStatus (parse_date : string -> option Z) (now : Z) (iso : string) (req : Request)
    (c : StatusCalls) : Response :=
  if negb (String.eqb (method req) "GET") then respond_end 405
  else
    let system := getSystemStats parse_date now (sc_docker c) (sc_inspect c) in
    match sc_secrets c with
    | None =>
      respond 500 [("openai", JObj [("status", JStr "unknown"); ("lastCheck", JStr iso)]);
                   ("pinecone", JObj [("status", JStr "unknown"); ("lastCheck", JStr iso)]);
                   ("system", system)]
    | Some _ =>
      let '(ps, pm, pl) := checkPinecone (sc_pinecone_client c) iso in
      respond 200 [("openai", checkOpenAI (sc_openai c) iso);
                   ("pinecone", JObj [("status", JStr ps);
                                      ("message", match pm with Some m => JStr m | None => JUndef end);
                                      ("lastCheck", JStr pl)]);
                   ("system", system)]
    end.

(** ** Examples *)

Definition ex_status_get : Request := {| method := "GET"; query := []; body := JUndef |}.

Definition ex_calls : StatusCalls :=
  {| sc_secrets := Some ("sk-1", "pc-1", "idx"); sc_openai := inr true; sc_pinecone_client := None;
     sc_docker := inr "1.5%;512MiB / 2GiB;1kB / 2kB"; sc_inspect := inr "2024-01-01T00:00:00Z" |}.

(** The [status] of the [pinecone] part of a response. *)
Definition pinecone_status (r : Response) : jv :=
  match resp_field "pinecone" r with JObj fs => get "status" fs | _ => JUndef end.

(** ** The declared type of the response *)

(** The TypeScript types of a JSON payload: a string, a number (whose
    JSON image is [null] when it is [NaN] or infinite), a union of string
    literals, an optional field, an object type, an array type, and
    [Record<string, any>] (any object). *)
#[warnings="-register-all"]
Inductive ty :=
  | TStr
  | TNum
  | TLit (ls : list string)
  | TOpt (t : ty)
  | TObj (fts : list (string * ty))
  | TArr (t : ty)
  | TRecord.

Fixpoint has_type (t : ty) (v : jv) : bool :=
  match t with
  | TStr => match v with JStr _ => true | _ => false end
  | TNum => match v with JNum _ | JNull => true | _ => false end
  | TLit ls => match v with JStr s => bool_decide (s ∈ ls) | _ => false end
  | TOpt t => match v with JUndef => true | _ => has_type t v end
  | TObj fts =>
    match v with
    | JObj fs => (fix go fts := match fts with [] => true | (k, t) :: r => has_type t (get k fs) && go r end) fts
    | _ => false
    end
  | TArr t => match v with JArr l => forallb (has_type t) l | _ => false end
  | TRecord => match v with JObj _ => true | _ => false end
  end.

Definition check_ty : ty :=
  TObj [("status", TLit ["ok"; "error"; "unknown"]); ("message", TOpt TStr); ("lastCheck", TStr)].

Definition system_ty : ty :=
  TObj [("uptime", TStr);
        ("memoryUsage", TObj [("used", TStr); ("total", TStr); ("percentage", TNum)]);
        ("dockerStats", TObj [("cpu", TStr); ("memory", TStr); ("network", TStr)])].

(** [type SystemStatus] (lines 10-39). *)
Definition SystemStatus_ty : ty :=
  TObj [("openai", check_ty);
        ("pinecone", TObj [("status", TLit ["ok"; "error"; "unknown"]); ("message", TOpt TStr);
                           ("indexStats", TOpt (TObj [("dimensions", TNum); ("totalVectorCount", TNum);
                                                     ("indexFullness", TNum)]));
                           ("lastCheck", TStr)]);
        ("system", system_ty)].

(** [dockerStats.network] of the system stats, and of a payload. *)
Definition stats_network (v : jv) : jv :=
  match v with
  | JObj s => match get "dockerStats" s with JObj d => get "network" d | _ => JUndef end
  | _ => JUndef
  end.

Definition docker_network (v : jv) : jv :=
  match v with JObj fs => stats_network (get "system" fs) | _ => JUndef end.

(** ** Properties *)

(** [parseMemoryToBytes] does not know the binary units [MiB] and
    [GiB] that [docker stats] prints: for a used and a total memory whose
    units are not in its table, the percentage is the ratio of the bare
    numbers, whatever their units. *)
Theorem percentage_ignores_unknown_units used total :
  multipliers (memory_unit used) = UUndefined -> multipliers (memory_unit total) = UUndefined ->
  percentage_of used total ≡n num_mul (num_div (parse_float used) (parse_float total)) (Fin 100).
Proof.
  intros Hu Ht. unfold percentage_of, parseMemoryToBytes. rewrite Hu, Ht.
  by rewrite !num_mul_1_r.
Qed.

Lemma ms_div_chain ms : (ms / 1000 / 60 / 60 = ms / 3600000 /\ ms / 1000 / 60 / 60 / 24 = ms / 86400000)%Z.
Proof. rewrite !Z.div_div by lia. split; reflexivity. Qed.

(** An uptime of at least a day is shown as its whole days and the
    hours of the day it is in. *)
Theorem formatUptime_days ms :
  (86400000 <= ms)%Z ->
  formatUptime (Some ms) = pretty (ms / 86400000)%Z ++ "d " ++ pretty ((ms / 3600000) mod 24)%Z ++ "h".
Proof.
  intros Hms. unfold formatUptime. destruct (ms_div_chain ms) as [Hh Hd]. rewrite Hd, Hh.
  rewrite (proj2 (Z.ltb_lt _ _)); [|apply Z.div_str_pos; lia].
  rewrite Z.rem_mod_nonneg; [done| |lia]. apply Z.div_pos; lia.
Qed.

(** [/api/system/status] never reports Pinecone as [ok]: the check
    calls [describeIndex] on the index object, which has no such method. *)
Theorem systemStatus_pinecone_never_ok parse_date now iso req c :
  pinecone_status (systemStatus parse_date now iso req c) <> JStr "ok".
Proof.
  unfold pinecone_status, systemStatus, checkPinecone.
  destruct (negb _); [discriminate|].
  destruct (sc_secrets c); [destruct (sc_pinecone_client c)|]; simpl; discriminate.
Qed.

(** Every field of the stats has its declared type, except that the
    network field is missing when [docker stats] prints fewer than three
    fields. *)
Lemma getSystemStats_typed pd now d i :
  has_type system_ty (getSystemStats pd now d i) = is_defined (stats_network (getSystemStats pd now d i)).
Proof.
  unfold getSystemStats. destruct d as [|out], i as [|up]; try reflexivity.
  destruct (_ !! 1%nat) as [m|] eqn:E; [|reflexivity].
  destruct (split _ m) as [|used [|total rest]]; try reflexivity.
  assert (is_Some (split (RS ";") (trim out) !! 0%nat)) as [c Hc].
  { apply lookup_lt_is_Some_2. apply lookup_lt_Some in E. lia. }
  unfold nth_jv. rewrite Hc.
  destruct (percentage_of used total), (split (RS ";") (trim out) !! 2%nat); reflexivity.
Qed.

(** C27: For a GET, [/api/system/status] answers a payload of its declared
    type [SystemStatus] (with [NaN] written as [null]), except when the
    [docker stats] output has no network field, which is then missing. *)
Theorem systemStatus_typed pd now iso req c :
  method req = "GET" ->
  exists b, payload (systemStatus pd now iso req c) = Some b /\
            has_type SystemStatus_ty b = is_defined (docker_network b).
Proof.
  intros Hm. unfold systemStatus, SystemStatus_ty. rewrite Hm.
  pose proof (getSystemStats_typed pd now (sc_docker c) (sc_inspect c)) as Ht.
  revert Ht. generalize (getSystemStats pd now (sc_docker c) (sc_inspect c)) system_ty.
  intros sys T Ht. unfold docker_network, checkPinecone.
  destruct (sc_secrets c); [destruct (sc_openai c) as [e|[]], (sc_pinecone_client c) as [e'|]|];
    eexists; (split; [reflexivity|]); unfold get; simpl; fold (get "system");
    rewrite ?Ht; repeat case_match; simpl; by rewrite ?andb_true_r.
Qed.

Lemma percentage_ignores_unknown_units_witness :
  percentage_of "512MiB" "2GiB" ≡n Fin 25600.
Proof.
  rewrite (percentage_ignores_unknown_units "512MiB" "2GiB"); [|vm_compute; reflexivity..].
  vm_compute. reflexivity.
Defined.

Lemma formatUptime_days_witness : formatUptime (Some 90061000%Z) = "1d 1h".
Proof. rewrite formatUptime_days by lia. vm_compute. reflexivity. Defined.

Lemma systemStatus_typed_witness :
  exists b, payload (systemStatus (fun _ => Some 0%Z) 90061000%Z "2024-01-02" ex_status_get ex_calls) = Some b /\
            has_type SystemStatus_ty b = is_defined (docker_network b) /\ has_type SystemStatus_ty b = true.
Proof.
  destruct (systemStatus_typed (fun _ => Some 0%Z) 90061000%Z "2024-01-02" ex_status_get ex_calls) as [b [Hb Ht]];
    [reflexivity|].
  exists b. split_and!; [done|done|]. rewrite Ht. revert Hb. vm_compute. intros Hb. by simplify_eq.
Defined.

End SystemStatus.
