(* ===== verification/Correction.v ===== *)
(** * Correction: [analyzeContent] and [correctText] of [smartCorrection.ts]

    [src/src/utils/smartCorrection.ts] (lines 1-239) classifies a text by
    counting its words in JSON dictionaries of platform terms, content
    types and content formats ([analyzeContent]), and corrects a text
    word by word ([correctText]): a module-level [node-cache] of
    corrections, then the platform dictionary, then the format
    dictionary (keys within Levenshtein distance 2), then a question to
    OpenAI.  [formatContentForVectorDB] of [textProcessing.ts] cleans a
    text and corrects it.

    The dictionaries are not in the repository: they are Section
    variables, each the list of its own entries in order.  [word in d]
    is true for an own key and for every property of
    [Object.prototype], as for any object.  The content-type and format
    names are assumed not to be names of [Object.prototype]
    (they are the literal names of the type [ContentAnalysis]).  The
    distance of [fastest-levenshtein] is the Levenshtein distance on
    code units, written out here from its definition.  The OpenAI reply
    is an oracle, and the cache is [NodeCache]. *)

From S2P Require Import Prelude Regex Text NodeCache JsNum.
From Stdlib Require Import QArith Ascii.

Local Open Scope Z_scope.
Local Open Scope js_scope.

Module Correction.

Import Regex Text JsNum.

Local Open Scope string_scope.

(** ** Dictionaries *)

(** A dictionary imported from JSON: its own entries, in order. *)
Definition Dict := list (string * string).

(** [k in d]. *)
Definition js_in {X} (k : string) (d : list (string * X)) : bool :=
  bool_decide (k ∈ map fst d) || bool_decide (k ∈ js_object_prototype_keys).

(** [String(Object.prototype[k])]. *)
Definition proto_string (k : string) : string :=
  if String.eqb k "constructor" then "function Object() { [native code] }"
  else if String.eqb k "__proto__" then "[object Object]"
  else "function " ++ k ++ "() { [native code] }".

(** [String(d[k])] for a key [k in d]. *)
Definition dict_value (d : Dict) (k : string) : string :=
  match assoc_get k d with Some v => v | None => proto_string k end.

(** ** [fastest-levenshtein] *)

(** One row of the distance table: [prev] is the row of the previous
    character of the first string, [left] the cell just computed. *)
Fixpoint lev_row (c : ascii) (t : list ascii) (prev : list nat) (left : nat) : list nat :=
  match t, prev with
  | d :: t', p0 :: ((p1 :: _) as prev') =>
      let v := Nat.min (S p1) (Nat.min (S left) (p0 + (if Ascii.eqb c d then 0 else 1))) in
      v :: lev_row c t' prev' v
  | _, _ => []
  end%nat.

(** [distance(s, t)]: the Levenshtein distance. *)
Definition levenshtein (s t : string) : nat :=
  let ts := String.list_ascii_of_string t in
  let rows := fold_left (fun prev ic => S ic.1 :: lev_row ic.2 ts prev (S ic.1))
                (combine (seq 0 (String.length s)) (String.list_ascii_of_string s))
                (seq 0 (S (length ts))) in
  List.last rows 0%nat.

(** ** [analyzeContent] (lines 39-107) *)

(** [ContentAnalysis] (lines 28-37). *)
Record ContentAnalysis := {
  platform : string;
  contentType : string;
  format : string;
  conf_platform : num;
  conf_contentType : num;
  conf_format : num;
}.

(** [text.toLowerCase().split(/\s+/)]. *)
Definition words_lower (text : string) : list string := split spaces_re (lower text).

Definition count_in {X} (d : list (string * X)) (ws : list string) : nat :=
  length (filter (fun w => js_in w d = true) ws).

(** One word of lines 63-76: [scores[key] = (scores[key] || 0) + 1] for
    each dictionary of [ds] that has the word; a key enters [scores] when
    it first scores. *)
Definition score_word (ds : list (string * Dict)) (scores : list (string * nat)) (word : string)
  : list (string * nat) :=
  fold_left (fun sc kd => if js_in word kd.2 then assoc_set kd.1 (S (default 0%nat (assoc_get kd.1 sc))) sc else sc)
    ds scores.

Definition scores_of (ds : list (string * Dict)) (ws : list string) : list (string * nat) :=
  fold_left (score_word ds) ws [].

(** [max > 0 ? Object.entries(scores).find(([_, s]) => s === max)?.[0] : dflt],
    with [max = Math.max(...Object.values(scores))]; the maximum is one
    of the scores, so [find] finds it. *)
Definition dominant (scores : list (string * nat)) (dflt : string) : string * num :=
  let mx := js_max (map (fun kv => num_of_nat kv.2) scores) in
  (if num_pos mx
   then match find (fun kv => num_strict_eq (num_of_nat kv.2) mx) scores with Some kv => kv.1 | None => dflt end
   else dflt, mx).

Section Analysis.

Variables youtubeTerms twitterTerms tiktokTerms instagramTerms : Dict.
Variables contentTypes contentFormats : list (string * Dict).

Definition platform_scores (ws : list string) : list (string * nat) :=
  [("youtube", count_in youtubeTerms ws); ("twitter", count_in twitterTerms ws);
   ("tiktok", count_in tiktokTerms ws); ("instagram", count_in instagramTerms ws)].

Definition analyzeContent (text : string) : ContentAnalysis :=
  let words := words_lower text in
  let n := num_of_nat (length words) in
  let '(p, mp) := dominant (platform_scores words) "general" in
  let '(t, mt) := dominant (scores_of contentTypes words) "other" in
  let '(f, mf) := dominant (scores_of contentFormats words) "other" in
  {| platform := p; contentType := t; format := f;
     conf_platform := num_div mp n; conf_contentType := num_div mt n; conf_format := num_div mf n |}.

(** [getPlatformDictionary] (lines 109-117). *)
Definition getPlatformDictionary (p : string) : Dict :=
  if String.eqb p "youtube" then youtubeTerms
  else if String.eqb p "twitter" then twitterTerms
  else if String.eqb p "tiktok" then tiktokTerms
  else if String.eqb p "instagram" then instagramTerms
  else [].

(** [findInFormatDictionary] (lines 119-129). *)
Definition findInFormatDictionary (word fmt : string) : option string :=
  match assoc_get fmt contentFormats with
  | None => None
  | Some dict =>
    match find (fun k => String.eqb (lower k) (lower word) || (levenshtein (lower k) (lower word) <=? 2)%nat)
               (map fst dict) with
    | Some k => if truthy k then assoc_get k dict else None
    | None => None
    end
  end.

End Analysis.

(** ** [correctText] (lines 131-239) *)

(** [CorrectionResult] (lines 21-26). *)
Record CorrectionResult := {
  original : string;
  corrected : string;
  confidence : Q;
  source : string;
}.

(** [getContextualCorrection] (lines 131-159): [reply] is the outcome of
    the chat completion, a rejection or the [content] of its first
    choice, if any. *)
Definition getContextualCorrection (word : string) (reply : string + option string) : option string :=
  match reply with
  | inr (Some raw) =>
    let s := trim raw in
    if String.eqb s "VALID" then Some word else if truthy s then Some s else None
  | _ => None
  end.

Definition Cache : Type := @NodeCache.NodeCache CorrectionResult.

(** [new NodeCache({ stdTTL: 86400 })] (line 14), with the library's
    defaults. *)
Definition correctionCache : Cache :=
  NodeCache.new_NodeCache {| NodeCache.stdTTL := 86400; NodeCache.checkperiod := 600;
                             NodeCache.maxKeys := -1; NodeCache.useClones := true |}.

Definition cache_get (key : string) (now : Z) : js Cache (option CorrectionResult) :=
  fun c => let '(r, c') := NodeCache.get key now c in Some (inr r, c').

(** [correctionCache.set(key, value)]: [ECACHEFULL] is thrown. *)
Definition cache_set (key : string) (r : CorrectionResult) (now : Z) : js Cache unit :=
  fun c => match NodeCache.set key r None now c with
           | Some c' => Some (inr tt, c')
           | None => Some (inl "Cache max keys amount exceeded", c)
           end.

Definition result (w c : string) (q : Q) (src : string) : CorrectionResult :=
  {| original := w; corrected := c; confidence := q; source := src |}.

(** [cacheKey] (line 177). *)
Definition cacheKey (analysis : ContentAnalysis) (w : string) : string :=
  w ++ "-" ++ platform analysis ++ "-" ++ contentType analysis.

Section Correct.

Variables youtubeTerms twitterTerms tiktokTerms instagramTerms : Dict.
Variables contentTypes contentFormats : list (string * Dict).
(** The outcome of the OpenAI question for a word in its context. *)
Variable ai : string -> string -> ContentAnalysis -> string + option string.

(** The correction of one word missing from the cache (lines 185-234). *)
Definition correct_word (analysis : ContentAnalysis) (pdict : Dict) (w context : string) : CorrectionResult :=
  if js_in (lower w) pdict then result w (dict_value pdict (lower w)) (9 # 10) "dictionary" else
  match findInFormatDictionary contentFormats w (format analysis) with
  | Some fc => if truthy fc then result w fc (8 # 10) "dictionary" else
    match getContextualCorrection w (ai w context analysis) with
    | Some a => result w a (7 # 10) "ai"
    | None => result w w 1 "none"
    end
  | None =>
    match getContextualCorrection w (ai w context analysis) with
    | Some a => result w a (7 # 10) "ai"
    | None => result w w 1 "none"
    end
  end.

(** The loop of lines 167-235 from index [i]; [now] is [Date.now()]. *)
Fixpoint correct_loop (analysis : ContentAnalysis) (pdict : Dict) (words : list string) (cw now : Z)
    (i : nat) (ws : list string) (acc : list CorrectionResult) : js Cache (list CorrectionResult) :=
  match ws with
  | [] => js_ret acc
  | w :: ws' =>
    if negb (truthy w) then correct_loop analysis pdict words cw now (S i) ws' acc else
    let context := String.concat " " (js_slice words (Z.max 0 (Z.of_nat i - cw / 2))
                                                 (Z.min (Z.of_nat (length words)) (Z.of_nat i + cw / 2))) in
    let key := cacheKey analysis w in
    let! cached := cache_get key now in
    match cached with
    | Some r => correct_loop analysis pdict words cw now (S i) ws' (acc ++ [r])
    | None =>
      let r := correct_word analysis pdict w context in
      cache_set key r now ;! correct_loop analysis pdict words cw now (S i) ws' (acc ++ [r])
    end
  end.

(** [correctText(text, contextWindow)]. *)
Definition correctText (text : string) (cw now : Z) : js Cache string :=
  let words := split spaces_re text in
  let analysis := analyzeContent youtubeTerms twitterTerms tiktokTerms instagramTerms contentTypes contentFormats text in
  let pdict := getPlatformDictionary youtubeTerms twitterTerms tiktokTerms instagramTerms (platform analysis) in
  let! results := correct_loop analysis pdict words cw now 0 words [] in
  let ct := String.concat " " (map corrected results) in
  js_ret (if truthy ct then ct else text).

(** [formatContentForVectorDB] (textProcessing.ts lines 239-260);
    [cleanWebPageContent] (cheerio) is an oracle. *)
Definition formatContentForVectorDB (cleanWebPageContent : string -> string) (content type : string) (now : Z)
  : js Cache string :=
  let cleaned :=
    if String.eqb type "webpage" then cleanWebPageContent content
    else if String.eqb type "youtube" then cleanYouTubeTranscript content
    else if String.eqb type "transcript" then cleanTranscript content
    else cleanText content no_clean_options in
  correctText cleaned 100 now.

End Correct.

(** ** Caches filled by one run *)

(** Every entry expires at [T], under the options of [correctionCache]. *)
Definition cache_inv (T : Z) (c : Cache) : Prop :=
  NodeCache.options c = NodeCache.options correctionCache /\
  forall k w, assoc_get k (NodeCache.data c) = Some w -> NodeCache.t w = T.

(** The results [rs] are the cached corrections of the non-empty words
    of [ws]. *)
Definition cached_as (c : Cache) (a : ContentAnalysis) (T : Z) (ws : list string) (rs : list CorrectionResult)
  : Prop :=
  Forall2 (fun w r => assoc_get (cacheKey a w) (NodeCache.data c) = Some {| NodeCache.v := r; NodeCache.t := T |})
    (filter (fun w => truthy w = true) ws) rs.

(** ** Examples *)

Definition ex_youtube : Dict := [("like", "like"); ("subscribe", "subscribe")].
Definition ex_types : list (string * Dict) := [("tutorial", [("how", "how")]); ("gaming", [("play", "play")])].

(** ** Lemmas *)

Lemma split_loop_nonempty n r seg s acc : split_loop n r seg s acc <> [].
Proof.
  revert seg s acc. induction n as [|n IH]; intros seg s acc; simpl.
  - by destruct acc.
  - destruct s as [|c s']; [by destruct acc|].
    repeat case_match; apply IH.
Qed.

(** [s.split(r)] has a piece, for a pattern that does not match the
    empty string. *)
Lemma split_nonempty s : split spaces_re s <> [].
Proof.
  unfold split, split_chars. destruct (String.list_ascii_of_string s) as [|c cs]; [done|].
  intros H%map_eq_nil. by apply split_loop_nonempty in H.
Qed.

Lemma num_max2_nat a b : num_max2 (num_of_nat a) (num_of_nat b) = num_of_nat (Nat.max a b).
Proof.
  unfold num_max2, num_of_nat. destruct (Qle_bool _ _) eqn:E.
  - apply Qle_bool_iff in E. rewrite <- Zle_Qle in E. do 3 f_equal. lia.
  - assert (~ (a <= b)%nat) by (intros H; rewrite <- not_true_iff_false, Qle_bool_iff, <- Zle_Qle in E; lia).
    do 3 f_equal. lia.
Qed.

Lemma fold_num_max2_nat ns m :
  fold_left num_max2 (map num_of_nat ns) (num_of_nat m) = num_of_nat (fold_left Nat.max ns m).
Proof. revert m. induction ns as [|n ns IH]; intros m; [done|]. cbn [map fold_left]. by rewrite num_max2_nat, IH. Qed.

(** [Math.max] of counts: [-Infinity] for none, else the largest. *)
Lemma js_max_nats ns :
  js_max (map num_of_nat ns) = match ns with [] => Inf true | n :: ns' => num_of_nat (fold_left Nat.max ns' n) end.
Proof. destruct ns as [|n ns]; [done|]. unfold js_max. simpl. apply fold_num_max2_nat. Qed.

Lemma js_max_scores (sc : list (string * nat)) :
  js_max (map (fun kv => num_of_nat kv.2) sc) = js_max (map num_of_nat (map snd sc)).
Proof. by rewrite List.map_map. Qed.

Lemma fold_max_le ns m k : (m <= k)%nat -> Forall (fun n => n <= k)%nat ns -> (fold_left Nat.max ns m <= k)%nat.
Proof. revert m. induction ns as [|n ns IH]; intros m Hm Hall; [done|]. inversion Hall; subst. simpl. apply IH; [lia|done]. Qed.

Lemma fold_max_ge ns m : (m <= fold_left Nat.max ns m)%nat.
Proof. revert m. induction ns as [|n ns IH]; intros m; simpl; [done|]. etrans; [|apply IH]. lia. Qed.

Lemma count_in_le {X} (d : list (string * X)) ws : (count_in d ws <= length ws)%nat.
Proof. unfold count_in. apply length_filter. Qed.

(** A ratio of a count to a positive count it does not exceed. *)
Lemma div_nat_bounds m n :
  (m <= n)%nat -> (0 < n)%nat ->
  exists q, num_div (num_of_nat m) (num_of_nat n) = Fin q /\ (0 <= q <= 1)%Q.
Proof.
  intros Hmn Hn. unfold num_div, num_of_nat.
  assert (Hpos : (0 < inject_Z (Z.of_nat n))%Q) by (unfold Qlt; simpl; lia).
  destruct (Qeq_bool _ 0) eqn:E; [apply Qeq_bool_iff in E; rewrite E in Hpos; discriminate|].
  eexists. split; [reflexivity|]. split.
  - apply Qle_shift_div_l; [done|]. unfold Qle; simpl; lia.
  - apply Qle_shift_div_r; [done|]. unfold Qle; simpl; lia.
Qed.

Lemma score_word_none ds sc w : Forall (fun kd => js_in w kd.2 = false) ds -> score_word ds sc w = sc.
Proof.
  unfold score_word. revert sc. induction ds as [|kd ds IH]; intros sc H; [done|].
  inversion H; subst. simpl. rewrite H2. by apply IH.
Qed.

Lemma scores_of_none ds ws :
  Forall (fun w => Forall (fun kd => js_in w kd.2 = false) ds) ws -> scores_of ds ws = [].
Proof.
  unfold scores_of. generalize (@nil (string * nat)). intros sc H. revert sc.
  induction H as [|w ws Hw _ IH]; intros sc; [done|]. simpl. rewrite score_word_none by done. apply IH.
Qed.

Lemma js_in_proto {X} k (d : list (string * X)) : k ∈ js_object_prototype_keys -> js_in k d = true.
Proof. intros H. unfold js_in. rewrite (bool_decide_eq_true_2 (k ∈ js_object_prototype_keys)) by done. apply orb_true_r. Qed.

Lemma count_in_all {X} (d : list (string * X)) ws :
  Forall (fun w => js_in w d = true) ws -> count_in d ws = length ws.
Proof.
  unfold count_in. induction 1 as [|w ws Hw _ IH]; [done|].
  rewrite filter_cons_True by done. simpl. by rewrite IH.
Qed.

Lemma num_of_nat_pos n : (0 < n)%nat -> num_pos (num_of_nat n) = true.
Proof.
  intros Hn. unfold num_pos, num_of_nat. apply negb_true_iff, not_true_iff_false.
  rewrite Qle_bool_iff. unfold Qle. simpl. lia.
Qed.

Lemma is_neg_nat n : is_neg (inject_Z (Z.of_nat n)) = false.
Proof. unfold is_neg. apply negb_false_iff, Qle_bool_iff. unfold Qle. simpl. lia. Qed.

(** Scores all equal and positive: the first key is dominant. *)
Lemma dominant_ties k n sc d :
  (0 < n)%nat -> Forall (fun kv => kv.2 = n) sc ->
  dominant ((k, n) :: sc) d = (k, num_of_nat n).
Proof.
  intros Hn Hsc. unfold dominant.
  rewrite js_max_scores, js_max_nats. cbn [map snd].
  assert (E : fold_left Nat.max (map snd sc) n = n).
  { apply Nat.le_antisymm; [|apply fold_max_ge].
    apply fold_max_le; [done|]. apply Forall_fmap. eapply Forall_impl; [done|]. simpl; lia. }
  rewrite E, num_of_nat_pos by done. simpl. by rewrite Qeq_bool_refl.
Qed.

Section Props.

Variables youtubeTerms twitterTerms tiktokTerms instagramTerms : Dict.
Variables contentTypes contentFormats : list (string * Dict).

(** A text whose words are all properties of [Object.prototype] scores
    on every platform dictionary, and is taken for YouTube. *)
Lemma analyzeContent_proto_youtube text :
  Forall (fun w => w ∈ js_object_prototype_keys) (words_lower text) ->
  platform (analyzeContent youtubeTerms twitterTerms tiktokTerms instagramTerms contentTypes contentFormats text) = "youtube".
Proof.
  intros H. unfold analyzeContent.
  assert (Hc : forall d : Dict, count_in d (words_lower text) = length (words_lower text)).
  { intros d. apply count_in_all. eapply Forall_impl; [done|]. intros w. apply js_in_proto. }
  unfold platform_scores. rewrite !Hc, dominant_ties.
  - by destruct (dominant (scores_of contentTypes _) _), (dominant (scores_of contentFormats _) _).
  - pose proof (split_nonempty (lower text)). destruct (words_lower text) eqn:?; [done|simpl; lia].
  - repeat constructor.
Qed.

Lemma words_lower_length text : (0 < length (words_lower text))%nat.
Proof. pose proof (split_nonempty (lower text)). unfold words_lower. destruct (split _ _); [done|simpl; lia]. Qed.

(** C31: The platform confidence of [analyzeContent] is a number between
    0 and 1: the largest of the four platform counts over the number of
    words, which is at least one ([split] returns a piece) and is not
    exceeded by any count. *)
Theorem analyzeContent_platform_confidence_bounds text :
  exists q, conf_platform (analyzeContent youtubeTerms twitterTerms tiktokTerms instagramTerms
                             contentTypes contentFormats text) = Fin q /\ (0 <= q <= 1)%Q.
Proof.
  unfold analyzeContent.
  destruct (dominant (scores_of contentTypes _) _), (dominant (scores_of contentFormats _) _).
  unfold dominant, platform_scores. rewrite js_max_scores, js_max_nats. cbn [map snd].
  apply div_nat_bounds; [|apply words_lower_length].
  apply fold_max_le; [apply count_in_le|]. repeat constructor; apply count_in_le.
Qed.

(** When no word of the text is in any content-type dictionary,
    [analyzeContent] answers the type ["other"] with confidence
    [-Infinity]: [Math.max()] of no scores is [-Infinity], and it is
    divided by the number of words, not replaced by 0. *)
Theorem analyzeContent_no_type_words text :
  Forall (fun w => Forall (fun kd => js_in w kd.2 = false) contentTypes) (words_lower text) ->
  contentType (analyzeContent youtubeTerms twitterTerms tiktokTerms instagramTerms contentTypes contentFormats text)
    = "other" /\
  conf_contentType (analyzeContent youtubeTerms twitterTerms tiktokTerms instagramTerms contentTypes contentFormats text)
    = Inf true.
Proof.
  intros H. unfold analyzeContent. rewrite scores_of_none by done.
  destruct (dominant (platform_scores _ _ _ _ _) _), (dominant (scores_of contentFormats _) _).
  simpl. unfold num_of_nat. by rewrite is_neg_nat.
Qed.

End Props.

Section CorrectProps.

Variables youtubeTerms twitterTerms tiktokTerms instagramTerms : Dict.
Variables contentTypes contentFormats : list (string * Dict).
Variable ai : string -> string -> ContentAnalysis -> string + option string.

Lemma split_constructor : split spaces_re "constructor" = ["constructor"].
Proof. vm_compute. reflexivity. Qed.

Lemma lower_constructor : lower "constructor" = "constructor".
Proof. vm_compute. reflexivity. Qed.

Lemma words_lower_constructor : words_lower "constructor" = ["constructor"].
Proof. vm_compute. reflexivity. Qed.

(** [correctText("constructor")] on a fresh cache answers the source
    text of the [Object] constructor: ["constructor" in youtubeTerms]
    holds through [Object.prototype], the word is taken for a YouTube
    term and corrected to [String(youtubeTerms["constructor"])]. *)
Theorem correctText_constructor now :
  "constructor" ∉ map fst youtubeTerms ->
  exists c', correctText youtubeTerms twitterTerms tiktokTerms instagramTerms contentTypes contentFormats ai
               "constructor" 100 now correctionCache
             = Some (inr "function Object() { [native code] }", c').
Proof.
  intros Hy. unfold correctText.
  pose proof (analyzeContent_proto_youtube youtubeTerms twitterTerms tiktokTerms instagramTerms
                contentTypes contentFormats "constructor") as Hp.
  rewrite words_lower_constructor in Hp. specialize (Hp ltac:(repeat constructor)).
  generalize dependent (analyzeContent youtubeTerms twitterTerms tiktokTerms instagramTerms
                          contentTypes contentFormats "constructor"). intros a Hp.
  rewrite Hp, split_constructor. simpl correct_loop. js_unfold. simpl.
  unfold getPlatformDictionary. simpl. unfold correct_word. rewrite lower_constructor.
  rewrite js_in_proto by (left; done). unfold dict_value.
  rewrite (proj2 (assoc_get_None_elem _ _) Hy). by eexists.
Qed.

End CorrectProps.

Lemma cache_get_inv T key now c :
  cache_inv T c -> now <= T ->
  exists c0, cache_get key now c = Some (inr (NodeCache.v <$> assoc_get key (NodeCache.data c)), c0) /\
             NodeCache.data c0 = NodeCache.data c /\ NodeCache.options c0 = NodeCache.options c.
Proof.
  intros [Ho Ht] Hle. destruct (NodeCache.get_alive key now c) as [st E].
  { intros w Hw. unfold NodeCache.alive. rewrite (Ht _ _ Hw). apply orb_true_iff. right. apply Z.leb_le. lia. }
  unfold cache_get. rewrite E. by eexists.
Qed.

Lemma cache_set_inv T key r now c :
  cache_inv T c -> T = now + 86400 * 1000 ->
  exists c1, cache_set key r now c = Some (inr tt, c1) /\
             NodeCache.data c1 = assoc_set key {| NodeCache.v := r; NodeCache.t := T |} (NodeCache.data c) /\
             cache_inv T c1.
Proof.
  intros [Ho Ht] ->. destruct (NodeCache.set_room key r None now c) as [c1 E]; [left; rewrite Ho; simpl; lia|].
  destruct (NodeCache.set_data _ _ _ _ _ _ E) as [Hd Ho1]. rewrite Ho in Hd. simpl in Hd.
  unfold cache_set. rewrite E. eexists. split; [done|]. split; [done|]. split; [by rewrite Ho1|].
  intros k w. rewrite Hd. destruct (decide (k = key)) as [->|Hne].
  - rewrite assoc_get_set_eq. by intros [= <-].
  - rewrite assoc_get_set_ne by done. apply Ht.
Qed.

Lemma cache_inv_data T c c' :
  NodeCache.data c' = NodeCache.data c -> NodeCache.options c' = NodeCache.options c -> cache_inv T c -> cache_inv T c'.
Proof. intros Hd Ho [Ho' Ht]. split; [by rewrite Ho|by rewrite Hd]. Qed.

Section Loop.

Variable contentFormats : list (string * Dict).
Variable ai : string -> string -> ContentAnalysis -> string + option string.
Variables (a : ContentAnalysis) (pd : Dict) (words : list string) (cw now T : Z).
Hypothesis HT : T = now + 86400 * 1000.

(** A run of the loop from a cache whose entries expire at [T] caches
    the correction of each non-empty word, keeps the entries it found,
    and returns the cached corrections. *)
Lemma correct_loop_caches ws : forall i acc c res c',
  cache_inv T c -> correct_loop contentFormats ai a pd words cw now i ws acc c = Some (inr res, c') ->
  cache_inv T c' /\
  (forall k w, assoc_get k (NodeCache.data c) = Some w -> assoc_get k (NodeCache.data c') = Some w) /\
  exists rs, res = (acc ++ rs)%list /\ cached_as c' a T ws rs.
Proof.
  induction ws as [|w ws IH]; intros i acc c res c' Hc Hrun.
  { injection Hrun as <- <-. split; [done|]. split; [done|]. exists []. split; [by rewrite app_nil_r|constructor]. }
  simpl in Hrun. destruct (truthy w) eqn:Hw; simpl in Hrun.
  2: { destruct (IH _ _ _ _ _ Hc Hrun) as (Hc' & Hk & rs & -> & Hrs). split; [done|]. split; [done|].
       exists rs. split; [done|]. unfold cached_as. by rewrite filter_cons_False by (rewrite Hw; done). }
  js_unfold. destruct (cache_get_inv T (cacheKey a w) now c Hc ltac:(lia)) as (c0 & Eg & Hd0 & Ho0).
  rewrite Eg in Hrun.
  assert (Hc0 : cache_inv T c0) by (by apply (cache_inv_data T c)).
  destruct (assoc_get (cacheKey a w) (NodeCache.data c)) as [e|] eqn:Ee; simpl in Hrun.
  - destruct (IH _ _ _ _ _ Hc0 Hrun) as (Hc' & Hk & rs & -> & Hrs). split; [done|].
    split; [intros k x Hx; apply Hk; by rewrite Hd0|].
    exists (NodeCache.v e :: rs). split; [by rewrite <- app_assoc|].
    unfold cached_as. rewrite filter_cons_True by done. constructor; [|done].
    rewrite (Hk (cacheKey a w) e) by (by rewrite Hd0). pose proof (proj2 Hc _ _ Ee) as Ht.
    destruct e. simpl in *. by subst.
  - destruct (cache_set_inv T (cacheKey a w) (correct_word contentFormats ai a pd w
      (String.concat " " (js_slice words (Z.max 0 (Z.of_nat i - cw / 2)) (Z.min (Z.of_nat (length words)) (Z.of_nat i + cw / 2)))))
      now c0 Hc0 HT) as (c1 & Es & Hd1 & Hc1).
    rewrite Es in Hrun. simpl in Hrun.
    destruct (IH _ _ _ _ _ Hc1 Hrun) as (Hc' & Hk & rs & -> & Hrs). split; [done|].
    assert (Hk1 : forall k x, assoc_get k (NodeCache.data c) = Some x -> assoc_get k (NodeCache.data c1) = Some x).
    { intros k x Hx. rewrite Hd1, Hd0, assoc_get_set_ne; [done|]. intros ->. congruence. }
    split; [intros k x Hx; by apply Hk, Hk1|].
    eexists. split; [by rewrite <- app_assoc|].
    unfold cached_as. rewrite filter_cons_True by done. constructor; [|done].
    apply Hk. rewrite Hd1. apply assoc_get_set_eq.
Qed.

End Loop.

Lemma cached_as_data c c' a T ws rs :
  NodeCache.data c' = NodeCache.data c -> cached_as c a T ws rs -> cached_as c' a T ws rs.
Proof. unfold cached_as. by intros ->. Qed.

(** A run of the loop over words whose corrections are all cached and
    alive returns them, asks nothing and stores nothing. *)
Lemma correct_loop_hits contentFormats ai a pd words cw now T ws : forall i acc c rs,
  cache_inv T c -> now <= T -> cached_as c a T ws rs ->
  exists c', correct_loop contentFormats ai a pd words cw now i ws acc c = Some (inr (acc ++ rs)%list, c') /\
             NodeCache.data c' = NodeCache.data c.
Proof.
  induction ws as [|w ws IH]; intros i acc c rs Hc Hle Hrs.
  { inversion Hrs; subst. exists c. by rewrite app_nil_r. }
  unfold cached_as in Hrs. simpl. destruct (truthy w) eqn:Hw; simpl.
  2: { rewrite filter_cons_False in Hrs by (rewrite Hw; done). by apply IH. }
  rewrite filter_cons_True in Hrs by done. inversion Hrs as [|? r ? rs' Hr Hrs']; subst.
  js_unfold. destruct (cache_get_inv T (cacheKey a w) now c Hc Hle) as (c0 & Eg & Hd0 & Ho0).
  rewrite Eg, Hr. simpl.
  destruct (IH (S i) (acc ++ [r])%list c0 rs') as (c' & E & Hd');
    [by apply (cache_inv_data T c)|done|by apply (cached_as_data c)|].
  exists c'. rewrite <- app_assoc in E. split; [done|congruence].
Qed.

Lemma cache_inv_new T : cache_inv T correctionCache.
Proof. by split. Qed.

Section Memo.

Variables youtubeTerms twitterTerms tiktokTerms instagramTerms : Dict.
Variables contentTypes contentFormats : list (string * Dict).

(** C7: [correctText] memoises its corrections: after a run on a text
    from the fresh module-level cache, a second run on the same text
    within the 24 hours of [stdTTL] answers the same text from the cache
    alone, whatever the OpenAI service would now answer. *)
Theorem correctText_memoized ai ai' text now now' s c1 :
  correctText youtubeTerms twitterTerms tiktokTerms instagramTerms contentTypes contentFormats ai
    text 100 now correctionCache = Some (inr s, c1) ->
  now <= now' <= now + 86400 * 1000 ->
  exists c2, correctText youtubeTerms twitterTerms tiktokTerms instagramTerms contentTypes contentFormats ai'
               text 100 now' c1 = Some (inr s, c2).
Proof.
  unfold correctText. js_unfold. intros Hrun Hle.
  set (a := analyzeContent youtubeTerms twitterTerms tiktokTerms instagramTerms contentTypes contentFormats text).
  set (pd := getPlatformDictionary youtubeTerms twitterTerms tiktokTerms instagramTerms (platform a)).
  destruct (correct_loop _ _ _ _ _ _ _ 0 _ [] correctionCache) as [[[e|res] c']|] eqn:E; try discriminate.
  injection Hrun as <- <-.
  destruct (correct_loop_caches _ _ _ _ _ _ _ _ eq_refl _ _ _ _ _ _ (cache_inv_new _) E) as (Hc & _ & rs & -> & Hrs).
  destruct (correct_loop_hits contentFormats ai' a pd (split spaces_re text) 100 now' _ _ 0 [] c' rs Hc
              ltac:(lia) Hrs) as (c2 & -> & _).
  by eexists.
Qed.

End Memo.

(** ** Witnesses *)

Lemma analyzeContent_no_type_words_witness :
  Forall (fun w => Forall (fun kd => js_in w kd.2 = false) ex_types) (words_lower "Hello  world") /\
  contentType (analyzeContent ex_youtube [] [] [] ex_types [] "Hello  world") = "other" /\
  conf_contentType (analyzeContent ex_youtube [] [] [] ex_types [] "Hello  world") = Inf true.
Proof.
  assert (H : Forall (fun w => Forall (fun kd => js_in w kd.2 = false) ex_types) (words_lower "Hello  world"))
    by (vm_compute; repeat constructor).
  split; [exact H|]. exact (analyzeContent_no_type_words ex_youtube [] [] [] ex_types [] _ H).
Defined.

Lemma correctText_constructor_witness :
  ("constructor" ∉ map fst ex_youtube) /\
  (exists c', correctText ex_youtube [] [] [] ex_types [] (fun w _ _ => inr (Some "VALID"))
                "constructor" 100 0 correctionCache
              = Some (inr "function Object() { [native code] }", c')).
Proof.
  assert (H : "constructor" ∉ map fst ex_youtube) by (rewrite list_elem_of_In; simpl; intros [Hl|[Hl|[]]]; discriminate).
  split; [exact H|]. exact (correctText_constructor ex_youtube [] [] [] ex_types [] _ 0 H).
Defined.

Lemma correctText_memoized_witness :
  exists s c1,
    correctText ex_youtube [] [] [] ex_types [] (fun w _ _ => inr (Some "VALID")) "Like  this video" 100 0
      correctionCache = Some (inr s, c1) /\
    0 <= 1000 <= 0 + 86400 * 1000 /\
    exists c2, correctText ex_youtube [] [] [] ex_types [] (fun _ _ _ => inl "network error") "Like  this video"
                 100 1000 c1 = Some (inr s, c2).
Proof.
  destruct (correctText ex_youtube [] [] [] ex_types [] (fun w _ _ => inr (Some "VALID")) "Like  this video" 100 0
              correctionCache) as [[[e|s] c1]|] eqn:E; [vm_compute in E; discriminate| |vm_compute in E; discriminate].
  exists s, c1. split; [reflexivity|]. split; [lia|].
  exact (correctText_memoized ex_youtube [] [] [] ex_types [] _ _ _ 0 1000 s c1 E ltac:(lia)).
Defined.

End Correction.
