(* ===== verification/ChannelProcessor.v ===== *)
(** * ChannelProcessor: the [YouTubeProcessor] of [src/src/lib/youtube]

    [src/src/lib/youtube/youtubeProcessor.ts] fetches the videos of a
    channel, runs [processVideo] on each through the [BatchProcessor] of
    [batchProcessor.ts] (the model [BatchRun]), caches transcripts in the
    [Cache] of [src/unnamed/part_005] (the model [TtlCache]), and keeps a
    status per run and a polling monitor per channel.

    The processor's fields are a record [YP]; its methods are computations
    of the [js] monad on it.  The YouTube API response, the splitter and
    the embeddings are oracles.  [getVideoTranscript] is a placeholder
    that throws, and the model keeps it so.

    [batchProcessor.process(videos, cb)] in [processChannel] gets a
    callback that catches every error, so each of its calls fulfils: the
    batch processor calls it once per video, in the order of the videos.
    The model runs the batch processor's bookkeeping ([BatchRun.process]
    with every call fulfilling) on its part of the state, then the
    callbacks in video order; the two touch disjoint state.  In
    [checkForNewVideos] the callback is [processVideo] itself: whether its
    [n]-th call fulfils is whether the cache holds the transcript, which
    [BatchRun] reads as its oracle [attempt]. *)

From S2P Require Import Prelude Http TtlCache BatchRun.
From Stdlib Require Import QArith.

Local Open Scope Z_scope.
Local Open Scope js_scope.

Module ChannelProcessor.

Import Http.

Local Open Scope string_scope.

(** ** Data *)

(** [VideoMetadata] (lines 9-18); the fields are what the mapping of
    [getChannelVideos] reads from the API's JSON, [undefined] included. *)
Record VideoMetadata := {
  v_id : jv;
  v_title : jv;
  v_description : jv;
  v_publishedAt : jv;
  v_thumbnailUrl : jv;
  v_channelId : jv;
  v_channelTitle : jv;
}.

(** [ProcessingOptions] (lines 20-26); [None] is [undefined]. *)
Record ProcessingOptions := {
  o_batchSize : option Z;
  o_maxRetries : option Z;
  o_cacheEnabled : option bool;
  o_chunkSize : option Z;
  o_chunkOverlap : option Z;
}.

Inductive run_status := Idle | Processing | Completed | Failed.

(** [ProcessingStatus] (lines 28-35); [Failed] is [status: 'error']. *)
Record ProcessingStatus := {
  totalVideos : Z;
  processedVideos : Z;
  failedVideos : Z;
  currentVideo : option VideoMetadata;
  errors : list (jv * string);
  status : run_status;
}.

(** A monitor: the [setInterval] timer and the videos seen. *)
Record Monitor := {
  timer : nat;
  lastVideos : list VideoMetadata;
}.

(** The processor's fields (lines 37-44), the Pinecone index it writes
    to, and the interval timers that are running, each with the minutes
    its delay [intervalMinutes * 60 * 1000] is computed from. *)
Record YP := {
  yp_cache : TtlCache.Cache string;
  yp_bp : BatchRun.BatchProcessor;
  yp_batch : BatchRun.St;
  yp_splitter : Z * Z;
  yp_monitors : list (string * Monitor);
  yp_status : list (string * ProcessingStatus);
  yp_index : Index;
  yp_timers : list (nat * jv);
  yp_next_timer : nat;
}.

(** The constructor (lines 46-71); [idx] is the index as it is. *)
Definition new_YouTubeProcessor (o : ProcessingOptions) (idx : Index) : YP := {|
  yp_cache := TtlCache.new_Cache {| TtlCache.opt_enabled := Some (default true (o_cacheEnabled o));
                                    TtlCache.opt_maxSize := None; TtlCache.opt_ttl := None |};
  yp_bp := BatchRun.new_BatchProcessor
             {| BatchRun.opt_batchSize := Some (js_nullish (o_batchSize o) 5);
                BatchRun.opt_maxRetries := Some (js_nullish (o_maxRetries o) 3);
                BatchRun.opt_retryDelay := None; BatchRun.opt_maxConcurrent := None |};
  yp_batch := {| BatchRun.metrics := ∅; BatchRun.sleeps := [] |};
  yp_splitter := (js_nullish (o_chunkSize o) 1000, js_nullish (o_chunkOverlap o) 200);
  yp_monitors := [];
  yp_status := [];
  yp_index := idx;
  yp_timers := [];
  yp_next_timer := 0;
|}.

(** The options both routes construct their processor with. *)
Definition route_options : ProcessingOptions :=
  {| o_batchSize := Some 5; o_maxRetries := Some 3; o_cacheEnabled := Some true;
     o_chunkSize := None; o_chunkOverlap := None |}.

Definition set_cache (c : TtlCache.Cache string) (p : YP) : YP :=
  {| yp_cache := c; yp_bp := yp_bp p; yp_batch := yp_batch p; yp_splitter := yp_splitter p;
     yp_monitors := yp_monitors p; yp_status := yp_status p; yp_index := yp_index p;
     yp_timers := yp_timers p; yp_next_timer := yp_next_timer p |}.

Definition set_batch (b : BatchRun.St) (p : YP) : YP :=
  {| yp_cache := yp_cache p; yp_bp := yp_bp p; yp_batch := b; yp_splitter := yp_splitter p;
     yp_monitors := yp_monitors p; yp_status := yp_status p; yp_index := yp_index p;
     yp_timers := yp_timers p; yp_next_timer := yp_next_timer p |}.

Definition set_index (i : Index) (p : YP) : YP :=
  {| yp_cache := yp_cache p; yp_bp := yp_bp p; yp_batch := yp_batch p; yp_splitter := yp_splitter p;
     yp_monitors := yp_monitors p; yp_status := yp_status p; yp_index := i;
     yp_timers := yp_timers p; yp_next_timer := yp_next_timer p |}.

Definition set_status (m : list (string * ProcessingStatus)) (p : YP) : YP :=
  {| yp_cache := yp_cache p; yp_bp := yp_bp p; yp_batch := yp_batch p; yp_splitter := yp_splitter p;
     yp_monitors := yp_monitors p; yp_status := m; yp_index := yp_index p;
     yp_timers := yp_timers p; yp_next_timer := yp_next_timer p |}.

Definition set_monitors (m : list (string * Monitor)) (ts : list (nat * jv)) (next : nat) (p : YP) : YP :=
  {| yp_cache := yp_cache p; yp_bp := yp_bp p; yp_batch := yp_batch p; yp_splitter := yp_splitter p;
     yp_monitors := m; yp_status := yp_status p; yp_index := yp_index p;
     yp_timers := ts; yp_next_timer := next |}.

(** ** [getChannelVideos] (lines 73-101) *)

(** [v.k] as a result: the [TypeError] on [undefined] and [null]. *)
Definition read (k : string) (v : jv) : string + jv :=
  match field k v with
  | Some x => inr x
  | None => inl ("Cannot read properties of " ++ (if v is JNull then "null" else "undefined")
                 ++ " (reading '" ++ k ++ "')")
  end.

(** [v?.k]. *)
Definition read_opt (k : string) (v : jv) : jv :=
  match v with JUndef | JNull => JUndef | _ => default JUndef (field k v) end.

Definition sum_bind {A B} (m : string + A) (k : A -> string + B) : string + B :=
  match m with inl e => inl e | inr a => k a end.

Notation "'let?' x := m 'in' k" := (sum_bind m (fun x => k))
  (at level 10, x name, m at level 200, k at level 200) : js_scope.

(** [l.map(f)] for an [f] that may throw: the first exception. *)
Fixpoint map_sum {A B} (f : A -> string + B) (l : list A) : string + list B :=
  match l with
  | [] => inr []
  | x :: l' => let? y := f x in let? ys := map_sum f l' in inr (y :: ys)
  end.

(** The object literal of lines 89-95, its fields in order. *)
Definition video_of_item (item : jv) : string + VideoMetadata :=
  let? idv := read "id" item in
  let? vid := read "videoId" idv in
  let? sn := read "snippet" item in
  let? title := read "title" sn in
  let? descr := read "description" sn in
  let? pub := read "publishedAt" sn in
  let? chan := read "channelId" sn in
  let? chanTitle := read "channelTitle" sn in
  inr {| v_id := vid; v_title := title; v_description := descr; v_publishedAt := pub;
         v_thumbnailUrl := read_opt "url" (read_opt "high" (read_opt "thumbnails" sn));
         v_channelId := chan; v_channelTitle := chanTitle |}.

(** The response of a [fetch]: [ok], [statusText], and the outcome of
    [response.json()]. *)
Record FetchResponse := {
  f_ok : bool;
  f_statusText : string;
  f_json : string + jv;
}.

(** [fetched] is the outcome of the [fetch] of the search URL; the
    [catch] logs and rethrows. *)
Definition getChannelVideos (fetched : string + FetchResponse) : string + list VideoMetadata :=
  let? r := fetched in
  if negb (f_ok r) then inl ("Failed to fetch channel videos: " ++ f_statusText r) else
  let? data := f_json r in
  let? items := read "items" data in
  match items with
  | JArr l => map_sum video_of_item l
  | _ => inl "data.items.map is not a function"
  end.

(** ** [processVideo] (lines 103-153) *)

(** [this.cache.get(key)], on the cache part of the state. *)
Definition cache_get (key : string) (now : Z) : js YP (option string) :=
  js_focus yp_cache set_cache (fun c => let '(r, c') := TtlCache.get key now c in Some (inr r, c')).

(** [this.cache.set(key, value)]; [None] when its eviction loop runs out
    of fuel, which [TtlCache.set_fuel] rules out. *)
Definition cache_set (key value : string) (now : Z) : js YP unit :=
  js_focus yp_cache set_cache
    (fun c => match TtlCache.set (TtlCache.set_fuel c) key value now c with
              | Some c' => Some (inr tt, c')
              | None => None
              end).

(** [getVideoTranscript] (lines 149-153): a placeholder that throws. *)
Definition getVideoTranscript (videoId : jv) : js YP string := js_throw "Not implemented".

Section Video.

(** [Number.prototype.toString], the splitter's [createDocuments] for
    the [(chunkSize, chunkOverlap)] of the processor, and [embedQuery]. *)
Variable num : Q -> string.
Variable createDocuments : Z * Z -> string -> list string.
Variable embedQuery : string -> string + list Q.

Definition transcript_key (video : VideoMetadata) : string := "transcript:" ++ to_string num (v_id video).

(** The record of lines 121-133 for chunk [index]. *)
Definition video_vector (video : VideoMetadata) (index : nat) (text : string) : string * Metadata :=
  (to_string num (v_id video) ++ "-" ++ pretty (N.of_nat index),
   [("text", JStr text); ("videoId", v_id video); ("title", v_title video);
    ("channelId", v_channelId video); ("channelTitle", v_channelTitle video);
    ("chunkIndex", jint (Z.of_nat index)); ("type", JStr "youtube");
    ("url", JStr ("https://youtube.com/watch?v=" ++ to_string num (v_id video)))]).

(** Lines 114-142: split, embed every chunk ([Promise.all] rejects with
    the first rejection), upsert, and cache the transcript. *)
Definition store_transcript (now : Z) (video : VideoMetadata) (transcript : string) : js YP unit :=
  let! p := js_get in
  let docs := createDocuments (yp_splitter p) transcript in
  let! _ := js_of_sum (map_sum embedQuery docs) in
  js_modify (fun p => set_index (upsert (imap (video_vector video) docs) (yp_index p)) p) ;!
  cache_set (transcript_key video) transcript now.

Definition processVideo (now : Z) (video : VideoMetadata) : js YP unit :=
  let! cached := cache_get (transcript_key video) now in
  if (if cached is Some t then truthy t else false) then js_ret tt else
  let! transcript := getVideoTranscript (v_id video) in
  store_transcript now video transcript.

End Video.

(** ** [processChannel] and [getStatus] (lines 155-196) *)

Definition initial_status : ProcessingStatus :=
  {| totalVideos := 0; processedVideos := 0; failedVideos := 0; currentVideo := None;
     errors := []; status := Processing |}.

(** A write to the status object of run [pid]: [const status =
    this.status.get(processId)!] is the object of the map, so the writes
    through [status] are writes to the map's entry. *)
Definition update_status (pid : string) (f : ProcessingStatus -> ProcessingStatus) : js YP unit :=
  js_modify (fun p => match assoc_get pid (yp_status p) with
                      | Some st => set_status (assoc_set pid (f st) (yp_status p)) p
                      | None => p
                      end).

Definition set_total (n : Z) (st : ProcessingStatus) : ProcessingStatus :=
  {| totalVideos := n; processedVideos := processedVideos st; failedVideos := failedVideos st;
     currentVideo := currentVideo st; errors := errors st; status := status st |}.

Definition video_done (v : VideoMetadata) (st : ProcessingStatus) : ProcessingStatus :=
  {| totalVideos := totalVideos st; processedVideos := processedVideos st + 1;
     failedVideos := failedVideos st; currentVideo := Some v; errors := errors st; status := status st |}.

Definition video_failed (v : VideoMetadata) (e : string) (st : ProcessingStatus) : ProcessingStatus :=
  {| totalVideos := totalVideos st; processedVideos := processedVideos st;
     failedVideos := failedVideos st + 1; currentVideo := currentVideo st;
     errors := errors st ++ [(v_id v, e)]; status := status st |}.

Definition set_run_status (r : run_status) (st : ProcessingStatus) : ProcessingStatus :=
  {| totalVideos := totalVideos st; processedVideos := processedVideos st;
     failedVideos := failedVideos st; currentVideo := currentVideo st; errors := errors st; status := r |}.

Section Channel.

Variable num : Q -> string.
Variable createDocuments : Z * Z -> string -> list string.
Variable embedQuery : string -> string + list Q.

(** The callback of lines 171-183: it catches every error. *)
Definition channel_callback (pid : string) (now : Z) (video : VideoMetadata) : js YP unit :=
  js_catch (processVideo num createDocuments embedQuery now video ;! update_status pid (video_done video))
           (fun e => update_status pid (video_failed video e)).

(** [processChannel(channelId)]: [now] is [Date.now()], read for the
    run id, by the batch processor and by the cache; [fetched] is the
    outcome of the search request. *)
Definition processChannel (now : Z) (channelId : string) (fetched : string + FetchResponse) : js YP string :=
  let pid := "channel:" ++ channelId ++ ":" ++ pretty now in
  js_modify (fun p => set_status (assoc_set pid initial_status (yp_status p)) p) ;!
  js_catch
    (let! videos := js_of_sum (getChannelVideos fetched) in
     update_status pid (set_total (Z.of_nat (length videos))) ;!
     let! p := js_get in
     js_focus yp_batch set_batch
       (BatchRun.process (yp_bp p) (fun _ _ => true) (S (length videos)) videos None now now) ;!
     js_seq (map (channel_callback pid now) videos) ;!
     update_status pid (set_run_status Completed) ;!
     js_ret pid)
    (fun e => update_status pid (set_run_status Failed) ;! js_throw e).

End Channel.

Definition getStatus (pid : string) (p : YP) : option ProcessingStatus := assoc_get pid (yp_status p).

(** ** The monitors (lines 198-237) *)

(** [a === b] on the values of the API's JSON: two parsed objects are
    never the same object. *)
Definition strict_eq (a b : jv) : bool :=
  match a, b with
  | JUndef, JUndef | JNull, JNull => true
  | JBool x, JBool y => Bool.eqb x y
  | JNum x, JNum y => Qeq_bool x y
  | JStr x, JStr y => String.eqb x y
  | _, _ => false
  end.

Definition new_videos (last current : list VideoMetadata) : list VideoMetadata :=
  filter (fun v => existsb (fun w => strict_eq (v_id w) (v_id v)) last = false) current.

(** [startMonitoring(channelId, intervalMinutes = 60)] up to the
    [void checkForNewVideos()], whose body is the step [checkForNewVideos]. *)
Definition startMonitoring (channelId : string) (intervalMinutes : jv) : js YP unit :=
  let! p := js_get in
  if assoc_get channelId (yp_monitors p) is Some _ then js_ret tt else
  let t := yp_next_timer p in
  js_modify (set_monitors (assoc_set channelId {| timer := t; lastVideos := [] |} (yp_monitors p))
                          (yp_timers p ++ [(t, if intervalMinutes is JUndef then jint 60 else intervalMinutes)]) (S t)).

(** [stopMonitoring(channelId)]: [clearInterval] and [delete]. *)
Definition stopMonitoring (channelId : string) : js YP unit :=
  let! p := js_get in
  match assoc_get channelId (yp_monitors p) with
  | Some m => js_modify (set_monitors (assoc_delete channelId (yp_monitors p))
                                      (filter (fun te => te.1 <> timer m) (yp_timers p)) (yp_next_timer p))
  | None => js_ret tt
  end.

Section Check.

Variable num : Q -> string.

(** Does [processVideo] return at its cache check? *)
Definition cached_transcript (c : TtlCache.Cache string) (now : Z) (v : VideoMetadata) : bool :=
  match (TtlCache.get (transcript_key num v) now c).1 with Some t => truthy t | None => false end.

(** [checkForNewVideos] (lines 203-222) for the monitor of [channelId].
    The callback is [processVideo]: a call fulfils when the cache holds
    the transcript, and otherwise [getVideoTranscript] throws.  The
    cache reads delete an expired entry, which changes no read at the
    same [now]; the model does not write these deletions back. *)
Definition checkForNewVideos (channelId : string) (now : Z) (fetched : string + FetchResponse) : js YP unit :=
  let! p := js_get in
  match assoc_get channelId (yp_monitors p) with
  | None => js_ret tt
  | Some m =>
    js_catch
      (let! current := js_of_sum (getChannelVideos fetched) in
       let nv := new_videos (lastVideos m) current in
       if (0 <? length nv)%nat then
         js_focus yp_batch set_batch
           (BatchRun.process (yp_bp p) (fun v _ => cached_transcript (yp_cache p) now v) (S (length nv)) nv None now now) ;!
         js_modify (fun p' => set_monitors (assoc_set channelId {| timer := timer m; lastVideos := current |} (yp_monitors p'))
                                           (yp_timers p') (yp_next_timer p') p')
       else js_ret tt)
      (fun _ => js_ret tt)
  end.

End Check.

(** ** The processor as a state machine *)

Inductive event :=
  | EProcessChannel (now : Z) (channelId : string) (fetched : string + FetchResponse)
  | EStartMonitoring (channelId : string) (intervalMinutes : jv)
  | ECheck (channelId : string) (now : Z) (fetched : string + FetchResponse)
  | EStopMonitoring (channelId : string).

Section Machine.

Variable num : Q -> string.
Variable createDocuments : Z * Z -> string -> list string.
Variable embedQuery : string -> string + list Q.

(** The state a computation leaves, whether it fulfils or rejects;
    [None] when it does not settle. *)
Definition run_state {A} (m : js YP A) (p : YP) : option YP :=
  match m p with Some (_, p') => Some p' | None => None end.

Definition step (e : event) (p : YP) : option YP :=
  match e with
  | EProcessChannel now c f => run_state (processChannel num createDocuments embedQuery now c f) p
  | EStartMonitoring c i => run_state (startMonitoring c i) p
  | ECheck c now f => run_state (checkForNewVideos num c now f) p
  | EStopMonitoring c => run_state (stopMonitoring c) p
  end.

Fixpoint run (es : list event) (p : YP) : option YP :=
  match es with
  | [] => Some p
  | e :: es' => match step e p with Some p' => run es' p' | None => None end
  end.

Inductive reachable (o : ProcessingOptions) (idx : Index) : YP -> Prop :=
  | reach_init : reachable o idx (new_YouTubeProcessor o idx)
  | reach_step e p p' : reachable o idx p -> step e p = Some p' -> reachable o idx p'.

End Machine.

Definition all_failed (videos : list VideoMetadata) : ProcessingStatus :=
  {| totalVideos := Z.of_nat (length videos); processedVideos := 0;
     failedVideos := Z.of_nat (length videos); currentVideo := None;
     errors := map (fun v => (v_id v, "Not implemented")) videos; status := Completed |}.

(** Nothing is cached and the index is unchanged, if the cache was
    empty. *)
Definition keeps (p p' : YP) : Prop :=
  TtlCache.cache (yp_cache p) = [] -> TtlCache.cache (yp_cache p') = [] /\ yp_index p' = yp_index p.

(** ** Examples *)

Definition ex_num (q : Q) : string := "0".
Definition ex_split (o : Z * Z) (s : string) : list string := [s].
Definition ex_embed (s : string) : string + list Q := inr [].

Definition ex_item (vid : string) : jv :=
  JObj [("id", JObj [("videoId", JStr vid)]);
        ("snippet", JObj [("title", JStr ("video " ++ vid)); ("channelId", JStr "UC1"); ("channelTitle", JStr "chan")])].

Definition ex_search : string + FetchResponse :=
  inr {| f_ok := true; f_statusText := "OK"; f_json := inr (JObj [("items", JArr [ex_item "a"; ex_item "b"])]) |}.

Definition ex_videos : list VideoMetadata :=
  match getChannelVideos ex_search with inr vs => vs | inl _ => [] end.

Definition ex_processor : YP := new_YouTubeProcessor route_options [].

Definition ex_events : list event :=
  [EProcessChannel 1000 "UC1" ex_search; EStartMonitoring "UC1" JUndef; EStartMonitoring "UC2" (jint 5);
   ECheck "UC1" 2000 ex_search; EStopMonitoring "UC2"].

Definition ex_started : YP :=
  default ex_processor (run ex_num ex_split ex_embed [EStartMonitoring "UC1" JUndef] ex_processor).

Definition ex_after : YP := default ex_processor (run ex_num ex_split ex_embed ex_events ex_processor).

(** The monitors, the timers and the timer counter are unchanged. *)
Definition same_mon (p p' : YP) : Prop :=
  yp_monitors p' = yp_monitors p /\ yp_timers p' = yp_timers p /\ yp_next_timer p' = yp_next_timer p.

(** Every running interval timer is the timer of one monitored channel,
    and every monitored channel has one running timer. *)
Definition monitors_wf (p : YP) : Prop :=
  NoDup (map fst (yp_monitors p)) /\
  map fst (yp_timers p) = map (fun cm => timer cm.2) (yp_monitors p) /\
  NoDup (map fst (yp_timers p)) /\
  Forall (fun te => (te.1 < yp_next_timer p)%nat) (yp_timers p).

(** A run id, once recorded, stays recorded. *)
Definition has_run (pid : string) (p p' : YP) : Prop :=
  is_Some (assoc_get pid (yp_status p)) -> is_Some (assoc_get pid (yp_status p')).

(** ** Lemmas *)

Lemma set_cache_same p : set_cache (yp_cache p) p = p.
Proof. by destruct p. Qed.

Lemma set_status_twice m m' p : set_status m (set_status m' p) = set_status m p.
Proof. done. Qed.

(** A read of an empty cache misses and changes nothing. *)
Lemma get_empty (c : TtlCache.Cache string) key now :
  TtlCache.cache c = [] -> TtlCache.get key now c = (None, c).
Proof. intros H. unfold TtlCache.get. rewrite H. by destruct (negb _). Qed.

#[export] Instance keeps_refl : Reflexive keeps.
Proof. by intros p H. Qed.

#[export] Instance keeps_trans : Transitive keeps.
Proof. intros p1 p2 p3 H12 H23 H. destruct (H12 H) as [H2 I2]. destruct (H23 H2) as [H3 I3]. split; congruence. Qed.

Lemma keeps_status m p : keeps p (set_status m p).
Proof. by intros H. Qed.

Lemma keeps_batch b p : keeps p (set_batch b p).
Proof. by intros H. Qed.

Lemma keeps_monitors m ts n p : keeps p (set_monitors m ts n p).
Proof. by intros H. Qed.

Lemma update_status_keeps pid f : js_rel keeps (update_status pid f).
Proof. apply js_rel_modify. intros p. case_match; [apply keeps_status|reflexivity]. Qed.

Lemma cache_get_keeps key now : js_rel keeps (cache_get key now).
Proof.
  intros p r p' E Hc. unfold cache_get, js_focus in E. rewrite get_empty in E by done.
  injection E as _ <-. by rewrite set_cache_same.
Qed.

#[local] Hint Resolve keeps_status keeps_batch keeps_monitors update_status_keeps cache_get_keeps : jsmodel.

#[export] Instance same_mon_refl : Reflexive same_mon.
Proof. by intros p. Qed.

#[export] Instance same_mon_trans : Transitive same_mon.
Proof. intros p1 p2 p3 (?&?&?) (?&?&?). split_and!; congruence. Qed.

Lemma run_state_rel {A} (R : YP -> YP -> Prop) (m : js YP A) p p' :
  js_rel R m -> run_state m p = Some p' -> R p p'.
Proof. intros Hm E. unfold run_state in E. destruct (m p) as [[r p1]|] eqn:Em; simplify_eq. by eapply Hm. Qed.

Lemma wf_same_mon p p' : same_mon p p' -> monitors_wf p -> monitors_wf p'.
Proof. intros (Hm&Ht&Hn). unfold monitors_wf. by rewrite Hm, Ht, Hn. Qed.

(** A relation through the parts of a computation, [leaf] closing the
    steps of state. *)
Local Ltac rel_split leaf :=
  repeat first [ leaf | apply js_rel_throw_bind | js_rel_split
               | apply js_rel_focus; intros; leaf
               | apply js_rel_modify; intros; repeat case_match; leaf
               | progress intros | case_match
               | apply Forall_forall; intros ?m ?Hm; apply list_elem_of_In, in_map_iff in Hm as (? & <- & _) ].

Local Ltac keeps_leaf :=
  first [ apply keeps_refl | apply cache_get_keeps | apply update_status_keeps
        | apply keeps_batch | apply keeps_monitors | apply keeps_status ].

Local Ltac mon_leaf := first [ apply same_mon_refl | unfold same_mon; simpl; split_and!; reflexivity ].


#[export] Instance has_run_refl pid : Reflexive (has_run pid).
Proof. by intros p H. Qed.

#[export] Instance has_run_trans pid : Transitive (has_run pid).
Proof. intros p1 p2 p3 H12 H23 H. auto. Qed.

Lemma has_run_set pid k v p : has_run pid p (set_status (assoc_set k v (yp_status p)) p).
Proof.
  intros H. simpl. destruct (decide (pid = k)) as [->|Hne]; [rewrite assoc_get_set_eq; by eexists|].
  by rewrite assoc_get_set_ne.
Qed.

Local Ltac run_leaf pid :=
  first [ apply has_run_refl | apply has_run_set | unfold has_run; simpl; by intros ? ].

Lemma timers_filter_fst t (ts : list (nat * jv)) :
  map fst (filter (fun te => te.1 <> t) ts) = filter (fun x => x <> t) (map fst ts).
Proof.
  induction ts as [|[x v] ts IH]; [done|]. simpl. rewrite !filter_cons. simpl.
  repeat case_decide; simpl; try tauto; by rewrite IH.
Qed.

Lemma startMonitoring_has_run pid c i : js_rel (has_run pid) (startMonitoring c i).
Proof. unfold startMonitoring. rel_split ltac:(run_leaf pid). Qed.

Section Proofs.

Variable num : Q -> string.
Variable createDocuments : Z * Z -> string -> list string.
Variable embedQuery : string -> string + list Q.

(** With an empty cache, [processVideo] reaches [getVideoTranscript],
    which throws, and changes nothing. *)
Lemma processVideo_empty now v p :
  TtlCache.cache (yp_cache p) = [] ->
  processVideo num createDocuments embedQuery now v p = Some (inl "Not implemented", p).
Proof.
  intros H. unfold processVideo, cache_get, getVideoTranscript. js_unfold.
  rewrite get_empty by done. by rewrite set_cache_same.
Qed.

Lemma fold_video_failed e vs st :
  fold_left (fun st v => video_failed v e st) vs st =
  {| totalVideos := totalVideos st; processedVideos := processedVideos st;
     failedVideos := failedVideos st + Z.of_nat (length vs); currentVideo := currentVideo st;
     errors := errors st ++ map (fun v => (v_id v, e)) vs; status := status st |}.
Proof.
  revert st. induction vs as [|v vs IH]; intros st; simpl.
  - destruct st; simpl. f_equal; [lia|by rewrite app_nil_r].
  - rewrite IH. simpl. f_equal; [lia|by rewrite <- app_assoc].
Qed.

(** With an empty cache, the callbacks of [processChannel] record every
    video as failed with the message [Not implemented]. *)
Lemma callbacks_empty pid now vs st p :
  TtlCache.cache (yp_cache p) = [] -> assoc_get pid (yp_status p) = Some st ->
  js_seq (map (channel_callback num createDocuments embedQuery pid now) vs) p =
  Some (inr tt, set_status (assoc_set pid (fold_left (fun st v => video_failed v "Not implemented" st) vs st)
                                      (yp_status p)) p).
Proof.
  revert st p. induction vs as [|v vs IH]; intros st p Hc Hs; simpl.
  - js_unfold. rewrite assoc_set_get by done. by destruct p.
  - unfold channel_callback at 1, update_status. js_unfold. rewrite processVideo_empty by done.
    rewrite Hs. rewrite IH with (st := video_failed v "Not implemented" st); [|done|].
    + simpl. by rewrite assoc_set_twice.
    + simpl. apply assoc_get_set_eq.
Qed.

(** With every call fulfilling and sizes and retries as the routes
    configure them, [BatchRun.process] fulfils. *)
Lemma process_all_true_fulfils {A} (bp : BatchRun.BatchProcessor) (items : list A) bid now0 now1 s :
  0 < BatchRun.batchSize bp -> 0 < BatchRun.maxConcurrent bp -> 0 <= BatchRun.maxRetries bp ->
  exists s', BatchRun.process bp (fun _ _ => true) (S (length items)) items bid now0 now1 s = Some (inr tt, s').
Proof.
  intros Hbs Hmc Hmr. rewrite BatchRun.process_unfold by (done || lia).
  set (G := chunks _ (chunks _ items)).
  set (b := default (pretty now0) bid).
  destruct (BatchRun.groups_adds bp (fun _ _ => true) (fun _ => 0%nat) G b
              ltac:(intros; split_and!; [intros; lia|done|simpl; lia])
              (BatchRun.set_metrics (<[b := BatchRun.initial_metrics (length items) now0]> (BatchRun.metrics s)) s)
              _ ltac:(unfold BatchRun.tally_of; simpl; by rewrite lookup_insert_eq)) as (s2 & E2 & _).
  unfold js_finally. rewrite E2. by eexists.
Qed.

(** C19: [getVideoTranscript] is a placeholder, so [processChannel]
    processes no video: from an empty cache, a run over the videos the
    API returns completes with every video counted as failed with the
    message [Not implemented], nothing stored in the index, and nothing
    cached. *)
Theorem processChannel_fails_every_video now c fetched videos p :
  getChannelVideos fetched = inr videos ->
  TtlCache.cache (yp_cache p) = [] ->
  0 < BatchRun.batchSize (yp_bp p) -> 0 < BatchRun.maxConcurrent (yp_bp p) ->
  0 <= BatchRun.maxRetries (yp_bp p) ->
  exists p', processChannel num createDocuments embedQuery now c fetched p =
               Some (inr ("channel:" ++ c ++ ":" ++ pretty now), p') /\
    getStatus ("channel:" ++ c ++ ":" ++ pretty now) p' = Some (all_failed videos) /\
    yp_index p' = yp_index p /\ TtlCache.cache (yp_cache p') = [].
Proof.
  intros Hv Hc Hbs Hmc Hmr. set (pid := "channel:" ++ c ++ ":" ++ pretty now).
  destruct (process_all_true_fulfils (yp_bp p) videos None now now
              (yp_batch p) Hbs Hmc Hmr) as [b' Hb].
  unfold processChannel. fold pid. unfold js_bind at 1, js_modify at 1, js_catch.
  erewrite (js_bind_inr _ _ _ videos) by (unfold js_of_sum; by rewrite Hv).
  unfold update_status at 1. erewrite (js_bind_inr _ _ _ tt) by reflexivity. simpl.
  rewrite assoc_get_set_eq, assoc_set_twice.
  erewrite (js_bind_inr _ _ _ _) by reflexivity.
  erewrite (js_bind_inr _ _ _ tt) by (unfold js_focus; simpl; by rewrite Hb).
  erewrite (js_bind_inr _ _ _ tt) by (apply callbacks_empty; [done|apply assoc_get_set_eq]).
  unfold update_status. js_unfold. simpl. rewrite !assoc_get_set_eq, !assoc_set_twice.
  eexists. split_and!; [done| |done|done].
  unfold getStatus. simpl. rewrite assoc_get_set_eq. f_equal.
  rewrite fold_video_failed. unfold all_failed. simpl. f_equal; lia.
Qed.

Lemma processVideo_keeps now v : js_rel keeps (processVideo num createDocuments embedQuery now v).
Proof. unfold processVideo, getVideoTranscript. rel_split keeps_leaf. Qed.

Lemma step_keeps e p p' : step num createDocuments embedQuery e p = Some p' -> keeps p p'.
Proof.
  destruct e; simpl; apply run_state_rel;
    unfold processChannel, channel_callback, startMonitoring, stopMonitoring, checkForNewVideos;
    rel_split ltac:(first [keeps_leaf | apply processVideo_keeps]).
Qed.

Lemma processVideo_same_mon now v : js_rel same_mon (processVideo num createDocuments embedQuery now v).
Proof. unfold processVideo, store_transcript, cache_get, cache_set. rel_split mon_leaf. Qed.

Lemma processChannel_same_mon now c f : js_rel same_mon (processChannel num createDocuments embedQuery now c f).
Proof.
  unfold processChannel, channel_callback, update_status.
  rel_split ltac:(first [mon_leaf | apply processVideo_same_mon]).
Qed.

Lemma startMonitoring_wf c i p p' :
  monitors_wf p -> run_state (startMonitoring c i) p = Some p' -> monitors_wf p'.
Proof.
  unfold startMonitoring, run_state. js_unfold. intros (Hk & Ht & Hn & Hlt) H.
  destruct (assoc_get c (yp_monitors p)) eqn:E; simplify_eq; [done|].
  apply assoc_get_None_elem in E. unfold monitors_wf; simpl.
  rewrite assoc_set_fresh by done. rewrite !map_app. simpl. split_and!.
  - apply NoDup_app. split_and!; [done| |apply NoDup_singleton].
    intros x Hx ->%list_elem_of_singleton. done.
  - by rewrite Ht.
  - apply NoDup_app. split_and!; [done| |apply NoDup_singleton].
    intros x Hx ->%list_elem_of_singleton. apply list_elem_of_fmap in Hx as (te & Heq & Hte).
    eapply Forall_forall in Hlt; [|exact Hte]. lia.
  - apply Forall_app. split; [|apply Forall_singleton; simpl; lia].
    eapply Forall_impl; [exact Hlt|]. simpl. lia.
Qed.

Lemma stopMonitoring_wf c p p' :
  monitors_wf p -> run_state (stopMonitoring c) p = Some p' -> monitors_wf p'.
Proof.
  unfold stopMonitoring, run_state. js_unfold. intros (Hk & Ht & Hn & Hlt) H.
  destruct (assoc_get c (yp_monitors p)) as [m|] eqn:E; simplify_eq; [|done].
  unfold monitors_wf; simpl. split_and!.
  - by apply NoDup_keys_assoc_delete.
  - rewrite timers_filter_fst, Ht.
    symmetry. apply assoc_delete_map_snd; [done|by rewrite <- Ht|done].
  - rewrite timers_filter_fst. eapply sublist_NoDup; [exact Hn|apply sublist_filter].
  - by apply Forall_filter_weaken.
Qed.

Lemma checkForNewVideos_wf c now f p p' :
  monitors_wf p -> run_state (checkForNewVideos num c now f) p = Some p' -> monitors_wf p'.
Proof.
  unfold checkForNewVideos, run_state. js_unfold. intros Hw H.
  destruct (assoc_get c (yp_monitors p)) as [m|] eqn:E; [|by simplify_eq].
  destruct (getChannelVideos f) as [e|current]; simpl in H; [by simplify_eq|].
  destruct (0 <? _)%nat; [|by simplify_eq].
  destruct (BatchRun.process _ _ _ _ _ _ _ _) as [[[e|[]] b']|]; simplify_eq; try done.
  destruct Hw as (Hk & Ht & Hn & Hlt). unfold monitors_wf; simpl.
  assert (Hin : c ∈ map fst (yp_monitors p)) by (apply assoc_get_elem; by eexists).
  rewrite assoc_keys_set_in by done. split_and!; [done| |done|done].
  rewrite Ht. symmetry. by apply (assoc_set_map_snd timer c m).
Qed.

Lemma yp_step_wf e p p' : monitors_wf p -> step num createDocuments embedQuery e p = Some p' -> monitors_wf p'.
Proof.
  destruct e; simpl.
  - intros Hw H. eapply wf_same_mon; [|exact Hw]. eapply run_state_rel; [apply processChannel_same_mon|exact H].
  - apply startMonitoring_wf.
  - apply checkForNewVideos_wf.
  - apply stopMonitoring_wf.
Qed.

Lemma yp_run_reachable o idx es p p' :
  reachable num createDocuments embedQuery o idx p -> run num createDocuments embedQuery es p = Some p' ->
  reachable num createDocuments embedQuery o idx p'.
Proof.
  revert p. induction es as [|e es IH]; intros p Hr E; simpl in E; [by simplify_eq|].
  destruct (step _ _ _ e p) as [p1|] eqn:Es; [|done]. eapply IH; [|exact E]. by eapply reach_step.
Qed.

(** in every reachable state of the processor, the transcript
    cache is empty and the Pinecone index is the one it started with:
    no operation ever stores a transcript or a vector, since every path
    to [upsert] and [cache.set] passes the placeholder
    [getVideoTranscript]. *)
Theorem reachable_nothing_stored o idx p :
  reachable num createDocuments embedQuery o idx p ->
  TtlCache.cache (yp_cache p) = [] /\ yp_index p = idx.
Proof.
  induction 1 as [|e p p' _ [Hc Hi] Hs]; [done|].
  destruct (step_keeps e p p' Hs Hc). split; congruence.
Qed.

(** in every reachable state, the running interval timers are
    exactly the timers of the monitored channels, one per channel, with
    distinct ids below the next id: [stopMonitoring] clears the timer it
    removes, and [startMonitoring] starts one only for a channel it did
    not monitor. *)
Theorem reachable_monitors_wf o idx p :
  reachable num createDocuments embedQuery o idx p -> monitors_wf p.
Proof.
  induction 1 as [|e p p' _ IH Hs].
  - unfold monitors_wf; simpl. split_and!; by constructor.
  - by eapply yp_step_wf.
Qed.

(** with an empty cache, a check that finds new videos never records
    them: [processVideo] rejects on each of them, the batch processor
    rethrows after its retries, the [catch] swallows the error, and
    [lastVideos] is left as it was, so every later check retries the
    same videos. *)
Theorem checkForNewVideos_never_advances c now f current m p :
  assoc_get c (yp_monitors p) = Some m -> getChannelVideos f = inr current ->
  new_videos (lastVideos m) current <> [] -> TtlCache.cache (yp_cache p) = [] ->
  0 < BatchRun.batchSize (yp_bp p) -> 0 < BatchRun.maxConcurrent (yp_bp p) ->
  0 <= BatchRun.maxRetries (yp_bp p) ->
  exists p', run_state (checkForNewVideos num c now f) p = Some p' /\ yp_monitors p' = yp_monitors p.
Proof.
  intros Hm Hv Hn Hc Hbs Hmc Hmr. unfold checkForNewVideos, run_state. js_unfold. rewrite Hm, Hv. simpl.
  destruct (new_videos (lastVideos m) current) as [|x rest] eqn:En; [done|]. simpl.
  destruct (BatchRun.process_head_rejects (yp_bp p) (fun v _ => cached_transcript num (yp_cache p) now v)
              (S (S (length rest))) x rest None now now (yp_batch p) Hbs Hmc Hmr ltac:(simpl; lia))
    as [b' E]; [intros j; unfold cached_transcript; by rewrite get_empty|].
  rewrite E. by eexists.
Qed.

Lemma processVideo_has_run pid now v : js_rel (has_run pid) (processVideo num createDocuments embedQuery now v).
Proof. unfold processVideo, store_transcript, cache_get, cache_set. rel_split ltac:(run_leaf pid). Qed.

(** A fulfilled [processChannel] returns its run id, which its status
    map holds. *)
Lemma processChannel_returns_pid now c f p a p' :
  processChannel num createDocuments embedQuery now c f p = Some (inr a, p') ->
  a = "channel:" ++ c ++ ":" ++ pretty now /\ is_Some (getStatus a p').
Proof.
  set (pid := "channel:" ++ c ++ ":" ++ pretty now).
  assert (Hrel : js_rel (has_run pid)
    (let! videos := js_of_sum (getChannelVideos f) in
     update_status pid (set_total (Z.of_nat (length videos))) ;!
     let! p := js_get in
     js_focus yp_batch set_batch
       (BatchRun.process (yp_bp p) (fun _ _ => true) (S (length videos)) videos None now now) ;!
     js_seq (map (channel_callback num createDocuments embedQuery pid now) videos) ;!
     update_status pid (set_run_status Completed) ;!
     js_ret pid)).
  { unfold channel_callback, update_status. rel_split ltac:(first [run_leaf pid | apply processVideo_has_run]). }
  assert (Hret : js_returns (fun a => a = pid)
    (let! videos := js_of_sum (getChannelVideos f) in
     update_status pid (set_total (Z.of_nat (length videos))) ;!
     let! p := js_get in
     js_focus yp_batch set_batch
       (BatchRun.process (yp_bp p) (fun _ _ => true) (S (length videos)) videos None now now) ;!
     js_seq (map (channel_callback num createDocuments embedQuery pid now) videos) ;!
     update_status pid (set_run_status Completed) ;!
     js_ret pid)).
  { repeat (apply js_returns_bind; intros). by apply js_returns_ret. }
  unfold processChannel. fold pid. unfold js_bind at 1, js_modify at 1, js_catch. intros E.
  set (p1 := set_status (assoc_set pid initial_status (yp_status p)) p) in E.
  assert (H1 : is_Some (assoc_get pid (yp_status p1))) by (simpl; rewrite assoc_get_set_eq; by eexists).
  match type of E with match ?X with _ => _ end = _ => destruct X as [[[e|a'] p2]|] eqn:E2 end; [| |done].
  - unfold js_bind, update_status, js_modify, js_throw in E. by destruct (assoc_get _ _).
  - injection E as -> ->. pose proof (Hret _ _ _ E2) as ->. split; [done|exact (Hrel _ _ _ E2 H1)].
Qed.

End Proofs.

(** ** Witnesses *)

Lemma ex_after_reachable : reachable ex_num ex_split ex_embed route_options [] ex_after.
Proof. apply (yp_run_reachable _ _ _ _ _ ex_events ex_processor); [apply reach_init|vm_compute; reflexivity]. Qed.

Lemma processChannel_fails_every_video_witness :
  exists p', processChannel ex_num ex_split ex_embed 1000 "UC1" ex_search ex_processor =
               Some (inr ("channel:UC1:" ++ pretty 1000%Z), p') /\
    getStatus ("channel:UC1:" ++ pretty 1000%Z) p' = Some (all_failed ex_videos) /\
    yp_index p' = yp_index ex_processor /\ TtlCache.cache (yp_cache p') = [].
Proof. apply processChannel_fails_every_video; vm_compute; first [reflexivity | discriminate]. Defined.

Lemma reachable_nothing_stored_witness :
  TtlCache.cache (yp_cache ex_after) = [] /\ yp_index ex_after = [].
Proof. exact (reachable_nothing_stored ex_num ex_split ex_embed route_options [] ex_after ex_after_reachable). Defined.

Lemma reachable_monitors_wf_witness : monitors_wf ex_after /\ length (yp_timers ex_after) = 1%nat.
Proof.
  split; [exact (reachable_monitors_wf ex_num ex_split ex_embed route_options [] ex_after ex_after_reachable)|].
  vm_compute. reflexivity.
Defined.

Lemma checkForNewVideos_never_advances_witness :
  exists p', run_state (checkForNewVideos ex_num "UC1" 2000 ex_search) ex_started = Some p' /\
             yp_monitors p' = yp_monitors ex_started.
Proof.
  apply (checkForNewVideos_never_advances ex_num "UC1" 2000 ex_search ex_videos
           {| timer := 0; lastVideos := [] |}); vm_compute; first [reflexivity | discriminate].
Defined.

End ChannelProcessor.
