(* ===== verification/ChannelRoutes.v ===== *)
(** * ChannelRoutes: the routes that use the [YouTubeProcessor] of [lib/youtube]

    Two routes construct a [YouTubeProcessor] (the model
    [ChannelProcessor]) at module level, each its own:
    - [src/unnamed/part_006], the channel route: it extracts a channel id
      from a YouTube URL, awaits [processChannel], and may start a
      monitor;
    - [src/src/pages/api/youtube/status.ts], the status route: it answers
      [getStatus(processId)] of its processor.
    The handlers are functions of the request, of the outcomes of their
    calls, and of the processor they use.  [new URL(s)] is an oracle
    [parse_url] giving the hostname and pathname. *)

From S2P Require Import Prelude Http Regex ChannelProcessor.
From Stdlib Require Import QArith Ascii.

Local Open Scope Z_scope.
Local Open Scope js_scope.

Module ChannelRoutes.

Import Http Regex ChannelProcessor.

Local Open Scope string_scope.

(** ** [youtube/status.ts] *)

(** The module-level processors of the two routes (status.ts lines 5-9,
    part_006 lines 24-28): the same options, two objects. *)
Definition status_processor (idx : Index) : YP := new_YouTubeProcessor route_options idx.

Definition channel_processor (idx : Index) : YP := new_YouTubeProcessor route_options idx.

Definition video_json (v : VideoMetadata) : jv :=
  JObj (json_fields [("id", v_id v); ("title", v_title v); ("description", v_description v);
                     ("publishedAt", v_publishedAt v); ("thumbnailUrl", v_thumbnailUrl v);
                     ("channelId", v_channelId v); ("channelTitle", v_channelTitle v)]).

Definition run_status_name (r : run_status) : string :=
  match r with Idle => "idle" | Processing => "processing" | Completed => "completed" | Failed => "error" end.

(** The JSON of a status object: its properties in creation order,
    [currentVideo] last, as the first processed video adds it. *)
Definition status_json (st : ProcessingStatus) : jv :=
  JObj (json_fields
    [("totalVideos", jint (totalVideos st)); ("processedVideos", jint (processedVideos st));
     ("failedVideos", jint (failedVideos st));
     ("errors", JArr (map (fun e => JObj [("videoId", e.1); ("error", JStr e.2)]) (errors st)));
     ("status", JStr (run_status_name (status st)));
     ("currentVideo", match currentVideo st with Some v => video_json v | None => JUndef end)]).

Definition error_response (code : Z) (m : string) : Response := respond code [("error", JStr m)].

(** The handler (status.ts lines 28-61); [iso] is
    [new Date().toISOString()]. *)
Definition statusRoute (p : YP) (iso : string) (req : Request) : Response :=
  if negb (String.eqb (method req) "GET") then error_response 405 "Method not allowed" else
  match get "processId" (query req) with
  | JStr pid =>
    if negb (truthy pid) then error_response 400 "Process ID is required" else
    match getStatus pid p with
    | None => error_response 404 "Process not found"
    | Some st => respond 200 [("processId", JStr pid); ("status", status_json st); ("timestamp", JStr iso)]
    end
  | _ => error_response 400 "Process ID is required"
  end.

(** ** The channel route ([src/unnamed/part_006]) *)

(** [v?.[0]]. *)
Definition read_index0 (v : jv) : jv :=
  match v with
  | JArr (x :: _) => x
  | JObj fs => get "0" fs
  | JStr (String c _) => JStr (String c EmptyString)
  | _ => JUndef
  end.

(** [{ error: 'Invalid URL', details }] of the inner [catch]. *)
Definition invalid_url (m : string) : Response :=
  respond 400 [("error", JStr "Invalid URL"); ("details", JStr m)].

Section Route.

Variable num : Q -> string.
Variable createDocuments : Z * Z -> string -> list string.
Variable embedQuery : string -> string + list Q.
(** [new URL(s)]: the [hostname] and [pathname], or the [TypeError]. *)
Variable parse_url : string -> option (string * string).

(** The outcomes of the route's calls: the [forUsername] lookup, the
    search request of [processChannel], and [Date.now()]. *)
Record ChannelCalls := {
  cc_lookup : string + FetchResponse;
  cc_search : string + FetchResponse;
  cc_now : Z;
}.

(** Lines 50-95: the channel id, or the response of an early return. *)
Definition extract_channel (url : string) (lookup : string + FetchResponse) : Response + jv :=
  match parse_url url with
  | None => inl (invalid_url "Invalid URL")
  | Some (host, path) =>
    let paths := filter (fun s => truthy s = true) (split (RS "/") path) in
    if String.eqb host "www.youtube.com" || String.eqb host "youtube.com" then
      if starts_with path "/channel/" then
        match paths !! 1%nat with
        | Some id => inr (JStr id)
        | None => inl (error_response 400 "Invalid channel URL: missing channel ID")
        end
      else if starts_with path "/c/" || starts_with path "/@" then
        match paths !! 1%nat with
        | None => inl (error_response 400 "Invalid channel URL: missing username")
        | Some _ =>
          match lookup with
          | inl e => inl (invalid_url e)
          | inr r =>
            if negb (f_ok r) then inl (invalid_url ("YouTube API error: " ++ f_statusText r)) else
            match f_json r with
            | inl e => inl (invalid_url e)
            | inr data =>
              match read "items" data with
              | inl e => inl (invalid_url e)
              | inr items =>
                let cid := read_opt "id" (read_index0 items) in
                if js_truthy cid then inr cid else inl (error_response 400 "Could not find channel ID")
              end
            end
          end
        end
      else inl (error_response 400 "Invalid channel URL format")
    else inl (error_response 400 "Not a YouTube URL")
  end.

(** The outer [catch] (lines 111-117). *)
Definition channel_error (e : string) : Response :=
  respond 500 [("error", JStr "Error processing channel"); ("details", JStr e)].

(** The body of the outer [try] after the destructuring of [req.body]
    (lines 39-110). *)
Definition channel_body (env : Env) (b : jv) (c : ChannelCalls) : js YP Response :=
  let channelUrl := default JUndef (field "channelUrl" b) in
  let options := match default JUndef (field "options" b) with JUndef => JObj [] | o => o end in
  if negb (js_truthy channelUrl) then js_ret (error_response 400 "Channel URL is required") else
  if env_missing env "YOUTUBE_API_KEY" then js_ret (error_response 400 "YouTube API key is not configured") else
  match extract_channel (to_string num channelUrl) (cc_lookup c) with
  | inl r => js_ret r
  | inr channelId =>
    let! processId := processChannel num createDocuments embedQuery (cc_now c) (to_string num channelId) (cc_search c) in
    let! monitor := js_of_sum (read "monitor" options) in
    (if js_truthy monitor
     then startMonitoring (to_string num channelId) (default JUndef (field "intervalMinutes" options))
     else js_ret tt) ;!
    js_ret (respond 200 [("processId", JStr processId); ("channelId", channelId);
                         ("message", JStr "Channel processing started"); ("monitoring", monitor)])
  end.

(** The handler (lines 30-118) on the route's processor. *)
Definition channelRoute (env : Env) (req : Request) (c : ChannelCalls) : js YP Response :=
  if negb (String.eqb (method req) "POST") then js_ret (error_response 405 "Method not allowed") else
  js_catch
    (match body req with
     | JUndef | JNull => js_throw (default "" (err_message (destructure_error "channelUrl" (body req))))
     | b => channel_body env b c
     end)
    (fun e => js_ret (channel_error e)).

End Route.

(** ** Examples *)

Definition ex_parse (u : string) : option (string * string) :=
  if String.eqb u "https://www.youtube.com/channel/UC1" then Some ("www.youtube.com", "/channel/UC1")
  else if String.eqb u "https://www.youtube.com/@mkbhd" then Some ("www.youtube.com", "/@mkbhd")
  else None.

Definition ex_env : Env := [("YOUTUBE_API_KEY", "yt-key")].

Definition ex_post (url : string) : Request :=
  {| method := "POST"; query := []; body := JObj [("channelUrl", JStr url)] |}.

Definition ex_calls : ChannelCalls := {| cc_lookup := inl "no lookup"; cc_search := ex_search; cc_now := 1000 |}.

Definition ex_run : option ((string + Response) * YP) :=
  channelRoute ex_num ex_split ex_embed ex_parse ex_env (ex_post "https://www.youtube.com/channel/UC1") ex_calls
    (channel_processor []).

Definition ex_resp : Response := match ex_run with Some (inr r, _) => r | _ => error_response 0 "none" end.

Definition ex_state : YP := match ex_run with Some (_, p) => p | None => channel_processor [] end.

Definition ex_status_request (pid : string) : Request :=
  {| method := "GET"; query := [("processId", JStr pid)]; body := JUndef |}.

Section Props.

Variable num : Q -> string.
Variable createDocuments : Z * Z -> string -> list string.
Variable embedQuery : string -> string + list Q.
Variable parse_url : string -> option (string * string).

(** ** Properties *)

Lemma extract_channel_400 u l r : extract_channel parse_url u l = inl r -> Http.status r = 400.
Proof. unfold extract_channel. intros E. repeat case_match; simplify_eq; reflexivity. Qed.

Lemma split_loop_cons n r seg c s acc :
  split_loop (S n) r seg (c :: s) acc =
  match match_at false r (c :: s) with
  | None => split_loop n r (seg ++ [c])%list s acc
  | Some rest =>
      if (length rest =? length (c :: s))%nat then
        match seg with [] => split_loop n r [c] s acc | _ => split_loop n r [c] s (acc ++ [seg])%list end
      else split_loop n r [] rest (acc ++ [seg])%list
  end.
Proof. reflexivity. Qed.

(** [('/' + s).split('/')] for an [s] without a slash. *)
Lemma split_slash_head (s : string) :
  "/"%char ∉ String.list_ascii_of_string s -> split (RS "/") (String "/" s) = [""; s].
Proof.
  intros Hs. set (cs := String.list_ascii_of_string s) in *.
  assert (E : split_loop (S (S (length cs))) (RS "/") [] ("/"%char :: cs) [] =
              split_loop (S (length cs)) (RS "/") [] cs [[]]).
  { rewrite split_loop_cons. replace (match_at false (RS "/") ("/"%char :: cs)) with (Some cs) by reflexivity.
    rewrite (proj2 (Nat.eqb_neq _ _)) by (simpl; lia). reflexivity. }
  unfold split. change (String.list_ascii_of_string (String "/" s)) with ("/"%char :: cs).
  unfold split_chars. cbn [length]. rewrite E, split_loop_nomatch.
  - simpl. unfold cs. by rewrite String.string_of_list_ascii_of_string.
  - intros [|c s'] Hsuf; [done|]. apply match_lit_none. unfold lit_ok.
    apply Ascii.eqb_neq. intros <-. apply Hs. eapply elem_of_suffix; [|exact Hsuf]. by left.
Qed.

(** a channel URL of the form [https://www.youtube.com/@handle] is
    always refused with [missing username]: the pathname splits into the
    single segment [@handle], and the code reads the username at index 1,
    as for [/c/name]. *)
Theorem channelRoute_handle_url_refused env req c p fs u host h :
  method req = "POST" -> body req = JObj fs -> get "channelUrl" fs = JStr u -> truthy u = true ->
  env_missing env "YOUTUBE_API_KEY" = false ->
  parse_url u = Some (host, "/@" ++ h) -> host = "www.youtube.com" \/ host = "youtube.com" ->
  "/"%char ∉ String.list_ascii_of_string h ->
  channelRoute num createDocuments embedQuery parse_url env req c p = Some (inr (error_response 400 "Invalid channel URL: missing username"), p).
Proof.
  intros Hm Hb Hu Ht He Hp Hh Hs. unfold channelRoute, channel_body, get in *. rewrite Hm, Hb. simpl.
  rewrite Hu. cbn [js_truthy default]. rewrite Ht, He. simpl. unfold extract_channel. rewrite Hp.
  assert (Hsplit : split (RS "/") ("/@" ++ h) = [""; "@" ++ h]).
  { apply split_slash_head. simpl. intros [Heq|Hin]%elem_of_cons; [discriminate|done]. }
  rewrite Hsplit. unfold starts_with. simpl.
  destruct Hh as [->| ->]; reflexivity.
Qed.

(** A 200 answer of the channel route names a run its processor holds. *)
Lemma channel_body_200 env b c p r p' :
  channel_body num createDocuments embedQuery parse_url env b c p = Some (inr r, p') -> Http.status r = 200 ->
  exists cid, resp_field "processId" r = JStr ("channel:" ++ cid ++ ":" ++ pretty (cc_now c)) /\
              is_Some (getStatus ("channel:" ++ cid ++ ":" ++ pretty (cc_now c)) p').
Proof.
  unfold channel_body. intros E H200.
  destruct (js_truthy _); simpl in E; [|injection E as <- _; discriminate].
  destruct (env_missing _ _); simpl in E; [injection E as <- _; discriminate|].
  destruct (extract_channel _ _) as [r'|cid] eqn:Ex;
    [injection E as <- _; by rewrite (extract_channel_400 _ _ _ Ex) in H200|].
  unfold js_bind at 1 in E.
  destruct (processChannel _ _ _ _ _ _ p) as [[[e|pid] p1]|] eqn:Ep; [done| |done].
  apply processChannel_returns_pid in Ep as [-> Hs].
  unfold js_bind, js_of_sum in E. destruct (read "monitor" _) as [e|mon]; [done|].
  exists (to_string num cid). destruct (js_truthy mon).
  - destruct (startMonitoring _ _ p1) as [[[e|[]] p2]|] eqn:Es; [done| |done].
    unfold js_ret in E. injection E as <- <-. split; [done|].
    exact (startMonitoring_has_run _ _ _ _ _ _ Es Hs).
  - unfold js_ret in E. injection E as <- <-. by split.
Qed.

(** the status route never finds a run of the channel route: a
    [processId] the channel route answers with 200 is a run its own
    processor records, but the status route asks a second processor,
    created apart in [youtube/status.ts], and answers 404 for it. *)
Theorem channel_run_unknown_to_status_route env req c p r p' idx iso :
  channelRoute num createDocuments embedQuery parse_url env req c p = Some (inr r, p') -> Http.status r = 200 ->
  exists pid, resp_field "processId" r = JStr pid /\ is_Some (getStatus pid p') /\
    statusRoute (status_processor idx) iso {| method := "GET"; query := [("processId", JStr pid)]; body := JUndef |}
    = error_response 404 "Process not found".
Proof.
  unfold channelRoute. intros E H200.
  destruct (String.eqb (method req) "POST"); simpl in E; [|injection E as <- _; discriminate].
  unfold js_catch in E.
  match type of E with match ?X with _ => _ end = _ => destruct X as [[[e|r'] p1]|] eqn:E1 end;
    [injection E as <- _; discriminate|injection E as <- <-|done].
  assert (Hb : exists b, channel_body num createDocuments embedQuery parse_url env b c p = Some (inr r', p1)).
  { destruct (body req); simpl in E1; try discriminate; eexists; exact E1. }
  destruct Hb as [b Hb]. destruct (channel_body_200 _ _ _ _ _ _ Hb H200) as (cid & Hr & Hs).
  eexists. split_and!; [exact Hr|exact Hs|reflexivity].
Qed.

End Props.

(** ** Witnesses *)

Lemma channel_run_unknown_to_status_route_witness :
  exists pid, resp_field "processId" ex_resp = JStr pid /\ is_Some (getStatus pid ex_state) /\
    statusRoute (status_processor []) "2024-01-01T00:00:00Z" {| method := "GET"; query := [("processId", JStr pid)]; body := JUndef |}
    = error_response 404 "Process not found".
Proof.
  apply (channel_run_unknown_to_status_route ex_num ex_split ex_embed ex_parse ex_env
           (ex_post "https://www.youtube.com/channel/UC1") ex_calls (channel_processor []) ex_resp ex_state);
    vm_compute; reflexivity.
Defined.

Lemma channelRoute_handle_url_refused_witness :
  channelRoute ex_num ex_split ex_embed ex_parse ex_env (ex_post "https://www.youtube.com/@mkbhd") ex_calls
    (channel_processor []) =
  Some (inr (error_response 400 "Invalid channel URL: missing username"), channel_processor []).
Proof.
  apply (channelRoute_handle_url_refused ex_num ex_split ex_embed ex_parse _ _ _ _
           [("channelUrl", JStr "https://www.youtube.com/@mkbhd")] "https://www.youtube.com/@mkbhd"
           "www.youtube.com" "mkbhd"); try reflexivity; [by left|].
  vm_compute. intros H. repeat (apply elem_of_cons in H as [H|H]; [discriminate|]). by apply not_elem_of_nil in H.
Defined.

End ChannelRoutes.
