(* ===== verification/VectorStorage.v ===== *)
(** * VectorStorage: [EnhancedVectorStorage] and [DevelopmentContextManager]

    [src/src/utils/vectorStorage.ts] stores texts in the Pinecone index
    with the categories [analyzeContent] finds ([addDocument]), and
    searches it with filters on those categories ([semanticSearch],
    [getSimilarContent], [getContentStats]).
    [src/src/utils/developmentContext.ts] stores development notes
    through it ([storeContext]) and searches them ([queryContext],
    [getRelatedContexts]).

    The index is the [Store] of [Http]; a record keeps its metadata (the
    vector values are not modelled).  The embeddings, the outcomes of
    [index.upsert] and [index.query], the similarity scores, [Date.now()]
    and the nine characters [Math.random().toString(36).substr(2, 9)]
    are oracles; the matches of a query are constrained by
    [query_matches].  The dictionaries of [analyzeContent] are Section
    variables, as in [Correction]. *)

From S2P Require Import Prelude Http Text JsNum Correction.
From Stdlib Require Import QArith.

Module VectorStorage.

Import Http Text JsNum Correction.

Local Open Scope Z_scope.
Local Open Scope js_scope.
Local Open Scope string_scope.

(** ** [EnhancedVectorStorage] (vectorStorage.ts, lines 21-187) *)

Record EnhancedVectorStorage := {
  namespace : string;
  index : string;
}.

(** [process.env[k] || d]. *)
Definition env_or (env : Env) (k d : string) : string :=
  match env_get env k with Some v => if truthy v then v else d | None => d end.

(** The constructor (lines 27-35); the clients are not state. *)
Definition new_EnhancedVectorStorage (env : Env) : EnhancedVectorStorage :=
  {| namespace := env_or env "PINECONE_NAMESPACE" "default";
     index := env_or env "PINECONE_INDEX" "" |}.

(** [contentAnalysis.confidence], as [JSON.stringify] sends it. *)
Definition confidence_json (a : ContentAnalysis) : jv :=
  JObj [("platform", num_json (conf_platform a)); ("contentType", num_json (conf_contentType a));
        ("format", num_json (conf_format a))].

(** [enhancedMetadata] (lines 57-63). *)
Definition enhanced_metadata (md : Metadata) (a : ContentAnalysis) : Metadata :=
  spread md [("platform", JStr (platform a)); ("contentType", JStr (contentType a));
             ("format", JStr (format a)); ("confidence", confidence_json a)].

(** The id of line 69. *)
Definition vector_id (now : Z) (rnd : string) : string := pretty now ++ "-" ++ rnd.

(** The filters of [semanticSearch] (lines 80-85). *)
Record SearchFilters := {
  f_platform : option (list string);
  f_contentType : option (list string);
  f_format : option (list string);
  f_sourceType : option (list string);
}.

(** [filterConditions] (lines 92-104): a [$in] condition per filter given. *)
Definition in_conditions (f : SearchFilters) : list (string * list string) :=
  (match f_platform f with Some l => [("platform", l)] | None => [] end) ++
  (match f_contentType f with Some l => [("contentType", l)] | None => [] end) ++
  (match f_format f with Some l => [("format", l)] | None => [] end) ++
  (match f_sourceType f with Some l => [("sourceType", l)] | None => [] end).

(** The filter Pinecone applies: every [$in] condition holds; no
    condition at all is the [undefined] filter of line 112. *)
Definition in_filter (conds : list (string * list string)) (md : Metadata) : bool :=
  forallb (fun kl => match get kl.1 md with JStr s => bool_decide (s ∈ kl.2) | _ => false end) conds.

(** Pinecone's [$eq], on the scalar values it compares. *)
Definition scalar_eqb (a b : jv) : bool :=
  match a, b with
  | JStr s, JStr t => String.eqb s t
  | JNum p, JNum q => Qeq_bool p q
  | JBool x, JBool y => Bool.eqb x y
  | _, _ => false
  end.

(** [{ k: { $eq: v } }] conditions of [getSimilarContent]. *)
Definition eq_filter (conds : list (string * jv)) (md : Metadata) : bool :=
  forallb (fun kv => scalar_eqb (get kv.1 md) kv.2) conds.

(** [match.metadata]: the queries do not ask for [includeMetadata], so
    a match has none and the field is [undefined]. *)
Definition match_metadata (m : Match) : jv :=
  match m.2 with Some md => JObj md | None => JUndef end.

Section Storage.

Variables youtubeTerms twitterTerms tiktokTerms instagramTerms : Dict.
Variables contentTypes contentFormats : list (string * Dict).
(** [embeddings.embedQuery(text)]: a rejection, or the vector. *)
Variable embedQuery : string -> outcome (list Q).
(** The similarity score of a match. *)
Variable score : string -> Q.
(** [index.query({ queryRequest: { vector, topK, namespace, filter } })]
    on the store: a rejection, or the matches. *)
Variable pquery : Store -> string -> (Metadata -> bool) -> Z -> outcome (list Match).

Definition result_of (m : Match) : jv :=
  JObj [("score", JNum (score m.1)); ("metadata", match_metadata m)].

(** [addDocument] (lines 44-76); [up] is the outcome of [index.upsert]. *)
Definition addDocument (vs : EnhancedVectorStorage) (text : string) (md : Metadata)
    (now : Z) (rnd : string) (up : outcome unit) : js Store unit :=
  let contentAnalysis := analyzeContent youtubeTerms twitterTerms tiktokTerms instagramTerms
                           contentTypes contentFormats text in
  let! _ := js_of_sum (embedQuery text) in
  let enhancedMetadata := enhanced_metadata md contentAnalysis in
  let! _ := js_of_sum up in
  js_modify (ns_update (namespace vs) (upsert [(vector_id now rnd, enhancedMetadata)])).

(** [semanticSearch] (lines 78-120). *)
Definition semanticSearch (vs : EnhancedVectorStorage) (query : string) (filters : SearchFilters)
    (topK : Z) : js Store (list jv) :=
  let! _ := js_of_sum (embedQuery query) in
  let! st := js_get in
  let! ms := js_of_sum (pquery st (namespace vs) (in_filter (in_conditions filters)) topK) in
  js_ret (map result_of ms).

(** [getContentStats] (lines 122-134); [d] is the outcome of
    [index.describeIndexStats]. *)
Definition getContentStats (vs : EnhancedVectorStorage) (d : outcome unit) : js Store jv :=
  let! _ := js_of_sum d in
  let! st := js_get in
  js_ret (JObj [("totalVectors", jint (Z.of_nat (sum_list (map (fun ni => length ni.2) st))));
                ("namespaceVectors", jint (Z.of_nat (length (ns_index st (namespace vs)))))]).

Record SimilarOptions := {
  samePlatform : bool;
  sameContentType : bool;
  sameFormat : bool;
  o_topK : option Z;
}.

(** [filterConditions] of lines 161-170. *)
Definition eq_conditions (o : SimilarOptions) (md : Metadata) : list (string * jv) :=
  (if samePlatform o && js_truthy (get "platform" md) then [("platform", get "platform" md)] else []) ++
  (if sameContentType o && js_truthy (get "contentType" md) then [("contentType", get "contentType" md)] else []) ++
  (if sameFormat o && js_truthy (get "format" md) then [("format", get "format" md)] else []).

(** [getSimilarContent] (lines 136-186): [index.fetch] reads the record. *)
Definition getSimilarContent (vs : EnhancedVectorStorage) (documentId : string) (o : SimilarOptions)
  : js Store (list jv) :=
  let! st := js_get in
  match assoc_get documentId (ns_index st (namespace vs)) with
  | None => js_throw "Original document not found"
  | Some md =>
    let! ms := js_of_sum (pquery st (namespace vs) (eq_filter (eq_conditions o md)) (js_or (o_topK o) 5)) in
    js_ret (map result_of (filter (fun m => m.1 <> documentId) ms))
  end.

End Storage.

(** ** [DevelopmentContextManager] (developmentContext.ts) *)

(** [DevelopmentContext] (lines 4-12). *)
Record DevelopmentContext := {
  timestamp : string;
  section : string;
  description : string;
  codeChanges : option (list string);
  dependencies : option (list string);
  nextSteps : option (list string);
  challenges : option (list string);
}.

Record DevelopmentContextManager := {
  vectorStorage : EnhancedVectorStorage;
  dcm_namespace : string;
}.

(** The constructor (lines 14-20): the field [namespace] is set and
    never read. *)
Definition new_DevelopmentContextManager (env : Env) : DevelopmentContextManager :=
  {| vectorStorage := new_EnhancedVectorStorage env; dcm_namespace := "development_context" |}.

(** [${l ? `label\n${l.join('\n')}` : ''}]. *)
Definition list_part (label : string) (l : option (list string)) : string :=
  match l with Some xs => label ++ nl ++ String.concat nl xs | None => "" end.

(** [textContent] (lines 27-35). *)
Definition textContent (c : DevelopmentContext) : string :=
  nl ++ "      Section: " ++ section c ++ nl ++
  "      Timestamp: " ++ timestamp c ++ nl ++
  "      Description: " ++ description c ++ nl ++
  "      " ++ list_part "Code Changes:" (codeChanges c) ++ nl ++
  "      " ++ list_part "Dependencies:" (dependencies c) ++ nl ++
  "      " ++ list_part "Next Steps:" (nextSteps c) ++ nl ++
  "      " ++ list_part "Challenges:" (challenges c) ++ nl ++ "    ".

(** The metadata of lines 37-42. *)
Definition context_metadata (c : DevelopmentContext) : Metadata :=
  [("sourceType", JStr "development_context"); ("title", JStr ("Development Context - " ++ section c));
   ("timestamp", JStr (timestamp c)); ("section", JStr (section c))].

Definition dev_filters : SearchFilters :=
  {| f_platform := None; f_contentType := None; f_format := None; f_sourceType := Some ["development_context"] |}.

Section Manager.

Variables youtubeTerms twitterTerms tiktokTerms instagramTerms : Dict.
Variables contentTypes contentFormats : list (string * Dict).
Variable embedQuery : string -> outcome (list Q).
Variable score : string -> Q.
Variable pquery : Store -> string -> (Metadata -> bool) -> Z -> outcome (list Match).

(** [storeContext] (lines 26-43). *)
Definition storeContext (m : DevelopmentContextManager) (c : DevelopmentContext) (now : Z) (rnd : string)
    (up : outcome unit) : js Store unit :=
  addDocument youtubeTerms twitterTerms tiktokTerms instagramTerms contentTypes contentFormats embedQuery
    (vectorStorage m) (textContent c) (context_metadata c) now rnd up.

(** [queryContext] (lines 45-51). *)
Definition queryContext (m : DevelopmentContextManager) (sec : string) (topK : Z) : js Store (list jv) :=
  semanticSearch embedQuery score pquery (vectorStorage m) ("Development context for section: " ++ sec)
    dev_filters topK.

(** [getRelatedContexts] (lines 53-59). *)
Definition getRelatedContexts (m : DevelopmentContextManager) (currentContext : string) (topK : Z)
  : js Store (list jv) :=
  semanticSearch embedQuery score pquery (vectorStorage m) currentContext dev_filters topK.

End Manager.

(** The default namespace [""] of a store is as it was. *)
Definition keeps_default (st st' : Store) : Prop := ns_index st' "" = ns_index st "".

(** A metadata value Pinecone accepts: a string, a number, a boolean or
    a list of strings. *)
Definition pinecone_value_ok (v : jv) : bool :=
  match v with
  | JStr _ | JNum _ | JBool _ => true
  | JArr l => forallb (fun x => match x with JStr _ => true | _ => false end) l
  | _ => false
  end.

(** ** Examples *)

Definition ex_ctx : DevelopmentContext :=
  {| timestamp := "2024-05-01T10:00:00Z"; section := "auth"; description := "Login flow";
     codeChanges := Some ["api/login.ts"]; dependencies := None; nextSteps := None; challenges := None |}.

Definition ex_embed (s : string) : outcome (list Q) := inr [1; 0]%Q.

Definition ex_score (id : string) : Q := 1.

Definition ex_pquery (st : Store) (ns : string) (flt : Metadata -> bool) (k : Z) : outcome (list Match) :=
  inr (query_take (ns_index st ns) flt (Z.to_nat k) false).

Definition ex_store : Store :=
  [("default", [("doc1", [("platform", JStr "youtube")]); ("doc2", [("platform", JStr "youtube")]);
                ("doc3", [("platform", JStr "twitter")])])].

Definition ex_opts : SimilarOptions :=
  {| samePlatform := true; sameContentType := false; sameFormat := false; o_topK := Some 0 |}.

(** ** Lemmas *)

#[local] Instance keeps_default_refl : Reflexive keeps_default.
Proof. by intros st. Qed.

#[local] Instance keeps_default_trans : Transitive keeps_default.
Proof. intros a b c H1 H2. unfold keeps_default in *. congruence. Qed.

Lemma env_or_truthy env k d : truthy d = true -> truthy (env_or env k d) = true.
Proof. unfold env_or. destruct (env_get env k) as [v|]; [|done]. by destruct (truthy v) eqn:E. Qed.

(** The namespace of the storage is never the default namespace [""]. *)
Lemma namespace_not_default env : namespace (new_EnhancedVectorStorage env) <> "".
Proof. intros H. pose proof (env_or_truthy env "PINECONE_NAMESPACE" "default" eq_refl) as T. simpl in H. by rewrite H in T. Qed.

Lemma ns_index_upsert_one st ns id md :
  (id, md) ∈ ns_index (ns_update ns (upsert [(id, md)]) st) ns.
Proof. rewrite ns_index_update_eq. apply assoc_get_Some_elem. apply assoc_get_set_eq. Qed.

(** The results of a search carry no metadata. *)
Lemma results_no_metadata score ms :
  Forall (fun m : Match => m.2 = None) ms ->
  Forall (fun r => field "metadata" r = Some JUndef) (map (result_of score) ms).
Proof.
  intros H. apply Forall_fmap. eapply Forall_impl; [exact H|]. intros m Hm. simpl.
  unfold match_metadata. by rewrite Hm.
Qed.

Section Props.

Variables youtubeTerms twitterTerms tiktokTerms instagramTerms : Dict.
Variables contentTypes contentFormats : list (string * Dict).
Variable embedQuery : string -> outcome (list Q).
Variable score : string -> Q.
Variable pquery : Store -> string -> (Metadata -> bool) -> Z -> outcome (list Match).


(** [addDocument] never touches the default namespace [""]: the
    storage writes to [PINECONE_NAMESPACE || 'default'], which is never
    [""], so whatever the embeddings and the upsert do, the namespace
    that [/api/documents/list] and [/api/documents/[id]] read is as it
    was. *)
Theorem addDocument_keeps_default_namespace env text md now rnd up :
  js_rel keeps_default
    (addDocument youtubeTerms twitterTerms tiktokTerms instagramTerms contentTypes contentFormats embedQuery
       (new_EnhancedVectorStorage env) text md now rnd up).
Proof.
  unfold addDocument. repeat (js_rel_split || intros).
  apply js_rel_modify. intros st. unfold keeps_default.
  apply ns_index_update_ne, namespace_not_default.
Qed.

(** [addDocument] sends Pinecone metadata it rejects: the record it
    upserts has the field [confidence], an object, where Pinecone
    accepts only strings, numbers, booleans and lists of strings; so
    every [addDocument], and every [storeContext], fails against the
    real service. *)
Theorem addDocument_metadata_nested vs text md now rnd st st' :
  addDocument youtubeTerms twitterTerms tiktokTerms instagramTerms contentTypes contentFormats embedQuery
    vs text md now rnd (inr tt) st = Some (inr tt, st') ->
  exists md', assoc_get (vector_id now rnd) (ns_index st' (namespace vs)) = Some md' /\
              get "confidence" md' = confidence_json (analyzeContent youtubeTerms twitterTerms tiktokTerms
                                       instagramTerms contentTypes contentFormats text) /\
              forallb (fun kv => pinecone_value_ok kv.2) md' = false.
Proof.
  unfold addDocument. js_unfold. destruct (embedQuery text); [discriminate|]. intros [= <-].
  rewrite ns_index_update_eq. unfold upsert. cbn [fold_left fst snd].
  eexists. split; [apply assoc_get_set_eq|].
  assert (Hc : assoc_get "confidence" (enhanced_metadata md (analyzeContent youtubeTerms twitterTerms tiktokTerms
                 instagramTerms contentTypes contentFormats text)) = Some (confidence_json (analyzeContent
                 youtubeTerms twitterTerms tiktokTerms instagramTerms contentTypes contentFormats text)))
    by apply assoc_get_set_eq.
  unfold get. rewrite Hc. split; [done|].
  apply assoc_get_Some_elem in Hc. apply not_true_iff_false. rewrite forallb_forall. intros Hall.
  apply list_elem_of_In, Hall in Hc. discriminate.
Qed.

(** [getSimilarContent] answers at most [options.topK || 5]
    results (so [topK: 0] asks for 5), reads the store without changing
    it, and every result has [metadata] [undefined]; a document missing
    from the namespace is refused with [Original document not found]. *)
Theorem getSimilarContent_bounds vs documentId o st r st' :
  (forall flt k ms, pquery st (namespace vs) flt k = inr ms ->
                    query_matches (ns_index st (namespace vs)) flt (Z.to_nat k) false ms) ->
  getSimilarContent score pquery vs documentId o st = Some (r, st') ->
  st' = st /\
  match r with
  | inl e => assoc_get documentId (ns_index st (namespace vs)) = None /\ e = "Original document not found" \/
             assoc_get documentId (ns_index st (namespace vs)) <> None
  | inr res => (length res <= Z.to_nat (js_or (o_topK o) 5))%nat /\
               Forall (fun x => field "metadata" x = Some JUndef) res
  end.
Proof.
  intros Hq. unfold getSimilarContent. js_unfold.
  destruct (assoc_get documentId _) as [md|] eqn:E; [|intros [= <- <-]; split; [done|by left]].
  destruct (pquery _ _ _ _) as [e|ms] eqn:Ep; intros [= <- <-]; split; try done; [by right|].
  pose proof (Hq _ _ _ Ep) as Hm. split.
  - rewrite length_map. etrans; [apply length_filter|]. destruct Hm as (_ & _ & ->). lia.
  - apply results_no_metadata, Forall_filter_weaken. by eapply query_matches_no_metadata.
Qed.

End Props.

(** ** Witnesses *)

Lemma ex_pquery_matches st ns :
  NoDup (map fst (ns_index st ns)) ->
  forall flt k ms, ex_pquery st ns flt k = inr ms -> query_matches (ns_index st ns) flt (Z.to_nat k) false ms.
Proof. intros Hnd flt k ms [= <-]. by apply query_take_matches. Qed.


Lemma addDocument_metadata_nested_witness :
  exists st',
    addDocument [] [] [] [] [] [] ex_embed (new_EnhancedVectorStorage []) "Hello world" [("sourceType", JStr "text")]
      0 "abc" (inr tt) [] = Some (inr tt, st') /\
    exists md', assoc_get (vector_id 0 "abc") (ns_index st' "default") = Some md' /\
                get "confidence" md' = confidence_json (analyzeContent [] [] [] [] [] [] "Hello world") /\
                forallb (fun kv => pinecone_value_ok kv.2) md' = false.
Proof.
  destruct (addDocument [] [] [] [] [] [] ex_embed (new_EnhancedVectorStorage []) "Hello world"
              [("sourceType", JStr "text")] 0 "abc" (inr tt) []) as [[[e|[]] st']|] eqn:E;
    [vm_compute in E; discriminate| |vm_compute in E; discriminate].
  exists st'. split; [reflexivity|].
  exact (addDocument_metadata_nested [] [] [] [] [] [] ex_embed _ _ _ _ _ _ _ E).
Defined.

Lemma getSimilarContent_bounds_witness :
  (forall flt k ms, ex_pquery ex_store "default" flt k = inr ms ->
                    query_matches (ns_index ex_store "default") flt (Z.to_nat k) false ms) /\
  exists r st',
    getSimilarContent ex_score ex_pquery (new_EnhancedVectorStorage []) "doc1" ex_opts ex_store = Some (r, st') /\
    st' = ex_store /\
    match r with
    | inl e => assoc_get "doc1" (ns_index ex_store "default") = None /\ e = "Original document not found" \/
               assoc_get "doc1" (ns_index ex_store "default") <> None
    | inr res => (length res <= Z.to_nat (js_or (o_topK ex_opts) 5))%nat /\
                 Forall (fun x => field "metadata" x = Some JUndef) res
    end.
Proof.
  assert (Hq := ex_pquery_matches ex_store "default" ltac:(apply (bool_decide_unpack _); by vm_compute)).
  split; [exact Hq|].
  destruct (getSimilarContent ex_score ex_pquery (new_EnhancedVectorStorage []) "doc1" ex_opts ex_store)
    as [[r st']|] eqn:E; [|vm_compute in E; discriminate].
  exists r, st'. split; [reflexivity|].
  exact (getSimilarContent_bounds ex_score ex_pquery (new_EnhancedVectorStorage []) "doc1" ex_opts ex_store r st' Hq E).
Defined.

End VectorStorage.
