(* ===== verification/ChatClient.v ===== *)
(** * ChatClient: the two chat pages and the question-answering route

    [src/src/pages/api/config-status.ts] carries, after its handler, the
    pages of the application.  Two of them talk to [/api/langchain]:
    - the [Chat] component of the home page (lines 215-282) keeps the
      question-answer pairs in [chatHistory] and sends them with each
      question;
    - the chat page (lines 1126-1236) rebuilds [chat_history] from its
      messages on each question.
    A submission is one transition of the page's state: the form is
    disabled while [loading], so submissions do not overlap.  The
    request goes to [Uploads.langchainQA], and [axios.post] rejects a
    status outside 2xx.  [Date.now()] is an argument. *)

From S2P Require Import Prelude Http Regex Uploads.
From Stdlib Require Import QArith.

Module ChatClient.

Import Http Regex Uploads.

Local Open Scope Z_scope.
Local Open Scope string_scope.

(** [interface Message]. *)
Record Message := {
  id : Z;
  sender : string;
  content : jv;
}.

(** [axios.post(url, body)]: [response.data], or the rejection of a
    status outside 2xx. *)
Definition axios_post (r : Response) : outcome jv :=
  if ((200 <=? Http.status r) && (Http.status r <? 300))%Z then inr (json_wire (default JUndef (payload r)))
  else inl ("Request failed with status code " ++ pretty (Http.status r)).

(** The request [axios.post] sends with a JSON body. *)
Definition post (b : jv) : Request := {| method := "POST"; query := []; body := json_wire b |}.

Section Pages.

Variable num : Q -> string.
Variable not_iterable : jv -> string.
Variable env : Env.
(** The chain of the route: the answer to a question and a history. *)
Variable chain : jv -> string -> Err + (jv * option (list Metadata)).

(** The route, seen through [axios.post('/api/langchain', b)]. *)
Definition ask (b : jv) : outcome jv := axios_post (langchainQA num not_iterable (post b) env chain).

(** ** The home page's [Chat] (lines 215-282) *)

Record HomeChat := {
  h_messages : list Message;
  h_input : string;
  h_chatHistory : list (string * jv);
  h_isConfigured : bool;
  h_loading : bool;
}.

Definition history_json (h : list (string * jv)) : jv := JArr (map (fun qa => JArr [JStr qa.1; qa.2]) h).

(** [handleSubmit] (lines 248-281); [now1] and [now2] are the two
    readings of [Date.now()]. *)
Definition home_submit (now1 now2 : Z) (s : HomeChat) : HomeChat :=
  if negb (truthy (trim (h_input s))) || negb (h_isConfigured s) then s else
  let currentInput := h_input s in
  let s1 := {| h_messages := (h_messages s ++ [{| id := now1; sender := "User"; content := JStr currentInput |}])%list;
               h_input := ""; h_chatHistory := h_chatHistory s; h_isConfigured := h_isConfigured s;
               h_loading := true |} in
  let s2 :=
    match ask (JObj [("question", JStr currentInput); ("chat_history", history_json (h_chatHistory s))]) with
    | inr data =>
      match field "answer" data with
      | Some answer =>
        {| h_messages := (h_messages s1 ++ [{| id := now2; sender := "System"; content := answer |}])%list;
           h_input := h_input s1; h_chatHistory := (h_chatHistory s1 ++ [(currentInput, answer)])%list;
           h_isConfigured := h_isConfigured s1; h_loading := true |}
      | None => s1
      end
    | inl _ => s1
    end in
  {| h_messages := h_messages s2; h_input := h_input s2; h_chatHistory := h_chatHistory s2;
     h_isConfigured := h_isConfigured s2; h_loading := false |}.

(** ** The chat page (lines 1126-1236) *)

Record PageChat := {
  p_messages : list Message;
  p_newMessage : string;
  p_loading : bool;
}.

(** [messages.map(m => [user ? content : '', assistant ? content : ''])
    .filter(pair => pair[0] && pair[1])] (lines 1147-1149). *)
Definition page_history (ms : list Message) : list (jv * jv) :=
  filter (fun p => js_truthy p.1 && js_truthy p.2 = true)
    (map (fun m => (if String.eqb (sender m) "user" then content m else JStr "",
                    if String.eqb (sender m) "assistant" then content m else JStr "")) ms).

Definition pairs_json (h : list (jv * jv)) : jv := JArr (map (fun p => JArr [p.1; p.2]) h).

(** [handleSubmit] (lines 1131-1165): [messages] is the list of the
    render, read by the closure. *)
Definition page_submit (s : PageChat) : PageChat :=
  if negb (truthy (trim (p_newMessage s))) then s else
  let messages := p_messages s in
  let userMessage := {| id := Z.of_nat (length messages); sender := "user"; content := JStr (trim (p_newMessage s)) |} in
  let ms1 := (messages ++ [userMessage])%list in
  let ms2 :=
    match ask (JObj [("question", content userMessage); ("chat_history", pairs_json (page_history messages))]) with
    | inr data =>
      match field "answer" data with
      | Some answer => (ms1 ++ [{| id := (Z.of_nat (length messages) + 1)%Z; sender := "assistant";
                                   content := answer |}])%list
      | None => removelast ms1
      end
    | inl _ => removelast ms1
    end in
  {| p_messages := ms2; p_newMessage := ""; p_loading := false |}.

(** The events of the chat page: typing in the input, and submitting. *)
Inductive page_event := PType (m : string) | PSubmit.

Definition page_step (e : page_event) (s : PageChat) : PageChat :=
  match e with
  | PType m => {| p_messages := p_messages s; p_newMessage := m; p_loading := p_loading s |}
  | PSubmit => page_submit s
  end.

(** An element of an array after [JSON.stringify]. *)
Definition wire_elem (v : jv) : jv := match json_wire v with JUndef => JNull | y => y end.

(** The history the route formats from the home page's pairs. *)
Definition home_history_text (h : list (string * jv)) : string :=
  String.concat (String (Ascii.ascii_of_nat 10) EmptyString)
    (map (fun qa => "Human: " ++ qa.1 ++ String (Ascii.ascii_of_nat 10) EmptyString ++
                    "Assistant: " ++ to_string num (wire_elem qa.2)) h).

(** The messages of the chat page are complete exchanges, a question
    of the user then an answer, each with its position as id. *)
Definition page_wf (s : PageChat) : Prop :=
  Nat.even (length (p_messages s)) = true /\
  forall i m, p_messages s !! i = Some m ->
    id m = Z.of_nat i /\ sender m = if Nat.even i then "user" else "assistant".

Definition env_ready (e : Env) : bool :=
  negb (env_missing e "OPENAI_API_KEY" || env_missing e "PINECONE_API_KEY" || env_missing e "PINECONE_INDEX").

Definition page_init : PageChat := {| p_messages := []; p_newMessage := ""; p_loading := false |}.

Inductive page_reachable : PageChat -> Prop :=
  | page_reach_init : page_reachable page_init
  | page_reach_step e s : page_reachable s -> page_reachable (page_step e s).

End Pages.

(** ** Examples *)

Definition ex_num (q : Q) : string := "0".
Definition ex_not_iterable (v : jv) : string := "pair is not iterable".
Definition ex_env : Env := [("OPENAI_API_KEY", "sk-1"); ("PINECONE_API_KEY", "pk"); ("PINECONE_INDEX", "docs")].
(** An answer that tells whether the chain saw a history. *)
Definition ex_chain (q : jv) (h : string) : Err + (jv * option (list Metadata)) :=
  inr (JStr (if String.eqb h "" then "no history" else "with history"), None).

Definition ex_page : PageChat :=
  {| p_messages := [{| id := 0; sender := "user"; content := JStr "hello" |};
                    {| id := 1; sender := "assistant"; content := JStr "hi" |}];
     p_newMessage := " and then? "; p_loading := false |}.

Definition ex_home : HomeChat :=
  {| h_messages := []; h_input := "what next"; h_chatHistory := [("hello", JStr "hi")];
     h_isConfigured := true; h_loading := false |}.

(** ** Lemmas *)

Lemma is_defined_json_wire v : is_defined (json_wire v) = is_defined v.
Proof. by destruct v. Qed.

(** The chat page's pairs have [''] on one side, so none is kept. *)
Lemma page_history_nil ms : page_history ms = [].
Proof.
  unfold page_history. induction ms as [|m ms IH]; [done|]. cbn [map]. rewrite filter_cons_False; [done|].
  cbn [fst snd]. destruct (String.eqb (sender m) "user") eqn:E; [|done].
  apply String.eqb_eq in E. rewrite E. simpl. by rewrite andb_false_r.
Qed.

Lemma page_submit_cases num not_iterable env chain s :
  p_messages (page_submit num not_iterable env chain s) = p_messages s \/
  exists q a, p_messages (page_submit num not_iterable env chain s) =
              (p_messages s ++ [{| id := Z.of_nat (length (p_messages s)); sender := "user"; content := q |};
                                {| id := Z.of_nat (length (p_messages s)) + 1; sender := "assistant"; content := a |}])%list.
Proof.
  unfold page_submit. destruct (negb _); [by left|].
  destruct (ask _ _ _ _ _) as [e|data]; [left; apply removelast_last|].
  destruct (field "answer" data) as [a|]; [right; do 2 eexists; simpl; by rewrite <- app_assoc|left; apply removelast_last].
Qed.

Lemma page_wf_extend ms q a :
  page_wf {| p_messages := ms; p_newMessage := ""; p_loading := false |} ->
  forall s', p_messages s' = (ms ++ [{| id := Z.of_nat (length ms); sender := "user"; content := q |};
                                     {| id := Z.of_nat (length ms) + 1; sender := "assistant"; content := a |}])%list ->
  page_wf s'.
Proof.
  intros [Hev Hall] s' E. unfold page_wf. rewrite E. simpl in Hev, Hall. split.
  - rewrite length_app. simpl. rewrite Nat.add_comm. simpl. done.
  - intros i m [Hi|[Hi Hm]]%lookup_app_Some; [by apply Hall|].
    destruct (i - length ms)%nat as [|[|k]] eqn:Ei; simpl in Hm; try discriminate; injection Hm as <-; simpl;
      (assert (i = length ms + 0 \/ i = length ms + 1)%nat as [->| ->] by lia); try lia;
      rewrite ?Nat.add_0_r; split; try lia; try (by rewrite Hev);
      by rewrite Nat.add_1_r, Nat.even_succ, <- Nat.negb_even, Hev.
Qed.

(** C34: In every reachable state of the chat page the messages are
    complete exchanges, a question of the user then an answer of the
    assistant, each with its position as id; a failed question is
    taken back. *)
Theorem reachable_page_wf num not_iterable env chain s :
  page_reachable num not_iterable env chain s -> page_wf s.
Proof.
  induction 1 as [|e s _ IH]; [split; [done|intros i m Hm; simpl in Hm; by rewrite lookup_nil in Hm]|].
  destruct e as [m|]; [exact IH|]. simpl.
  destruct (page_submit_cases num not_iterable env chain s) as [E|(q & a & E)].
  - destruct IH as [Hev Hall]. split; rewrite E; [done|exact Hall].
  - destruct s as [ms nm l]. eapply (page_wf_extend ms q a); [|exact E]. exact IH.
Qed.

Section Props.

Variable num : Q -> string.
Variable not_iterable : jv -> string.
Variable env : Env.
Variable chain : jv -> string -> Err + (jv * option (list Metadata)).
Hypothesis Henv : env_ready env = true.

(** A question the route answers, as the client receives it. *)
Lemma ask_answer q hs ls a srcs :
  truthy (trim q) = true ->
  mapM (history_line num) (map wire_elem hs) = Some ls ->
  chain (JStr q) (String.concat (String (Ascii.ascii_of_nat 10) EmptyString) ls) = inr (a, srcs) ->
  exists data, ask num not_iterable env chain (JObj [("question", JStr q); ("chat_history", JArr hs)]) = inr data /\
               field "answer" data = Some (json_wire a).
Proof.
  intros Hq Hh Hc. unfold env_ready in Henv. apply negb_true_iff in Henv.
  unfold ask, post, langchainQA. cbn [json_wire method body map filter is_defined fst snd].
  rewrite Henv. simpl. rewrite Hq. simpl. fold (wire_elem). rewrite Hh, Hc.
  eexists. split; [reflexivity|]. by destruct a, srcs.
Qed.

(** C17: The chat page never sends its conversation: whatever messages
    it holds, a question [m] is asked with an empty history (the chain
    gets [""]), and the page appends the question and the chain's
    answer to its messages. *)
Theorem page_submit_sends_no_history s a srcs :
  truthy (trim (p_newMessage s)) = true ->
  chain (JStr (trim (p_newMessage s))) "" = inr (a, srcs) ->
  p_messages (page_submit num not_iterable env chain s) =
    (p_messages s ++ [{| id := Z.of_nat (length (p_messages s)); sender := "user";
                         content := JStr (trim (p_newMessage s)) |};
                      {| id := Z.of_nat (length (p_messages s)) + 1; sender := "assistant";
                         content := json_wire a |}])%list.
Proof.
  intros Ht Hc. unfold page_submit. rewrite Ht. simpl negb. cbv iota. rewrite page_history_nil. unfold pairs_json. cbn [map content].
  destruct (ask_answer (trim (p_newMessage s)) [] [] a srcs ltac:(by rewrite trim_idem) eq_refl Hc)
    as (data & -> & ->).
  simpl. by rewrite <- app_assoc.
Qed.

Lemma mapM_home_history h :
  mapM (history_line num) (map wire_elem (map (fun qa => JArr [JStr qa.1; qa.2]) h)) =
  Some (map (fun qa => "Human: " ++ qa.1 ++ String (Ascii.ascii_of_nat 10) EmptyString ++
                       "Assistant: " ++ to_string num (wire_elem qa.2)) h).
Proof. induction h as [|qa h IH]; [done|]. simpl. by rewrite IH. Qed.

(** C18: The home page's chat keeps its conversation: a question is
    asked with every earlier question-answer pair, formatted by the
    route as [Human: q / Assistant: a] lines, and its answer is
    appended to [chatHistory] and to the messages. *)
Theorem home_submit_sends_history now1 now2 s a srcs :
  truthy (trim (h_input s)) = true -> h_isConfigured s = true ->
  chain (JStr (h_input s)) (home_history_text num (h_chatHistory s)) = inr (a, srcs) ->
  h_chatHistory (home_submit num not_iterable env chain now1 now2 s) =
    (h_chatHistory s ++ [(h_input s, json_wire a)])%list /\
  h_messages (home_submit num not_iterable env chain now1 now2 s) =
    (h_messages s ++ [{| id := now1; sender := "User"; content := JStr (h_input s) |};
                      {| id := now2; sender := "System"; content := json_wire a |}])%list.
Proof.
  intros Ht Hcf Hc. unfold home_submit. rewrite Ht, Hcf. simpl negb. cbv iota.
  destruct (ask_answer (h_input s) _ _ a srcs Ht (mapM_home_history (h_chatHistory s)) Hc) as (data & E & F).
  unfold history_json. rewrite E, F. simpl. by rewrite <- app_assoc.
Qed.

End Props.

(** ** Witnesses *)

Lemma reachable_page_wf_witness :
  page_reachable ex_num ex_not_iterable ex_env ex_chain
    (page_step ex_num ex_not_iterable ex_env ex_chain PSubmit
       (page_step ex_num ex_not_iterable ex_env ex_chain (PType "hello") (page_init))) /\
  page_wf (page_step ex_num ex_not_iterable ex_env ex_chain PSubmit
             (page_step ex_num ex_not_iterable ex_env ex_chain (PType "hello") (page_init))).
Proof.
  assert (H : page_reachable ex_num ex_not_iterable ex_env ex_chain
                (page_step ex_num ex_not_iterable ex_env ex_chain PSubmit
                   (page_step ex_num ex_not_iterable ex_env ex_chain (PType "hello") (page_init))))
    by (repeat constructor).
  split; [exact H|]. exact (reachable_page_wf _ _ _ _ _ H).
Defined.

Lemma page_submit_sends_no_history_witness :
  env_ready ex_env = true /\ truthy (trim (p_newMessage ex_page)) = true /\
  ex_chain (JStr (trim (p_newMessage ex_page))) "" = inr (JStr "no history", None) /\
  p_messages (page_submit ex_num ex_not_iterable ex_env ex_chain ex_page) =
    (p_messages ex_page ++ [{| id := Z.of_nat (length (p_messages ex_page)); sender := "user";
                               content := JStr (trim (p_newMessage ex_page)) |};
                            {| id := Z.of_nat (length (p_messages ex_page)) + 1; sender := "assistant";
                               content := json_wire (JStr "no history") |}])%list.
Proof.
  split; [reflexivity|]. split; [reflexivity|]. split; [reflexivity|].
  exact (page_submit_sends_no_history ex_num ex_not_iterable ex_env ex_chain eq_refl ex_page _ _ eq_refl eq_refl).
Defined.

Lemma home_submit_sends_history_witness :
  env_ready ex_env = true /\ truthy (trim (h_input ex_home)) = true /\ h_isConfigured ex_home = true /\
  ex_chain (JStr (h_input ex_home)) (home_history_text ex_num (h_chatHistory ex_home)) =
    inr (JStr "with history", None) /\
  h_chatHistory (home_submit ex_num ex_not_iterable ex_env ex_chain 10 11 ex_home) =
    (h_chatHistory ex_home ++ [(h_input ex_home, json_wire (JStr "with history"))])%list /\
  h_messages (home_submit ex_num ex_not_iterable ex_env ex_chain 10 11 ex_home) =
    (h_messages ex_home ++ [{| id := 10; sender := "User"; content := JStr (h_input ex_home) |};
                            {| id := 11; sender := "System"; content := json_wire (JStr "with history") |}])%list.
Proof.
  do 4 (split; [reflexivity|]).
  exact (home_submit_sends_history ex_num ex_not_iterable ex_env ex_chain eq_refl 10 11 ex_home _ _
           eq_refl eq_refl eq_refl).
Defined.

End ChatClient.
