(* ===== verification/Library.v ===== *)
(** * Library: the library page, its upload dialog and the document routes

    [src/src/pages/api/config-status.ts] carries the library page
    [Library] (lines 376-538): it fetches [/api/documents], filters the
    documents by a search query and a type, uploads through
    [UploadModal] ([src/src/components/UploadModal.tsx], lines 33-97)
    to [/api/upload], and deletes through [/api/documents/[id]].

    Each handler is one transition of the page's state, composed with
    the routes of [Documents] over the [Store] of [Http]: [fetch] gives
    the response's status and its JSON body ([json_wire]).  The page
    has no [/api/upload] route to call: [src/src/pages/api/upload] holds
    [text.ts] and [url.ts] and no index, so Next.js answers 404.  The
    toasts of the page and of the dialog go to one log, [toasts], as
    [(success, message)].  [new Date().toISOString()] is an argument;
    [JSON.stringify] of an error body is an oracle. *)

From S2P Require Import Prelude Http Regex Documents.
From Stdlib Require Import QArith.

Module Library.

Import Http Regex Documents.

Local Open Scope Z_scope.
Local Open Scope string_scope.

(** [response.ok]. *)
Definition ok (r : Response) : bool := ((200 <=? Http.status r) && (Http.status r <? 300))%Z.

(** [await response.json()]. *)
Definition json_body (r : Response) : jv := json_wire (default JUndef (payload r)).

(** The request [fetch(url, { method })] makes. *)
Definition request (m : string) (q : list (string * jv)) : Request := {| method := m; query := q; body := JUndef |}.

(** [POST /api/upload] with a body: no file of [pages/api] serves the
    path. *)
Definition upload_route (body : jv) : Response := respond_end 404.

(** The fields of an object, as [{ ...doc }] spreads them (the route's
    documents are objects). *)
Definition fields_of (v : jv) : list (string * jv) := match v with JObj fs => fs | _ => [] end.

(** [{ ...doc, createdAt: doc.dateAdded || iso, chunks: doc.chunks || 0 }]
    (lines 422-426 and 471-475). *)
Definition format_doc (iso : string) (d : jv) : jv :=
  JObj (spread (fields_of d) [("createdAt", jor (get "dateAdded" (fields_of d)) (JStr iso));
                              ("chunks", jor (get "chunks" (fields_of d)) (jint 0))]).

(** [data.map(format)]; [inl] is the [TypeError] on a body that is not
    an array. *)
Definition format_docs (iso : string) (data : jv) : outcome (list jv) :=
  match data with
  | JArr l => inr (map (format_doc iso) l)
  | _ => inl "data.map is not a function"
  end.

(** [v === t] for a string [t]. *)
Definition is_str (v : jv) (t : string) : bool := match v with JStr s => String.eqb s t | _ => false end.

(** [v.toLowerCase().includes(q)] on a required field: the [TypeError]
    of a value that is not a string. *)
Definition includes_field (v : jv) (q : string) : outcome bool :=
  match v with
  | JStr s => inr (includes (lower s) q)
  | JUndef => inl "Cannot read properties of undefined (reading 'toLowerCase')"
  | JNull => inl "Cannot read properties of null (reading 'toLowerCase')"
  | _ => inl "toLowerCase is not a function"
  end.

(** [v?.toLowerCase().includes(q)]: an absent value gives [undefined]. *)
Definition includes_opt (v : jv) (q : string) : outcome bool :=
  match v with
  | JUndef | JNull => inr false
  | _ => includes_field v q
  end.

(** [l.filter(p)] with a predicate that may throw. *)
Fixpoint filter_js {A} (p : A -> outcome bool) (l : list A) : outcome (list A) :=
  match l with
  | [] => inr []
  | x :: l' =>
    match p x with
    | inl e => inl e
    | inr b => match filter_js p l' with inl e => inl e | inr r => inr (if b then x :: r else r) end
    end
  end.

(** The search predicate of lines 448-451. *)
Definition search_pred (query : string) (doc : jv) : outcome bool :=
  match includes_field (get "title" (fields_of doc)) query with
  | inl e => inl e
  | inr true => inr true
  | inr false => includes_opt (get "description" (fields_of doc)) query
  end.

(** The filter effect (lines 441-459); [inl] is the error thrown by
    the effect. *)
Definition filterDocuments (documents : list jv) (searchQuery typeFilter : string) : outcome (list jv) :=
  match (if truthy searchQuery then filter_js (search_pred (lower searchQuery)) documents else inr documents) with
  | inl e => inl e
  | inr filtered =>
    inr (if String.eqb typeFilter "all" then filtered
         else filter (fun doc => is_str (get "type" (fields_of doc)) typeFilter = true) filtered)
  end.

(** A reference for the filter: one pass over the documents, with the
    search and the type tested together.  A field that is not a string
    matches no query. *)
Definition str_includes (v : jv) (q : string) : bool :=
  match v with JStr s => includes (lower s) q | _ => false end.

Definition doc_matches (searchQuery typeFilter : string) (doc : jv) : bool :=
  (negb (truthy searchQuery)
   || str_includes (get "title" (fields_of doc)) (lower searchQuery)
   || str_includes (get "description" (fields_of doc)) (lower searchQuery))
  && (String.eqb typeFilter "all" || is_str (get "type" (fields_of doc)) typeFilter).

(** The documents the filter's fields fit: a string title, and a
    string description or none. *)
Definition doc_typed (doc : jv) : bool :=
  match get "title" (fields_of doc), get "description" (fields_of doc) with
  | JStr _, (JStr _ | JUndef | JNull) => true
  | _, _ => false
  end.

(** The page's state. *)
Record LibraryState := {
  documents : list jv;
  filteredDocuments : list jv;
  l_error : string;
  l_loading : bool;
  searchQuery : string;
  typeFilter : string;
  toasts : list (bool * string);
  isConfigured : bool;
  (** [router.push(url)]. *)
  l_redirect : option string;
}.

(** The [useState] initial values (lines 379-384). *)
Definition init_library : LibraryState :=
  {| documents := []; filteredDocuments := []; l_error := ""; l_loading := true;
     searchQuery := ""; typeFilter := "all"; toasts := []; isConfigured := false; l_redirect := None |}.

Definition set_documents (ds : list jv) (s : LibraryState) : LibraryState :=
  {| documents := ds; filteredDocuments := filteredDocuments s; l_error := l_error s; l_loading := l_loading s;
     searchQuery := searchQuery s; typeFilter := typeFilter s; toasts := toasts s;
     isConfigured := isConfigured s; l_redirect := l_redirect s |}.

Definition set_filtered (ds : list jv) (s : LibraryState) : LibraryState :=
  {| documents := documents s; filteredDocuments := ds; l_error := l_error s; l_loading := l_loading s;
     searchQuery := searchQuery s; typeFilter := typeFilter s; toasts := toasts s;
     isConfigured := isConfigured s; l_redirect := l_redirect s |}.

Definition set_error (e : string) (s : LibraryState) : LibraryState :=
  {| documents := documents s; filteredDocuments := filteredDocuments s; l_error := e; l_loading := l_loading s;
     searchQuery := searchQuery s; typeFilter := typeFilter s; toasts := toasts s;
     isConfigured := isConfigured s; l_redirect := l_redirect s |}.

Definition set_loading (b : bool) (s : LibraryState) : LibraryState :=
  {| documents := documents s; filteredDocuments := filteredDocuments s; l_error := l_error s; l_loading := b;
     searchQuery := searchQuery s; typeFilter := typeFilter s; toasts := toasts s;
     isConfigured := isConfigured s; l_redirect := l_redirect s |}.

Definition toast (ok : bool) (m : string) (s : LibraryState) : LibraryState :=
  {| documents := documents s; filteredDocuments := filteredDocuments s; l_error := l_error s;
     l_loading := l_loading s; searchQuery := searchQuery s; typeFilter := typeFilter s;
     toasts := (toasts s ++ [(ok, m)])%list;
     isConfigured := isConfigured s; l_redirect := l_redirect s |}.

Definition set_search (q : string) (s : LibraryState) : LibraryState :=
  {| documents := documents s; filteredDocuments := filteredDocuments s; l_error := l_error s;
     l_loading := l_loading s; searchQuery := q; typeFilter := typeFilter s; toasts := toasts s;
     isConfigured := isConfigured s; l_redirect := l_redirect s |}.

(** [setTypeFilter] (line 1067). *)
Definition set_type (t : string) (s : LibraryState) : LibraryState :=
  {| documents := documents s; filteredDocuments := filteredDocuments s; l_error := l_error s;
     l_loading := l_loading s; searchQuery := searchQuery s; typeFilter := t; toasts := toasts s;
     isConfigured := isConfigured s; l_redirect := l_redirect s |}.

(** [setIsConfigured(data.configured)], kept by its truthiness, which
    is all the page reads of it, and [router.push('/setup')]. *)
Definition set_configured (b : bool) (r : option string) (s : LibraryState) : LibraryState :=
  {| documents := documents s; filteredDocuments := filteredDocuments s; l_error := l_error s;
     l_loading := l_loading s; searchQuery := searchQuery s; typeFilter := typeFilter s; toasts := toasts s;
     isConfigured := b; l_redirect := r |}.

(** The configuration check of lines 390-406: [response.json()] throws
    on a body that is not JSON and [data.configured] on [null]. *)
Definition checkConfiguration (r : Err + Response) (s : LibraryState) : LibraryState :=
  let fail := set_error "Failed to check configuration status" s in
  match r with
  | inr resp =>
    match payload resp with
    | Some b =>
      match field "configured" (json_wire b) with
      | Some c => if js_truthy c then set_configured true (l_redirect s) s
                  else set_configured false (Some "/setup") s
      | None => fail
      end
    | None => fail
    end
  | inl _ => fail
  end.

(** The filter effect, run after [documents], [searchQuery] or
    [typeFilter] change; [inl] is the crash of the page. *)
Definition refilter (s : LibraryState) : outcome LibraryState :=
  match filterDocuments (documents s) (searchQuery s) (typeFilter s) with
  | inl e => inl e
  | inr f => inr (set_filtered f s)
  end.

Section Routes.

(** [new Date().toISOString()], read by the route and by the page. *)
Variable iso : string.
(** [JSON.stringify] of a body, the text of a failed response. *)
Variable stringify : jv -> string.

(** [fetchDocuments] (lines 405-431), given the response of
    [GET /api/documents]. *)
Definition fetchDocuments (r : Response) (s : LibraryState) : LibraryState :=
  set_loading false
    (if negb (ok r)
     then set_error ("Failed to fetch documents: " ++ "Failed to fetch documents: " ++ stringify (default JUndef (payload r))) s
     else match format_docs iso (json_body r) with
          | inl e => set_error ("Failed to fetch documents: " ++ e) s
          | inr ds => set_filtered ds (set_documents ds s)
          end).

(** [handleUpload] (lines 462-486): [data] is posted to
    [/api/upload]; [docs] answers the [GET /api/documents] that
    refreshes the list. *)
Definition handleUpload (data : jv) (docs : Response) (s : LibraryState) : LibraryState :=
  let up := upload_route data in
  if negb (ok up) then toast false "Failed to upload document" s
  else match format_docs iso (json_body docs) with
       | inl _ => toast false "Failed to upload document" s
       | inr ds => toast true "Document uploaded successfully!" (set_documents ds s)
       end.

(** [handleDelete] (lines 489-505) with [DELETE /api/documents/[id]];
    [del] is the outcome of [index.deleteOne]. *)
Definition handleDelete (id : string) (del : Err + unit) (st : Store) (s : LibraryState)
  : LibraryState * Store :=
  let '(r, st') := documentDelete (request "DELETE" [("id", JStr id)]) del st in
  if negb (ok r) then (toast false "Failed to delete document" s, st')
  else (toast true "Document deleted successfully!"
          (set_documents (filter (fun doc => is_str (get "id" (fields_of doc)) id = false) (documents s)) s),
        st').

(** The effect of lines 409-448, run on the first render and whenever
    [isConfigured] changes; [docs] answers its [GET /api/documents]. *)
Definition configuredEffect (docs : Response) (s : LibraryState) : LibraryState :=
  if isConfigured s then fetchDocuments docs s else set_loading false s.

(** The answer [r] of the configuration check, with the effect it
    triggers when it changes [isConfigured]. *)
Definition config_checked (r : Err + Response) (docs : Response) (s : LibraryState) : LibraryState :=
  let s1 := checkConfiguration r s in
  if Bool.eqb (isConfigured s1) (isConfigured s) then s1 else configuredEffect docs s1.

End Routes.

(** ** [UploadModal] (UploadModal.tsx, lines 33-97) *)

Record Modal := {
  tabValue : Z;
  url : string;
  text : string;
  textTitle : string;
  (** [file]: its name and [await file.text()]. *)
  file : option (string * string);
  m_open : bool;
}.

(** The dialog's [useState] initial values (lines 34-38). *)
Definition init_modal (o : bool) : Modal :=
  {| tabValue := 0; url := ""; text := ""; textTitle := ""; file := None; m_open := o |}.

(** [handleTabChange] (lines 41-43). *)
Definition handleTabChange (newValue : Z) (m : Modal) : Modal :=
  {| tabValue := newValue; url := url m; text := text m; textTitle := textTitle m; file := file m; m_open := m_open m |}.

(** [handleFileChange] (lines 45-49): the first selected file, if any. *)
Definition handleFileChange (files : list (string * string)) (m : Modal) : Modal :=
  match files with
  | f :: _ => {| tabValue := tabValue m; url := url m; text := text m; textTitle := textTitle m; file := Some f; m_open := m_open m |}
  | [] => m
  end.

(** The [onUpload] argument of lines 55-83, as [{ type, content, title }]. *)
Definition upload_data (ty content : string) (title : option string) : jv :=
  JObj ([("type", JStr ty); ("content", JStr content)] ++
        match title with Some t => [("title", JStr t)] | None => [] end)%list.

(** The validation of lines 55-83: the data for [onUpload] ([None]
    for a tab the [switch] has no case for), or the message of the
    toast that stops the submission. *)
Definition modal_data (m : Modal) : string + option jv :=
  if (tabValue m =? 0)%Z then
    match file m with
    | None => inl "Please select a file to upload"
    | Some (name, content) => inr (Some (upload_data "file" content (Some name)))
    end
  else if (tabValue m =? 1)%Z then
    if negb (truthy (url m)) then inl "Please enter a YouTube URL" else inr (Some (upload_data "url" (url m) None))
  else if (tabValue m =? 2)%Z then
    if negb (truthy (text m)) then inl "Please enter some text"
    else if negb (truthy (textTitle m)) then inl "Please enter a title for your text"
    else inr (Some (upload_data "text" (text m) (Some (textTitle m))))
  else inr None.

(** The dialog with the page around it. *)
Record Page := {
  lib : LibraryState;
  modal : Modal;
}.

Definition reset_modal (m : Modal) : Modal :=
  {| tabValue := tabValue m; url := ""; text := ""; textTitle := ""; file := None; m_open := false |}.

(** [handleSubmit] of the dialog, whose [onUpload] is the page's
    [handleUpload]: that handler catches its own errors, so the dialog
    goes on to reset, close and announce success. *)
Definition modal_submit (iso : string) (docs : Response) (p : Page) : Page :=
  match modal_data (modal p) with
  | inl msg => {| lib := toast false msg (lib p); modal := modal p |}
  | inr data =>
    let l := match data with Some d => handleUpload iso d docs (lib p) | None => lib p end in
    {| lib := toast true "Content uploaded successfully!" l; modal := reset_modal (modal p) |}
  end.

(** ** Examples *)

Definition ex_lib : LibraryState := init_library.

(** The default namespace of [ex_store] once [a-1] is deleted. *)
Definition ex_after_delete : list Match := [("a-2", Some [("text", JStr "beta")])].

Definition ex_docs : list jv :=
  [JObj [("title", JStr "Alpha notes"); ("type", JStr "text_upload")];
   JObj [("title", JStr "Beta"); ("description", JStr "about ALPHA")];
   JObj [("title", JStr "Gamma")]].

Definition ex_numeric : list Match := [("k", Some [("title", jint 7)])].

Definition ex_text_page : Page :=
  {| lib := ex_lib;
     modal := {| tabValue := 2; url := ""; text := "hello"; textTitle := "Notes"; file := None; m_open := true |} |}.

(** ** Lemmas *)

Lemma get_format_doc iso d k :
  k <> "createdAt" -> k <> "chunks" -> get k (fields_of (format_doc iso d)) = get k (fields_of d).
Proof. intros H1 H2. unfold format_doc, spread, get. cbn [fold_left fst snd fields_of]. by rewrite !assoc_get_set_ne. Qed.

Lemma Forall_filter_self {X} (P : X -> Prop) `{!forall x, Decision (P x)} (l : list X) :
  Forall P (filter P l).
Proof. induction l as [|x l IH]; [constructor|]. rewrite filter_cons. case_decide; [constructor|]; auto. Qed.

(** The documents a fetch of [GET /api/documents] gives the page: one
    per match, with the match's id. *)
Lemma fetch_documents iso stringify ms s :
  NoDup (map fst ms) ->
  documents (fetchDocuments iso stringify (documentsIndex (request "GET" []) iso (inr ms)) s) =
  map (fun m => format_doc iso (match json_wire (index_document iso m).2 with JUndef => JNull | y => y end)) ms.
Proof.
  intros Hnd. unfold fetchDocuments, documentsIndex. cbn [method request negb String.eqb].
  rewrite js_map_of_NoDup by (by rewrite List.map_map). simpl. by rewrite !List.map_map.
Qed.

Lemma filter_js_total {A} (p : A -> outcome bool) (f : A -> bool) (l : list A) :
  Forall (fun x => p x = inr (f x)) l -> filter_js p l = inr (filter (fun x => f x = true) l).
Proof.
  induction 1 as [|x l Hx _ IH]; [done|]. cbn [filter_js]. rewrite Hx, IH.
  destruct (f x) eqn:E; [rewrite filter_cons_True by done|rewrite filter_cons_False by congruence]; done.
Qed.

(** A predicate that throws on one element makes the whole filter throw. *)
Lemma filter_js_throws {A} (p : A -> outcome bool) (l : list A) x e :
  In x l -> p x = inl e -> exists e', filter_js p l = inl e'.
Proof.
  induction l as [|y l IH]; intros Hx Hp; [done|]. cbn [filter_js].
  destruct Hx as [->|Hx]; [rewrite Hp; eauto|].
  destruct (p y); [eauto|]. destruct (IH Hx Hp) as [e' ->]. eauto.
Qed.

Lemma filter_all {A} (P : A -> Prop) `{!forall x, Decision (P x)} (l : list A) :
  (forall x, P x) -> filter P l = l.
Proof. intros HP. induction l as [|x l IH]; [done|]. by rewrite filter_cons_True, IH. Qed.

(** On a typed document the search predicate answers the reference's
    search test. *)
Lemma search_pred_typed q d :
  doc_typed d = true ->
  search_pred q d = inr (str_includes (get "title" (fields_of d)) q || str_includes (get "description" (fields_of d)) q).
Proof.
  unfold doc_typed, search_pred, includes_opt, includes_field, str_includes.
  destruct (get "title" _), (get "description" _); try discriminate; intros _;
    by destruct (includes _ _).
Qed.

(** C16: The filter effect is the one-pass reference filter
    [doc_matches] on documents whose title is a string and whose
    description is a string or absent: the search (case-insensitive,
    on the title or the description) and the type filter keep exactly
    the documents that pass both. *)
Theorem filterDocuments_spec docs q tf :
  Forall (fun d => doc_typed d = true) docs ->
  filterDocuments docs q tf = inr (filter (fun d => doc_matches q tf d = true) docs).
Proof.
  intros Hall. unfold filterDocuments.
  assert (Hs : (if truthy q then filter_js (search_pred (lower q)) docs else inr docs) =
     inr (filter (fun d => (negb (truthy q) || str_includes (get "title" (fields_of d)) (lower q)
                            || str_includes (get "description" (fields_of d)) (lower q)) = true) docs)).
  { destruct (truthy q).
    - apply filter_js_total. eapply Forall_impl; [exact Hall|]. intros d Hd. by rewrite search_pred_typed.
    - symmetry. f_equal. by apply filter_all. }
  rewrite Hs. f_equal. unfold doc_matches. destruct (String.eqb tf "all").
  - apply list_filter_iff. intros d. by rewrite andb_true_r.
  - rewrite list_filter_filter. apply list_filter_iff. intros d. rewrite andb_true_iff. tauto.
Qed.

Section Props.

Variable iso : string.
Variable stringify : jv -> string.


(** C28: A stored record whose [title] is a non-zero number crashes the
    library page: after the documents are fetched from
    [GET /api/documents], any non-empty search makes the filter effect
    throw ([doc.title.toLowerCase] is not a function). *)
Theorem search_crashes_on_numeric_title ms s k md n q :
  NoDup (map fst ms) -> In (k, Some md) ms ->
  get "title" md = JNum n -> js_truthy (JNum n) = true -> truthy q = true ->
  exists e, refilter (set_search q (fetchDocuments iso stringify (documentsIndex (request "GET" []) iso (inr ms)) s)) = inl e.
Proof.
  intros Hnd Hin Ht Hn Hq. unfold refilter, filterDocuments. cbn [documents searchQuery set_search].
  rewrite fetch_documents by exact Hnd. rewrite Hq.
  edestruct (filter_js_throws (search_pred (lower q))
    (map (fun m => format_doc iso (match json_wire (index_document iso m).2 with JUndef => JNull | y => y end)) ms)
    (format_doc iso (match json_wire (index_document iso (k, Some md)).2 with JUndef => JNull | y => y end)))
    as [e He].
  - apply in_map_iff. eexists. split; [reflexivity|exact Hin].
  - unfold search_pred. rewrite get_format_doc by discriminate.
    unfold index_document. cbn [fst snd default from_option id]. rewrite Ht. unfold jor. rewrite Hn. reflexivity.
  - rewrite He. eauto.
Qed.

End Props.



(** ** Witnesses *)


Lemma filterDocuments_spec_witness :
  filterDocuments ex_docs "ALPHA" "all" = inr (filter (fun d => doc_matches "ALPHA" "all" d = true) ex_docs).
Proof. apply filterDocuments_spec. apply (bool_decide_unpack _). vm_compute. reflexivity. Defined.

Lemma search_crashes_on_numeric_title_witness :
  exists e, refilter (set_search "a" (fetchDocuments "now" (fun _ => "")
                                       (documentsIndex (request "GET" []) "now" (inr ex_numeric)) ex_lib)) = inl e.
Proof.
  apply (search_crashes_on_numeric_title "now" (fun _ => "") ex_numeric ex_lib "k" [("title", jint 7)] (inject_Z 7));
    try reflexivity.
  - apply (bool_decide_unpack _). vm_compute. reflexivity.
  - left. reflexivity.
Defined.


End Library.
