(* ===== verification/DocumentList.v ===== *)
(** * DocumentList: the cards of the library page

    [src/src/components/DocumentList.tsx] renders one card per document
    of its [documents] prop: a thumbnail for YouTube documents, the
    type icon, the title, the description, chips for the type, the
    duration, the first category and (with [showTechnicalDetails]) the
    chunks and the content format, the processing bar, the error alert,
    the date, and the Chat and Delete buttons.  The model is the card's
    content as a [Card] and the list as a [dl_view]; [doc.type.toUpperCase()]
    and [getContentTypeLabel] throw on a value that is not a string, so
    a render is an [outcome].  [formatDate] catches its own errors and
    depends on the locale: it is an oracle [fmt].  React renders a
    falsy [0] of [{doc.duration && ..}]; the model keeps only whether
    the chip is shown.  The library page of [config-status.ts]
    (lines 1079-1099) composes the list with [Library]. *)

From S2P Require Import Prelude Http Regex Documents Library.

Module DocumentList.

Import Http Regex Documents Library.

Local Open Scope string_scope.

(** [toUpperCase] on a Latin-1 code unit: the ASCII small letters and
    the Latin-1 small letters from 224 to 254 but the sign 247.  The
    three Latin-1 letters whose capital lies outside Latin-1 ([µ], [ß],
    [ÿ]) are kept as they are. *)
Definition to_upper (c : Ascii.ascii) : Ascii.ascii :=
  if ((97 <=? Ascii.nat_of_ascii c) && (Ascii.nat_of_ascii c <=? 122))%nat
     || ((224 <=? Ascii.nat_of_ascii c) && (Ascii.nat_of_ascii c <=? 254) && negb (Ascii.nat_of_ascii c =? 247))%nat
  then Ascii.ascii_of_nat (Ascii.nat_of_ascii c - 32) else c.

Definition upper (s : string) : string := String.string_of_list_ascii (map to_upper (String.list_ascii_of_string s)).

(** [v.toUpperCase()] on a field of a document. *)
Definition upper_case (v : jv) : outcome string :=
  match v with
  | JStr s => inr (upper s)
  | JUndef => inl "Cannot read properties of undefined (reading 'toUpperCase')"
  | JNull => inl "Cannot read properties of null (reading 'toUpperCase')"
  | _ => inl "toUpperCase is not a function"
  end.

(** [getContentTypeLabel] (lines 64-67):
    [contentType.split('/').pop()?.toUpperCase() || contentType]. *)
Definition getContentTypeLabel (contentType : jv) : outcome jv :=
  if negb (js_truthy contentType) then inr (JStr "")
  else match contentType with
       | JStr s =>
         let l := match last (split (RS "/") s) with Some x => upper x | None => "" end in
         inr (if truthy l then JStr l else JStr s)
       | _ => inl "contentType.split is not a function"
       end.

Inductive icon := IYouTube | IDescription.

(** [getTypeIcon] (lines 41-48): no icon for another type. *)
Definition getTypeIcon (type : jv) : option icon :=
  match type with
  | JStr "youtube" => Some IYouTube
  | JStr "document" => Some IDescription
  | _ => None
  end.

(** [doc.categories && doc.categories.length > 0] and [categories[0]]. *)
Definition first_category (v : jv) : option jv :=
  match v with
  | JArr (x :: _) => Some x
  | JStr (String c _) => Some (JStr (String c EmptyString))
  | _ => None
  end.

Definition shown (v : jv) : option jv := if js_truthy v then Some v else None.

(** The content of one card (lines 104-266). *)
Record Card := {
  card_key : jv;
  card_thumbnail : option jv;
  card_icon : option icon;
  card_title : jv;
  card_description : option jv;
  card_type : string;
  card_duration : option jv;
  card_category : option jv;
  card_chunks : option jv;
  card_content_type : option jv;
  card_processing : bool;
  card_error : option jv;
  card_date : string;
  card_chat : bool;
  card_delete : bool;
}.

Section Render.

(** [formatDate]. *)
Variable fmt : jv -> string.

Definition card_of (onChat onDelete showTechnicalDetails : bool) (doc : jv) : outcome Card :=
  let f k := get k (fields_of doc) in
  match upper_case (f "type") with
  | inl e => inl e
  | inr ty =>
    match (if showTechnicalDetails then
             match getContentTypeLabel (f "contentType") with
             | inl e => inl e
             | inr l => inr (if js_truthy (f "contentType") then Some l else None)
             end
           else inr None) with
    | inl e => inl e
    | inr ct =>
      inr {| card_key := f "id";
             card_thumbnail := if is_str (f "type") "youtube" then shown (f "thumbnailUrl") else None;
             card_icon := getTypeIcon (f "type");
             card_title := f "title";
             card_description := shown (f "description");
             card_type := ty;
             card_duration := shown (f "duration");
             card_category := first_category (f "categories");
             card_chunks := if showTechnicalDetails then shown (f "chunks") else None;
             card_content_type := ct;
             card_processing := is_str (f "status") "processing";
             card_error := if is_str (f "status") "error" then shown (f "error") else None;
             card_date := fmt (f "createdAt");
             card_chat := onChat && is_str (f "status") "completed";
             card_delete := onDelete |}
    end
  end.

(** [l.map(f)] with an [f] that may throw. *)
Fixpoint map_js {A B} (f : A -> outcome B) (l : list A) : outcome (list B) :=
  match l with
  | [] => inr []
  | x :: l' => match f x with
               | inl e => inl e
               | inr y => match map_js f l' with inl e => inl e | inr ys => inr (y :: ys) end
               end
  end.

Inductive dl_view := DLSkeletons | DLEmpty | DLCards (cs : list Card).

(** [DocumentList] (lines 34-270). *)
Definition documentList (documents : list jv) (onChat onDelete showTechnicalDetails isLoading : bool)
  : outcome dl_view :=
  if isLoading then inr DLSkeletons
  else match documents with
       | [] => inr DLEmpty
       | _ => match map_js (card_of onChat onDelete showTechnicalDetails) documents with
              | inl e => inl e
              | inr cs => inr (DLCards cs)
              end
       end.

Inductive library_view := LSpinner | LNoDocuments | LList (v : dl_view).

(** The library page (config-status.ts): a [CircularProgress] until
    the configuration is confirmed (lines 1007-1009), then the list part
    (lines 1079-1099): [DocumentList] with [handleDelete] and
    [handleChat]. *)
Definition library_view_of (s : LibraryState) : outcome library_view :=
  if negb (isConfigured s) || l_loading s then inr LSpinner
  else match filteredDocuments s with
       | [] => inr LNoDocuments
       | ds => match documentList ds true true false false with inl e => inl e | inr v => inr (LList v) end
       end.

End Render.

(** A [source] the documents route turns into a string [type]: a string,
    or a falsy value that gives ["unknown"]. *)
Definition source_ok (v : jv) : bool := match v with JStr _ => true | _ => negb (js_truthy v) end.

(** ** Lemmas *)

Lemma assoc_get_map_snd {V W} (f : V -> W) k (l : list (string * V)) :
  assoc_get k (map (fun kv => (kv.1, f kv.2)) l) = option_map f (assoc_get k l).
Proof. induction l as [|[k' v] l IH]; simpl; [done|]. by case_decide. Qed.

(** A field of an object once [JSON.stringify] and [response.json()]
    have been through it. *)
Lemma get_wire_some k v fs :
  assoc_get k fs = Some v -> is_defined (json_wire v) = true ->
  get k (fields_of (json_wire (JObj fs))) = json_wire v.
Proof.
  intros Hg Hd. unfold get. cbn [json_wire fields_of].
  erewrite (assoc_get_filter_val is_defined); [done| |exact Hd].
  by rewrite assoc_get_map_snd, Hg.
Qed.

Lemma get_wire_none k fs :
  assoc_get k fs = None -> get k (fields_of (json_wire (JObj fs))) = JUndef.
Proof.
  intros Hg. unfold get. cbn [json_wire fields_of].
  rewrite assoc_get_filter_None; [done|]. by rewrite assoc_get_map_snd, Hg.
Qed.

Lemma source_ok_type v : source_ok v = true -> exists t, jor v (JStr "unknown") = JStr t.
Proof. unfold source_ok, jor. intros H. destruct v; cbn in *; try discriminate; repeat case_match; simpl in *; try discriminate; eauto. Qed.

Lemma fetch_filtered iso stringify ms s :
  NoDup (map fst ms) ->
  filteredDocuments (fetchDocuments iso stringify (documentsIndex (request "GET" []) iso (inr ms)) s) =
  map (fun m => format_doc iso (match json_wire (index_document iso m).2 with JUndef => JNull | y => y end)) ms /\
  l_loading (fetchDocuments iso stringify (documentsIndex (request "GET" []) iso (inr ms)) s) = false.
Proof.
  intros Hnd. unfold fetchDocuments, documentsIndex. cbn [method request negb String.eqb].
  rewrite js_map_of_NoDup by (by rewrite List.map_map). simpl. by rewrite !List.map_map.
Qed.

Lemma fetchDocuments_configured iso stringify r s :
  isConfigured (fetchDocuments iso stringify r s) = isConfigured s.
Proof. unfold fetchDocuments. repeat case_match; reflexivity. Qed.

Lemma map_js_Forall {A B} (f : A -> outcome B) (P : B -> Prop) (l : list A) :
  Forall (fun x => exists y, f x = inr y /\ P y) l ->
  exists ys, map_js f l = inr ys /\ length ys = length l /\ Forall P ys.
Proof.
  induction 1 as [|x l (y & Hy & HP) _ (ys & Hys & Hl & HPs)]; [by exists []|].
  exists (y :: ys). cbn [map_js]. rewrite Hy, Hys. simpl. auto.
Qed.

Lemma wire_obj fs : match json_wire (JObj fs) with JUndef => JNull | y => y end = json_wire (JObj fs).
Proof. reflexivity. Qed.

(** The card of a document of [GET /api/documents]: it has no [status],
    so no Chat button. *)
Lemma card_of_index_document fmt iso m :
  source_ok (get "source" (default [] m.2)) = true ->
  exists c, card_of fmt true true false
              (format_doc iso (match json_wire (index_document iso m).2 with JUndef => JNull | y => y end)) = inr c /\
            card_chat c = false /\ card_delete c = true.
Proof.
  intros Hs. destruct (source_ok_type _ Hs) as [t Ht].
  unfold card_of, index_document. cbn [snd]. rewrite wire_obj.
  rewrite !get_format_doc by discriminate.
  rewrite (get_wire_some "type" (jor (get "source" (default [] m.2)) (JStr "unknown"))); [|reflexivity|by rewrite Ht]. rewrite Ht.
  rewrite (get_wire_none "status") by reflexivity. cbn. eauto.
Qed.

Lemma library_view_nonempty fmt s :
  isConfigured s = true -> l_loading s = false -> filteredDocuments s <> [] ->
  library_view_of fmt s =
  match map_js (card_of fmt true true false) (filteredDocuments s) with
  | inl e => inl e | inr cs => inr (LList (DLCards cs)) end.
Proof.
  intros Hc Hl Hne. unfold library_view_of, documentList. rewrite Hc, Hl.
  destruct (filteredDocuments s) as [|d ds]; [done|]. by destruct (map_js _ (d :: ds)).
Qed.

(** ** Properties *)

(** C25: The library page lists every document of [GET /api/documents]
    as a card with a Delete button and no Chat button: the route's
    documents have no [status] field, and the card shows Chat only for
    [status === 'completed'], so [handleChat] is unreachable.  The list
    renders without throwing when every stored [source] is a string or
    falsy. *)
Theorem library_cards_never_chat fmt iso stringify ms s :
  isConfigured s = true -> NoDup (map fst ms) -> ms <> [] ->
  Forall (fun m : Match => source_ok (get "source" (default [] m.2)) = true) ms ->
  exists cs, library_view_of fmt (fetchDocuments iso stringify (documentsIndex (request "GET" []) iso (inr ms)) s) =
               inr (LList (DLCards cs)) /\
             length cs = length ms /\ Forall (fun c => card_chat c = false /\ card_delete c = true) cs.
Proof.
  intros Hcf Hnd Hne Hall. destruct (fetch_filtered iso stringify ms s Hnd) as [Hf Hl].
  rewrite library_view_nonempty; [|by rewrite fetchDocuments_configured, Hcf|exact Hl|rewrite Hf; by destruct ms].
  rewrite Hf.
  destruct (map_js_Forall (card_of fmt true true false) (fun c => card_chat c = false /\ card_delete c = true)
              (map (fun m => format_doc iso (match json_wire (index_document iso m).2 with JUndef => JNull | y => y end)) ms))
    as (cs & -> & Hlen & HP).
  - apply Forall_fmap. eapply Forall_impl; [exact Hall|]. intros m Hm. cbn beta.
    destruct (card_of_index_document fmt iso m Hm) as (c & Hc & H1 & H2). eauto.
  - exists cs. rewrite Hlen, List.length_map. auto.
Qed.

(** A failed configuration check leaves the library page on its
    spinner: the check's catch sets [error], which the page shows only
    once [isConfigured] holds, and nothing else sets [isConfigured]. *)
Theorem failed_config_check_spins fmt iso stringify docs e :
  library_view_of fmt (config_checked iso stringify (inl e) docs (configuredEffect iso stringify docs init_library)) =
    inr LSpinner /\
  l_error (config_checked iso stringify (inl e) docs (configuredEffect iso stringify docs init_library)) =
    "Failed to check configuration status" /\
  l_redirect (config_checked iso stringify (inl e) docs (configuredEffect iso stringify docs init_library)) = None.
Proof. repeat split. Qed.

(** ** Witnesses *)

Lemma library_cards_never_chat_witness :
  exists cs, library_view_of (fun _ => "")
               (fetchDocuments "now" (fun _ => "") (documentsIndex (request "GET" []) "now" (inr ex_doc_matches))
                  (set_configured true None ex_lib)) =
               inr (LList (DLCards cs)) /\
             length cs = length ex_doc_matches /\ Forall (fun c => card_chat c = false /\ card_delete c = true) cs.
Proof.
  apply library_cards_never_chat.
  - reflexivity.
  - apply (bool_decide_unpack _). vm_compute. reflexivity.
  - discriminate.
  - apply (bool_decide_unpack _). vm_compute. reflexivity.
Defined.

End DocumentList.
