(* ===== verification/DocumentTypes.v ===== *)
(** * DocumentTypes: the document type the pages declare

    [DocumentMetadata] ([src/src/workers/textProcessing.ts], lines
    71-91, the module [types/documents] the Library page and
    [DocumentList] import) as a checkable type of [SystemStatus.ty], and
    what the documents the Library page keeps after a fetch of
    [GET /api/documents] ([Documents.documentsIndex], formatted by
    [Library.format_doc]) are of it. *)

From S2P Require Import Prelude Http Documents SystemStatus Library DocumentList.

Module DocumentTypes.

Import Http Documents SystemStatus Library DocumentList.

Local Open Scope string_scope.

(** [interface DocumentMetadata] (lines 71-91). *)
Definition DocumentMetadata_ty : ty :=
  TObj [("id", TStr); ("title", TStr); ("type", TLit ["youtube"; "document"]); ("url", TOpt TStr);
        ("createdAt", TStr); ("chunks", TOpt TNum); ("summary", TOpt TStr); ("duration", TOpt TStr);
        ("author", TOpt TStr); ("thumbnailUrl", TOpt TStr); ("categories", TOpt (TArr TStr));
        ("description", TOpt TStr); ("sourceType", TOpt TStr); ("contentType", TOpt TStr);
        ("status", TOpt (TLit ["processing"; "completed"; "error"])); ("error", TOpt TStr);
        ("metadata", TOpt TRecord)].

(** ** Examples *)

Definition ex_youtube_matches : list Match := [("v1", Some [("source", JStr "youtube"); ("text", JStr "hello")])].

(** ** Lemmas *)

Lemma has_type_field fts fs k t :
  has_type (TObj fts) (JObj fs) = true -> (k, t) ∈ fts -> has_type t (get k fs) = true.
Proof.
  induction fts as [|[k' t'] fts IH]; intros Hty Hin; [by apply elem_of_nil in Hin|].
  cbn in Hty. apply andb_prop in Hty as [H1 H2].
  apply elem_of_cons in Hin as [[= -> ->]|Hin]; [done|]. by apply IH.
Qed.

Lemma jor_defined a b : is_defined b = true -> is_defined (jor a b) = true.
Proof. unfold jor. intros Hb. destruct a; cbn; repeat case_match; done. Qed.

Lemma wire_defined v : is_defined v = true -> is_defined (json_wire v) = true.
Proof. by destruct v. Qed.

Lemma has_type_lit_wire ls v : has_type (TLit ls) (json_wire v) = true -> exists s, v = JStr s /\ s ∈ ls.
Proof. destruct v; cbn; try discriminate. intros H. apply bool_decide_eq_true in H. eauto. Qed.

(** The [type] of a document of [GET /api/documents] once the Library
    page has formatted it: the record's [source], or ["unknown"]. *)
Lemma format_index_type iso m :
  get "type" (fields_of (format_doc iso (match json_wire (index_document iso m).2 with JUndef => JNull | y => y end))) =
  json_wire (jor (get "source" (default [] m.2)) (JStr "unknown")).
Proof.
  rewrite get_format_doc by done. unfold index_document. cbv zeta. cbn [snd]. rewrite wire_obj.
  apply get_wire_some; [reflexivity|]. by apply wire_defined, jor_defined.
Qed.

(** ** Properties *)

(** The documents the Library page holds after fetching
    [/api/documents] have the declared type [DocumentMetadata] only when
    their record's [source] is "youtube" or "document": the route writes
    [type: metadata.source || 'unknown'], and the upload routes store
    the source "text_upload" or the file name, so no uploaded document
    is of the type the page declares. *)
Theorem library_documents_typed_only_youtube_or_document iso stringify ms s d :
  NoDup (map fst ms) ->
  d ∈ documents (fetchDocuments iso stringify (documentsIndex (request "GET" []) iso (inr ms)) s) ->
  has_type DocumentMetadata_ty d = true ->
  exists m, m ∈ ms /\ (get "source" (default [] m.2) = JStr "youtube" \/ get "source" (default [] m.2) = JStr "document").
Proof.
  intros Hnd Hd Hty. rewrite fetch_documents in Hd by done.
  apply list_elem_of_fmap in Hd as (m & -> & Hm). exists m. split; [done|].
  apply (has_type_field _ _ "type" (TLit ["youtube"; "document"])) in Hty; [|set_solver].
  change (get "type" _) with (get "type" (fields_of (format_doc iso
    (match json_wire (index_document iso m).2 with JUndef => JNull | y => y end)))) in Hty.
  rewrite format_index_type in Hty. apply has_type_lit_wire in Hty as (t & Ht & Hin).
  apply elem_of_cons in Hin as [->|Hin]; [|apply elem_of_cons in Hin as [->|Hin]; [|by apply elem_of_nil in Hin]];
    unfold jor in Ht; destruct (js_truthy (get "source" (default [] m.2))); try discriminate; auto.
Qed.

(** ** Witnesses *)

Lemma library_documents_typed_only_youtube_or_document_witness :
  exists m, m ∈ ex_youtube_matches /\
    (get "source" (default [] m.2) = JStr "youtube" \/ get "source" (default [] m.2) = JStr "document").
Proof.
  apply (library_documents_typed_only_youtube_or_document "2024-01-01T00:00:00.000Z" (fun _ => "")
           ex_youtube_matches ex_lib
           (format_doc "2024-01-01T00:00:00.000Z" (json_wire (index_document "2024-01-01T00:00:00.000Z"
              ("v1", Some [("source", JStr "youtube"); ("text", JStr "hello")])).2))).
  - vm_compute. repeat constructor; set_solver.
  - rewrite fetch_documents by (cbn; repeat constructor; set_solver). cbn [map]. left.
  - vm_compute. reflexivity.
Defined.

End DocumentTypes.
