(* ===== verification/SetupComplete.v ===== *)
(** * SetupComplete: the page that ends the setup

    [src/src/pages/setup/complete.tsx]: when it mounts, the page asks
    [/api/config-status] ([ApiConfig.configStatus]) whether the
    application is configured, and shows the next steps, or the route's
    message with a button back to [/setup].  Its state is [SCState]
    ([configStatus] and [error], lines 7-8); [checkConfig] (lines
    11-26) is one transition on the outcome of the [fetch]; [view] is
    what the page shows (lines 55-148). *)

From S2P Require Import Prelude Http ApiConfig Documents Library DocumentList.
From Stdlib Require Import QArith.

Module SetupComplete.

Import Http ApiConfig Library DocumentList.

Local Open Scope string_scope.

Inductive cstatus := Checking | Configured | CError.

Record SCState := {
  sc_status : cstatus;
  sc_error : jv;
}.

Definition init_sc : SCState := {| sc_status := Checking; sc_error := JStr "" |}.

(** The request of [fetch('/api/config-status')]. *)
Definition config_request : Request := {| method := "GET"; query := []; body := JUndef |}.

(** [checkConfig]: [response.json()] throws on a body that is not JSON
    and [data.configured] on [null]; the catch reports the failure. *)
Definition checkConfig (r : Err + Response) (s : SCState) : SCState :=
  let fail := {| sc_status := CError; sc_error := JStr "Failed to verify configuration" |} in
  match r with
  | inl _ => fail
  | inr resp =>
    match payload resp with
    | None => fail
    | Some b =>
      let data := json_wire b in
      match field "configured" data with
      | None => fail
      | Some c =>
        if js_truthy c then {| sc_status := Configured; sc_error := sc_error s |}
        else {| sc_status := CError; sc_error := default JUndef (field "message" data) |}
      end
    end
  end.

(** The heading, the text under it, and which of the three panels shows. *)
Record SCView := {
  v_title : string;
  v_message : string;
  v_spinner : bool;
  v_next_steps : bool;
  v_retry : option string;
}.

(** [num] is [Number.prototype.toString], for [`Error: ${error}`]. *)
Definition view (num : Q -> string) (s : SCState) : SCView :=
  match sc_status s with
  | Checking => {| v_title := "Verifying Setup..."; v_message := "Please wait while we verify your configuration...";
                   v_spinner := true; v_next_steps := false; v_retry := None |}
  | Configured => {| v_title := "Setup Complete!"; v_message := "Your Chat with YouTube application is ready to use!";
                     v_spinner := false; v_next_steps := true; v_retry := None |}
  | CError => {| v_title := "Setup Error"; v_message := "Error: " ++ to_string num (sc_error s);
                 v_spinner := false; v_next_steps := false; v_retry := Some (to_string num (sc_error s)) |}
  end.

(** ** Lemmas *)

(** Every answer of [/api/config-status] is an object with a boolean
    [configured] and a string [message]. *)
Lemma configStatus_shape req env o p y :
  exists fs b m, payload (configStatus req env o p y) = Some (JObj fs) /\
    assoc_get "configured" fs = Some (JBool b) /\ assoc_get "message" fs = Some (JStr m) /\
    m <> "Failed to verify configuration".
Proof.
  unfold configStatus. repeat case_match; simpl; do 3 eexists; (split; [reflexivity|]);
    (split; [reflexivity|]); (split; [reflexivity|discriminate]).
Qed.

(** ** Properties *)

(** C33: The page reports exactly what [/api/config-status] answers:
    it shows Setup Complete! when the route says [configured: true],
    and otherwise the route's own message, never the page's fallback
    "Failed to verify configuration". *)
Theorem checkConfig_reports_route num env o p y :
  let r := configStatus config_request env o p y in
  let v := view num (checkConfig (inr r) init_sc) in
  (v_title v = "Setup Complete!" <-> resp_field "configured" r = JBool true) /\
  (resp_field "configured" r <> JBool true -> v_message v = "Error: " ++ to_string num (resp_field "message" r)) /\
  v_message v <> "Error: Failed to verify configuration".
Proof.
  cbv zeta. destruct (configStatus_shape config_request env o p y) as (fs & b & m & Hp & Hc & Hm & Hne).
  unfold checkConfig, resp_field. rewrite Hp.
  unfold field. cbn [json_wire].
  assert (Hc' : assoc_get "configured" (filter (fun kv : string * jv => is_defined kv.2 = true)
                  (map (fun kv : string * jv => (kv.1, json_wire kv.2)) fs)) = Some (JBool b))
    by (apply (assoc_get_filter_val is_defined); [by rewrite assoc_get_map_snd, Hc|done]).
  assert (Hm' : assoc_get "message" (filter (fun kv : string * jv => is_defined kv.2 = true)
                  (map (fun kv : string * jv => (kv.1, json_wire kv.2)) fs)) = Some (JStr m))
    by (apply (assoc_get_filter_val is_defined); [by rewrite assoc_get_map_snd, Hm|done]).
  rewrite Hc', Hm'. unfold get. rewrite Hc, Hm. destruct b; cbn.
  - split; [done|]. split; [done|]. discriminate.
  - split; [split; discriminate|]. split; [done|].
    intros H. apply Hne. repeat (injection H as H). exact H.
Qed.

(** ** Witnesses *)

Lemma checkConfig_reports_route_witness :
  let r := configStatus config_request [] (inr tt) (inr tt) (inr true) in
  let v := view (fun _ => "") (checkConfig (inr r) init_sc) in
  (v_title v = "Setup Complete!" <-> resp_field "configured" r = JBool true) /\
  (resp_field "configured" r <> JBool true -> v_message v = "Error: " ++ to_string (fun _ => "") (resp_field "message" r)) /\
  v_message v <> "Error: Failed to verify configuration".
Proof. exact (checkConfig_reports_route (fun _ => "") [] (inr tt) (inr tt) (inr true)). Defined.

End SetupComplete.
