(* ===== verification/SetupWizard.v ===== *)
(** * SetupWizard: the four-step setup page

    The [Setup] page of [src/src/pages/api/config-status.ts]
    (lines 1238-1640) asks for the four keys one step at a time, tests
    each against its test route, and at the last step posts the whole
    configuration to [/api/setup].  Its state ([useState], lines
    1257-1278) is [Wizard]; the browser's [localStorage] entry
    [setup_progress] is [storage]; each handler and each effect is a
    function on [Wizard]:
    - [mount]: the effects of the first render, in their order: the
      configuration check starts, the progress loader returns (the page
      is loading), and the save effect writes the initial [config];
    - [checkConfiguration], [loadProgress] (the loader once [loading]
      turns false), [handleChange], [handleBack], [testConnection],
      [handleNext].
    An [axios.post] is [axios] on the outcome of the request: a status
    outside 2xx rejects with the response, whose [data] the handlers
    read.  The test routes and [/api/setup] are reached through
    [serve], a Section variable; the theorems instantiate it with the
    routes of [ApiConfig].  [testing] is set and reset within one
    handler and is not modelled; the handlers run one at a time (the
    Next button is disabled while a test runs). *)

From S2P Require Import Prelude Http Regex ApiConfig Library.
From Stdlib Require Import QArith.

Module SetupWizard.

Import Http Regex ApiConfig Library.

Local Open Scope string_scope.
Local Open Scope Z_scope.

(** The four fields of [config], [validation] and [showSecrets]. *)
Inductive key_field := FOpenai | FPineconeKey | FPineconeIndex | FYoutube.

Definition field_name (f : key_field) : string :=
  match f with
  | FOpenai => "openaiKey" | FPineconeKey => "pineconeKey"
  | FPineconeIndex => "pineconeIndex" | FYoutube => "youtubeKey"
  end.

Record Quad (A : Type) := { q_openai : A; q_pkey : A; q_pindex : A; q_youtube : A }.
Arguments Build_Quad {A} _ _ _ _.
Arguments q_openai {A} _.
Arguments q_pkey {A} _.
Arguments q_pindex {A} _.
Arguments q_youtube {A} _.

Definition q_get {A} (f : key_field) (q : Quad A) : A :=
  match f with
  | FOpenai => q_openai q | FPineconeKey => q_pkey q | FPineconeIndex => q_pindex q | FYoutube => q_youtube q
  end.

(** [{ ...prev, [f]: v }]. *)
Definition q_set {A} (f : key_field) (v : A) (q : Quad A) : Quad A :=
  match f with
  | FOpenai => Build_Quad v (q_pkey q) (q_pindex q) (q_youtube q)
  | FPineconeKey => Build_Quad (q_openai q) v (q_pindex q) (q_youtube q)
  | FPineconeIndex => Build_Quad (q_openai q) (q_pkey q) v (q_youtube q)
  | FYoutube => Build_Quad (q_openai q) (q_pkey q) (q_pindex q) v
  end.

Definition q_const {A} (a : A) : Quad A := Build_Quad a a a a.

(** [^sk-[a-zA-Z0-9]{48}$] (line 1337). *)
Definition openai_pattern : re :=
  RSeq (RS "sk-") (RRep 48 (RClass (fun c => is_lower c || is_upper c || is_digit c))).

(** [new RegExp(p).test(v)] for a pattern anchored by [^] and [$]. *)
Definition test_anchored (r : re) (v : string) : bool :=
  match bt false r (String.list_ascii_of_string v) (fun rest => match rest with [] => Some tt | _ => None end) with
  | Some _ => true
  | None => false
  end.

(** [SetupStep] (lines 1244-1253). *)
Record SetupStep := {
  st_title : string;
  st_field : key_field;
  st_pattern : option re;
  st_testEndpoint : string;
}.

(** [steps] (lines 1331-1365): the titles, fields, patterns and test
    endpoints (the descriptions, placeholders and help links are text). *)
Definition steps : list SetupStep :=
  [ {| st_title := "OpenAI API Key"; st_field := FOpenai; st_pattern := Some openai_pattern;
       st_testEndpoint := "/api/test/openai" |};
    {| st_title := "Pinecone API Key"; st_field := FPineconeKey; st_pattern := None;
       st_testEndpoint := "/api/test/pinecone-key" |};
    {| st_title := "Pinecone Index"; st_field := FPineconeIndex; st_pattern := None;
       st_testEndpoint := "/api/test/pinecone-index" |};
    {| st_title := "YouTube API Key"; st_field := FYoutube; st_pattern := None;
       st_testEndpoint := "/api/test/youtube" |} ].

(** The page's state. *)
Record Wizard := {
  step : Z;
  showSecrets : Quad bool;
  config : Quad string;
  validation : Quad bool;
  loading : bool;
  w_error : jv;
  value : string;
  w_toasts : list (bool * jv);
  redirect : option string;
  storage : option (Quad string);
}.

(** The first render's state, with what [localStorage] holds. *)
Definition init_wizard (saved : option (Quad string)) : Wizard :=
  {| step := 1; showSecrets := q_const false; config := q_const ""; validation := q_const false;
     loading := true; w_error := JStr ""; value := ""; w_toasts := []; redirect := None; storage := saved |}.

(** [steps[step - 1]] (line 1367); [None] renders "Invalid step". *)
Definition currentStep (s : Wizard) : option SetupStep :=
  if (step s <? 1)%Z then None else steps !! Z.to_nat (step s - 1)%Z.

(** ** Setters *)

Definition set_step (n : Z) (s : Wizard) : Wizard :=
  {| step := n; showSecrets := showSecrets s; config := config s; validation := validation s; loading := loading s;
     w_error := w_error s; value := value s; w_toasts := w_toasts s; redirect := redirect s; storage := storage s |}.

(** [setConfig(c)], followed by the save effect of lines 1327-1329. *)
Definition set_config (c : Quad string) (s : Wizard) : Wizard :=
  {| step := step s; showSecrets := showSecrets s; config := c; validation := validation s; loading := loading s;
     w_error := w_error s; value := value s; w_toasts := w_toasts s; redirect := redirect s; storage := Some c |}.

Definition set_validation (v : Quad bool) (s : Wizard) : Wizard :=
  {| step := step s; showSecrets := showSecrets s; config := config s; validation := v; loading := loading s;
     w_error := w_error s; value := value s; w_toasts := w_toasts s; redirect := redirect s; storage := storage s |}.

Definition set_showSecrets (v : Quad bool) (s : Wizard) : Wizard :=
  {| step := step s; showSecrets := v; config := config s; validation := validation s; loading := loading s;
     w_error := w_error s; value := value s; w_toasts := w_toasts s; redirect := redirect s; storage := storage s |}.

Definition set_loading (b : bool) (s : Wizard) : Wizard :=
  {| step := step s; showSecrets := showSecrets s; config := config s; validation := validation s; loading := b;
     w_error := w_error s; value := value s; w_toasts := w_toasts s; redirect := redirect s; storage := storage s |}.

Definition set_error (e : jv) (s : Wizard) : Wizard :=
  {| step := step s; showSecrets := showSecrets s; config := config s; validation := validation s; loading := loading s;
     w_error := e; value := value s; w_toasts := w_toasts s; redirect := redirect s; storage := storage s |}.

Definition set_value (v : string) (s : Wizard) : Wizard :=
  {| step := step s; showSecrets := showSecrets s; config := config s; validation := validation s; loading := loading s;
     w_error := w_error s; value := v; w_toasts := w_toasts s; redirect := redirect s; storage := storage s |}.

Definition add_toast (ok : bool) (m : jv) (s : Wizard) : Wizard :=
  {| step := step s; showSecrets := showSecrets s; config := config s; validation := validation s; loading := loading s;
     w_error := w_error s; value := value s; w_toasts := (w_toasts s ++ [(ok, m)])%list; redirect := redirect s;
     storage := storage s |}.

(** [router.replace(url)]. *)
Definition set_redirect (url : string) (s : Wizard) : Wizard :=
  {| step := step s; showSecrets := showSecrets s; config := config s; validation := validation s; loading := loading s;
     w_error := w_error s; value := value s; w_toasts := w_toasts s; redirect := Some url; storage := storage s |}.

(** ** Effects and handlers *)

(** The effects of the first render (lines 1290-1329), in order. *)
Definition mount (s : Wizard) : Wizard :=
  {| step := step s; showSecrets := showSecrets s; config := config s; validation := validation s; loading := loading s;
     w_error := w_error s; value := value s; w_toasts := w_toasts s; redirect := redirect s; storage := Some (config s) |}.

(** The message of the [TypeError] of [v.k] on [undefined] or [null]. *)
Definition read_error (v : jv) (k : string) : string :=
  match v with
  | JNull => "Cannot read properties of null (reading '" ++ k ++ "')"
  | _ => "Cannot read properties of undefined (reading '" ++ k ++ "')"
  end.

(** [checkConfiguration] (lines 1291-1306). *)
Definition checkConfiguration (r : Err + Response) (s : Wizard) : Wizard :=
  match r with
  | inr resp =>
    match payload resp with
    | Some b =>
      match field "configured" (json_wire b) with
      | Some c => if js_truthy c then set_redirect "/chat" s else set_loading false s
      | None => set_loading false s
      end
    | None => set_loading false s
    end
  | inl _ => set_loading false s
  end.

(** The step the loader resumes at (lines 1320-1322). *)
Definition resume_step (c : Quad string) (n : Z) : Z :=
  if truthy (q_youtube c) then 4 else if truthy (q_pindex c) then 3 else if truthy (q_pkey c) then 2 else n.

(** The progress loader (lines 1312-1324), run when [loading] changes. *)
Definition loadProgress (s : Wizard) : Wizard :=
  if loading s then s
  else match storage s with
       | Some c => set_step (resume_step c (step s)) (set_config c s)
       | None => s
       end.

(** [handleChange] (lines 1372-1386) on the input of the current step. *)
Definition handleChange (v : string) (s : Wizard) : Wizard :=
  let s1 := set_error (JStr "") (set_value v s) in
  match currentStep s with
  | Some st => match st_pattern st with
               | Some r => set_validation (q_set (st_field st) (test_anchored r v) (validation s1)) s1
               | None => s1
               end
  | None => s1
  end.

(** [handleBack] (lines 1388-1393). *)
Definition handleBack (s : Wizard) : Wizard :=
  if 1 <? step s then set_error (JStr "") (set_step (step s - 1) s) else s.

(** The Show/Hide button (lines 1519-1527), on the three secret fields. *)
Definition toggleSecret (s : Wizard) : Wizard :=
  match currentStep s with
  | Some st => match st_field st with
               | FPineconeIndex => s
               | f => set_showSecrets (q_set f (negb (q_get f (showSecrets s))) (showSecrets s)) s
               end
  | None => s
  end.

(** The outcome of [await axios.post(url, body)]: the response's
    [data], or the error's [response?.data] and [message]. *)
Definition axios (r : Err + Response) : (jv * string) + jv :=
  match r with
  | inr resp =>
    let data := json_wire (default (JStr "") (payload resp)) in
    if ((200 <=? Http.status resp) && (Http.status resp <? 300))%Z then inr data
    else inl (data, "Request failed with status code " ++ pretty (Http.status resp))
  | inl e => inl (JUndef, default "" (err_message e))
  end.

(** [err.response?.data?.message || err.message || fallback]. *)
Definition catch_message (data : jv) (msg fallback : string) : jv :=
  jor (match data with JUndef | JNull => JUndef | d => default JUndef (field "message" d) end)
      (jor (JStr msg) (JStr fallback)).

(** The request body of [testConnection] (lines 1438-1453). *)
Definition test_body (f : key_field) (v : string) (c : Quad string) : jv :=
  match f with
  | FOpenai => JObj [("openaiKey", JStr v)]
  | FPineconeKey => JObj [("pineconeKey", JStr v)]
  | FPineconeIndex => JObj [("pineconeIndex", JStr v); ("pineconeKey", JStr (q_pkey c))]
  | FYoutube => JObj [("youtubeKey", JStr v)]
  end.

Definition post_request (b : jv) : Request := {| method := "POST"; query := []; body := b |}.

(** The body [axios.post('/api/setup', newConfig)] sends. *)
Definition config_json (c : Quad string) : jv :=
  JObj [("openaiKey", JStr (q_openai c)); ("pineconeKey", JStr (q_pkey c));
        ("pineconeIndex", JStr (q_pindex c)); ("youtubeKey", JStr (q_youtube c))].

Section Handlers.

(** The transport of [axios.post]: the outcome of a POST to a path. *)
Variable post : string -> Request -> Err + Response.

(** [testConnection] (lines 1432-1475): whether the test passed, and
    the state. *)
Definition testConnection (s : Wizard) : bool * Wizard :=
  let s0 := set_error (JStr "") s in
  match currentStep s with
  | None => (false, s0)
  | Some st =>
    let fail m := (false, add_toast false m (set_error m s0)) in
    if negb (truthy (value s)) then fail (JStr (st_title st ++ " is required"))
    else
      match axios (post (st_testEndpoint st) (post_request (test_body (st_field st) (value s) (config s)))) with
      | inr data =>
        match field "success" data with
        | Some ok =>
          if js_truthy ok then (true, add_toast true (JStr "Connection successful!") s0)
          else fail (jor (default JUndef (field "message" data)) (JStr "Connection test failed"))
        | None => fail (JStr (read_error data "success"))
        end
      | inl (d, m) => fail (catch_message d m "Connection test failed")
      end
  end.

(** [handleNext] (lines 1395-1430). *)
Definition handleNext (s : Wizard) : Wizard :=
  let '(ok, s1) := testConnection s in
  if negb ok then s1
  else match currentStep s with
  | None => s1
  | Some st =>
    let newConfig := q_set (st_field st) (value s) (config s) in
    let s2 := set_config newConfig s1 in
    if step s =? Z.of_nat (length steps) then
      let fail m := add_toast false m (set_error m s2) in
      match axios (post "/api/setup" (post_request (config_json newConfig))) with
      | inr data =>
        match field "success" data with
        | Some ok' =>
          if js_truthy ok' then set_redirect "/chat" (add_toast true (JStr "Configuration saved successfully!") s2)
          else fail (jor (default JUndef (field "message" data)) (JStr "Failed to save configuration"))
        | None => fail (JStr (read_error data "success"))
        end
      | inl (d, m) => fail (catch_message d m "Failed to save configuration")
      end
    else set_validation (q_set (st_field st) true (validation s2)) (set_value "" (set_step (step s + 1) s2))
  end.

(** The page's transitions once mounted: the answer of the
    configuration check with the loader it triggers, typing, the
    buttons. *)
Inductive wiz_step : Wizard -> Wizard -> Prop :=
  | w_checked r s : wiz_step s (loadProgress (checkConfiguration r s))
  | w_change v s : wiz_step s (handleChange v s)
  | w_back s : wiz_step s (handleBack s)
  | w_toggle s : wiz_step s (toggleSecret s)
  | w_next s : wiz_step s (handleNext s).

End Handlers.

Section Routes.

(** The outcomes of the remote calls of the test routes and of
    [/api/setup], and the server's environment. *)
Variable num : Q -> string.
Variable models indexList : Err + jv.
Variable client : option Err.
Variable described search : Err + unit.
Variable env : Env.
Variable calls : SetupCalls.

(** The server the wizard posts to: the handlers of [ApiConfig] at the
    paths the wizard names.  [testPineconeKey] and [testYoutube] are the
    handlers of the sources that test those keys (the second handler of
    [test/openai.ts] and [src/unnamed/part_007]); any other path is a
    404. *)
Definition serve (path : string) (req : Request) : Response :=
  if String.eqb path "/api/test/openai" then testOpenai req models
  else if String.eqb path "/api/test/pinecone-key" then testPineconeKey req indexList
  else if String.eqb path "/api/test/pinecone-index" then testPineconeIndex num req client described
  else if String.eqb path "/api/test/youtube" then testYoutube req search
  else if String.eqb path "/api/setup" then (setup num req env calls).1
  else respond_end 404.

(** [axios.post] against [serve], with no network failure. *)
Definition served (path : string) (req : Request) : Err + Response := inr (serve path req).

End Routes.

(** The outcomes of the calls of [/api/setup] when every check passes
    and [.env] is written. *)
Definition setup_ok : SetupCalls :=
  {| sc_openai := inr tt; sc_pinecone_stats := inr tt; sc_pinecone_index := inr tt; sc_youtube := inr tt;
     sc_write := inr tt |}.

(** A page at its last step, after the first three. *)
Definition ex_last : Wizard :=
  {| step := 4; showSecrets := q_const false; config := Build_Quad "sk-abc" "pk-1" "docs" "";
     validation := Build_Quad true true true false; loading := false; w_error := JStr ""; value := "yt-key";
     w_toasts := []; redirect := None; storage := Some (Build_Quad "sk-abc" "pk-1" "docs" "") |}.

(** The invariant of the mounted page: the step is one of the four and
    [localStorage] holds [config]. *)
Definition wiz_inv (s : Wizard) : Prop := (1 <= step s <= 4)%Z /\ storage s = Some (config s).

(** ** Lemmas *)

(** [testConnection] only sets [error] and adds a toast. *)
Lemma testConnection_core post s :
  step (testConnection post s).2 = step s /\ config (testConnection post s).2 = config s /\
  storage (testConnection post s).2 = storage s.
Proof. unfold testConnection. repeat case_match; simplify_eq; cbn; auto. Qed.

Lemma currentStep_range s : (1 <= step s <= 4)%Z -> exists st, currentStep s = Some st.
Proof.
  intros Hr. unfold currentStep. rewrite (proj2 (Z.ltb_ge _ _)) by lia.
  destruct (lookup_lt_is_Some_2 steps (Z.to_nat (step s - 1))) as [st Hst]; [cbn; lia|]. eauto.
Qed.

Lemma wiz_inv_step post s s' : wiz_inv s -> wiz_step post s s' -> wiz_inv s'.
Proof.
  intros [Hr Hst] Hs. destruct Hs as [r s|v s|s|s|s]; unfold wiz_inv.
  - assert (Hc : step (checkConfiguration r s) = step s /\ storage (checkConfiguration r s) = storage s /\
                 config (checkConfiguration r s) = config s)
      by (unfold checkConfiguration; repeat case_match; auto).
    destruct Hc as (H1 & H2 & H3). unfold loadProgress.
    destruct (loading _); [split; congruence|]. rewrite H2, Hst.
    split; [unfold resume_step; cbn; repeat case_match; lia|done].
  - unfold handleChange. split; repeat case_match; cbn; auto.
  - unfold handleBack, wiz_inv. destruct (Z.ltb_spec 1 (step s)); cbn; (split; [lia|exact Hst]).
  - unfold toggleSecret. split; repeat case_match; cbn; auto.
  - unfold handleNext. destruct (testConnection post s) as [ok s1] eqn:Et.
    destruct (testConnection_core post s) as (H1 & H2 & H3). rewrite Et in H1, H2, H3. cbn in H1, H2, H3.
    destruct ok; cbn; [|split; congruence].
    destruct (currentStep s) as [st|]; [|split; congruence].
    destruct (Z.eqb_spec (step s) (Z.of_nat 4)) as [E|E].
    + cbn in E. repeat case_match; cbn; (split; [lia|done]).
    + cbn in E. cbn. split; [lia|done].
Qed.

Lemma currentStep_last s : step s = 4 -> currentStep s = steps !! 3%nat.
Proof. intros Hs. unfold currentStep. by rewrite Hs. Qed.

Lemma serve_youtube_refused num models indexList client described env calls e v :
  truthy v = true ->
  serve num models indexList client described (inl e) env calls "/api/test/youtube"
    (post_request (JObj [("youtubeKey", JStr v)])) =
  respond 400 [("error", JStr "Invalid YouTube API key or API quota exceeded")].
Proof.
  intros Hv. unfold serve, testYoutube. cbn [String.eqb post_request method body negb].
  change (field "youtubeKey" (JObj [("youtubeKey", JStr v)])) with (Some (JStr v)). simpl. by rewrite Hv.
Qed.

(** The YouTube test of the last step against a refusing route. *)
Lemma testConnection_youtube_refused num models indexList client described env calls e s :
  step s = 4 -> truthy (value s) = true ->
  testConnection (served num models indexList client described (inl e) env calls) s =
  (false, add_toast false (JStr "Request failed with status code 400")
            (set_error (JStr "Request failed with status code 400") (set_error (JStr "") s))).
Proof.
  intros Hs Hv. unfold testConnection, served. rewrite currentStep_last by done. simpl.
  rewrite Hv. simpl. rewrite serve_youtube_refused by done. reflexivity.
Qed.

Lemma setup_config_ok num env c :
  truthy (q_openai c) = true -> truthy (q_pkey c) = true -> truthy (q_pindex c) = true ->
  truthy (q_youtube c) = true -> starts_with (q_openai c) "sk-" = true ->
  setup num (post_request (config_json c)) env setup_ok =
  (respond 200 [("success", JBool true); ("message", JStr "Configuration saved successfully")],
   Some (envContent num env (JStr (q_openai c)) (JStr (q_pkey c)) (JStr (q_pindex c)) (JStr (q_youtube c)))).
Proof.
  intros H1 H2 H3 H4 H5. unfold setup. simpl. by rewrite H1, H2, H3, H4, H5.
Qed.

Lemma serve_youtube_ok num models indexList client described env calls v :
  truthy v = true ->
  serve num models indexList client described (inr tt) env calls "/api/test/youtube"
    (post_request (JObj [("youtubeKey", JStr v)])) = respond 200 [("success", JBool true)].
Proof.
  intros Hv. unfold serve, testYoutube. cbn [String.eqb post_request method body negb].
  change (field "youtubeKey" (JObj [("youtubeKey", JStr v)])) with (Some (JStr v)). simpl. by rewrite Hv.
Qed.

Lemma testConnection_youtube_ok num models indexList client described env calls s :
  step s = 4 -> truthy (value s) = true ->
  testConnection (served num models indexList client described (inr tt) env calls) s =
  (true, add_toast true (JStr "Connection successful!") (set_error (JStr "") s)).
Proof.
  intros Hs Hv. unfold testConnection, served. rewrite currentStep_last by done. simpl.
  rewrite Hv. simpl. rewrite serve_youtube_ok by done. reflexivity.
Qed.

Lemma wiz_inv_steps post s s' : wiz_inv s -> rtc (wiz_step post) s s' -> wiz_inv s'.
Proof. intros Hi Hr. induction Hr; eauto using wiz_inv_step. Qed.

(** ** Properties *)

(** C36: In every state the mounted setup page reaches, whatever the
    routes answer and the user does, the step is one of the four (the
    page never renders "Invalid step") and [localStorage] holds the
    current [config]. *)
Theorem reachable_wizard_wf post saved s :
  rtc (wiz_step post) (mount (init_wizard saved)) s ->
  (exists st, currentStep s = Some st) /\ storage s = Some (config s).
Proof.
  intros Hr. assert (H0 : wiz_inv (mount (init_wizard saved))) by (split; cbn; [lia|done]).
  destruct (wiz_inv_steps post _ _ H0 Hr) as [Hs Hst]. split; [by apply currentStep_range|exact Hst].
Qed.

(** C24: Saved progress is never restored: the save effect of the first
    render writes the empty [config] over [setup_progress] before the
    loader reads it, so once the configuration check answers, whatever
    it answers, the page is at step 1 with an empty configuration. *)
Theorem saved_progress_never_restored saved r :
  config (loadProgress (checkConfiguration r (mount (init_wizard saved)))) = q_const "" /\
  step (loadProgress (checkConfiguration r (mount (init_wizard saved)))) = 1 /\
  storage (loadProgress (checkConfiguration r (mount (init_wizard saved)))) = Some (q_const "").
Proof. unfold checkConfiguration. repeat case_match; cbn; auto. Qed.

(** C29: A YouTube key the test route refuses is reported with axios's
    generic text: [testYoutube] answers 400 with an [error] field, the
    wizard reads [message], and shows "Request failed with status code
    400" instead of the route's "Invalid YouTube API key or API quota
    exceeded"; the page stays at the last step. *)
Theorem youtube_key_error_hidden num models indexList client described env calls e s :
  step s = 4 -> truthy (value s) = true ->
  w_error (handleNext (served num models indexList client described (inl e) env calls) s) =
    JStr "Request failed with status code 400" /\
  w_toasts (handleNext (served num models indexList client described (inl e) env calls) s) =
    (w_toasts s ++ [(false, JStr "Request failed with status code 400")])%list /\
  step (handleNext (served num models indexList client described (inl e) env calls) s) = 4.
Proof.
  intros Hs Hv. unfold handleNext. rewrite testConnection_youtube_refused by done. cbn. auto.
Qed.

(** C26: The last step completes the setup: with the three saved keys
    set (the OpenAI one starting with [sk-]), a YouTube key, and every
    remote check passing, Next tests the key, posts the four values to
    [/api/setup], which writes them to [.env], and redirects to
    [/chat]. *)
Theorem setup_completes num models indexList client described env s :
  step s = 4 -> truthy (value s) = true ->
  truthy (q_openai (config s)) = true -> truthy (q_pkey (config s)) = true ->
  truthy (q_pindex (config s)) = true -> starts_with (q_openai (config s)) "sk-" = true ->
  redirect (handleNext (served num models indexList client described (inr tt) env setup_ok) s) = Some "/chat" /\
  config (handleNext (served num models indexList client described (inr tt) env setup_ok) s) =
    q_set FYoutube (value s) (config s) /\
  w_toasts (handleNext (served num models indexList client described (inr tt) env setup_ok) s) =
    (w_toasts s ++ [(true, JStr "Connection successful!"); (true, JStr "Configuration saved successfully!")])%list /\
  (setup num (post_request (config_json (config (handleNext (served num models indexList client described
     (inr tt) env setup_ok) s)))) env setup_ok).2 =
    Some (envContent num env (JStr (q_openai (config s))) (JStr (q_pkey (config s))) (JStr (q_pindex (config s)))
            (JStr (value s))).
Proof.
  intros Hs Hv H1 H2 H3 H4. unfold handleNext. rewrite testConnection_youtube_ok by done.
  rewrite currentStep_last by done. simpl. rewrite Hs. simpl.
  unfold served, serve. simpl. rewrite setup_config_ok by done. simpl.
  rewrite setup_config_ok by done. simpl. rewrite <- app_assoc. auto.
Qed.

(** ** Witnesses *)

Lemma reachable_wizard_wf_witness :
  (exists st, currentStep (handleChange "sk-abc" (mount (init_wizard None))) = Some st) /\
  storage (handleChange "sk-abc" (mount (init_wizard None))) = Some (config (handleChange "sk-abc" (mount (init_wizard None)))).
Proof.
  apply (reachable_wizard_wf (served (fun _ => "") (inr (JArr [])) (inr (JArr [])) None (inr tt) (inr tt) [] setup_ok) None).
  apply rtc_once. apply w_change.
Defined.

Lemma youtube_key_error_hidden_witness :
  w_error (handleNext (served (fun _ => "") (inr (JArr [])) (inr (JArr [])) None (inr tt) (inl (error_of "quota")) []
             setup_ok) ex_last) = JStr "Request failed with status code 400" /\
  w_toasts (handleNext (served (fun _ => "") (inr (JArr [])) (inr (JArr [])) None (inr tt) (inl (error_of "quota")) []
             setup_ok) ex_last) = ([] ++ [(false, JStr "Request failed with status code 400")])%list /\
  step (handleNext (served (fun _ => "") (inr (JArr [])) (inr (JArr [])) None (inr tt) (inl (error_of "quota")) []
          setup_ok) ex_last) = 4.
Proof. apply youtube_key_error_hidden; reflexivity. Defined.

Lemma setup_completes_witness :
  redirect (handleNext (served (fun _ => "") (inr (JArr [])) (inr (JArr [])) None (inr tt) (inr tt) [] setup_ok) ex_last) =
    Some "/chat" /\
  config (handleNext (served (fun _ => "") (inr (JArr [])) (inr (JArr [])) None (inr tt) (inr tt) [] setup_ok) ex_last) =
    q_set FYoutube "yt-key" (config ex_last) /\
  w_toasts (handleNext (served (fun _ => "") (inr (JArr [])) (inr (JArr [])) None (inr tt) (inr tt) [] setup_ok) ex_last) =
    ([] ++ [(true, JStr "Connection successful!"); (true, JStr "Configuration saved successfully!")])%list /\
  (setup (fun _ => "") (post_request (config_json (config (handleNext (served (fun _ => "") (inr (JArr []))
     (inr (JArr [])) None (inr tt) (inr tt) [] setup_ok) ex_last)))) [] setup_ok).2 =
    Some (envContent (fun _ => "") [] (JStr "sk-abc") (JStr "pk-1") (JStr "docs") (JStr "yt-key")).
Proof. apply setup_completes; reflexivity. Defined.

End SetupWizard.
