(* ===== verification/Monitoring.v ===== *)
(** * Monitoring: the system monitoring page

    [src/src/pages/monitoring.tsx]: the page fetches
    [/api/system/status] when it mounts and every 30 seconds after, and
    renders a spinner, an error box, or the dashboard of the status it
    last read: two [StatusBadge]s, the Pinecone index stats and the
    container's resources.  The page's state is [MonState]; a poll is
    [fetchStatus] on the outcome of the [fetch] (a rejected [fetch] is
    [inl]), composed with the route [systemStatus] of [SystemStatus].
    A property read [v.k] is [prop], which throws on [undefined] and
    [null] as JavaScript does, and [render] is the page's markup as a
    [view], [inl] when the render throws. *)

From S2P Require Import Prelude Http Regex JsNum SystemStatus Library.

Module Monitoring.

Import Http SystemStatus Library.

Local Open Scope string_scope.

(** [m] then [k] in the [outcome] of a throwing expression. *)
Definition o_bind {A B} (m : outcome A) (k : A -> outcome B) : outcome B :=
  match m with inl e => inl e | inr a => k a end.

Local Notation "'let?' x := m 'in' k" := (o_bind m (fun x => k)) (at level 10, x name, m at level 200, k at level 200).

(** The page's state (lines 38-40), with the interval of line 56. *)
Record MonState := {
  m_status : jv;
  m_loading : bool;
  m_error : string;
  m_interval : bool;
}.

Definition init_mon : MonState := {| m_status := JNull; m_loading := true; m_error := ""; m_interval := false |}.

(** [fetchStatus] (lines 43-53): [response.json()] throws on a body
    that is not JSON, the catch sets [error], and [error] is never
    reset. *)
Definition fetchStatus (r : Err + Response) (s : MonState) : MonState :=
  let fail := {| m_status := m_status s; m_loading := false; m_error := "Failed to fetch system status";
                 m_interval := m_interval s |} in
  match r with
  | inl _ => fail
  | inr resp =>
    match payload resp with
    | None => fail
    | Some b => {| m_status := json_wire b; m_loading := false; m_error := m_error s; m_interval := m_interval s |}
    end
  end.

(** The effect of lines 42-58: mounting starts the interval; the first
    [fetchStatus] is an event of its own, as every later poll is. *)
Definition mount (s : MonState) : MonState :=
  {| m_status := m_status s; m_loading := m_loading s; m_error := m_error s; m_interval := true |}.

(** The cleanup: [clearInterval]. *)
Definition unmount (s : MonState) : MonState :=
  {| m_status := m_status s; m_loading := m_loading s; m_error := m_error s; m_interval := false |}.

(** The request the page's [fetch] makes. *)
Definition status_request : Request := {| method := "GET"; query := []; body := JUndef |}.

(** [v.k]. *)
Definition prop (v : jv) (k : string) : outcome jv :=
  match v with
  | JUndef => inl ("Cannot read properties of undefined (reading '" ++ k ++ "')")
  | JNull => inl ("Cannot read properties of null (reading '" ++ k ++ "')")
  | JObj fs => inr (get k fs)
  | _ => inr JUndef
  end.

(** [status?.<part>.status || 'unknown'] (lines 148 and 154). *)
Definition badge_status (st : jv) (part : string) : outcome jv :=
  match st with
  | JUndef | JNull => inr (JStr "unknown")
  | _ => let? p := prop st part in let? x := prop p "status" in inr (jor x (JStr "unknown"))
  end.

(** [StatusBadge] (lines 60-72): its label. *)
Definition StatusBadge (status : jv) : string :=
  match status with
  | JStr "ok" => "Healthy"
  | JStr "error" => "Error"
  | _ => "Unknown"
  end.

(** What the page shows (lines 92-250). *)
Inductive view :=
  | Spinner
  | ErrorBox (e : string)
  | Dashboard (openai pinecone : string) (indexStats : bool) (resources : list jv).

(** [status?.pinecone.indexStats ? .. : 'No stats available'] (line 188). *)
Definition has_index_stats (st : jv) : outcome bool :=
  match st with
  | JUndef | JNull => inr false
  | _ => let? p := prop st "pinecone" in let? x := prop p "indexStats" in inr (js_truthy x)
  end.

(** The lines of System Resources (lines 236-245). *)
Definition resources (st : jv) : outcome (list jv) :=
  match st with
  | JUndef | JNull => inr [JUndef; JUndef; JUndef; JUndef; JUndef; JUndef]
  | _ =>
    let? sys := prop st "system" in
    let? up := prop sys "uptime" in
    let? mem := prop sys "memoryUsage" in
    let? used := prop mem "used" in let? total := prop mem "total" in let? pct := prop mem "percentage" in
    let? dk := prop sys "dockerStats" in
    let? cpu := prop dk "cpu" in let? net := prop dk "network" in
    inr [up; used; total; pct; cpu; net]
  end.

Definition render (s : MonState) : outcome view :=
  if m_loading s then inr Spinner
  else if truthy (m_error s) then inr (ErrorBox (m_error s))
  else
    let? o := badge_status (m_status s) "openai" in
    let? p := badge_status (m_status s) "pinecone" in
    let? ix := has_index_stats (m_status s) in
    let? rs := resources (m_status s) in
    inr (Dashboard (StatusBadge o) (StatusBadge p) ix rs).

(** The page's transitions: a poll of the route with any outcome of
    its calls, a [fetch] that rejects, and the cleanup.  Polls happen
    while the interval runs; a poll in flight at unmount still lands. *)
Inductive mon_step (pd : string -> option Z) (now : Z) (iso : string) : MonState -> MonState -> Prop :=
  | step_poll c s : mon_step pd now iso s (fetchStatus (inr (systemStatus pd now iso status_request c)) s)
  | step_reject e s : mon_step pd now iso s (fetchStatus (inl e) s)
  | step_mount s : mon_step pd now iso s (mount s)
  | step_unmount s : mon_step pd now iso s (unmount s).

(** The page once its first poll has failed. *)
Definition failed (s : MonState) : Prop :=
  m_error s = "Failed to fetch system status" /\ m_loading s = false.

(** The invariant of the reachable states: an error is the poll's. *)
Definition mon_inv (s : MonState) : Prop := truthy (m_error s) = true -> failed s.

(** ** Examples *)

Definition ex_failed : MonState := fetchStatus (inl (error_of "Failed to fetch")) (mount init_mon).

(** ** Lemmas *)

Lemma getSystemStats_shape pd now d i :
  exists up used total pct cpu mem net, getSystemStats pd now d i = stats_json up used total pct cpu mem net.
Proof.
  unfold getSystemStats, unknown_stats. repeat case_match; eauto 10.
Qed.

Lemma failed_step pd now iso s s' : failed s -> mon_step pd now iso s s' -> failed s'.
Proof.
  intros [He Hl] Hs. destruct Hs as [c s|e s|s|s]; unfold fetchStatus, failed; cbn; try done.
  destruct (payload _); done.
Qed.

Lemma failed_steps pd now iso s s' : failed s -> rtc (mon_step pd now iso) s s' -> failed s'.
Proof. intros Hf Hr. induction Hr; eauto using failed_step. Qed.

Lemma mon_inv_step pd now iso s s' : mon_inv s -> mon_step pd now iso s s' -> mon_inv s'.
Proof.
  intros Hi Hs. destruct Hs as [c s|e s|s|s]; unfold mon_inv, fetchStatus, failed in *; cbn; try done.
  destruct (payload _); cbn; [|done]. intros Ht. by destruct (Hi Ht) as [-> _].
Qed.

Lemma mon_inv_reach pd now iso s : rtc (mon_step pd now iso) init_mon s -> mon_inv s.
Proof.
  intros Hr. assert (H0 : mon_inv init_mon) by done. revert H0.
  induction Hr; eauto using mon_inv_step.
Qed.

(** ** Properties *)

(** C30: A poll of [/api/system/status] always renders the dashboard,
    whatever the route's calls answer (a missing secret file included),
    once no earlier poll failed: the render never throws, the Pinecone
    badge is never Healthy and the Pinecone stats are never shown,
    because the route never reports Pinecone as ok and never writes
    [indexStats]. *)
Theorem poll_pinecone_never_healthy pd now iso c s :
  m_error s = "" ->
  exists o p rs, render (fetchStatus (inr (systemStatus pd now iso status_request c)) s) = inr (Dashboard o p false rs) /\
                 p <> "Healthy".
Proof.
  intros He. destruct (getSystemStats_shape pd now (sc_docker c) (sc_inspect c)) as (up & used & total & pct & cpu & mem & net & Hs).
  unfold systemStatus, status_request. cbn [method]. rewrite Hs.
  unfold checkPinecone, checkOpenAI.
  destruct (sc_secrets c), (sc_pinecone_client c), (sc_openai c) as [|[]]; cbn; rewrite He; cbn.
  all: repeat (destruct (err_message _); cbn).
  all: eexists _, _, _; split; [reflexivity|discriminate].
Qed.

(** C35: A failed poll is final: in every state reachable from the
    mounted page in which a poll has failed, and in every state reached
    after it by later polls (successful or not) and by unmounting, the
    page shows the error box, because [fetchStatus] never resets
    [error]. *)
Theorem error_box_sticky pd now iso s s' :
  rtc (mon_step pd now iso) init_mon s -> truthy (m_error s) = true -> rtc (mon_step pd now iso) s s' ->
  render s' = inr (ErrorBox "Failed to fetch system status").
Proof.
  intros H0 Ht Hr. destruct (failed_steps _ _ _ _ _ (mon_inv_reach _ _ _ _ H0 Ht) Hr) as [He Hl].
  unfold render. by rewrite Hl, He.
Qed.

(** ** Witnesses *)

Lemma poll_pinecone_never_healthy_witness :
  exists o p rs, render (fetchStatus (inr (systemStatus (fun _ => None) 0 "now" status_request ex_calls)) init_mon) =
                 inr (Dashboard o p false rs) /\ p <> "Healthy".
Proof. apply poll_pinecone_never_healthy. reflexivity. Defined.

Lemma error_box_sticky_witness :
  render (fetchStatus (inr (systemStatus (fun _ => None) 0 "now" status_request ex_calls)) ex_failed) =
  inr (ErrorBox "Failed to fetch system status").
Proof.
  apply (error_box_sticky (fun _ => None) 0 "now" ex_failed).
  - eapply rtc_l; [apply step_mount|]. eapply rtc_l; [apply (step_reject _ _ _ (error_of "Failed to fetch"))|]. apply rtc_refl.
  - reflexivity.
  - apply rtc_once. apply step_poll.
Defined.

End Monitoring.
