(* ===== verification/HomePage.v ===== *)
(** * HomePage: the configuration gate of the home page

    The home page of [src/src/pages/api/config-status.ts]
    ([Home], lines 168-213) and its [Chat] component (lines 216-289)
    each ask [/api/config-status] with [axios.get] when they mount, keep
    [response.data.configured] (or [false] when the request throws), and
    render the welcome screen, or the setup notice of the chat, until it
    is truthy.  [axios] is [SetupWizard.axios]; the route is
    [ApiConfig.configStatus]. *)

From S2P Require Import Prelude Http ApiConfig Library DocumentList SetupComplete SetupWizard.

Module HomePage.

Import Http ApiConfig DocumentList SetupComplete SetupWizard.

Local Open Scope string_scope.

(** [checkConfig] (lines 173-183 and 229-239): the value given to
    [setIsConfigured]. *)
Definition checkConfig (r : Err + Response) : jv :=
  match axios r with
  | inr data => match field "configured" data with Some c => c | None => JBool false end
  | inl _ => JBool false
  end.

(** What [Home] renders (lines 185-212). *)
Inductive home_view := Welcome | HomeApp.

Definition home_render (isConfigured : jv) : home_view := if js_truthy isConfigured then HomeApp else Welcome.

(** What [Chat] renders first (lines 284-289). *)
Inductive chat_view := SetupNotice | ChatBox.

Definition chat_render (isConfigured : jv) : chat_view := if js_truthy isConfigured then ChatBox else SetupNotice.

(** ** Properties *)

(** The home page and its chat open exactly when [/api/config-status]
    answers [configured: true]. *)
Theorem home_opens_iff_configured env o p y :
  (home_render (checkConfig (inr (configStatus config_request env o p y))) = HomeApp <->
   resp_field "configured" (configStatus config_request env o p y) = JBool true) /\
  (chat_render (checkConfig (inr (configStatus config_request env o p y))) = ChatBox <->
   resp_field "configured" (configStatus config_request env o p y) = JBool true).
Proof.
  destruct (configStatus_shape config_request env o p y) as (fs & b & m & Hp & Hc & _ & _).
  assert (Hs : status (configStatus config_request env o p y) = 200%Z) by (unfold configStatus; repeat case_match; done).
  unfold checkConfig, axios, resp_field. rewrite Hp, Hs. cbn [default from_option id json_wire]. cbn [Z.leb Z.ltb Z.compare andb Pos.compare Pos.compare_cont].
  unfold field.
  rewrite (assoc_get_filter_val is_defined "configured" (JBool b)); [|by rewrite assoc_get_map_snd, Hc|done].
  unfold get. rewrite Hc. destruct b; cbn; intuition discriminate.
Qed.

End HomePage.
